(** * Aggregation engine of the studio analytics dashboard

    A shallow embedding of the grouping, derived-metric and
    period-comparison code of the dashboard's table components, and the
    properties of it that the specification states.

    Modelling conventions.
    - A JavaScript number held by an input record or by an accumulator is an
      exact rational ([Q]); rounding and overflow of IEEE doubles are
      abstracted away and the sign of zero is ignored.  The result of a
      division is a [JS.number], which also has [NaN] and the two infinities,
      so that an unguarded division by zero is visible in the model.  What
      is stated over [Q] is a count, a total as the sum that the code
      accumulates, or a derived field as the code's own formula of the
      totals; nothing is stated that rounding or overflow would change.
    - The module [Double] embeds the two class tables and
      [processTrainerData] once more, on IEEE 754 binary64 numbers
      ([PrimFloat]), for the statements that depend on rounding, on overflow
      and on [NaN].
    - An optional numeric field is an [option Q]; [None] stands for
      [undefined], [null] and [NaN], which [x || 0] all send to [0].
    - An optional string field is an [option string]; strings are byte
      strings and [toLowerCase] acts on the ASCII letters.
    - A plain object used as a dictionary, and a [Map], is an association
      list in insertion order without duplicate keys ([JS.obj]).  Keys are
      assumed not to be integer-like.  [groupBy] also assumes that a key
      names no property inherited from [Object.prototype];
      [groupByOrThrow] does not: on such a key the reduce of a table fails,
      and the result is [None].
    - [new Date(..)] and [localeCompare] belong to the runtime; the month
      key derived from a date and the row comparator are parameters.  The
      modules [UTC] and [Runtime] model the [Date] expressions on ISO
      dates, on a runtime in UTC and on one at either side of it.
    - A count ([array.length], [n++]) is a number like any other; a page
      number and an index of [slice] are integers ([Z]).
    - A callback that can throw returns an [option], [None] standing for
      the exception. *)

From Stdlib Require Import List String Ascii Bool Arith ZArith.
From Stdlib Require Import QArith Qabs Qround Lia Lqa.
From Stdlib Require Import Permutation Sorted OrderedTypeEx DecimalString.
From Stdlib Require Import Floats.
Import ListNotations.

#[local] Set Warnings "-inexact-float".

Local Open Scope list_scope.
Local Open Scope string_scope.
Local Open Scope Q_scope.

(* ================================================================== *)
(** * Part I: the embedding *)
(* ================================================================== *)

(** ** JavaScript values *)

Module JS.

Inductive number : Type :=
| Finite (q : Q)
| NaN
| PosInfinity
| NegInfinity.

Definition isFinite (x : number) : bool :=
  match x with Finite _ => true | _ => false end.

(** [x > 0] on finite numbers. *)
Definition gt0 (q : Q) : bool := negb (Qle_bool q 0).

(** [x || 0] on an optional number. *)
Definition orZero (x : option Q) : Q :=
  match x with Some q => q | None => 0 end.

(** [a / b] for finite [a] and [b]. *)
Definition div (a b : Q) : number :=
  if Qeq_bool b 0 then
    if Qeq_bool a 0 then NaN
    else if Qle_bool 0 a then PosInfinity else NegInfinity
  else Finite (a / b).

Definition signedInfinity (positive : bool) : number :=
  if positive then PosInfinity else NegInfinity.

(** [x * k] for a finite [k]. *)
Definition times (x : number) (k : Q) : number :=
  match x with
  | Finite q => Finite (q * k)
  | NaN => NaN
  | PosInfinity =>
      if Qeq_bool k 0 then NaN else signedInfinity (Qle_bool 0 k)
  | NegInfinity =>
      if Qeq_bool k 0 then NaN else signedInfinity (negb (Qle_bool 0 k))
  end.

(** [x - y]. *)
Definition minus (x y : number) : number :=
  match x, y with
  | Finite a, Finite b => Finite (a - b)
  | NaN, _ | _, NaN => NaN
  | PosInfinity, PosInfinity | NegInfinity, NegInfinity => NaN
  | PosInfinity, _ | _, NegInfinity => PosInfinity
  | NegInfinity, _ | _, PosInfinity => NegInfinity
  end.

(** [Math.abs x]. *)
Definition abs (x : number) : number :=
  match x with
  | Finite q => Finite (Qabs q)
  | NaN => NaN
  | _ => PosInfinity
  end.

(** [x < k], [x >= k] and [x > k] for a finite [k]. *)
Definition lt (x : number) (k : Q) : bool :=
  match x with
  | Finite q => negb (Qle_bool k q)
  | NegInfinity => true
  | _ => false
  end.

Definition ge (x : number) (k : Q) : bool :=
  match x with
  | Finite q => Qle_bool k q
  | PosInfinity => true
  | _ => false
  end.

Definition gt (x : number) (k : Q) : bool :=
  match x with
  | Finite q => negb (Qle_bool q k)
  | PosInfinity => true
  | _ => false
  end.

(** [x <= y] *)
Definition le (x y : number) : bool :=
  match x, y with
  | Finite a, Finite b => Qle_bool a b
  | NaN, _ | _, NaN => false
  | NegInfinity, _ | _, PosInfinity => true
  | _, _ => false
  end.

(** [a || b] where [a] is an optional string and [b] a string. *)
Definition orStr (a : option string) (b : string) : string :=
  match a with
  | Some (String c s) => String c s
  | _ => b
  end.

(** An optional string inside a template literal. *)
Definition show (a : option string) : string :=
  match a with Some s => s | None => "undefined" end.

(** [a === b] on optional strings. *)
Definition strictEq (a b : option string) : bool :=
  match a, b with
  | Some x, Some y => String.eqb x y
  | None, None => true
  | _, _ => false
  end.

Definition lowerChar (c : ascii) : ascii :=
  let n := nat_of_ascii c in
  if (65 <=? n)%nat && (n <=? 90)%nat then ascii_of_nat (n + 32) else c.

Fixpoint toLowerCase (s : string) : string :=
  match s with
  | EmptyString => EmptyString
  | String c t => String (lowerChar c) (toLowerCase t)
  end.

(** [s.includes(needle)]. *)
Fixpoint includes (needle s : string) : bool :=
  String.prefix needle s ||
  match s with
  | EmptyString => false
  | String _ t => includes needle t
  end.

(** [s.split(sep)] for a one-character separator. *)
Fixpoint split (sep : ascii) (s : string) : list string :=
  match s with
  | EmptyString => [EmptyString]
  | String c t =>
      if Ascii.eqb c sep then EmptyString :: split sep t
      else match split sep t with
           | [] => [String c EmptyString]
           | w :: ws => String c w :: ws
           end
  end.

(** Objects used as dictionaries, in insertion order. *)
Definition obj (V : Type) : Type := list (string * V).

Fixpoint get {V : Type} (o : obj V) (k : string) : option V :=
  match o with
  | [] => None
  | (k', v) :: t => if String.eqb k' k then Some v else get t k
  end.

(** [o[k] = v]: replaces in place, or appends a new key. *)
Fixpoint set {V : Type} (o : obj V) (k : string) (v : V) : obj V :=
  match o with
  | [] => [(k, v)]
  | (k', v') :: t =>
      if String.eqb k' k then (k, v) :: t else (k', v') :: set t k v
  end.

Definition keys {V : Type} (o : obj V) : list string := map fst o.
Definition values {V : Type} (o : obj V) : list V := map snd o.

(** A stable sort by a comparator; [le a b] holds when the comparator
    does not put [b] strictly before [a]. *)
Fixpoint insertSorted {A : Type} (le : A -> A -> bool) (x : A) (l : list A)
  : list A :=
  match l with
  | [] => [x]
  | y :: t => if le x y then x :: y :: t else y :: insertSorted le x t
  end.

Definition sortBy {A : Type} (le : A -> A -> bool) (l : list A) : list A :=
  fold_right (insertSorted le) [] l.

(** [array.sort()] on strings: code-unit order. *)
Definition sort (l : list string) : list string := sortBy String.leb l.

(** [[...new Set(l)]]: first occurrences, in order. *)
Fixpoint unique (seen l : list string) : list string :=
  match l with
  | [] => []
  | x :: t =>
      if existsb (String.eqb x) seen then unique seen t
      else x :: unique (x :: seen) t
  end.

(** [array[i]] read from the end: [l[l.length - 1 - i]]. *)
Definition fromEnd {A : Type} (l : list A) (i : nat) : option A :=
  nth_error (rev l) i.

End JS.

(** ** The reduce-into-an-object idiom

    Every table folds its records into an object: a record that the table
    skips leaves the object as it is; otherwise the entry of the record's
    key is created if absent and then updated with the record. *)

Definition upsert {R V : Type} (key : R -> string) (skip : R -> bool)
  (init : R -> V) (step : V -> R -> V) (acc : JS.obj V) (r : R) : JS.obj V :=
  if skip r then acc
  else
    let entry :=
      match JS.get acc (key r) with
      | Some v => v
      | None => init r
      end in
    JS.set acc (key r) (step entry r).

Definition groupBy {R V : Type} (key : R -> string) (skip : R -> bool)
  (init : R -> V) (step : V -> R -> V) (data : list R) : JS.obj V :=
  fold_left (upsert key skip init step) data [].

(** The reduce starts from [{}], which inherits the members of
    [Object.prototype].  Read under one of their names, [acc[key]] is that
    member, a function or an object, and not [undefined]: the entry is not
    created, and the callback of a table then reads a property of an
    [undefined] field of the member ([sessions.push], [totalValues.sessions])
    and fails with a [TypeError]. *)
Definition inheritedProperties : list string :=
  [ "constructor"; "__proto__"; "hasOwnProperty"; "isPrototypeOf";
    "propertyIsEnumerable"; "toLocaleString"; "toString"; "valueOf";
    "__defineGetter__"; "__defineSetter__"; "__lookupGetter__";
    "__lookupSetter__" ].

Definition inheritedProperty (k : string) : bool :=
  existsb (String.eqb k) inheritedProperties.

Definition upsertOrThrow {R V : Type} (key : R -> string) (skip : R -> bool)
  (init : R -> V) (step : V -> R -> V) (acc : option (JS.obj V)) (r : R)
  : option (JS.obj V) :=
  match acc with
  | None => None
  | Some o =>
      if skip r then Some o
      else if inheritedProperty (key r) then None
      else Some (upsert key skip init step o r)
  end.

Definition groupByOrThrow {R V : Type} (key : R -> string) (skip : R -> bool)
  (init : R -> V) (step : V -> R -> V) (data : list R)
  : option (JS.obj V) :=
  fold_left (upsertOrThrow key skip init step) data (Some []).

(** Whether a record that is not skipped has an inherited key. *)
Definition hasInheritedKey {R : Type} (key : R -> string) (skip : R -> bool)
  (data : list R) : bool :=
  existsb (fun r => negb (skip r) && inheritedProperty (key r)) data.

Definition sumQ (l : list Q) : Q := fold_right Qplus 0 l.

(** A count, as a number. *)
Definition ofNat (n : nat) : Q := inject_Z (Z.of_nat n).

(** The two guarded quotients that the tables repeat:
    [den > 0 ? num / den : 0] and [den > 0 ? (num / den) * 100 : 0]. *)
Definition guardedRatio (num den : Q) : JS.number :=
  if JS.gt0 den then JS.div num den else JS.Finite 0.

Definition guardedPercent (num den : Q) : JS.number :=
  if JS.gt0 den then JS.times (JS.div num den) 100 else JS.Finite 0.

(** ** Input records *)

(** A payroll line ([PayrollData]). *)
Module Payroll.
Record PayrollData : Type := {
  teacherId : option string;
  teacherName : option string;
  teacherEmail : option string;
  location : option string;
  monthYear : option string;
  totalSessions : option Q;
  totalEmptySessions : option Q;
  totalNonEmptySessions : option Q;
  totalCustomers : option Q;
  totalPaid : option Q;
  cycleSessions : option Q;
  emptyCycleSessions : option Q;
  nonEmptyCycleSessions : option Q;
  cycleCustomers : option Q;
  cyclePaid : option Q;
  barreSessions : option Q;
  emptyBarreSessions : option Q;
  nonEmptyBarreSessions : option Q;
  barreCustomers : option Q;
  barrePaid : option Q;
  (** [Number(record.conversion)] and [Number(record.retention)] *)
  conversion : option Q;
  retention : option Q;
  converted : option Q;
  retained : option Q;
  unique : option string
}.
End Payroll.
Abbreviation PayrollData := Payroll.PayrollData.

(** A class session ([SessionData]). *)
Module Session.
Record SessionData : Type := {
  cleanedClass : option string;
  classType : option string;
  trainerName : option string;
  location : option string;
  dayOfWeek : option string;
  time : option string;
  date : string;
  capacity : option Q;
  checkedInCount : option Q;
  bookedCount : option Q;
  lateCancelledCount : option Q;
  totalPaid : option Q
}.
End Session.
Abbreviation SessionData := Session.SessionData.

(** ** TrainerDataProcessor.tsx *)

Module TrainerDataProcessor.

Record ProcessedTrainerData : Type := {
  trainerId : option string;
  trainerName : option string;
  trainerEmail : option string;
  location : option string;
  monthYear : string;
  totalSessions : Q;
  emptySessions : Q;
  nonEmptySessions : Q;
  totalCustomers : Q;
  totalPaid : Q;
  cycleSessions : Q;
  emptyCycleSessions : Q;
  nonEmptyCycleSessions : Q;
  cycleCustomers : Q;
  cycleRevenue : Q;
  strengthSessions : Q;
  emptyStrengthSessions : Q;
  nonEmptyStrengthSessions : Q;
  strengthCustomers : Q;
  strengthRevenue : Q;
  barreSessions : Q;
  emptyBarreSessions : Q;
  nonEmptyBarreSessions : Q;
  barreCustomers : Q;
  barreRevenue : Q;
  classAverageExclEmpty : JS.number;
  classAverageInclEmpty : JS.number;
  conversion : Q;
  retention : Q;
  uniqueKey : string;
  newMembers : Q;
  convertedMembers : Q;
  retainedMembers : Q;
  conversionRate : Q;
  retentionRate : Q
}.

(** The body of the [map] callback of [processTrainerData]. *)
Definition processRecord (record : PayrollData) : ProcessedTrainerData :=
  let totalSessions := JS.orZero (Payroll.totalSessions record) in
  let emptySessions := JS.orZero (Payroll.totalEmptySessions record) in
  let nonEmptySessions := JS.orZero (Payroll.totalNonEmptySessions record) in
  let totalCustomers := JS.orZero (Payroll.totalCustomers record) in
  let totalPaid := JS.orZero (Payroll.totalPaid record) in
  let classAverageExclEmpty :=
    if JS.gt0 nonEmptySessions
    then JS.div totalCustomers nonEmptySessions else JS.Finite 0 in
  let classAverageInclEmpty :=
    if JS.gt0 totalSessions
    then JS.div totalCustomers totalSessions else JS.Finite 0 in
  let conversionRate := JS.orZero (Payroll.conversion record) in
  let retentionRate := JS.orZero (Payroll.retention record) in
  {| trainerId := Payroll.teacherId record;
     trainerName := Payroll.teacherName record;
     trainerEmail := Payroll.teacherEmail record;
     location := Payroll.location record;
     monthYear := JS.orStr (Payroll.monthYear record) "";
     totalSessions := totalSessions;
     emptySessions := emptySessions;
     nonEmptySessions := nonEmptySessions;
     totalCustomers := totalCustomers;
     totalPaid := totalPaid;
     cycleSessions := JS.orZero (Payroll.cycleSessions record);
     emptyCycleSessions := JS.orZero (Payroll.emptyCycleSessions record);
     nonEmptyCycleSessions := JS.orZero (Payroll.nonEmptyCycleSessions record);
     cycleCustomers := JS.orZero (Payroll.cycleCustomers record);
     cycleRevenue := JS.orZero (Payroll.cyclePaid record);
     strengthSessions := 0;
     emptyStrengthSessions := 0;
     nonEmptyStrengthSessions := 0;
     strengthCustomers := 0;
     strengthRevenue := 0;
     barreSessions := JS.orZero (Payroll.barreSessions record);
     emptyBarreSessions := JS.orZero (Payroll.emptyBarreSessions record);
     nonEmptyBarreSessions := JS.orZero (Payroll.nonEmptyBarreSessions record);
     barreCustomers := JS.orZero (Payroll.barreCustomers record);
     barreRevenue := JS.orZero (Payroll.barrePaid record);
     classAverageExclEmpty := classAverageExclEmpty;
     classAverageInclEmpty := classAverageInclEmpty;
     conversion := JS.orZero (Payroll.converted record);
     retention := JS.orZero (Payroll.retained record);
     uniqueKey := JS.orStr (Payroll.unique record) "";
     newMembers := 0;
     convertedMembers := JS.orZero (Payroll.converted record);
     retainedMembers := JS.orZero (Payroll.retained record);
     conversionRate := conversionRate;
     retentionRate := retentionRate |}.

Definition processTrainerData (payrollData : list PayrollData)
  : list ProcessedTrainerData :=
  map processRecord payrollData.

(** [getMetricValue]: the two class averages are the only fields that are
    results of a division. *)
Definition getMetricValue (data : ProcessedTrainerData) (metric : string)
  : JS.number :=
  if String.eqb metric "totalSessions" then JS.Finite (totalSessions data)
  else if String.eqb metric "totalCustomers" then JS.Finite (totalCustomers data)
  else if String.eqb metric "totalPaid" then JS.Finite (totalPaid data)
  else if String.eqb metric "classAverageExclEmpty" then classAverageExclEmpty data
  else if String.eqb metric "classAverageInclEmpty" then classAverageInclEmpty data
  else if String.eqb metric "emptySessions" then JS.Finite (emptySessions data)
  else if String.eqb metric "nonEmptySessions" then JS.Finite (nonEmptySessions data)
  else if String.eqb metric "cycleSessions" then JS.Finite (cycleSessions data)
  else if String.eqb metric "cycleRevenue" then JS.Finite (cycleRevenue data)
  else if String.eqb metric "barreSessions" then JS.Finite (barreSessions data)
  else if String.eqb metric "barreRevenue" then JS.Finite (barreRevenue data)
  else if String.eqb metric "strengthSessions" then JS.Finite (strengthSessions data)
  else if String.eqb metric "strengthRevenue" then JS.Finite (strengthRevenue data)
  else if String.eqb metric "conversion" then JS.Finite (conversion data)
  else if String.eqb metric "retention" then JS.Finite (retention data)
  else if String.eqb metric "conversionRate" then JS.Finite (conversionRate data)
  else if String.eqb metric "retentionRate" then JS.Finite (retentionRate data)
  else if String.eqb metric "newMembers" then JS.Finite (newMembers data)
  else if String.eqb metric "convertedMembers" then JS.Finite (convertedMembers data)
  else if String.eqb metric "retainedMembers" then JS.Finite (retainedMembers data)
  else JS.Finite 0.

Definition knownMetrics : list string :=
  [ "totalSessions"; "totalCustomers"; "totalPaid"; "classAverageExclEmpty";
    "classAverageInclEmpty"; "emptySessions"; "nonEmptySessions";
    "cycleSessions"; "cycleRevenue"; "barreSessions"; "barreRevenue";
    "strengthSessions"; "strengthRevenue"; "conversion"; "retention";
    "conversionRate"; "retentionRate"; "newMembers"; "convertedMembers";
    "retainedMembers" ].

End TrainerDataProcessor.

(** ** EnhancedClassFormatPerformanceTable.tsx *)

Module EnhancedClassFormatPerformanceTable.

Record ClassFormatData : Type := {
  classFormat : string;
  totalSessions : Q;
  emptySessions : Q;
  nonEmptySessions : Q;
  totalCheckedIn : Q;
  totalLateCancelled : Q;
  totalBooked : Q;
  totalCapacity : Q;
  totalRevenue : Q;
  revenueGeneratingSessions : Q;
  avgClassSize : JS.number;
  avgRevenue : JS.number;
  fillRate : JS.number;
  showUpRate : JS.number;
  utilizationRate : JS.number;
  cancellationRate : JS.number;
  revenueEfficiency : JS.number;
  revenuePerAttendee : JS.number;
  emptySessionRate : JS.number;
  sessions : list SessionData
}.

(** [session.cleanedClass || session.classType || 'Unknown'] *)
Definition classFormatOf (session : SessionData) : string :=
  JS.orStr (Session.cleanedClass session)
    (JS.orStr (Session.classType session) "Unknown").

(** [classFormat.toLowerCase().includes('hosted')] *)
Definition isHosted (session : SessionData) : bool :=
  JS.includes "hosted" (JS.toLowerCase (classFormatOf session)).

Definition newGroup (session : SessionData) : ClassFormatData :=
  {| classFormat := classFormatOf session;
     totalSessions := 0; emptySessions := 0; nonEmptySessions := 0;
     totalCheckedIn := 0; totalLateCancelled := 0; totalBooked := 0;
     totalCapacity := 0; totalRevenue := 0; revenueGeneratingSessions := 0;
     avgClassSize := JS.Finite 0; avgRevenue := JS.Finite 0;
     fillRate := JS.Finite 0; showUpRate := JS.Finite 0;
     utilizationRate := JS.Finite 0; cancellationRate := JS.Finite 0;
     revenueEfficiency := JS.Finite 0; revenuePerAttendee := JS.Finite 0;
     emptySessionRate := JS.Finite 0;
     sessions := [] |}.

Definition addSession (classData : ClassFormatData) (session : SessionData)
  : ClassFormatData :=
  let isEmpty := Qeq_bool (JS.orZero (Session.checkedInCount session)) 0 in
  {| classFormat := classFormat classData;
     totalSessions := totalSessions classData + 1;
     emptySessions :=
       if isEmpty then emptySessions classData + 1
       else emptySessions classData;
     nonEmptySessions :=
       if isEmpty then nonEmptySessions classData
       else nonEmptySessions classData + 1;
     totalCheckedIn :=
       totalCheckedIn classData + JS.orZero (Session.checkedInCount session);
     totalLateCancelled :=
       totalLateCancelled classData
       + JS.orZero (Session.lateCancelledCount session);
     totalBooked :=
       totalBooked classData + JS.orZero (Session.bookedCount session);
     totalCapacity :=
       totalCapacity classData + JS.orZero (Session.capacity session);
     totalRevenue :=
       totalRevenue classData + JS.orZero (Session.totalPaid session);
     revenueGeneratingSessions :=
       if JS.gt0 (JS.orZero (Session.totalPaid session))
       then revenueGeneratingSessions classData + 1
       else revenueGeneratingSessions classData;
     avgClassSize := avgClassSize classData;
     avgRevenue := avgRevenue classData;
     fillRate := fillRate classData;
     showUpRate := showUpRate classData;
     utilizationRate := utilizationRate classData;
     cancellationRate := cancellationRate classData;
     revenueEfficiency := revenueEfficiency classData;
     revenuePerAttendee := revenuePerAttendee classData;
     emptySessionRate := emptySessionRate classData;
     sessions := sessions classData ++ [session] |}.

Definition grouped (data : list SessionData) : JS.obj ClassFormatData :=
  groupBy classFormatOf isHosted newGroup addSession data.

(** The [map] callback that fills in the derived fields. *)
Definition enrich (classData : ClassFormatData) : ClassFormatData :=
  {| classFormat := classFormat classData;
     totalSessions := totalSessions classData;
     emptySessions := emptySessions classData;
     nonEmptySessions := nonEmptySessions classData;
     totalCheckedIn := totalCheckedIn classData;
     totalLateCancelled := totalLateCancelled classData;
     totalBooked := totalBooked classData;
     totalCapacity := totalCapacity classData;
     totalRevenue := totalRevenue classData;
     revenueGeneratingSessions := revenueGeneratingSessions classData;
     avgClassSize :=
       guardedRatio (totalCheckedIn classData) (totalSessions classData);
     avgRevenue :=
       guardedRatio (totalRevenue classData) (totalSessions classData);
     fillRate :=
       guardedPercent (totalCheckedIn classData) (totalCapacity classData);
     showUpRate :=
       guardedPercent (totalCheckedIn classData) (totalBooked classData);
     utilizationRate :=
       guardedPercent (totalSessions classData - emptySessions classData)
         (totalSessions classData);
     cancellationRate :=
       guardedPercent (totalLateCancelled classData) (totalBooked classData);
     revenueEfficiency :=
       guardedPercent (revenueGeneratingSessions classData)
         (totalSessions classData);
     revenuePerAttendee :=
       guardedRatio (totalRevenue classData) (totalCheckedIn classData);
     emptySessionRate :=
       guardedPercent (emptySessions classData) (totalSessions classData);
     sessions := sessions classData |}.

Definition enrichedData (data : list SessionData) (minSessions : Q)
  : list ClassFormatData :=
  map enrich
    (filter (fun classData => Qle_bool minSessions (totalSessions classData))
       (JS.values (grouped data))).

Definition filteredData (viewFilter : string)
  (enrichedData : list ClassFormatData) : list ClassFormatData :=
  if String.eqb viewFilter "high-performing" then
    filter (fun d => JS.ge (fillRate d) 70 && JS.ge (utilizationRate d) 80)
      enrichedData
  else if String.eqb viewFilter "needs-attention" then
    filter (fun d => JS.lt (fillRate d) 50 || JS.gt (emptySessionRate d) 30)
      enrichedData
  else if String.eqb viewFilter "revenue-generators" then
    filter (fun d => JS.ge (revenueEfficiency d) 80) enrichedData
  else enrichedData.

(** [compare] stands for the comparator built from [sortBy] and
    [sortDirection]. *)
Definition processedData (compare : ClassFormatData -> ClassFormatData -> bool)
  (data : list SessionData) (minSessions : Q) (viewFilter : string)
  : list ClassFormatData :=
  match data with
  | [] => []
  | _ => JS.sortBy compare (filteredData viewFilter (enrichedData data minSessions))
  end.

End EnhancedClassFormatPerformanceTable.

(** ** ClassPerformanceRankingTable.tsx *)

Module ClassPerformanceRankingTable.

Record ClassData : Type := {
  classType : string;
  totalSessions : Q;
  totalCapacity : Q;
  totalCheckedIn : Q;
  totalRevenue : Q;
  totalBooked : Q;
  emptySessionsCount : Q;
  revenueGeneratingSessions : Q;
  sessions : list SessionData
}.

Record EnrichedClassData : Type := {
  classData : ClassData;
  fillRate : JS.number;
  showUpRate : JS.number;
  avgRevenue : JS.number;
  revenuePerAttendee : JS.number;
  utilizationRate : JS.number;
  avgClassSize : JS.number;
  emptySessionRate : JS.number;
  revenueEfficiency : JS.number
}.

Definition classTypeOf (session : SessionData) : string :=
  JS.orStr (Session.cleanedClass session)
    (JS.orStr (Session.classType session) "Unknown").

Definition isHosted (session : SessionData) : bool :=
  JS.includes "hosted" (JS.toLowerCase (classTypeOf session)).

Definition newGroup (session : SessionData) : ClassData :=
  {| classType := classTypeOf session;
     totalSessions := 0; totalCapacity := 0; totalCheckedIn := 0;
     totalRevenue := 0; totalBooked := 0; emptySessionsCount := 0;
     revenueGeneratingSessions := 0; sessions := [] |}.

Definition addSession (c : ClassData) (session : SessionData) : ClassData :=
  {| classType := classType c;
     totalSessions := totalSessions c + 1;
     totalCapacity := totalCapacity c + JS.orZero (Session.capacity session);
     totalCheckedIn :=
       totalCheckedIn c + JS.orZero (Session.checkedInCount session);
     totalRevenue := totalRevenue c + JS.orZero (Session.totalPaid session);
     totalBooked := totalBooked c + JS.orZero (Session.bookedCount session);
     emptySessionsCount :=
       if Qeq_bool (JS.orZero (Session.checkedInCount session)) 0
       then emptySessionsCount c + 1 else emptySessionsCount c;
     revenueGeneratingSessions :=
       if JS.gt0 (JS.orZero (Session.totalPaid session))
       then revenueGeneratingSessions c + 1
       else revenueGeneratingSessions c;
     sessions := sessions c ++ [session] |}.

Definition grouped (data : list SessionData) : JS.obj ClassData :=
  groupBy classTypeOf isHosted newGroup addSession data.

Definition filteredData (data : list SessionData) (minSessions : Q)
  : list ClassData :=
  filter (fun c => Qle_bool minSessions (totalSessions c))
    (JS.values (grouped data)).

Definition enrich (c : ClassData) : EnrichedClassData :=
  {| classData := c;
     fillRate := guardedPercent (totalCheckedIn c) (totalCapacity c);
     showUpRate := guardedPercent (totalCheckedIn c) (totalBooked c);
     avgRevenue := guardedRatio (totalRevenue c) (totalSessions c);
     revenuePerAttendee := guardedRatio (totalRevenue c) (totalCheckedIn c);
     utilizationRate :=
       guardedPercent (totalSessions c - emptySessionsCount c)
         (totalSessions c);
     avgClassSize := guardedRatio (totalCheckedIn c) (totalSessions c);
     emptySessionRate :=
       guardedPercent (emptySessionsCount c) (totalSessions c);
     revenueEfficiency :=
       guardedPercent (revenueGeneratingSessions c) (totalSessions c) |}.

Definition enrichedData (data : list SessionData) (minSessions : Q)
  : list EnrichedClassData :=
  map enrich (filteredData data minSessions).

Definition processedData
  (compare : EnrichedClassData -> EnrichedClassData -> bool)
  (data : list SessionData) (minSessions : Q) : list EnrichedClassData :=
  match data with
  | [] => []
  | _ => JS.sortBy compare (enrichedData data minSessions)
  end.

End ClassPerformanceRankingTable.

(** ** MonthOnMonthTrendsTable.tsx

    [monthKeyOf] stands for the expression that turns [session.date] into
    a [YYYY-MM] key through [new Date]. *)

Module MonthOnMonthTrendsTable.

(** The shape shared by a month bucket and by [totalValues]. *)
Record Values : Type := {
  sessions : Q;
  attendance : Q;
  revenue : Q;
  fillRate : JS.number;
  avgVisits : JS.number
}.

Record MonthlyTrendData : Type := {
  dimension : string;
  type : string;
  months : JS.obj Values;
  totalValues : Values
}.

Definition zeroValues : Values :=
  {| sessions := 0; attendance := 0; revenue := 0;
     fillRate := JS.Finite 0; avgVisits := JS.Finite 0 |}.

(** The [switch (activeTrendView)]: the dimension key and its type. *)
Definition dimensionOf (activeTrendView : string) (session : SessionData)
  : string * string :=
  if String.eqb activeTrendView "timeslot" then
    (JS.show (Session.time session) ++ " ("
       ++ JS.show (Session.dayOfWeek session) ++ ")", "timeslot")
  else if String.eqb activeTrendView "format" then
    (JS.orStr (Session.cleanedClass session)
       (JS.orStr (Session.classType session) "Unknown"), "format")
  else if String.eqb activeTrendView "trainer" then
    (JS.orStr (Session.trainerName session) "Unknown", "trainer")
  else if String.eqb activeTrendView "location" then
    (JS.orStr (Session.location session) "Unknown", "location")
  else if String.eqb activeTrendView "dayOfWeek" then
    (JS.orStr (Session.dayOfWeek session) "Unknown", "dayOfWeek")
  else ("Unknown", "timeslot").

Definition dimensionKey (activeTrendView : string) (session : SessionData)
  : string := fst (dimensionOf activeTrendView session).

Definition sortedMonths (monthKeyOf : string -> string)
  (data : list SessionData) : list string :=
  JS.sort (JS.unique [] (map (fun s => monthKeyOf (Session.date s)) data)).

Definition newTrend (activeTrendView : string) (allMonths : list string)
  (session : SessionData) : MonthlyTrendData :=
  {| dimension := fst (dimensionOf activeTrendView session);
     type := snd (dimensionOf activeTrendView session);
     months :=
       fold_left (fun ms month => JS.set ms month zeroValues) allMonths [];
     totalValues := zeroValues |}.

Definition count (v : Values) (session : SessionData) : Values :=
  {| sessions := sessions v + 1;
     attendance := attendance v + JS.orZero (Session.checkedInCount session);
     revenue := revenue v + JS.orZero (Session.totalPaid session);
     fillRate := fillRate v;
     avgVisits := avgVisits v |}.

Definition addSession (monthKeyOf : string -> string)
  (trend : MonthlyTrendData) (session : SessionData) : MonthlyTrendData :=
  let monthKey := monthKeyOf (Session.date session) in
  let monthData :=
    match JS.get (months trend) monthKey with
    | Some v => v
    | None => zeroValues
    end in
  {| dimension := dimension trend;
     type := type trend;
     months := JS.set (months trend) monthKey (count monthData session);
     totalValues := count (totalValues trend) session |}.

Definition trendMap (monthKeyOf : string -> string)
  (activeTrendView : string) (data : list SessionData)
  : JS.obj MonthlyTrendData :=
  groupBy (dimensionKey activeTrendView) (fun _ => false)
    (newTrend activeTrendView (sortedMonths monthKeyOf data))
    (addSession monthKeyOf) data.

(** The averages of one month; a month with no entry cannot occur, as
    every trend is created with all the months. *)
Definition deriveMonth (ms : JS.obj Values) (month : string)
  : JS.obj Values :=
  match JS.get ms month with
  | Some monthData =>
      if JS.gt0 (sessions monthData) then
        JS.set ms month
          {| sessions := sessions monthData;
             attendance := attendance monthData;
             revenue := revenue monthData;
             fillRate :=
               JS.times
                 (JS.div (attendance monthData) (sessions monthData * 15))
                 100;
             avgVisits :=
               JS.div (attendance monthData) (sessions monthData) |}
      else ms
  | None => ms
  end.

Definition derive (allMonths : list string) (trend : MonthlyTrendData)
  : MonthlyTrendData :=
  let t := totalValues trend in
  {| dimension := dimension trend;
     type := type trend;
     months := fold_left deriveMonth allMonths (months trend);
     totalValues :=
       {| sessions := sessions t;
          attendance := attendance t;
          revenue := revenue t;
          fillRate :=
            if JS.gt0 (sessions t)
            then JS.times (JS.div (attendance t) (sessions t * 15)) 100
            else JS.Finite 0;
          avgVisits :=
            if JS.gt0 (sessions t)
            then JS.div (attendance t) (sessions t) else JS.Finite 0 |} |}.

Definition results (monthKeyOf : string -> string)
  (activeTrendView : string) (data : list SessionData)
  : list MonthlyTrendData :=
  map (derive (sortedMonths monthKeyOf data))
    (JS.values (trendMap monthKeyOf activeTrendView data)).

Definition filteredResults (monthKeyOf : string -> string)
  (activeTrendView : string) (data : list SessionData) (minSessions : Q)
  : list MonthlyTrendData :=
  filter (fun trend => Qle_bool minSessions (sessions (totalValues trend)))
    (results monthKeyOf activeTrendView data).

Definition processedData (monthKeyOf : string -> string)
  (compare : MonthlyTrendData -> MonthlyTrendData -> bool)
  (activeTrendView : string) (data : list SessionData) (minSessions : Q)
  : list MonthlyTrendData :=
  match data with
  | [] => []
  | _ =>
      JS.sortBy compare
        (filteredResults monthKeyOf activeTrendView data minSessions)
  end.

Definition knownViews : list string :=
  ["timeslot"; "format"; "trainer"; "location"; "dayOfWeek"].

End MonthOnMonthTrendsTable.

(** ** MultiMetricMonthlyTrendsTable.tsx *)

Module MultiMetricMonthlyTrendsTable.

Record MonthBreakdown : Type := {
  sessions : Q;
  attendance : Q;
  revenue : Q;
  fillRate : JS.number
}.

Record TrendData : Type := {
  dimension : string;
  type : string;
  totalSessions : Q;
  totalAttendance : Q;
  totalRevenue : Q;
  avgFillRate : JS.number;
  avgUtilization : JS.number;
  momSessionsChange : JS.number;
  momAttendanceChange : JS.number;
  momRevenueChange : JS.number;
  monthlyBreakdown : JS.obj MonthBreakdown
}.

Definition dimensionOf := MonthOnMonthTrendsTable.dimensionOf.

Definition dimensionKey (activeTrendView : string) (session : SessionData)
  : string := fst (dimensionOf activeTrendView session).

Definition allMonths (monthKeyOf : string -> string)
  (data : list SessionData) : list string :=
  JS.sort (JS.unique [] (map (fun s => monthKeyOf (Session.date s)) data)).

Definition newTrend (activeTrendView : string) (session : SessionData)
  : TrendData :=
  {| dimension := fst (dimensionOf activeTrendView session);
     type := snd (dimensionOf activeTrendView session);
     totalSessions := 0; totalAttendance := 0; totalRevenue := 0;
     avgFillRate := JS.Finite 0; avgUtilization := JS.Finite 0;
     momSessionsChange := JS.Finite 0; momAttendanceChange := JS.Finite 0;
     momRevenueChange := JS.Finite 0;
     monthlyBreakdown := [] |}.

Definition zeroMonth : MonthBreakdown :=
  {| sessions := 0; attendance := 0; revenue := 0; fillRate := JS.Finite 0 |}.

Definition addToMonth (monthData : MonthBreakdown) (session : SessionData)
  : MonthBreakdown :=
  let sessions' := sessions monthData + 1 in
  let attendance' :=
    attendance monthData + JS.orZero (Session.checkedInCount session) in
  {| sessions := sessions';
     attendance := attendance';
     revenue := revenue monthData + JS.orZero (Session.totalPaid session);
     fillRate :=
       (* session.capacity ? ... : 0 *)
       if negb (Qeq_bool (JS.orZero (Session.capacity session)) 0)
       then JS.times
              (JS.div attendance'
                 (sessions' * JS.orZero (Session.capacity session))) 100
       else JS.Finite 0 |}.

Definition addSession (monthKeyOf : string -> string) (trend : TrendData)
  (session : SessionData) : TrendData :=
  let monthKey := monthKeyOf (Session.date session) in
  let monthData :=
    match JS.get (monthlyBreakdown trend) monthKey with
    | Some m => m
    | None => zeroMonth
    end in
  {| dimension := dimension trend;
     type := type trend;
     totalSessions := totalSessions trend + 1;
     totalAttendance :=
       totalAttendance trend + JS.orZero (Session.checkedInCount session);
     totalRevenue :=
       totalRevenue trend + JS.orZero (Session.totalPaid session);
     avgFillRate := avgFillRate trend;
     avgUtilization := avgUtilization trend;
     momSessionsChange := momSessionsChange trend;
     momAttendanceChange := momAttendanceChange trend;
     momRevenueChange := momRevenueChange trend;
     monthlyBreakdown :=
       JS.set (monthlyBreakdown trend) monthKey (addToMonth monthData session)
  |}.

Definition trendMap (monthKeyOf : string -> string)
  (activeTrendView : string) (data : list SessionData) : JS.obj TrendData :=
  groupBy (dimensionKey activeTrendView) (fun _ => false)
    (newTrend activeTrendView) (addSession monthKeyOf) data.

(** The two compared buckets: those of the last and of the last but one
    key of [Object.keys(trend.monthlyBreakdown).sort()]. *)
Definition comparedMonths (trend : TrendData)
  : option (MonthBreakdown * MonthBreakdown) :=
  let months := JS.sort (JS.keys (monthlyBreakdown trend)) in
  if (2 <=? List.length months)%nat then
    match JS.fromEnd months 0, JS.fromEnd months 1 with
    | Some latestKey, Some previousKey =>
        match JS.get (monthlyBreakdown trend) latestKey,
              JS.get (monthlyBreakdown trend) previousKey with
        | Some latest, Some previous => Some (latest, previous)
        | _, _ => None
        end
    | _, _ => None
    end
  else None.

Definition derive (nMonths : nat) (trend : TrendData) : TrendData :=
  let withAverages (s a r : JS.number) :=
    {| dimension := dimension trend;
       type := type trend;
       totalSessions := totalSessions trend;
       totalAttendance := totalAttendance trend;
       totalRevenue := totalRevenue trend;
       avgFillRate :=
         if JS.gt0 (totalSessions trend)
         then JS.times
                (JS.div (totalAttendance trend) (totalSessions trend * 15))
                100
         else JS.Finite 0;
       avgUtilization :=
         if JS.gt0 (totalSessions trend)
         then JS.times
                (JS.div
                   (ofNat
                      (List.length
                         (filter (fun m => JS.gt0 (sessions m))
                            (JS.values (monthlyBreakdown trend)))))
                   (ofNat nMonths)) 100
         else JS.Finite 0;
       momSessionsChange := s;
       momAttendanceChange := a;
       momRevenueChange := r;
       monthlyBreakdown := monthlyBreakdown trend |} in
  match comparedMonths trend with
  | Some (latest, previous) =>
      withAverages
        (guardedPercent (sessions latest - sessions previous)
           (sessions previous))
        (guardedPercent (attendance latest - attendance previous)
           (attendance previous))
        (guardedPercent (revenue latest - revenue previous)
           (revenue previous))
  | None =>
      withAverages (momSessionsChange trend) (momAttendanceChange trend)
        (momRevenueChange trend)
  end.

Definition results (monthKeyOf : string -> string)
  (activeTrendView : string) (data : list SessionData) : list TrendData :=
  map (derive (List.length (allMonths monthKeyOf data)))
    (JS.values (trendMap monthKeyOf activeTrendView data)).

Definition processedTrendData (monthKeyOf : string -> string)
  (compare : TrendData -> TrendData -> bool)
  (activeTrendView : string) (data : list SessionData) : list TrendData :=
  match data with
  | [] => []
  | _ => JS.sortBy compare (results monthKeyOf activeTrendView data)
  end.

End MultiMetricMonthlyTrendsTable.

(** ** ImprovedClassAttendancePayrollTable.tsx

    [prevMonthKeyOf] stands for the [Date] arithmetic that turns
    [item.monthYear + '-01'] into the key of the month that the row is
    compared with; it belongs to the runtime, and [UTC.prevMonthKeyOf]
    and [Runtime.prevMonthKeyOf] model it. *)

Module ImprovedClassAttendancePayrollTable.

Record Trends : Type := {
  sessionsChange : JS.number;
  customersChange : JS.number;
  revenueChange : JS.number;
  fillRateChange : JS.number
}.

Record ProcessedPayrollData : Type := {
  location : option string;
  teacherName : option string;
  monthYear : option string;
  totalSessions : Q;
  totalCustomers : Q;
  totalPaid : Q;
  emptySession : Q;
  nonEmptySession : Q;
  classAvgWithEmpty : JS.number;
  classAvgWithoutEmpty : JS.number;
  fillRate : JS.number;
  cancelRate : JS.number;
  revenuePerSession : JS.number;
  utilizationRate : JS.number;
  (** [None] is the empty object [{}] *)
  trends : option Trends
}.

(** What [locationMap[location]] reads: the name of a studio, or a member
    that the object literal inherits from [Object.prototype], which is
    truthy and equal to no string. *)
Inductive LocationTarget : Type :=
| Studio (name : string)
| Inherited.

Definition locationMap (location : string) : option LocationTarget :=
  if String.eqb location "Kwality House, Kemps Corner" then
    Some (Studio location)
  else if String.eqb location "Supreme HQ, Bandra" then Some (Studio location)
  else if String.eqb location "Kenkere House" then Some (Studio location)
  else if inheritedProperty location then Some Inherited
  else None.

(** [item.location === targetLocation] *)
Definition isTarget (itemLocation : option string)
  (targetLocation : LocationTarget) : bool :=
  match targetLocation with
  | Studio name => JS.strictEq itemLocation (Some name)
  | Inherited => false
  end.

Definition filteredData (location : option string)
  (data : list PayrollData) : list PayrollData :=
  match location with
  | Some (String c s) =>
      let loc := String c s in
      if String.eqb loc "all" then data
      else
        match locationMap loc with
        | Some targetLocation =>
            filter
              (fun item =>
                 isTarget (Payroll.location item) targetLocation
                 || (String.eqb loc "Kenkere House"
                     && match Payroll.location item with
                        | Some l => JS.includes "Kenkere" l
                        | None => false
                        end))
              data
        | None => data
        end
  | _ => data
  end.

Definition keyOf (item : PayrollData) : string :=
  JS.show (Payroll.location item) ++ "-"
    ++ JS.show (Payroll.teacherName item) ++ "-"
    ++ JS.show (Payroll.monthYear item).

Definition newEntry (item : PayrollData) : ProcessedPayrollData :=
  {| location := Payroll.location item;
     teacherName := Payroll.teacherName item;
     monthYear := Payroll.monthYear item;
     totalSessions := 0; totalCustomers := 0; totalPaid := 0;
     emptySession := 0; nonEmptySession := 0;
     classAvgWithEmpty := JS.Finite 0; classAvgWithoutEmpty := JS.Finite 0;
     fillRate := JS.Finite 0; cancelRate := JS.Finite 0;
     revenuePerSession := JS.Finite 0; utilizationRate := JS.Finite 0;
     trends := None |}.

Definition addItem (entry : ProcessedPayrollData) (item : PayrollData)
  : ProcessedPayrollData :=
  {| location := location entry;
     teacherName := teacherName entry;
     monthYear := monthYear entry;
     totalSessions :=
       totalSessions entry + JS.orZero (Payroll.totalSessions item);
     totalCustomers :=
       totalCustomers entry + JS.orZero (Payroll.totalCustomers item);
     totalPaid := totalPaid entry + JS.orZero (Payroll.totalPaid item);
     emptySession :=
       emptySession entry + JS.orZero (Payroll.totalEmptySessions item);
     nonEmptySession :=
       nonEmptySession entry + JS.orZero (Payroll.totalNonEmptySessions item);
     classAvgWithEmpty := classAvgWithEmpty entry;
     classAvgWithoutEmpty := classAvgWithoutEmpty entry;
     fillRate := fillRate entry;
     cancelRate := cancelRate entry;
     revenuePerSession := revenuePerSession entry;
     utilizationRate := utilizationRate entry;
     trends := trends entry |}.

Definition grouped (location : option string) (data : list PayrollData)
  : JS.obj ProcessedPayrollData :=
  groupBy keyOf (fun _ => false) newEntry addItem
    (filteredData location data).

(** The six derived metrics written into [item]. *)
Definition withMetrics (item : ProcessedPayrollData) : ProcessedPayrollData :=
  let totalCapacity := totalSessions item * 15 in
  {| location := location item;
     teacherName := teacherName item;
     monthYear := monthYear item;
     totalSessions := totalSessions item;
     totalCustomers := totalCustomers item;
     totalPaid := totalPaid item;
     emptySession := emptySession item;
     nonEmptySession := nonEmptySession item;
     classAvgWithEmpty :=
       guardedRatio (totalCustomers item) (totalSessions item);
     classAvgWithoutEmpty :=
       guardedRatio (totalCustomers item) (nonEmptySession item);
     fillRate := guardedPercent (totalCustomers item) totalCapacity;
     cancelRate := guardedPercent (emptySession item) (totalSessions item);
     revenuePerSession := guardedRatio (totalPaid item) (totalSessions item);
     utilizationRate :=
       guardedPercent (totalSessions item - emptySession item)
         (totalSessions item);
     trends := trends item |}.

Definition withTrends (item : ProcessedPayrollData) (t : Trends)
  : ProcessedPayrollData :=
  {| location := location item;
     teacherName := teacherName item;
     monthYear := monthYear item;
     totalSessions := totalSessions item;
     totalCustomers := totalCustomers item;
     totalPaid := totalPaid item;
     emptySession := emptySession item;
     nonEmptySession := nonEmptySession item;
     classAvgWithEmpty := classAvgWithEmpty item;
     classAvgWithoutEmpty := classAvgWithoutEmpty item;
     fillRate := fillRate item;
     cancelRate := cancelRate item;
     revenuePerSession := revenuePerSession item;
     utilizationRate := utilizationRate item;
     trends := Some t |}.

Definition isPrevData (item : ProcessedPayrollData) (prevMonthKey : string)
  (p : ProcessedPayrollData) : bool :=
  JS.strictEq (location p) (location item)
  && JS.strictEq (teacherName p) (teacherName item)
  && JS.strictEq (monthYear p) (Some prevMonthKey).

Definition trendsAgainst (item prevData : ProcessedPayrollData) : Trends :=
  {| sessionsChange :=
       guardedPercent (totalSessions item - totalSessions prevData)
         (totalSessions prevData);
     customersChange :=
       guardedPercent (totalCustomers item - totalCustomers prevData)
         (totalCustomers prevData);
     revenueChange :=
       guardedPercent (totalPaid item - totalPaid prevData)
         (totalPaid prevData);
     fillRateChange := JS.minus (fillRate item) (fillRate prevData) |}.

(** One call of the [map] callback, on the entry of key [k].  The
    callback writes into the entries of [grouped] themselves, so the
    entries visited earlier already carry their derived metrics when a
    later entry looks for its previous month. *)
Definition deriveEntry (prevMonthKeyOf : string -> string)
  (store : JS.obj ProcessedPayrollData) (k : string)
  : JS.obj ProcessedPayrollData :=
  match JS.get store k with
  | None => store
  | Some item0 =>
      let item := withMetrics item0 in
      let store1 := JS.set store k item in
      let prevMonthKey :=
        prevMonthKeyOf (JS.show (monthYear item) ++ "-01") in
      match find (isPrevData item prevMonthKey) (JS.values store1) with
      | Some prevData =>
          JS.set store1 k (withTrends item (trendsAgainst item prevData))
      | None => store1
      end
  end.

Definition results (prevMonthKeyOf : string -> string)
  (location : option string) (data : list PayrollData)
  : list ProcessedPayrollData :=
  let g := grouped location data in
  JS.values (fold_left (deriveEntry prevMonthKeyOf) (JS.keys g) g).

Definition processedData (prevMonthKeyOf : string -> string)
  (compare : ProcessedPayrollData -> ProcessedPayrollData -> bool)
  (location : option string) (data : list PayrollData)
  : list ProcessedPayrollData :=
  match data with
  | [] => []
  | _ => JS.sortBy compare (results prevMonthKeyOf location data)
  end.

End ImprovedClassAttendancePayrollTable.

(** ** EnhancedClassAttendancePayrollTable.tsx: [getMonthTrend] *)

Module EnhancedClassAttendancePayrollTable.

(** One cell of [monthlyData]. *)
Record MonthData : Type := {
  totalSessions : Q;
  totalCustomers : Q;
  totalPaid : Q;
  emptySession : Q;
  nonEmptySession : Q;
  classAvgWithEmpty : Q;
  classAvgWithoutEmpty : Q;
  fillRate : Q;
  cancelRate : Q
}.

(** [month[metric]] *)
Definition field (month : MonthData) (metric : string) : option Q :=
  if String.eqb metric "totalSessions" then Some (totalSessions month)
  else if String.eqb metric "totalCustomers" then Some (totalCustomers month)
  else if String.eqb metric "totalPaid" then Some (totalPaid month)
  else if String.eqb metric "emptySession" then Some (emptySession month)
  else if String.eqb metric "nonEmptySession" then Some (nonEmptySession month)
  else if String.eqb metric "classAvgWithEmpty" then Some (classAvgWithEmpty month)
  else if String.eqb metric "classAvgWithoutEmpty" then Some (classAvgWithoutEmpty month)
  else if String.eqb metric "fillRate" then Some (fillRate month)
  else if String.eqb metric "cancelRate" then Some (cancelRate month)
  else None.

(** The result is [None] where the source returns [null]. *)
Definition getMonthTrend (currentMonth previousMonth : option MonthData)
  (metric : string) : option JS.number :=
  match previousMonth, currentMonth with
  | Some previousMonth, Some currentMonth =>
      let current := JS.orZero (field currentMonth metric) in
      let previous := JS.orZero (field previousMonth metric) in
      if Qeq_bool previous 0 then None
      else
        let change := JS.times (JS.div (current - previous) previous) 100 in
        if JS.lt (JS.abs change) (1 # 10) then None else Some change
  | _, _ => None
  end.

End EnhancedClassAttendancePayrollTable.

(** ** PowerCycleBarreStrengthYearOnYearTable.tsx *)

Module PowerCycleBarreStrengthYearOnYearTable.

Import TrainerDataProcessor.

Record YearTotals : Type := {
  revenue : Q;
  sessions : Q;
  customers : Q;
  y_cycleRevenue : Q;
  y_barreRevenue : Q;
  y_strengthRevenue : Q
}.

Record YearOnYearComparison : Type := {
  c_trainerName : option string;
  c_location : option string;
  currentYear : YearTotals;
  previousYear : YearTotals;
  revenueGrowth : JS.number;
  sessionGrowth : JS.number;
  customerGrowth : JS.number;
  topFormat : string;
  formatGrowth : list (string * JS.number)
}.

(** An entry of [trainerMap]. *)
Record TrainerYears : Type := {
  t_trainerName : option string;
  t_location : option string;
  years : JS.obj (list ProcessedTrainerData)
}.

Definition keyOf (trainer : ProcessedTrainerData) : string :=
  JS.show (trainerName trainer) ++ "-" ++ JS.show (location trainer).

(** [trainer.monthYear?.split('-')[1] || '2024'] *)
Definition yearOf (trainer : ProcessedTrainerData) : string :=
  JS.orStr (nth_error (JS.split "-" (monthYear trainer)) 1) "2024".

Definition newTrainer (trainer : ProcessedTrainerData) : TrainerYears :=
  {| t_trainerName := trainerName trainer;
     t_location := location trainer;
     years := [] |}.

Definition addTrainer (trainerData : TrainerYears)
  (trainer : ProcessedTrainerData) : TrainerYears :=
  let year := yearOf trainer in
  let bucket :=
    match JS.get (years trainerData) year with
    | Some l => l
    | None => []
    end in
  {| t_trainerName := t_trainerName trainerData;
     t_location := t_location trainerData;
     years := JS.set (years trainerData) year (bucket ++ [trainer])%list |}.

Definition trainerMap (data : list ProcessedTrainerData)
  : JS.obj TrainerYears :=
  groupBy keyOf (fun _ => false) newTrainer addTrainer data.

Definition zeroTotals : YearTotals :=
  {| revenue := 0; sessions := 0; customers := 0;
     y_cycleRevenue := 0; y_barreRevenue := 0; y_strengthRevenue := 0 |}.

(** The [reduce] that totals the rows of one year. *)
Definition aggregate (yearData : list ProcessedTrainerData) : YearTotals :=
  fold_left
    (fun acc t =>
       {| revenue := revenue acc + totalPaid t;
          sessions := sessions acc + totalSessions t;
          customers := customers acc + totalCustomers t;
          y_cycleRevenue := y_cycleRevenue acc + cycleRevenue t;
          y_barreRevenue := y_barreRevenue acc + barreRevenue t;
          y_strengthRevenue := y_strengthRevenue acc + strengthRevenue t |})
    yearData zeroTotals.

Definition growth (current previous : Q) : JS.number :=
  guardedPercent (current - previous) previous.

(** The year keys, sorted, and the two compared buckets. *)
Definition sortedYears (trainer : TrainerYears) : list string :=
  JS.sort (JS.keys (years trainer)).

Definition comparison (trainer : TrainerYears) : option YearOnYearComparison :=
  let ys := sortedYears trainer in
  if (2 <=? List.length ys)%nat then
    match JS.fromEnd ys 0, JS.fromEnd ys 1 with
    | Some currentYear, Some previousYear =>
        match JS.get (years trainer) currentYear,
              JS.get (years trainer) previousYear with
        | Some currentData, Some previousData =>
            let current := aggregate currentData in
            let previous := aggregate previousData in
            let currentFormats :=
              [ ("PowerCycle", y_cycleRevenue current);
                ("Barre", y_barreRevenue current);
                ("Strength Lab", y_strengthRevenue current) ] in
            Some
              {| c_trainerName := t_trainerName trainer;
                 c_location := t_location trainer;
                 currentYear := current;
                 previousYear := previous;
                 revenueGrowth := growth (revenue current) (revenue previous);
                 sessionGrowth :=
                   growth (sessions current) (sessions previous);
                 customerGrowth :=
                   growth (customers current) (customers previous);
                 topFormat :=
                   match JS.sortBy (fun a b => Qle_bool (snd b) (snd a))
                           currentFormats with
                   | (name, _) :: _ => name
                   | [] => ""
                   end;
                 formatGrowth :=
                   [ ("PowerCycle",
                      growth (y_cycleRevenue current)
                        (y_cycleRevenue previous));
                     ("Barre",
                      growth (y_barreRevenue current)
                        (y_barreRevenue previous));
                     ("Strength Lab",
                      growth (y_strengthRevenue current)
                        (y_strengthRevenue previous)) ] |}
        | _, _ => None
        end
    | _, _ => None
    end
  else None.

Definition yearOnYearData (data : list ProcessedTrainerData)
  : list YearOnYearComparison :=
  flat_map
    (fun trainer =>
       match comparison trainer with Some c => [c] | None => [] end)
    (JS.values (trainerMap data)).

Definition rowKey (c : YearOnYearComparison) : string :=
  JS.show (c_trainerName c) ++ "-" ++ JS.show (c_location c).

End PowerCycleBarreStrengthYearOnYearTable.

(** ** Specification-level notions

    The records of one group, and the entry that folding them yields. *)

Definition members {R : Type} (key : R -> string) (skip : R -> bool)
  (k : string) (data : list R) : list R :=
  filter (fun r => negb (skip r) && String.eqb (key r) k) data.

Definition kept {R : Type} (skip : R -> bool) (data : list R) : list R :=
  filter (fun r => negb (skip r)) data.

Definition foldGroup {R V : Type} (init : R -> V) (step : V -> R -> V)
  (start : option V) (rs : list R) : option V :=
  match rs with
  | [] => start
  | r :: _ =>
      Some (fold_left step rs
              (match start with Some v => v | None => init r end))
  end.


(** A derived ratio is safe when it is a finite number, and is zero
    whenever its denominator is. *)
Definition safeRatio (x : JS.number) (den : Q) : Prop :=
  JS.isFinite x = true /\ (den == 0 -> x = JS.Finite 0).

(** The value of a finite number lies in a range. *)
Definition atLeast (lo : Q) (x : JS.number) : Prop :=
  exists q, x = JS.Finite q /\ lo <= q.

Definition atMost (hi : Q) (x : JS.number) : Prop :=
  exists q, x = JS.Finite q /\ q <= hi.

(** The period-over-period delta in the words of the specification:
    [(valueB - valueA) / valueA * 100] when [valueA > 0], else [0]. *)
Definition specDelta (valueA valueB : Q) : JS.number :=
  if JS.gt0 valueA then JS.Finite ((valueB - valueA) / valueA * 100)
  else JS.Finite 0.

(** [s] has a substring that equals [needle] up to the case of letters. *)
Definition containsIgnoringCase (needle s : string) : Prop :=
  exists pre mid post,
    s = pre ++ mid ++ post /\ JS.toLowerCase mid = JS.toLowerCase needle.

(** ** Sample records *)

Module Sample.

Definition session (class day : string) (cap checkedIn booked late paid : Q)
  : SessionData :=
  {| Session.cleanedClass := Some class;
     Session.classType := None;
     Session.trainerName := Some "Asha";
     Session.location := Some "Kenkere House";
     Session.dayOfWeek := Some "Monday";
     Session.time := Some "09:00";
     Session.date := day;
     Session.capacity := Some cap;
     Session.checkedInCount := Some checkedIn;
     Session.bookedCount := Some booked;
     Session.lateCancelledCount := Some late;
     Session.totalPaid := Some paid |}.

Definition payroll (teacher month : string)
  (sessions empty nonEmpty customers paid : Q) : PayrollData :=
  {| Payroll.teacherId := Some "t1";
     Payroll.teacherName := Some teacher;
     Payroll.teacherEmail := None;
     Payroll.location := Some "Kenkere House";
     Payroll.monthYear := Some month;
     Payroll.totalSessions := Some sessions;
     Payroll.totalEmptySessions := Some empty;
     Payroll.totalNonEmptySessions := Some nonEmpty;
     Payroll.totalCustomers := Some customers;
     Payroll.totalPaid := Some paid;
     Payroll.cycleSessions := None;
     Payroll.emptyCycleSessions := None;
     Payroll.nonEmptyCycleSessions := None;
     Payroll.cycleCustomers := None;
     Payroll.cyclePaid := Some paid;
     Payroll.barreSessions := None;
     Payroll.emptyBarreSessions := None;
     Payroll.nonEmptyBarreSessions := None;
     Payroll.barreCustomers := None;
     Payroll.barrePaid := None;
     Payroll.conversion := None;
     Payroll.retention := None;
     Payroll.converted := None;
     Payroll.retained := None;
     Payroll.unique := None |}.

(** A comparator that keeps the rows in their order. *)
Definition anyOrder {A : Type} (a b : A) : bool := true.

End Sample.

(** Short names for the tables. *)
Module ECF := EnhancedClassFormatPerformanceTable.
Module CPR := ClassPerformanceRankingTable.
Module MoM := MonthOnMonthTrendsTable.
Module MM := MultiMetricMonthlyTrendsTable.
Module ICP := ImprovedClassAttendancePayrollTable.
Module ECP := EnhancedClassAttendancePayrollTable.
Module YoY := PowerCycleBarreStrengthYearOnYearTable.
Module TDP := TrainerDataProcessor.

(** ** Non-negative inputs *)

Definition nonNegativeSession (s : SessionData) : Prop :=
  0 <= JS.orZero (Session.capacity s) /\
  0 <= JS.orZero (Session.checkedInCount s) /\
  0 <= JS.orZero (Session.bookedCount s) /\
  0 <= JS.orZero (Session.lateCancelledCount s) /\
  0 <= JS.orZero (Session.totalPaid s).

(** A percentage in the range that the specification claims. *)
Definition withinPercentRange (x : JS.number) : Prop :=
  atLeast 0 x /\ atMost 100 x.

(** ** The derived payroll rows

    Two payroll entries agree on their identity and on their accumulators;
    and an entry [e] is what the [map] callback makes of the grouped entry
    [e0], given the grouped entries [g]. *)

Definition ICP_sameTotals (a b : ICP.ProcessedPayrollData) : Prop :=
  ICP.location a = ICP.location b /\
  ICP.teacherName a = ICP.teacherName b /\
  ICP.monthYear a = ICP.monthYear b /\
  ICP.totalSessions a = ICP.totalSessions b /\
  ICP.totalCustomers a = ICP.totalCustomers b /\
  ICP.totalPaid a = ICP.totalPaid b /\
  ICP.emptySession a = ICP.emptySession b /\
  ICP.nonEmptySession a = ICP.nonEmptySession b.

Definition ICP_prevMonthKey (prevMonthKeyOf : string -> string)
  (item : ICP.ProcessedPayrollData) : string :=
  prevMonthKeyOf (JS.show (ICP.monthYear item) ++ "-01").

Definition ICP_derivedFrom (prevMonthKeyOf : string -> string)
  (g : JS.obj ICP.ProcessedPayrollData) (e0 e : ICP.ProcessedPayrollData)
  : Prop :=
  let item := ICP.withMetrics e0 in
  let prevMonthKey := ICP_prevMonthKey prevMonthKeyOf item in
  (e = item /\
   forall p, In p (JS.values g) -> ICP.isPrevData item prevMonthKey p = false)
  \/
  (exists prevData p,
     In p (JS.values g) /\ ICP_sameTotals prevData p /\
     ICP.isPrevData item prevMonthKey p = true /\
     e = ICP.withTrends item (ICP.trendsAgainst item prevData)).

(** A store whose entries agree with those of [g], key by key. *)
Definition ICP_agree (g store : JS.obj ICP.ProcessedPayrollData) : Prop :=
  JS.keys store = JS.keys g /\
  forall k e, JS.get store k = Some e ->
    exists e0, JS.get g k = Some e0 /\ ICP_sameTotals e e0.

(** The state of the entries while the callback runs over the keys. *)
Definition ICP_invariant (prevMonthKeyOf : string -> string)
  (g : JS.obj ICP.ProcessedPayrollData) (visited : list string)
  (store : JS.obj ICP.ProcessedPayrollData) : Prop :=
  JS.keys store = JS.keys g /\
  forall k e, JS.get store k = Some e ->
    exists e0, JS.get g k = Some e0 /\
      ((In k visited /\ ICP_derivedFrom prevMonthKeyOf g e0 e) \/
       (~ In k visited /\ e = e0)).

(** A month cell of the payroll matrix with the three totals given. *)
Definition sampleMonth (sessions customers paid : Q) : ECP.MonthData :=
  {| ECP.totalSessions := sessions;
     ECP.totalCustomers := customers;
     ECP.totalPaid := paid;
     ECP.emptySession := 0;
     ECP.nonEmptySession := sessions;
     ECP.classAvgWithEmpty := 0;
     ECP.classAvgWithoutEmpty := 0;
     ECP.fillRate := 0;
     ECP.cancelRate := 0 |}.

(** The value of a metric in a month cell: [month[metric] || 0]. *)
Definition metricOf (month : ECP.MonthData) (metric : string) : Q :=
  JS.orZero (ECP.field month metric).

(** ** The [Date] expressions on a runtime in UTC

    For the ISO dates [YYYY-MM-DD] that the examples use, on a runtime
    whose local time is UTC.  Other strings are outside this model; it
    gives them the key [NaN-NaN] of an invalid date. *)

Module UTC.

Definition decimal (n : nat) : string :=
  NilEmpty.string_of_uint (Nat.to_uint n).

Definition parse (s : string) : option nat :=
  option_map Nat.of_uint (NilEmpty.uint_of_string s).

(** [String(n).padStart(2, '0')] *)
Definition padStart2 (n : nat) : string :=
  if (n <? 10)%nat then "0" ++ decimal n else decimal n.

Definition yearMonth (date : string) : option (nat * nat) :=
  match parse (String.substring 0 4 date),
        parse (String.substring 5 2 date) with
  | Some y, Some m =>
      if (1 <=? m)%nat && (m <=? 12)%nat
         && (String.length date =? 10)%nat
      then Some (y, m) else None
  | _, _ => None
  end.

(** [`${date.getFullYear()}-${String(date.getMonth() + 1).padStart(2, '0')}`] *)
Definition formatKey (ym : option (nat * nat)) : string :=
  match ym with
  | Some (y, m) => decimal y ++ "-" ++ padStart2 m
  | None => "NaN-NaN"
  end.

Definition monthKeyOf (date : string) : string := formatKey (yearMonth date).

(** The key after [setMonth(getMonth() - 1)] on the first of a month. *)
Definition prevMonthKeyOf (date : string) : string :=
  formatKey
    (match yearMonth date with
     | Some (y, m) => if (m =? 1)%nat then Some (y - 1, 12)%nat
                      else Some (y, m - 1)%nat
     | None => None
     end).

End UTC.

(** The distinct year buckets of a trainer-and-location key. *)
Definition distinctYears (k : string) (data : list TDP.ProcessedTrainerData)
  : list string :=
  nodup string_dec
    (map YoY.yearOf (members YoY.keyOf (fun _ => false) k data)).

(** The rows of one key that fall in one year bucket. *)
Definition rowsOfYear (k year : string) (data : list TDP.ProcessedTrainerData)
  : list TDP.ProcessedTrainerData :=
  members YoY.yearOf (fun _ => false) year
    (members YoY.keyOf (fun _ => false) k data).

(** The sessions of one dimension that fall in one month. *)
Definition sessionsOfMonth (monthKeyOf : string -> string) (view k m : string)
  (data : list SessionData) : list SessionData :=
  members (fun s => monthKeyOf (Session.date s)) (fun _ => false) m
    (members (MM.dimensionKey view) (fun _ => false) k data).

(** ** Notions for the further properties *)

(** A month bucket of the month-on-month table with its two averages
    filled in: a bucket without sessions keeps its zeros. *)
Definition MoM_derivedBucket (b : MoM.Values) : MoM.Values :=
  if JS.gt0 (MoM.sessions b) then
    {| MoM.sessions := MoM.sessions b;
       MoM.attendance := MoM.attendance b;
       MoM.revenue := MoM.revenue b;
       MoM.fillRate :=
         JS.times (JS.div (MoM.attendance b) (MoM.sessions b * 15)) 100;
       MoM.avgVisits := JS.div (MoM.attendance b) (MoM.sessions b) |}
  else b.

(** The bucket that folding a list of sessions yields, before the
    averages. *)
Definition MoM_bucketOf (ss : list SessionData) : MoM.Values :=
  fold_left MoM.count ss MoM.zeroValues.

(** The rows of the payroll table as a function of the grouped entries
    alone: each entry gets its metrics and is compared with the first
    entry for the month before among the earlier entries, which already
    carry their metrics, the entry itself, and the later entries, which
    do not carry theirs yet. *)
Fixpoint ICP_rowsFrom (prevMonthKeyOf : string -> string)
  (before rest : list ICP.ProcessedPayrollData)
  : list ICP.ProcessedPayrollData :=
  match rest with
  | [] => []
  | e0 :: after =>
      let item := ICP.withMetrics e0 in
      let prevMonthKey :=
        prevMonthKeyOf (JS.show (ICP.monthYear item) ++ "-01") in
      match find (ICP.isPrevData item prevMonthKey)
              (before ++ item :: after)%list with
      | Some prevData => ICP.withTrends item (ICP.trendsAgainst item prevData)
      | None => item
      end :: ICP_rowsFrom prevMonthKeyOf (before ++ [item])%list after
  end.

(** Two payroll entries that differ at most in their trends. *)
Definition ICP_sameButTrends (a b : ICP.ProcessedPayrollData) : Prop :=
  forall t, ICP.withTrends a t = ICP.withTrends b t.

(** ** PowerCycleBarreStrengthMonthOnMonthTable.tsx *)

(** A [forEach] whose callback may throw: the first failure aborts. *)
Fixpoint forEachOrThrow {A B : Type} (f : A -> option B) (l : list A)
  : option (list B) :=
  match l with
  | [] => Some []
  | x :: t =>
      match f x with
      | None => None
      | Some y =>
          match forEachOrThrow f t with
          | None => None
          | Some ys => Some (y :: ys)
          end
      end
  end.

Module PowerCycleBarreStrengthMonthOnMonthTable.

(** One entry of [months]. *)
Record MonthFigures : Type := {
  sessions : Q;
  revenue : Q;
  customers : Q;
  cycleRevenue : Q;
  barreRevenue : Q;
  strengthRevenue : Q;
  cycleSessions : Q;
  barreSessions : Q;
  strengthSessions : Q
}.

Record MonthlyComparison : Type := {
  trainerName : option string;
  location : option string;
  months : JS.obj MonthFigures;
  totalSessions : Q;
  totalRevenue : Q;
  avgMonthlyRevenue : JS.number;
  growth : JS.number
}.

Definition keyOf (trainer : TDP.ProcessedTrainerData) : string :=
  JS.show (TDP.trainerName trainer) ++ "-" ++ JS.show (TDP.location trainer).

(** [trainer.monthYear || 'Unknown'] *)
Definition monthOf (trainer : TDP.ProcessedTrainerData) : string :=
  JS.orStr (Some (TDP.monthYear trainer)) "Unknown".

Definition newTrainer (trainer : TDP.ProcessedTrainerData)
  : MonthlyComparison :=
  {| trainerName := TDP.trainerName trainer;
     location := TDP.location trainer;
     months := [];
     totalSessions := 0;
     totalRevenue := 0;
     avgMonthlyRevenue := JS.Finite 0;
     growth := JS.Finite 0 |}.

Definition figuresOf (trainer : TDP.ProcessedTrainerData) : MonthFigures :=
  {| sessions := TDP.totalSessions trainer;
     revenue := TDP.totalPaid trainer;
     customers := TDP.totalCustomers trainer;
     cycleRevenue := TDP.cycleRevenue trainer;
     barreRevenue := TDP.barreRevenue trainer;
     strengthRevenue := TDP.strengthRevenue trainer;
     cycleSessions := TDP.cycleSessions trainer;
     barreSessions := TDP.barreSessions trainer;
     strengthSessions := TDP.strengthSessions trainer |}.

(** The month entry is assigned, the two totals are added to. *)
Definition addTrainer (trainerData : MonthlyComparison)
  (trainer : TDP.ProcessedTrainerData) : MonthlyComparison :=
  {| trainerName := trainerName trainerData;
     location := location trainerData;
     months :=
       JS.set (months trainerData) (monthOf trainer) (figuresOf trainer);
     totalSessions := totalSessions trainerData + TDP.totalSessions trainer;
     totalRevenue := totalRevenue trainerData + TDP.totalPaid trainer;
     avgMonthlyRevenue := avgMonthlyRevenue trainerData;
     growth := growth trainerData |}.

Definition trainerMap (data : list TDP.ProcessedTrainerData)
  : JS.obj MonthlyComparison :=
  groupBy keyOf (fun _ => false) newTrainer addTrainer data.

Definition withDerived (trainer : MonthlyComparison)
  (average growth' : JS.number) : MonthlyComparison :=
  {| trainerName := trainerName trainer;
     location := location trainer;
     months := months trainer;
     totalSessions := totalSessions trainer;
     totalRevenue := totalRevenue trainer;
     avgMonthlyRevenue := average;
     growth := growth' |}.

(** The callback of the second [forEach].  [None] is the [TypeError] of
    reading [revenue] of a month that the entry does not have;
    [sortedMonths[i]] that is not there reads the key ["undefined"]. *)
Definition derive (trainer : MonthlyComparison) : option MonthlyComparison :=
  let months' := JS.keys (months trainer) in
  let average :=
    if (0 <? List.length months')%nat
    then JS.div (totalRevenue trainer) (ofNat (List.length months'))
    else JS.Finite 0 in
  if (1 <? List.length months')%nat then
    let sortedMonths := JS.sort months' in
    let firstMonth :=
      JS.get (months trainer) (JS.show (nth_error sortedMonths 0)) in
    let lastMonth :=
      JS.get (months trainer) (JS.show (JS.fromEnd sortedMonths 0)) in
    match firstMonth with
    | None => None
    | Some firstMonth =>
        if JS.gt0 (revenue firstMonth) then
          match lastMonth with
          | None => None
          | Some lastMonth =>
              Some (withDerived trainer average
                      (JS.times
                         (JS.div (revenue lastMonth - revenue firstMonth)
                            (revenue firstMonth)) 100))
          end
        else Some (withDerived trainer average (growth trainer))
    end
  else Some (withDerived trainer average (growth trainer)).

Definition monthlyData (data : list TDP.ProcessedTrainerData)
  : option (list MonthlyComparison) :=
  match forEachOrThrow derive (JS.values (trainerMap data)) with
  | None => None
  | Some trainers =>
      Some (JS.sortBy
              (fun a b => Qle_bool (totalRevenue b) (totalRevenue a))
              (filter (fun trainer => JS.gt0 (totalRevenue trainer))
                 trainers))
  end.

Definition rowKey (row : MonthlyComparison) : string :=
  JS.show (trainerName row) ++ "-" ++ JS.show (location row).

End PowerCycleBarreStrengthMonthOnMonthTable.

Module PMM := PowerCycleBarreStrengthMonthOnMonthTable.

(** The rows of one trainer and location, and those of one month. *)
Definition PMM_rowsOf (k : string) (data : list TDP.ProcessedTrainerData)
  : list TDP.ProcessedTrainerData :=
  members PMM.keyOf (fun _ => false) k data.

Definition PMM_rowsOfMonth (k month : string)
  (data : list TDP.ProcessedTrainerData) : list TDP.ProcessedTrainerData :=
  members PMM.monthOf (fun _ => false) month (PMM_rowsOf k data).

(** ** ClassPerformanceRankingTable.tsx: the ranking grouped by UniqueID1

    The file holds a second component of the same name, which sorts its
    rows by a column and shows them ten to a page.  Its sort and page
    state is modelled here, for any list of sorted rows. *)

(** [array.slice(start, end)] for integer arguments: a negative index
    counts from the end, and both indices are clamped to the array. *)
Definition relativeIndex (len i : Z) : Z :=
  if (i <? 0)%Z then Z.max (len + i) 0 else Z.min i len.

Definition slice {A : Type} (l : list A) (start final : Z) : list A :=
  let len := Z.of_nat (List.length l) in
  let k := relativeIndex len start in
  let final' := relativeIndex len final in
  firstn (Z.to_nat (final' - k)) (skipn (Z.to_nat k) l).

Module RankingByUniqueId.

Inductive SortDirection : Type := asc | desc.

Record State : Type := {
  currentPage : Z;
  sortField : string;
  sortDirection : SortDirection
}.

(** The initial [useState] values. *)
Definition initialState : State :=
  {| currentPage := 1; sortField := "avgCheckIns"; sortDirection := desc |}.

Definition itemsPerPage : Z := 10.

Definition handleSort (state : State) (field : string) : State :=
  if String.eqb (sortField state) field then
    {| currentPage := 1;
       sortField := sortField state;
       sortDirection :=
         match sortDirection state with asc => desc | desc => asc end |}
  else
    {| currentPage := 1; sortField := field; sortDirection := desc |}.

Section Rows.

(** The rows ([classPerformance]) and the comparator of [sort] for a
    column and a direction: [compare field direction a b] holds when the
    comparator does not put [b] strictly before [a]. *)
Context {A : Type}.
Variable compare : string -> SortDirection -> A -> A -> bool.
Variable classPerformance : list A.

Definition sortedPerformance (state : State) : list A :=
  JS.sortBy (compare (sortField state) (sortDirection state))
    classPerformance.

(** [Math.ceil(sortedPerformance.length / itemsPerPage)] *)
Definition totalPages (state : State) : Z :=
  Qceiling
    (inject_Z (Z.of_nat (List.length (sortedPerformance state)))
     / inject_Z itemsPerPage).

Definition paginatedData (state : State) : list A :=
  let startIndex := ((currentPage state - 1) * itemsPerPage)%Z in
  slice (sortedPerformance state) startIndex (startIndex + itemsPerPage)%Z.

Definition handlePageChange (state : State) (page : Z) : State :=
  {| currentPage := Z.max 1 (Z.min page (totalPages state));
     sortField := sortField state;
     sortDirection := sortDirection state |}.

(** What the user does to the table. *)
Inductive Event : Type :=
| Sort (field : string)
| Page (page : Z).

Definition handle (state : State) (event : Event) : State :=
  match event with
  | Sort field => handleSort state field
  | Page page => handlePageChange state page
  end.

End Rows.

End RankingByUniqueId.

Module RBU := RankingByUniqueId.

(** The state that shows a given page. *)
Definition RBU_onPage (state : RBU.State) (page : Z) : RBU.State :=
  {| RBU.currentPage := page;
     RBU.sortField := RBU.sortField state;
     RBU.sortDirection := RBU.sortDirection state |}.

(** ** InteractiveClientConversionRanks.tsx *)

(** The fields of a client ([NewClientData]) that the ranking reads. *)
Module Client.
Record NewClientData : Type := {
  trainerName : option string;
  firstVisitLocation : option string;
  homeLocation : option string;
  ltv : option Q;
  isNew : option string;
  conversionStatus : option string;
  retentionStatus : option string;
  conversionSpan : option Q
}.
End Client.
Abbreviation NewClientData := Client.NewClientData.

Module InteractiveClientConversionRanks.

Inductive RankingType : Type :=
| trainers_conversion
| trainers_ltv
| locations_conversion.

Inductive ViewType : Type := top | bottom.

(** The string that a ranking type is. *)
Definition rankingName (activeRankingType : RankingType) : string :=
  match activeRankingType with
  | trainers_conversion => "trainers_conversion"
  | trainers_ltv => "trainers_ltv"
  | locations_conversion => "locations_conversion"
  end.

(** An entry of [stats]. *)
Record Counts : Type := {
  name : string;
  totalClients : Q;
  newMembers : Q;
  converted : Q;
  retained : Q;
  totalLTV : Q
}.

(** [{...stat, conversionRate, avgLTV}] *)
Record Stat : Type := {
  counts : Counts;
  conversionRate : JS.number;
  avgLTV : JS.number
}.

Definition trainerOf (client : NewClientData) : string :=
  JS.orStr (Client.trainerName client) "Unknown".

Definition locationOf (client : NewClientData) : string :=
  JS.orStr (Client.firstVisitLocation client)
    (JS.orStr (Client.homeLocation client) "Unknown").

Definition newCounts (name' : string) : Counts :=
  {| name := name'; totalClients := 0; newMembers := 0; converted := 0;
     retained := 0; totalLTV := 0 |}.

Definition addClient (stat : Counts) (client : NewClientData) : Counts :=
  {| name := name stat;
     totalClients := totalClients stat + 1;
     newMembers :=
       if JS.includes "New" (JS.orStr (Client.isNew client) "")
       then newMembers stat + 1 else newMembers stat;
     converted :=
       if JS.strictEq (Client.conversionStatus client) (Some "Converted")
       then converted stat + 1 else converted stat;
     retained :=
       if JS.strictEq (Client.retentionStatus client) (Some "Retained")
       then retained stat + 1 else retained stat;
     totalLTV := totalLTV stat + JS.orZero (Client.ltv client) |}.

Definition withRates (stat : Counts) : Stat :=
  {| counts := stat;
     conversionRate := guardedPercent (converted stat) (newMembers stat);
     avgLTV := guardedRatio (totalLTV stat) (totalClients stat) |}.

(** The two [useMemo] blocks differ in the key only. *)
Definition statsBy (keyOf : NewClientData -> string)
  (data : list NewClientData) : list Stat :=
  map withRates
    (JS.values
       (groupBy keyOf (fun _ => false) (fun client => newCounts (keyOf client))
          addClient data)).

Definition trainerStats (data : list NewClientData) : list Stat :=
  statsBy trainerOf data.

Definition locationStats (data : list NewClientData) : list Stat :=
  statsBy locationOf data.

Definition sourceData (activeRankingType : RankingType)
  (data : list NewClientData) : list Stat :=
  match activeRankingType with
  | trainers_conversion => trainerStats data
  | trainers_ltv => trainerStats data
  | locations_conversion => locationStats data
  end.

(** [item[sortKey]] *)
Definition sortValue (activeRankingType : RankingType) (item : Stat)
  : JS.number :=
  match activeRankingType with
  | trainers_conversion => conversionRate item
  | trainers_ltv => avgLTV item
  | locations_conversion => conversionRate item
  end.

Definition filterMinimum (activeRankingType : RankingType) : Q :=
  match activeRankingType with
  | trainers_conversion => 3
  | trainers_ltv => 1
  | locations_conversion => 1
  end.

Definition meetsMinimum (activeRankingType : RankingType) (item : Stat)
  : bool :=
  if JS.includes "conversion" (rankingName activeRankingType)
  then Qle_bool (filterMinimum activeRankingType) (newMembers (counts item))
  else Qle_bool (filterMinimum activeRankingType)
         (totalClients (counts item)).

(** The comparator of the [sort]: [b] is put strictly before [a] when
    the difference it returns is positive. *)
Definition inOrder (activeRankingType : RankingType)
  (activeViewType : ViewType) (a b : Stat) : bool :=
  match activeViewType with
  | top =>
      negb (JS.gt (JS.minus (sortValue activeRankingType b)
                     (sortValue activeRankingType a)) 0)
  | bottom =>
      negb (JS.gt (JS.minus (sortValue activeRankingType a)
                     (sortValue activeRankingType b)) 0)
  end.

Definition getCurrentRankings (activeRankingType : RankingType)
  (activeViewType : ViewType) (data : list NewClientData) : list Stat :=
  let filtered :=
    filter (meetsMinimum activeRankingType)
      (sourceData activeRankingType data) in
  let sorted :=
    JS.sortBy (inOrder activeRankingType activeViewType) filtered in
  slice sorted 0 5.

End InteractiveClientConversionRanks.

Module ICR := InteractiveClientConversionRanks.

(** The value of a finite number. *)
Definition valueOf (x : JS.number) : Q :=
  match x with JS.Finite q => q | _ => 0 end.

(** The rows that qualify for a ranking. *)
Definition ICR_eligible (activeRankingType : ICR.RankingType)
  (data : list NewClientData) : list ICR.Stat :=
  filter (ICR.meetsMinimum activeRankingType)
    (ICR.sourceData activeRankingType data).

(** [a] is ranked no worse than [b] in a view. *)
Definition ICR_noWorse (activeRankingType : ICR.RankingType)
  (activeViewType : ICR.ViewType) (a b : ICR.Stat) : Prop :=
  match activeViewType with
  | ICR.top =>
      valueOf (ICR.sortValue activeRankingType b)
      <= valueOf (ICR.sortValue activeRankingType a)
  | ICR.bottom =>
      valueOf (ICR.sortValue activeRankingType a)
      <= valueOf (ICR.sortValue activeRankingType b)
  end.

(** The comparator of the ranking in terms of the values compared. *)
Definition ICR_inOrderByValue (rt : ICR.RankingType) (vt : ICR.ViewType)
  (a b : ICR.Stat) : bool :=
  match vt with
  | ICR.top =>
      Qle_bool (valueOf (ICR.sortValue rt b)) (valueOf (ICR.sortValue rt a))
  | ICR.bottom =>
      Qle_bool (valueOf (ICR.sortValue rt a)) (valueOf (ICR.sortValue rt b))
  end.

(** What the ranking counts of a client. *)
Definition ICR_isNew (client : NewClientData) : bool :=
  JS.includes "New" (JS.orStr (Client.isNew client) "").

Definition ICR_isConverted (client : NewClientData) : bool :=
  JS.strictEq (Client.conversionStatus client) (Some "Converted").

Definition ICR_isRetained (client : NewClientData) : bool :=
  JS.strictEq (Client.retentionStatus client) (Some "Retained").

Definition ICR_count (f : NewClientData -> bool) (l : list NewClientData)
  : Q :=
  ofNat (List.length (filter f l)).

(** ** EnhancedClassPerformanceRankingTable.tsx *)

(** A session with its UniqueID1 column, which the tables above do not
    read. *)
Module Session1.
Record SessionData : Type := {
  session : Session.SessionData;
  uniqueId1 : option string
}.
End Session1.

Module EnhancedClassPerformanceRankingTable.

Record GroupedClassData : Type := {
  uniqueId1 : option string;
  className : string;
  dayOfWeek : option string;
  time : option string;
  location : option string;
  totalSessions : Q;
  emptySessions : Q;
  nonEmptySessions : Q;
  totalCheckedIn : Q;
  totalLateCancelled : Q;
  totalBooked : Q;
  totalCapacity : Q;
  totalRevenue : Q;
  classAvgWithEmpty : JS.number;
  classAvgWithoutEmpty : JS.number;
  fillRate : JS.number;
  cancellationRate : JS.number;
  showUpRate : JS.number;
  utilizationRate : JS.number;
  revenuePerSession : JS.number;
  revenuePerAttendee : JS.number;
  sessions : list Session1.SessionData
}.

Definition groupKey (groupingOption : string) (s : Session1.SessionData)
  : string :=
  let session := Session1.session s in
  if String.eqb groupingOption "uniqueId1" then
    JS.orStr (Session1.uniqueId1 s) "unknown"
  else if String.eqb groupingOption "timeSlot" then
    JS.show (Session.time session) ++ "-"
    ++ JS.show (Session.dayOfWeek session)
  else if String.eqb groupingOption "location" then
    JS.orStr (Session.location session) "unknown"
  else if String.eqb groupingOption "classType" then
    JS.orStr (Session.cleanedClass session)
      (JS.orStr (Session.classType session) "unknown")
  else JS.orStr (Session1.uniqueId1 s) "unknown".

Definition newGroup (s : Session1.SessionData) : GroupedClassData :=
  let session := Session1.session s in
  {| uniqueId1 := Session1.uniqueId1 s;
     className :=
       JS.orStr (Session.cleanedClass session)
         (JS.orStr (Session.classType session) "Unknown");
     dayOfWeek := Session.dayOfWeek session;
     time := Session.time session;
     location := Session.location session;
     totalSessions := 0; emptySessions := 0; nonEmptySessions := 0;
     totalCheckedIn := 0; totalLateCancelled := 0; totalBooked := 0;
     totalCapacity := 0; totalRevenue := 0;
     classAvgWithEmpty := JS.Finite 0; classAvgWithoutEmpty := JS.Finite 0;
     fillRate := JS.Finite 0; cancellationRate := JS.Finite 0;
     showUpRate := JS.Finite 0; utilizationRate := JS.Finite 0;
     revenuePerSession := JS.Finite 0; revenuePerAttendee := JS.Finite 0;
     sessions := [] |}.

Definition addSession (classData : GroupedClassData)
  (s : Session1.SessionData) : GroupedClassData :=
  let session := Session1.session s in
  let empty := Qeq_bool (JS.orZero (Session.checkedInCount session)) 0 in
  {| uniqueId1 := uniqueId1 classData;
     className := className classData;
     dayOfWeek := dayOfWeek classData;
     time := time classData;
     location := location classData;
     totalSessions := totalSessions classData + 1;
     emptySessions :=
       if empty then emptySessions classData + 1
       else emptySessions classData;
     nonEmptySessions :=
       if empty then nonEmptySessions classData
       else nonEmptySessions classData + 1;
     totalCheckedIn :=
       totalCheckedIn classData + JS.orZero (Session.checkedInCount session);
     totalLateCancelled :=
       totalLateCancelled classData
       + JS.orZero (Session.lateCancelledCount session);
     totalBooked :=
       totalBooked classData + JS.orZero (Session.bookedCount session);
     totalCapacity :=
       totalCapacity classData + JS.orZero (Session.capacity session);
     totalRevenue :=
       totalRevenue classData + JS.orZero (Session.totalPaid session);
     classAvgWithEmpty := classAvgWithEmpty classData;
     classAvgWithoutEmpty := classAvgWithoutEmpty classData;
     fillRate := fillRate classData;
     cancellationRate := cancellationRate classData;
     showUpRate := showUpRate classData;
     utilizationRate := utilizationRate classData;
     revenuePerSession := revenuePerSession classData;
     revenuePerAttendee := revenuePerAttendee classData;
     sessions := sessions classData ++ [s] |}.

Definition grouped (groupingOption : string)
  (data : list Session1.SessionData) : JS.obj GroupedClassData :=
  groupBy (groupKey groupingOption) (fun _ => false) newGroup addSession data.

Definition enrich (classData : GroupedClassData) : GroupedClassData :=
  {| uniqueId1 := uniqueId1 classData;
     className := className classData;
     dayOfWeek := dayOfWeek classData;
     time := time classData;
     location := location classData;
     totalSessions := totalSessions classData;
     emptySessions := emptySessions classData;
     nonEmptySessions := nonEmptySessions classData;
     totalCheckedIn := totalCheckedIn classData;
     totalLateCancelled := totalLateCancelled classData;
     totalBooked := totalBooked classData;
     totalCapacity := totalCapacity classData;
     totalRevenue := totalRevenue classData;
     classAvgWithEmpty :=
       guardedRatio (totalCheckedIn classData) (totalSessions classData);
     classAvgWithoutEmpty :=
       guardedRatio (totalCheckedIn classData) (nonEmptySessions classData);
     fillRate :=
       guardedPercent (totalCheckedIn classData) (totalCapacity classData);
     cancellationRate :=
       guardedPercent (totalLateCancelled classData) (totalBooked classData);
     showUpRate :=
       guardedPercent (totalCheckedIn classData) (totalBooked classData);
     utilizationRate :=
       guardedPercent (totalSessions classData - emptySessions classData)
         (totalSessions classData);
     revenuePerSession :=
       guardedRatio (totalRevenue classData) (totalSessions classData);
     revenuePerAttendee :=
       guardedRatio (totalRevenue classData) (totalCheckedIn classData);
     sessions := sessions classData |}.

Definition enrichedData (groupingOption : string)
  (data : list Session1.SessionData) (minSessions : Q)
  : list GroupedClassData :=
  map enrich
    (filter (fun classData => Qle_bool minSessions (totalSessions classData))
       (JS.values (grouped groupingOption data))).

(** [compare] stands for the comparator built from [rankingCriteria] and
    [sortDirection]. *)
Definition processedData
  (compare : GroupedClassData -> GroupedClassData -> bool)
  (groupingOption : string) (data : list Session1.SessionData)
  (minSessions : Q) : list GroupedClassData :=
  match data with
  | [] => []
  | _ => JS.sortBy compare (enrichedData groupingOption data minSessions)
  end.

End EnhancedClassPerformanceRankingTable.

Module ECR := EnhancedClassPerformanceRankingTable.

(** ** PowerCycleBarreStrengthTopBottomLists

    The component shares a file with MultiMetricMonthlyTrendsTable.tsx.
    Its ninth list, [topByUtilization], reads a field that a
    [ProcessedTrainerData] does not have, and is left out. *)

Module PowerCycleBarreStrengthTopBottomLists.

Record Rankings : Type := {
  topByRevenue : list TDP.ProcessedTrainerData;
  bottomByRevenue : list TDP.ProcessedTrainerData;
  topBySessions : list TDP.ProcessedTrainerData;
  topByPowerCycle : list TDP.ProcessedTrainerData;
  topByBarre : list TDP.ProcessedTrainerData;
  topByStrength : list TDP.ProcessedTrainerData;
  topByConversion : list TDP.ProcessedTrainerData;
  topByRetention : list TDP.ProcessedTrainerData
}.

(** The comparators [(a, b) => b.f - a.f] and [(a, b) => a.f - b.f]. *)
Definition descending (f : TDP.ProcessedTrainerData -> Q)
  (a b : TDP.ProcessedTrainerData) : bool :=
  Qle_bool (f b - f a) 0.

Definition ascending (f : TDP.ProcessedTrainerData -> Q)
  (a b : TDP.ProcessedTrainerData) : bool :=
  Qle_bool (f a - f b) 0.

Definition rankings (data : list TDP.ProcessedTrainerData) : Rankings :=
  {| topByRevenue :=
       slice (JS.sortBy (descending TDP.totalPaid) data) 0 5;
     bottomByRevenue :=
       slice
         (JS.sortBy (ascending TDP.totalPaid)
            (filter (fun t => JS.gt0 (TDP.totalPaid t)) data)) 0 5;
     topBySessions :=
       slice (JS.sortBy (descending TDP.totalSessions) data) 0 5;
     topByPowerCycle :=
       slice
         (JS.sortBy (descending TDP.cycleRevenue)
            (filter (fun t => JS.gt0 (TDP.cycleRevenue t)) data)) 0 5;
     topByBarre :=
       slice
         (JS.sortBy (descending TDP.barreRevenue)
            (filter (fun t => JS.gt0 (TDP.barreRevenue t)) data)) 0 5;
     topByStrength :=
       slice
         (JS.sortBy (descending TDP.strengthRevenue)
            (filter (fun t => JS.gt0 (TDP.strengthRevenue t)) data)) 0 5;
     topByConversion :=
       slice
         (JS.sortBy (descending TDP.conversionRate)
            (filter (fun t => JS.gt0 (TDP.conversionRate t)) data)) 0 5;
     topByRetention :=
       slice
         (JS.sortBy (descending TDP.retentionRate)
            (filter (fun t => JS.gt0 (TDP.retentionRate t)) data)) 0 5 |}.

End PowerCycleBarreStrengthTopBottomLists.

Module TBL := PowerCycleBarreStrengthTopBottomLists.

(** [shown] lists the five best of [eligible], or all of them when they
    are fewer, best first: no element left out is better than one
    shown. *)
Definition bestFive {A : Type} (noWorse : A -> A -> Prop)
  (eligible shown : list A) : Prop :=
  List.length shown = Nat.min 5 (List.length eligible) /\
  incl shown eligible /\
  StronglySorted noWorse shown /\
  (forall a b, In a shown -> In b eligible -> ~ In b shown -> noWorse a b).

(** The trainers with a positive value of a field. *)
Definition withPositive (f : TDP.ProcessedTrainerData -> Q)
  (data : list TDP.ProcessedTrainerData) : list TDP.ProcessedTrainerData :=
  filter (fun t => JS.gt0 (f t)) data.

(** ** ClientConversionMetricCards

    The component shares a file with ClassPerformanceRankingTable.tsx. *)

Module ClientConversionMetricCards.

Record Metrics : Type := {
  totalClients : Q;
  newMembers : Q;
  convertedMembers : Q;
  retainedMembers : Q;
  trialsCompleted : Q;
  leadToTrialConversion : JS.number;
  trialToMemberConversion : JS.number;
  overallConversionRate : JS.number;
  retentionRate : JS.number;
  totalLTV : Q;
  avgLTV : JS.number;
  avgConversionTime : JS.number
}.

Definition metrics (data : list NewClientData) : Metrics :=
  let totalClients := ofNat (List.length data) in
  let newMembers :=
    ofNat (List.length
             (filter
                (fun client =>
                   let isNewValue := JS.orStr (Client.isNew client) "" in
                   JS.includes "New" isNewValue)
                data)) in
  let convertedMembers :=
    ofNat (List.length
             (filter
                (fun client =>
                   JS.strictEq (Client.conversionStatus client)
                     (Some "Converted"))
                data)) in
  let retainedMembers :=
    ofNat (List.length
             (filter
                (fun client =>
                   JS.strictEq (Client.retentionStatus client)
                     (Some "Retained"))
                data)) in
  let trialsCompleted := newMembers in
  let totalLTV :=
    fold_left (fun sum client => sum + JS.orZero (Client.ltv client)) data 0 in
  {| totalClients := totalClients;
     newMembers := newMembers;
     convertedMembers := convertedMembers;
     retainedMembers := retainedMembers;
     trialsCompleted := trialsCompleted;
     leadToTrialConversion := guardedPercent trialsCompleted totalClients;
     trialToMemberConversion :=
       guardedPercent convertedMembers trialsCompleted;
     overallConversionRate := guardedPercent convertedMembers newMembers;
     retentionRate := guardedPercent retainedMembers convertedMembers;
     totalLTV := totalLTV;
     avgLTV := guardedRatio totalLTV totalClients;
     avgConversionTime :=
       if (0 <? List.length data)%nat
       then JS.div
              (fold_left
                 (fun sum client =>
                    sum + JS.orZero (Client.conversionSpan client)) data 0)
              (ofNat (List.length data))
       else JS.Finite 0 |}.

End ClientConversionMetricCards.

Module CCM := ClientConversionMetricCards.

(** ** PowerCycleBarreStrengthComparison: [getWinner]

    The component shares a file with
    ImprovedClassAttendancePayrollTable.tsx.  [lowerIsBetter] is [None]
    when the metric does not set it, and the parameter then takes its
    default. *)

Module PowerCycleBarreStrengthComparison.

Definition getWinner (pcValue barreValue strengthValue : Q)
  (lowerIsBetter : option bool) : string :=
  let lowerIsBetter :=
    match lowerIsBetter with Some b => b | None => false end in
  if Qle_bool barreValue pcValue && Qle_bool strengthValue pcValue
  then "powercycle"
  else if Qle_bool strengthValue barreValue then "barre"
  else "strength".

End PowerCycleBarreStrengthComparison.

(** ** The class tables and [processTrainerData] on doubles

    The same code, with the numbers as IEEE 754 binary64 values: sums
    round, a quotient can overflow to an infinity, and [NaN] compares
    false with everything.  [None] in a numeric field stands for
    [undefined] and [null].  The reduce fails on a class that names a
    property inherited from [Object.prototype]. *)

Module Double.

Local Open Scope float_scope.

(** [x || 0]: [undefined], [null], [NaN] and the two zeros give [0]. *)
Definition orZero (x : option float) : float :=
  match x with
  | Some v => if is_nan v || (v =? 0) then 0 else v
  | None => 0
  end.

(** [den > 0 ? num / den : 0] and [den > 0 ? (num / den) * 100 : 0]. *)
Definition guardedRatio (num den : float) : float :=
  if 0 <? den then num / den else 0.

Definition guardedPercent (num den : float) : float :=
  if 0 <? den then num / den * 100 else 0.

(** A sum as a reduce computes it: from [0], left to right. *)
Definition sum (l : list float) : float := fold_left add l 0.

(** The rows of a computation: none when it fails. *)
Definition rowsOf {A : Type} (result : option (list A)) : list A :=
  match result with
  | Some rows => rows
  | None => []
  end.

Module Payroll.
Record PayrollData : Type := {
  teacherId : option string;
  teacherName : option string;
  teacherEmail : option string;
  location : option string;
  monthYear : option string;
  totalSessions : option float;
  totalEmptySessions : option float;
  totalNonEmptySessions : option float;
  totalCustomers : option float;
  totalPaid : option float;
  cycleSessions : option float;
  emptyCycleSessions : option float;
  nonEmptyCycleSessions : option float;
  cycleCustomers : option float;
  cyclePaid : option float;
  barreSessions : option float;
  emptyBarreSessions : option float;
  nonEmptyBarreSessions : option float;
  barreCustomers : option float;
  barrePaid : option float;
  (** [Number(record.conversion)] and [Number(record.retention)] *)
  conversion : option float;
  retention : option float;
  converted : option float;
  retained : option float;
  unique : option string
}.
End Payroll.
Abbreviation PayrollData := Payroll.PayrollData.

Module Session.
Record SessionData : Type := {
  cleanedClass : option string;
  classType : option string;
  trainerName : option string;
  location : option string;
  dayOfWeek : option string;
  time : option string;
  date : string;
  capacity : option float;
  checkedInCount : option float;
  bookedCount : option float;
  lateCancelledCount : option float;
  totalPaid : option float
}.
End Session.
Abbreviation SessionData := Session.SessionData.

Module TrainerDataProcessor.

Record ProcessedTrainerData : Type := {
  trainerId : option string;
  trainerName : option string;
  trainerEmail : option string;
  location : option string;
  monthYear : string;
  totalSessions : float;
  emptySessions : float;
  nonEmptySessions : float;
  totalCustomers : float;
  totalPaid : float;
  cycleSessions : float;
  emptyCycleSessions : float;
  nonEmptyCycleSessions : float;
  cycleCustomers : float;
  cycleRevenue : float;
  strengthSessions : float;
  emptyStrengthSessions : float;
  nonEmptyStrengthSessions : float;
  strengthCustomers : float;
  strengthRevenue : float;
  barreSessions : float;
  emptyBarreSessions : float;
  nonEmptyBarreSessions : float;
  barreCustomers : float;
  barreRevenue : float;
  classAverageExclEmpty : float;
  classAverageInclEmpty : float;
  conversion : float;
  retention : float;
  uniqueKey : string;
  newMembers : float;
  convertedMembers : float;
  retainedMembers : float;
  conversionRate : float;
  retentionRate : float
}.

(** The body of the [map] callback of [processTrainerData]. *)
Definition processRecord (record : PayrollData) : ProcessedTrainerData :=
  let totalSessions := orZero (Payroll.totalSessions record) in
  let emptySessions := orZero (Payroll.totalEmptySessions record) in
  let nonEmptySessions := orZero (Payroll.totalNonEmptySessions record) in
  let totalCustomers := orZero (Payroll.totalCustomers record) in
  let totalPaid := orZero (Payroll.totalPaid record) in
  let classAverageExclEmpty :=
    if 0 <? nonEmptySessions then totalCustomers / nonEmptySessions else 0 in
  let classAverageInclEmpty :=
    if 0 <? totalSessions then totalCustomers / totalSessions else 0 in
  let conversionRate := orZero (Payroll.conversion record) in
  let retentionRate := orZero (Payroll.retention record) in
  {| trainerId := Payroll.teacherId record;
     trainerName := Payroll.teacherName record;
     trainerEmail := Payroll.teacherEmail record;
     location := Payroll.location record;
     monthYear := JS.orStr (Payroll.monthYear record) "";
     totalSessions := totalSessions;
     emptySessions := emptySessions;
     nonEmptySessions := nonEmptySessions;
     totalCustomers := totalCustomers;
     totalPaid := totalPaid;
     cycleSessions := orZero (Payroll.cycleSessions record);
     emptyCycleSessions := orZero (Payroll.emptyCycleSessions record);
     nonEmptyCycleSessions := orZero (Payroll.nonEmptyCycleSessions record);
     cycleCustomers := orZero (Payroll.cycleCustomers record);
     cycleRevenue := orZero (Payroll.cyclePaid record);
     strengthSessions := 0;
     emptyStrengthSessions := 0;
     nonEmptyStrengthSessions := 0;
     strengthCustomers := 0;
     strengthRevenue := 0;
     barreSessions := orZero (Payroll.barreSessions record);
     emptyBarreSessions := orZero (Payroll.emptyBarreSessions record);
     nonEmptyBarreSessions := orZero (Payroll.nonEmptyBarreSessions record);
     barreCustomers := orZero (Payroll.barreCustomers record);
     barreRevenue := orZero (Payroll.barrePaid record);
     classAverageExclEmpty := classAverageExclEmpty;
     classAverageInclEmpty := classAverageInclEmpty;
     conversion := orZero (Payroll.converted record);
     retention := orZero (Payroll.retained record);
     uniqueKey := JS.orStr (Payroll.unique record) "";
     newMembers := 0;
     convertedMembers := orZero (Payroll.converted record);
     retainedMembers := orZero (Payroll.retained record);
     conversionRate := conversionRate;
     retentionRate := retentionRate |}.

Definition processTrainerData (payrollData : list PayrollData)
  : list ProcessedTrainerData :=
  map processRecord payrollData.

End TrainerDataProcessor.

Module EnhancedClassFormatPerformanceTable.

Record ClassFormatData : Type := {
  classFormat : string;
  totalSessions : float;
  emptySessions : float;
  nonEmptySessions : float;
  totalCheckedIn : float;
  totalLateCancelled : float;
  totalBooked : float;
  totalCapacity : float;
  totalRevenue : float;
  revenueGeneratingSessions : float;
  avgClassSize : float;
  avgRevenue : float;
  fillRate : float;
  showUpRate : float;
  utilizationRate : float;
  cancellationRate : float;
  revenueEfficiency : float;
  revenuePerAttendee : float;
  emptySessionRate : float;
  sessions : list SessionData
}.

(** [session.cleanedClass || session.classType || 'Unknown'] *)
Definition classFormatOf (session : SessionData) : string :=
  JS.orStr (Session.cleanedClass session)
    (JS.orStr (Session.classType session) "Unknown").

(** [classFormat.toLowerCase().includes('hosted')] *)
Definition isHosted (session : SessionData) : bool :=
  JS.includes "hosted" (JS.toLowerCase (classFormatOf session)).

Definition newGroup (session : SessionData) : ClassFormatData :=
  {| classFormat := classFormatOf session;
     totalSessions := 0; emptySessions := 0; nonEmptySessions := 0;
     totalCheckedIn := 0; totalLateCancelled := 0; totalBooked := 0;
     totalCapacity := 0; totalRevenue := 0; revenueGeneratingSessions := 0;
     avgClassSize := 0; avgRevenue := 0; fillRate := 0; showUpRate := 0;
     utilizationRate := 0; cancellationRate := 0; revenueEfficiency := 0;
     revenuePerAttendee := 0; emptySessionRate := 0;
     sessions := [] |}.

Definition addSession (classData : ClassFormatData) (session : SessionData)
  : ClassFormatData :=
  let isEmpty := orZero (Session.checkedInCount session) =? 0 in
  {| classFormat := classFormat classData;
     totalSessions := totalSessions classData + 1;
     emptySessions :=
       if isEmpty then emptySessions classData + 1
       else emptySessions classData;
     nonEmptySessions :=
       if isEmpty then nonEmptySessions classData
       else nonEmptySessions classData + 1;
     totalCheckedIn :=
       totalCheckedIn classData + orZero (Session.checkedInCount session);
     totalLateCancelled :=
       totalLateCancelled classData
       + orZero (Session.lateCancelledCount session);
     totalBooked :=
       totalBooked classData + orZero (Session.bookedCount session);
     totalCapacity :=
       totalCapacity classData + orZero (Session.capacity session);
     totalRevenue :=
       totalRevenue classData + orZero (Session.totalPaid session);
     revenueGeneratingSessions :=
       if 0 <? orZero (Session.totalPaid session)
       then revenueGeneratingSessions classData + 1
       else revenueGeneratingSessions classData;
     avgClassSize := avgClassSize classData;
     avgRevenue := avgRevenue classData;
     fillRate := fillRate classData;
     showUpRate := showUpRate classData;
     utilizationRate := utilizationRate classData;
     cancellationRate := cancellationRate classData;
     revenueEfficiency := revenueEfficiency classData;
     revenuePerAttendee := revenuePerAttendee classData;
     emptySessionRate := emptySessionRate classData;
     sessions := (sessions classData ++ [session])%list |}.

Definition grouped (data : list SessionData)
  : option (JS.obj ClassFormatData) :=
  groupByOrThrow classFormatOf isHosted newGroup addSession data.

(** The [map] callback that fills in the derived fields. *)
Definition enrich (classData : ClassFormatData) : ClassFormatData :=
  {| classFormat := classFormat classData;
     totalSessions := totalSessions classData;
     emptySessions := emptySessions classData;
     nonEmptySessions := nonEmptySessions classData;
     totalCheckedIn := totalCheckedIn classData;
     totalLateCancelled := totalLateCancelled classData;
     totalBooked := totalBooked classData;
     totalCapacity := totalCapacity classData;
     totalRevenue := totalRevenue classData;
     revenueGeneratingSessions := revenueGeneratingSessions classData;
     avgClassSize :=
       guardedRatio (totalCheckedIn classData) (totalSessions classData);
     avgRevenue :=
       guardedRatio (totalRevenue classData) (totalSessions classData);
     fillRate :=
       guardedPercent (totalCheckedIn classData) (totalCapacity classData);
     showUpRate :=
       guardedPercent (totalCheckedIn classData) (totalBooked classData);
     utilizationRate :=
       guardedPercent (totalSessions classData - emptySessions classData)
         (totalSessions classData);
     cancellationRate :=
       guardedPercent (totalLateCancelled classData) (totalBooked classData);
     revenueEfficiency :=
       guardedPercent (revenueGeneratingSessions classData)
         (totalSessions classData);
     revenuePerAttendee :=
       guardedRatio (totalRevenue classData) (totalCheckedIn classData);
     emptySessionRate :=
       guardedPercent (emptySessions classData) (totalSessions classData);
     sessions := sessions classData |}.

Definition enrichedData (grouped : JS.obj ClassFormatData)
  (minSessions : float) : list ClassFormatData :=
  map enrich
    (filter (fun classData => minSessions <=? totalSessions classData)
       (JS.values grouped)).

Definition filteredData (viewFilter : string)
  (enrichedData : list ClassFormatData) : list ClassFormatData :=
  if String.eqb viewFilter "high-performing" then
    filter (fun d => (70 <=? fillRate d) && (80 <=? utilizationRate d))
      enrichedData
  else if String.eqb viewFilter "needs-attention" then
    filter (fun d => (fillRate d <? 50) || (30 <? emptySessionRate d))
      enrichedData
  else if String.eqb viewFilter "revenue-generators" then
    filter (fun d => 80 <=? revenueEfficiency d) enrichedData
  else enrichedData.

(** [compare] stands for the comparator built from [sortBy] and
    [sortDirection]. *)
Definition processedData (compare : ClassFormatData -> ClassFormatData -> bool)
  (data : list SessionData) (minSessions : float) (viewFilter : string)
  : option (list ClassFormatData) :=
  match data with
  | [] => Some []
  | _ =>
      match grouped data with
      | Some grouped =>
          Some (JS.sortBy compare
                  (filteredData viewFilter (enrichedData grouped minSessions)))
      | None => None
      end
  end.

End EnhancedClassFormatPerformanceTable.

Module ClassPerformanceRankingTable.

Record ClassData : Type := {
  classType : string;
  totalSessions : float;
  totalCapacity : float;
  totalCheckedIn : float;
  totalRevenue : float;
  totalBooked : float;
  emptySessionsCount : float;
  revenueGeneratingSessions : float;
  sessions : list SessionData
}.

Definition classTypeOf (session : SessionData) : string :=
  JS.orStr (Session.cleanedClass session)
    (JS.orStr (Session.classType session) "Unknown").

Definition isHosted (session : SessionData) : bool :=
  JS.includes "hosted" (JS.toLowerCase (classTypeOf session)).

Definition newGroup (session : SessionData) : ClassData :=
  {| classType := classTypeOf session;
     totalSessions := 0; totalCapacity := 0; totalCheckedIn := 0;
     totalRevenue := 0; totalBooked := 0; emptySessionsCount := 0;
     revenueGeneratingSessions := 0; sessions := [] |}.

Definition addSession (c : ClassData) (session : SessionData) : ClassData :=
  {| classType := classType c;
     totalSessions := totalSessions c + 1;
     totalCapacity := totalCapacity c + orZero (Session.capacity session);
     totalCheckedIn :=
       totalCheckedIn c + orZero (Session.checkedInCount session);
     totalRevenue := totalRevenue c + orZero (Session.totalPaid session);
     totalBooked := totalBooked c + orZero (Session.bookedCount session);
     emptySessionsCount :=
       if orZero (Session.checkedInCount session) =? 0
       then emptySessionsCount c + 1 else emptySessionsCount c;
     revenueGeneratingSessions :=
       if 0 <? orZero (Session.totalPaid session)
       then revenueGeneratingSessions c + 1
       else revenueGeneratingSessions c;
     sessions := (sessions c ++ [session])%list |}.

Definition grouped (data : list SessionData) : option (JS.obj ClassData) :=
  groupByOrThrow classTypeOf isHosted newGroup addSession data.

End ClassPerformanceRankingTable.

Module ECF := EnhancedClassFormatPerformanceTable.
Module CPR := ClassPerformanceRankingTable.
Module TDP := TrainerDataProcessor.

(** What the reduce of the class-format table accumulates in a group. *)
Definition ECF_accumulated (own : list SessionData)
  (g : ECF.ClassFormatData) : Prop :=
  ECF.sessions g = own /\
  ECF.totalSessions g = fold_left (fun n _ => n + 1) own 0 /\
  ECF.totalCheckedIn g =
    sum (map (fun s => orZero (Session.checkedInCount s)) own) /\
  ECF.totalRevenue g = sum (map (fun s => orZero (Session.totalPaid s)) own) /\
  ECF.totalCapacity g = sum (map (fun s => orZero (Session.capacity s)) own) /\
  ECF.totalBooked g = sum (map (fun s => orZero (Session.bookedCount s)) own).

Definition CPR_accumulated (own : list SessionData) (g : CPR.ClassData)
  : Prop :=
  CPR.sessions g = own /\
  CPR.totalSessions g = fold_left (fun n _ => n + 1) own 0 /\
  CPR.totalCheckedIn g =
    sum (map (fun s => orZero (Session.checkedInCount s)) own) /\
  CPR.totalRevenue g = sum (map (fun s => orZero (Session.totalPaid s)) own) /\
  CPR.totalCapacity g = sum (map (fun s => orZero (Session.capacity s)) own) /\
  CPR.totalBooked g = sum (map (fun s => orZero (Session.bookedCount s)) own).

(** A ratio field behind its guard: the quotient when the denominator is
    greater than [0], and [0] when it is not, as when it is [0]. *)
Definition guardedBy (den quotient field : float) : Prop :=
  ((0 <? den) = true -> field = quotient) /\
  ((0 <? den) = false -> field = 0) /\
  ((den =? 0) = true -> field = 0).

Module Sample.

Definition session (class : string) (cap checkedIn booked late paid : float)
  : SessionData :=
  {| Session.cleanedClass := Some class;
     Session.classType := None;
     Session.trainerName := Some "Asha";
     Session.location := Some "Kenkere House";
     Session.dayOfWeek := Some "Monday";
     Session.time := Some "09:00";
     Session.date := "2024-01-08";
     Session.capacity := Some cap;
     Session.checkedInCount := Some checkedIn;
     Session.bookedCount := Some booked;
     Session.lateCancelledCount := Some late;
     Session.totalPaid := Some paid |}.

Definition payroll (teacher month : string)
  (sessions empty nonEmpty customers paid : float) : PayrollData :=
  {| Payroll.teacherId := Some "t1";
     Payroll.teacherName := Some teacher;
     Payroll.teacherEmail := None;
     Payroll.location := Some "Kenkere House";
     Payroll.monthYear := Some month;
     Payroll.totalSessions := Some sessions;
     Payroll.totalEmptySessions := Some empty;
     Payroll.totalNonEmptySessions := Some nonEmpty;
     Payroll.totalCustomers := Some customers;
     Payroll.totalPaid := Some paid;
     Payroll.cycleSessions := None;
     Payroll.emptyCycleSessions := None;
     Payroll.nonEmptyCycleSessions := None;
     Payroll.cycleCustomers := None;
     Payroll.cyclePaid := Some paid;
     Payroll.barreSessions := None;
     Payroll.emptyBarreSessions := None;
     Payroll.nonEmptyBarreSessions := None;
     Payroll.barreCustomers := None;
     Payroll.barrePaid := None;
     Payroll.conversion := None;
     Payroll.retention := None;
     Payroll.converted := None;
     Payroll.retained := None;
     Payroll.unique := None |}.

End Sample.

End Double.

(** ** The two tables whose threshold the specification cites, with the
    failing reduce *)

Definition ECF_processedDataOrThrow
  (compare : ECF.ClassFormatData -> ECF.ClassFormatData -> bool)
  (data : list SessionData) (minSessions : Q) (viewFilter : string)
  : option (list ECF.ClassFormatData) :=
  match data with
  | [] => Some []
  | _ =>
      match groupByOrThrow ECF.classFormatOf ECF.isHosted ECF.newGroup
              ECF.addSession data with
      | Some grouped =>
          Some (JS.sortBy compare
                  (ECF.filteredData viewFilter
                     (map ECF.enrich
                        (filter
                           (fun classData =>
                              Qle_bool minSessions
                                (ECF.totalSessions classData))
                           (JS.values grouped)))))
      | None => None
      end
  end.

Definition MoM_processedDataOrThrow (monthKeyOf : string -> string)
  (compare : MoM.MonthlyTrendData -> MoM.MonthlyTrendData -> bool)
  (activeTrendView : string) (data : list SessionData) (minSessions : Q)
  : option (list MoM.MonthlyTrendData) :=
  match data with
  | [] => Some []
  | _ =>
      match groupByOrThrow (MoM.dimensionKey activeTrendView)
              (fun _ => false)
              (MoM.newTrend activeTrendView (MoM.sortedMonths monthKeyOf data))
              (MoM.addSession monthKeyOf) data with
      | Some trendMap =>
          Some (JS.sortBy compare
                  (filter
                     (fun trend =>
                        Qle_bool minSessions
                          (MoM.sessions (MoM.totalValues trend)))
                     (map (MoM.derive (MoM.sortedMonths monthKeyOf data))
                        (JS.values trendMap))))
      | None => None
      end
  end.

(** A rate behind the guard of its denominator: [0] when the denominator
    is not greater than [0], and otherwise the quotient times [100], as it
    comes, without a clamp. *)
Definition guardedRate (num den : Q) (rate : JS.number) : Prop :=
  rate = guardedPercent num den /\
  (den <= 0 -> rate = JS.Finite 0) /\
  (0 < den -> rate = JS.times (JS.div num den) 100).

(** ** Month labels

    The year-on-year table expects the label of a month to be a name
    without a hyphen, a hyphen and a year of four digits, as in
    ["Feb-2024"]; the calendar year of such a label is its last four
    characters. *)
Definition isDigit (c : ascii) : bool :=
  let n := nat_of_ascii c in (48 <=? n)%nat && (n <=? 57)%nat.

Definition isYear (s : string) : bool :=
  (String.length s =? 4)%nat && forallb isDigit (list_ascii_of_string s).

Fixpoint isMonthLabel (s : string) : bool :=
  match s with
  | EmptyString => false
  | String c t => if Ascii.eqb c "-" then isYear t else isMonthLabel t
  end.

Definition calendarYear (monthYear : string) : string :=
  String.substring (String.length monthYear - 4) 4 monthYear.

(** The distinct calendar years of a trainer-and-location key, and the
    rows of the key in one calendar year. *)
Definition calendarYears (k : string) (data : list TDP.ProcessedTrainerData)
  : list string :=
  nodup string_dec
    (map (fun row => calendarYear (TDP.monthYear row))
       (members YoY.keyOf (fun _ => false) k data)).

Definition rowsOfCalendarYear (k year : string)
  (data : list TDP.ProcessedTrainerData) : list TDP.ProcessedTrainerData :=
  filter (fun row => String.eqb (calendarYear (TDP.monthYear row)) year)
    (members YoY.keyOf (fun _ => false) k data).

(** The key of the records that a row of the payroll table totals. *)
Definition ICP_keyOfRow (row : ICP.ProcessedPayrollData) : string :=
  JS.show (ICP.location row) ++ "-"
    ++ JS.show (ICP.teacherName row) ++ "-"
    ++ JS.show (ICP.monthYear row).

(** ** The [Date] arithmetic of the payroll table on any runtime

    [new Date(item.monthYear + '-01')] reads the date-only string as
    midnight UTC, while [getMonth], [setMonth] and [getFullYear] work in
    local time: on a runtime west of UTC that midnight is still the last
    day of the month before.  [setMonth(getMonth() - 1)] keeps the day of
    the month, and a day that the month before does not have runs over
    into the month that follows it.  As in [UTC], the strings are the ISO
    dates [YYYY-MM-DD]; a year is at least 1. *)

Module Runtime.

Definition isLeapYear (y : nat) : bool :=
  ((y mod 4 =? 0) && negb (y mod 100 =? 0) || (y mod 400 =? 0))%nat.

Definition daysInMonth (y m : nat) : nat :=
  match m with
  | 2%nat => if isLeapYear y then 29%nat else 28%nat
  | 4%nat | 6%nat | 9%nat | 11%nat => 30%nat
  | _ => 31%nat
  end.

Definition monthBefore (ym : nat * nat) : nat * nat :=
  let (y, m) := ym in
  if (m =? 1)%nat then (y - 1, 12)%nat else (y, m - 1)%nat.

Definition monthAfter (ym : nat * nat) : nat * nat :=
  let (y, m) := ym in
  if (m =? 12)%nat then (y + 1, 1)%nat else (y, m + 1)%nat.

(** The local month and day at midnight UTC of the first of a month. *)
Definition localDate (west : bool) (ym : nat * nat) : (nat * nat) * nat :=
  if west then
    let before := monthBefore ym in
    (before, daysInMonth (fst before) (snd before))
  else (ym, 1%nat).

(** [date.setMonth(date.getMonth() - 1)] *)
Definition setMonthBack (date : (nat * nat) * nat) : (nat * nat) * nat :=
  let (ym, day) := date in
  let target := monthBefore ym in
  let days := daysInMonth (fst target) (snd target) in
  if (day <=? days)%nat then (target, day)
  else (monthAfter target, (day - days)%nat).

(** The strings that the arithmetic is modelled for: the first of a month
    as an ISO date, [YYYY-MM-01]. *)
Definition isFirstOfMonth (date : string) : bool :=
  match list_ascii_of_string date with
  | [y1; y2; y3; y4; h1; m1; m2; h2; d1; d2] =>
      forallb isDigit [y1; y2; y3; y4; m1; m2]
      && Ascii.eqb h1 "-" && Ascii.eqb h2 "-"
      && Ascii.eqb d1 "0" && Ascii.eqb d2 "1"
  | _ => false
  end.

Definition prevMonthKeyOf (west : bool) (date : string) : string :=
  UTC.formatKey
    (option_map (fun ym => fst (setMonthBack (localDate west ym)))
       (UTC.yearMonth date)).

End Runtime.

(** The months whose row a runtime west of UTC compares with the
    calendar month before: those that follow a month longer than the
    one before it. *)
Definition westComparesMonthBefore (m : nat) : bool :=
  existsb (Nat.eqb m) [1; 4; 6; 8; 11]%nat.


(* ================================================================== *)
(** * Part II: properties *)
(* ================================================================== *)

(** ** Objects *)

Section Objects.

Context {V : Type}.
Implicit Types (o : JS.obj V) (k : string) (v : V).

Lemma get_set_same o k v : JS.get (JS.set o k v) k = Some v.
Proof.
  induction o as [|[k' v'] t IH]; simpl.
  - now rewrite String.eqb_refl.
  - destruct (String.eqb k' k) eqn:E; simpl.
    + now rewrite String.eqb_refl.
    + now rewrite E.
Qed.

Lemma get_set_other o k k' v : k <> k' -> JS.get (JS.set o k v) k' = JS.get o k'.
Proof.
  intros Hne.
  induction o as [|[k0 v0] t IH]; simpl.
  - destruct (String.eqb_spec k k'); [contradiction | reflexivity].
  - destruct (String.eqb_spec k0 k) as [->|Hk]; simpl.
    + destruct (String.eqb_spec k k'); [contradiction | reflexivity].
    + destruct (String.eqb_spec k0 k'); [reflexivity | exact IH].
Qed.

Lemma get_None_keys o k : JS.get o k = None <-> ~ In k (JS.keys o).
Proof.
  induction o as [|[k0 v0] t IH]; simpl.
  - tauto.
  - destruct (String.eqb_spec k0 k) as [->|Hk].
    + split; [discriminate | tauto].
    + rewrite IH. tauto.
Qed.

Lemma get_Some_In o k v : JS.get o k = Some v -> In (k, v) o.
Proof.
  induction o as [|[k0 v0] t IH]; simpl; [discriminate|].
  destruct (String.eqb_spec k0 k) as [->|Hk].
  - intros [= ->]. now left.
  - intros H. right. now apply IH.
Qed.

Lemma In_get_Some o k v : NoDup (JS.keys o) -> In (k, v) o -> JS.get o k = Some v.
Proof.
  induction o as [|[k0 v0] t IH]; simpl; [tauto|].
  intros Hnd [[= -> ->]|Hin].
  - now rewrite String.eqb_refl.
  - inversion Hnd as [|? ? Hnotin Hnd']; subst.
    destruct (String.eqb_spec k0 k) as [->|Hk].
    + exfalso. apply Hnotin. change (In (fst (k, v)) (map fst t)).
      now apply in_map.
    + now apply IH.
Qed.

Lemma keys_set o k v :
  JS.keys (JS.set o k v) =
  match JS.get o k with
  | Some _ => JS.keys o
  | None => (JS.keys o ++ [k])%list
  end.
Proof.
  induction o as [|[k0 v0] t IH]; simpl; [reflexivity|].
  destruct (String.eqb_spec k0 k) as [->|Hk]; simpl; [reflexivity|].
  rewrite IH. now destruct (JS.get t k).
Qed.

Lemma NoDup_keys_set o k v : NoDup (JS.keys o) -> NoDup (JS.keys (JS.set o k v)).
Proof.
  intros Hnd. rewrite keys_set.
  destruct (JS.get o k) eqn:E; [exact Hnd|].
  apply get_None_keys in E.
  apply NoDup_rev in Hnd. rewrite <- (rev_involutive (_ ++ _)%list).
  apply NoDup_rev. rewrite rev_app_distr. simpl.
  constructor; [|exact Hnd].
  now rewrite <- in_rev.
Qed.

Lemma In_values o v : In v (JS.values o) <-> exists k, In (k, v) o.
Proof.
  unfold JS.values. rewrite in_map_iff. split.
  - intros [[k v'] [<- Hin]]. now exists k.
  - intros [k Hin]. now exists (k, v).
Qed.

Lemma sumQ_app (l1 l2 : list Q) : sumQ (l1 ++ l2) == sumQ l1 + sumQ l2.
Proof.
  induction l1 as [|x l1 IH]; simpl.
  - lra.
  - rewrite IH. lra.
Qed.

Lemma sumQ_values_set (m : V -> Q) o k v :
  sumQ (map m (JS.values (JS.set o k v))) ==
  sumQ (map m (JS.values o))
  - match JS.get o k with Some v0 => m v0 | None => 0 end
  + m v.
Proof.
  induction o as [|[k0 v0] t IH]; simpl.
  - lra.
  - destruct (String.eqb_spec k0 k) as [->|Hk]; simpl.
    + lra.
    + rewrite IH. lra.
Qed.

End Objects.

(** ** Grouping *)

Section Grouping.

Context {R V : Type}.
Variables (key : R -> string) (skip : R -> bool).
Variables (init : R -> V) (step : V -> R -> V).

Let up := upsert key skip init step.

Lemma members_app k (l1 l2 : list R) :
  members key skip k (l1 ++ l2) =
  (members key skip k l1 ++ members key skip k l2)%list.
Proof. apply filter_app. Qed.

Lemma foldGroup_app (start : option V) (l1 l2 : list R) :
  foldGroup init step start (l1 ++ l2) =
  foldGroup init step (foldGroup init step start l1) l2.
Proof.
  destruct l1 as [|r l1]; simpl; [reflexivity|].
  destruct l2 as [|r2 l2]; simpl.
  - now rewrite app_nil_r.
  - now rewrite fold_left_app.
Qed.

Lemma NoDup_keys_fold (data : list R) (acc : JS.obj V) :
  NoDup (JS.keys acc) -> NoDup (JS.keys (fold_left up data acc)).
Proof.
  revert acc. induction data as [|r data IH]; intros acc Hnd; simpl.
  - exact Hnd.
  - apply IH. unfold up, upsert. destruct (skip r); [exact Hnd|].
    now apply NoDup_keys_set.
Qed.

Lemma get_fold (data : list R) (acc : JS.obj V) k :
  JS.get (fold_left up data acc) k =
  foldGroup init step (JS.get acc k) (members key skip k data).
Proof.
  revert acc. induction data as [|r data IH]; intros acc; simpl.
  - reflexivity.
  - rewrite IH. unfold up, upsert.
    destruct (skip r) eqn:Hs; simpl; [reflexivity|].
    destruct (String.eqb_spec (key r) k) as [<-|Hk]; simpl.
    + rewrite get_set_same.
      destruct (members key skip (key r) data) as [|r' rs]; reflexivity.
    + now rewrite get_set_other.
Qed.

(** Each group is the fold of its own records, in their order, started
    from the entry created for the first of them. *)
Lemma get_groupBy (data : list R) k :
  JS.get (groupBy key skip init step data) k =
  foldGroup init step None (members key skip k data).
Proof. exact (get_fold data [] k). Qed.

Lemma NoDup_keys_groupBy (data : list R) :
  NoDup (JS.keys (groupBy key skip init step data)).
Proof. apply (NoDup_keys_fold data []). constructor. Qed.

Lemma In_groupBy (data : list R) k v :
  In (k, v) (groupBy key skip init step data) <->
  exists r rs, members key skip k data = r :: rs /\
               v = fold_left step (r :: rs) (init r).
Proof.
  split.
  - intros Hin. apply In_get_Some in Hin; [|apply NoDup_keys_groupBy].
    rewrite get_groupBy in Hin.
    destruct (members key skip k data) as [|r rs]; [discriminate|].
    exists r, rs. split; [reflexivity|]. simpl in Hin. now inversion Hin.
  - intros (r & rs & Hm & ->). apply get_Some_In.
    rewrite get_groupBy, Hm. reflexivity.
Qed.

(** A skipped record leaves no trace. *)
Lemma groupBy_skip (l1 l2 : list R) (r : R) :
  skip r = true ->
  groupBy key skip init step (l1 ++ r :: l2) =
  groupBy key skip init step (l1 ++ l2).
Proof.
  intros Hs. unfold groupBy. rewrite !fold_left_app. simpl.
  unfold upsert at 2. now rewrite Hs.
Qed.

(** Conservation of an additive accumulator. *)
Section Conservation.

Variables (m : V -> Q) (w : R -> Q).
Hypothesis m_init : forall r, m (init r) == 0.
Hypothesis m_step : forall v r, m (step v r) == m v + w r.

Lemma sum_fold (data : list R) (acc : JS.obj V) :
  sumQ (map m (JS.values (fold_left up data acc))) ==
  sumQ (map m (JS.values acc)) + sumQ (map w (kept skip data)).
Proof.
  revert acc. induction data as [|r data IH]; intros acc; simpl.
  - lra.
  - rewrite IH. unfold up, upsert.
    destruct (skip r) eqn:Hs; simpl; [lra|].
    rewrite sumQ_values_set, m_step.
    destruct (JS.get acc (key r)); [lra|].
    rewrite m_init. lra.
Qed.

Lemma sum_groupBy (data : list R) :
  sumQ (map m (JS.values (groupBy key skip init step data))) ==
  sumQ (map w (kept skip data)).
Proof. pose proof (sum_fold data []) as H. simpl in H. unfold groupBy. fold up. lra. Qed.

Lemma m_fold_left (rs : list R) (v : V) :
  m (fold_left step rs v) == m v + sumQ (map w rs).
Proof.
  revert v. induction rs as [|r rs IH]; intros v; simpl.
  - lra.
  - rewrite IH, m_step. lra.
Qed.

End Conservation.

End Grouping.

(** ** Numbers *)

Lemma gt0_true (q : Q) : JS.gt0 q = true <-> 0 < q.
Proof.
  unfold JS.gt0. rewrite negb_true_iff, <- not_true_iff_false, Qle_bool_iff.
  split; intros H; [now apply Qnot_le_lt | now apply Qlt_not_le].
Qed.

Lemma gt0_false (q : Q) : JS.gt0 q = false <-> q <= 0.
Proof. unfold JS.gt0. now rewrite negb_false_iff, Qle_bool_iff. Qed.

Lemma div_nonzero (a b : Q) : ~ b == 0 -> JS.div a b = JS.Finite (a / b).
Proof.
  intros Hb. unfold JS.div.
  destruct (Qeq_bool b 0) eqn:E; [|reflexivity].
  apply Qeq_bool_iff in E. contradiction.
Qed.

Lemma guardedRatio_pos (a b : Q) :
  0 < b -> guardedRatio a b = JS.Finite (a / b).
Proof.
  intros Hb. unfold guardedRatio.
  rewrite (proj2 (gt0_true b) Hb). apply div_nonzero. lra.
Qed.

Lemma guardedRatio_nonpos (a b : Q) : b <= 0 -> guardedRatio a b = JS.Finite 0.
Proof.
  intros Hb. unfold guardedRatio. now rewrite (proj2 (gt0_false b) Hb).
Qed.

Lemma guardedPercent_pos (a b : Q) :
  0 < b -> guardedPercent a b = JS.Finite (a / b * 100).
Proof.
  intros Hb. unfold guardedPercent.
  rewrite (proj2 (gt0_true b) Hb), div_nonzero by lra. reflexivity.
Qed.

Lemma guardedPercent_nonpos (a b : Q) :
  b <= 0 -> guardedPercent a b = JS.Finite 0.
Proof.
  intros Hb. unfold guardedPercent. now rewrite (proj2 (gt0_false b) Hb).
Qed.

Lemma guardedRatio_safe (a b : Q) : safeRatio (guardedRatio a b) b.
Proof.
  split.
  - destruct (Qlt_le_dec 0 b) as [H|H].
    + now rewrite guardedRatio_pos.
    + now rewrite guardedRatio_nonpos.
  - intros H. apply guardedRatio_nonpos. lra.
Qed.

Lemma guardedPercent_safe (a b : Q) : safeRatio (guardedPercent a b) b.
Proof.
  split.
  - destruct (Qlt_le_dec 0 b) as [H|H].
    + now rewrite guardedPercent_pos.
    + now rewrite guardedPercent_nonpos.
  - intros H. apply guardedPercent_nonpos. lra.
Qed.

Lemma guardedPercent_specDelta (a b : Q) :
  guardedPercent (b - a) a = specDelta a b.
Proof.
  unfold specDelta. destruct (JS.gt0 a) eqn:E.
  - apply guardedPercent_pos. now apply gt0_true.
  - apply guardedPercent_nonpos. now apply gt0_false.
Qed.

Lemma Qdiv_nonneg (a b : Q) : 0 <= a -> 0 < b -> 0 <= a / b.
Proof.
  intros Ha Hb. apply Qle_shift_div_l; [exact Hb|]. lra.
Qed.

Lemma Qdiv_le_one (a b : Q) : a <= b -> 0 < b -> a / b <= 1.
Proof.
  intros Hab Hb. apply Qle_shift_div_r; [exact Hb|]. lra.
Qed.

Lemma guardedPercent_atLeast0 (a b : Q) :
  0 <= a -> atLeast 0 (guardedPercent a b).
Proof.
  intros Ha. destruct (Qlt_le_dec 0 b) as [H|H].
  - rewrite guardedPercent_pos by exact H. eexists. split; [reflexivity|].
    pose proof (Qdiv_nonneg a b Ha H). lra.
  - rewrite guardedPercent_nonpos by exact H. eexists. split; [reflexivity|].
    lra.
Qed.

Lemma guardedPercent_atMost100 (a b : Q) :
  a <= b -> atMost 100 (guardedPercent a b).
Proof.
  intros Hab. destruct (Qlt_le_dec 0 b) as [H|H].
  - rewrite guardedPercent_pos by exact H. eexists. split; [reflexivity|].
    pose proof (Qdiv_le_one a b Hab H). lra.
  - rewrite guardedPercent_nonpos by exact H. eexists. split; [reflexivity|].
    lra.
Qed.

(** ** Sorting *)

Section Sorting.

Context {A : Type}.
Variable le : A -> A -> bool.

Lemma insertSorted_perm (x : A) (l : list A) :
  Permutation (JS.insertSorted le x l) (x :: l).
Proof.
  induction l as [|y t IH]; simpl.
  - apply Permutation_refl.
  - destruct (le x y); [apply Permutation_refl|].
    eapply Permutation_trans; [apply perm_skip, IH | apply perm_swap].
Qed.

Lemma sortBy_perm (l : list A) : Permutation (JS.sortBy le l) l.
Proof.
  induction l as [|x t IH]; simpl.
  - apply Permutation_refl.
  - eapply Permutation_trans; [apply insertSorted_perm | now apply perm_skip].
Qed.

Lemma sortBy_In (l : list A) (x : A) : In x (JS.sortBy le l) <-> In x l.
Proof.
  split; apply Permutation_in;
    [apply sortBy_perm | apply Permutation_sym, sortBy_perm].
Qed.

Lemma sortBy_length (l : list A) : List.length (JS.sortBy le l) = List.length l.
Proof. apply Permutation_length, sortBy_perm. Qed.

Hypothesis le_total : forall a b, le a b = true \/ le b a = true.
Hypothesis le_trans : forall a b c, le a b = true -> le b c = true -> le a c = true.

Lemma insertSorted_sorted (x : A) (l : list A) :
  StronglySorted (fun a b => le a b = true) l ->
  StronglySorted (fun a b => le a b = true) (JS.insertSorted le x l).
Proof.
  induction 1 as [|y t Hs IH Hall]; simpl.
  - constructor; constructor.
  - destruct (le x y) eqn:E.
    + constructor; [now constructor|].
      constructor; [exact E|].
      rewrite Forall_forall in *. intros z Hz. eapply le_trans; eauto.
    + constructor; [exact IH|].
      rewrite Forall_forall in *. intros z Hz.
      apply (Permutation_in _ (insertSorted_perm x t)) in Hz.
      destruct Hz as [<-|Hz]; [|now apply Hall].
      destruct (le_total x y) as [H|H]; [congruence | exact H].
Qed.

Lemma sortBy_sorted (l : list A) :
  StronglySorted (fun a b => le a b = true) (JS.sortBy le l).
Proof.
  induction l as [|x t IH]; simpl.
  - constructor.
  - now apply insertSorted_sorted.
Qed.

End Sorting.

Section SortedEnds.

Context {A : Type}.
Variable le : A -> A -> bool.
Hypothesis le_total : forall a b, le a b = true \/ le b a = true.
Hypothesis le_trans : forall a b c, le a b = true -> le b c = true -> le a c = true.

Lemma StronglySorted_app_cross (R : A -> A -> Prop) (l1 l2 : list A) :
  StronglySorted R (l1 ++ l2) ->
  forall x y, In x l1 -> In y l2 -> R x y.
Proof.
  induction l1 as [|a l1 IH]; simpl; intros Hs x y Hx Hy; [contradiction|].
  inversion Hs as [|? ? Hs' Hall]; subst.
  destruct Hx as [<-|Hx].
  - rewrite Forall_forall in Hall. apply Hall, in_or_app. now right.
  - now apply IH.
Qed.

(** The last and the last but one element of a sorted list without
    duplicates are its greatest and its second greatest element. *)
Lemma sorted_last_two (l : list A) :
  NoDup l -> (2 <= List.length l)%nat ->
  exists c p,
    JS.fromEnd (JS.sortBy le l) 0 = Some c /\
    JS.fromEnd (JS.sortBy le l) 1 = Some p /\
    In c l /\ In p l /\ p <> c /\
    (forall x, In x l -> le x c = true) /\
    (forall x, In x l -> x <> c -> le x p = true).
Proof.
  intros Hnd Hlen.
  pose proof (sortBy_perm le l) as Hperm.
  pose proof (sortBy_sorted le le_total le_trans l) as Hsorted.
  assert (Hnd' : NoDup (JS.sortBy le l))
    by (eapply Permutation_NoDup; [apply Permutation_sym, Hperm | exact Hnd]).
  rewrite <- (sortBy_length le l) in Hlen.
  unfold JS.fromEnd.
  remember (JS.sortBy le l) as s eqn:Es.
  assert (Hrev : s = rev (rev s)) by now rewrite rev_involutive.
  destruct (rev s) as [|c [|p rest]] eqn:Er.
  - rewrite Hrev in Hlen. simpl in Hlen. lia.
  - rewrite Hrev in Hlen. simpl in Hlen. lia.
  - simpl in Hrev. rewrite <- app_assoc in Hrev. simpl in Hrev.
    assert (Hin : forall x, In x l <-> In x (rev rest) \/ x = p \/ x = c).
    { intros x. split.
      - intros Hx. apply (Permutation_in _ (Permutation_sym Hperm)) in Hx.
        rewrite Hrev in Hx. apply in_app_or in Hx.
        destruct Hx as [Hx|[Hx|[Hx|[]]]]; auto.
      - intros Hx. apply (Permutation_in _ Hperm). rewrite Hrev.
        apply in_or_app. destruct Hx as [Hx|[->| ->]]; simpl; auto. }
    assert (Hpc : le p c = true).
    { rewrite Hrev in Hsorted.
      apply (StronglySorted_app_cross (fun a b => le a b = true)
               (rev rest ++ [p]) [c]).
      - now rewrite <- app_assoc.
      - apply in_or_app. right. now left.
      - now left. }
    assert (Hrp : forall x, In x (rev rest) -> le x p = true).
    { intros x Hx. rewrite Hrev in Hsorted.
      apply (StronglySorted_app_cross (fun a b => le a b = true)
               (rev rest) [p; c]); simpl; auto. }
    assert (Hne : p <> c).
    { intros ->. rewrite Hrev in Hnd'.
      apply NoDup_remove_2 in Hnd'. apply Hnd'.
      apply in_or_app. right. now left. }
    exists c, p. simpl. repeat split; auto.
    + apply Hin. auto.
    + apply Hin. auto.
    + intros x Hx. apply Hin in Hx. destruct Hx as [Hx|[->| ->]].
      * eapply le_trans; [now apply Hrp | exact Hpc].
      * exact Hpc.
      * destruct (le_total c c); assumption.
    + intros x Hx Hxc. apply Hin in Hx. destruct Hx as [Hx|[->| ->]].
      * now apply Hrp.
      * destruct (le_total p p); assumption.
      * contradiction.
Qed.

Lemma short_no_second (l : list A) :
  (List.length l < 2)%nat -> (2 <=? List.length (JS.sortBy le l))%nat = false.
Proof.
  intros H. rewrite sortBy_length. apply Nat.leb_gt. exact H.
Qed.

End SortedEnds.

(** The order of [array.sort()] on strings. *)
Lemma leb_trans (a b c : string) :
  String.leb a b = true -> String.leb b c = true -> String.leb a c = true.
Proof.
  unfold String.leb. intros Hab Hbc.
  destruct (String.compare a b) eqn:Eab; try discriminate;
    destruct (String.compare b c) eqn:Ebc; try discriminate.
  - apply String_as_OT.cmp_eq in Eab, Ebc. subst.
    pose proof (proj2 (String_as_OT.cmp_eq c c) eq_refl) as H.
    unfold String_as_OT.cmp in H. now rewrite H.
  - apply String_as_OT.cmp_eq in Eab. subst. now rewrite Ebc.
  - apply String_as_OT.cmp_eq in Ebc. subst. now rewrite Eab.
  - apply String_as_OT.cmp_lt in Eab, Ebc.
    pose proof (String_as_OT.lt_trans _ _ _ Eab Ebc) as H.
    apply String_as_OT.cmp_lt in H. unfold String_as_OT.cmp in H.
    now rewrite H.
Qed.

Lemma sort_last_two (l : list string) :
  NoDup l -> (2 <= List.length l)%nat ->
  exists c p,
    JS.fromEnd (JS.sort l) 0 = Some c /\
    JS.fromEnd (JS.sort l) 1 = Some p /\
    In c l /\ In p l /\ p <> c /\
    (forall x, In x l -> String.leb x c = true) /\
    (forall x, In x l -> x <> c -> String.leb x p = true).
Proof. apply sorted_last_two; [apply String.leb_total | apply leb_trans]. Qed.

(** ** TrainerDataProcessor *)

(** C10: every row of [processTrainerData] carries zero in the five
    Strength-Lab fields and in [newMembers], whatever the payroll record
    holds. *)
Theorem strength_side_is_zero (payrollData : list PayrollData) :
  Forall
    (fun row =>
       TrainerDataProcessor.strengthSessions row = 0 /\
       TrainerDataProcessor.emptyStrengthSessions row = 0 /\
       TrainerDataProcessor.nonEmptyStrengthSessions row = 0 /\
       TrainerDataProcessor.strengthCustomers row = 0 /\
       TrainerDataProcessor.strengthRevenue row = 0 /\
       TrainerDataProcessor.newMembers row = 0)
    (TrainerDataProcessor.processTrainerData payrollData).
Proof.
  unfold TrainerDataProcessor.processTrainerData.
  apply Forall_forall. intros row Hin.
  apply in_map_iff in Hin. destruct Hin as [record [<- _]].
  repeat split.
Qed.

Example strength_side_is_zero_sample :
  map TrainerDataProcessor.strengthRevenue
    (TrainerDataProcessor.processTrainerData
       [Sample.payroll "Asha" "Feb-2024" 12 2 10 96 48000]) = [0].
Proof. reflexivity. Qed.

(** ** EnhancedClassFormatPerformanceTable *)

Lemma ECF_filteredData_In (viewFilter : string)
  (l : list ECF.ClassFormatData) (x : ECF.ClassFormatData) :
  In x (ECF.filteredData viewFilter l) -> In x l.
Proof.
  unfold ECF.filteredData.
  repeat (match goal with
          | |- context [if ?b then _ else _] => destruct b
          end);
    try (intros H; apply filter_In in H; tauto); auto.
Qed.


(** Every emitted row is the enrichment of a group that met the
    threshold. *)
Lemma ECF_processedData_In compare data minSessions viewFilter row :
  In row (ECF.processedData compare data minSessions viewFilter) ->
  exists k classData,
    In (k, classData) (ECF.grouped data) /\
    minSessions <= ECF.totalSessions classData /\
    row = ECF.enrich classData.
Proof.
  unfold ECF.processedData. destruct data as [|s data]; [contradiction|].
  intros H. apply sortBy_In, ECF_filteredData_In in H.
  unfold ECF.enrichedData in H. apply in_map_iff in H.
  destruct H as [classData [<- H]]. apply filter_In in H.
  destruct H as [Hin Hle]. apply In_values in Hin. destruct Hin as [k Hin].
  exists k, classData. repeat split; auto. now apply Qle_bool_iff.
Qed.

Example derived_ratios_sample :
  map (fun row => (ECF.fillRate row, ECF.showUpRate row))
    (ECF.processedData Sample.anyOrder
       [Sample.session "Barre 57" "2024-01-08" 0 0 0 0 0;
        Sample.session "Barre 57" "2024-01-15" 0 0 0 0 0] 2 "all")
  = [(JS.Finite 0, JS.Finite 0)].
Proof. reflexivity. Qed.

(** ** Conservation of totals *)

Lemma ofNat_S (n : nat) : ofNat (S n) == ofNat n + 1.
Proof.
  unfold ofNat. rewrite Nat2Z.inj_succ, <- Z.add_1_r, inject_Z_plus.
  reflexivity.
Qed.

Lemma sumQ_ones {A : Type} (l : list A) :
  sumQ (map (fun _ => 1) l) == ofNat (List.length l).
Proof.
  induction l as [|x l IH]; simpl.
  - reflexivity.
  - rewrite IH, ofNat_S. lra.
Qed.

Example grouping_sample :
  let data :=
    [Sample.session "Barre 57" "2024-01-08" 15 12 14 1 6000;
     Sample.session "Hosted Class" "2024-01-09" 15 15 15 0 0;
     Sample.session "powerCycle" "2024-01-10" 20 9 10 2 4500;
     Sample.session "Barre 57" "2024-01-15" 15 0 3 3 0] in
  map (fun g => (ECF.classFormat g, ECF.totalSessions g, ECF.totalCheckedIn g))
    (JS.values (ECF.grouped data))
  = [("Barre 57", 0 + 1 + 1, 0 + 12 + 0); ("powerCycle", 0 + 1, 0 + 9)].
Proof. reflexivity. Qed.

(** ** The threshold filter *)

Lemma members_In {R : Type} (key : R -> string) (skip : R -> bool)
  (k : string) (data : list R) (r : R) :
  In r (members key skip k data) <->
  In r data /\ skip r = false /\ key r = k.
Proof.
  unfold members. rewrite filter_In, andb_true_iff, negb_true_iff.
  split; intros (H1 & H2 & H3); repeat split; auto;
    now apply String.eqb_eq.
Qed.

Lemma members_head {R : Type} (key : R -> string) (skip : R -> bool)
  (k : string) (data : list R) (r : R) (rs : list R) :
  members key skip k data = r :: rs -> key r = k /\ skip r = false.
Proof.
  intros H.
  assert (Hin : In r (members key skip k data)) by (rewrite H; now left).
  apply members_In in Hin. tauto.
Qed.

Lemma ECF_fold_classFormat (rs : list SessionData) (v : ECF.ClassFormatData) :
  ECF.classFormat (fold_left ECF.addSession rs v) = ECF.classFormat v.
Proof.
  revert v. induction rs as [|r rs IH]; intros v; simpl; [reflexivity|].
  now rewrite IH.
Qed.

Lemma ECF_fold_totalSessions (rs : list SessionData) (v : ECF.ClassFormatData) :
  ECF.totalSessions (fold_left ECF.addSession rs v) ==
  ECF.totalSessions v + ofNat (List.length rs).
Proof.
  rewrite <- sumQ_ones.
  apply (m_fold_left ECF.addSession ECF.totalSessions (fun _ => 1)).
  intros; simpl; lra.
Qed.

(** The entry of a class format: its key, and its count of sessions. *)
Lemma ECF_grouped_entry (data : list SessionData) (k : string)
  (c : ECF.ClassFormatData) :
  In (k, c) (ECF.grouped data) ->
  ECF.classFormat c = k /\
  ECF.totalSessions c ==
    ofNat (List.length (members ECF.classFormatOf ECF.isHosted k data)) /\
  members ECF.classFormatOf ECF.isHosted k data <> [].
Proof.
  intros H. apply In_groupBy in H. destruct H as (r & rs & Hm & ->).
  rewrite Hm. pose proof (members_head _ _ _ _ _ _ Hm) as [Hk _].
  split; [|split].
  - rewrite ECF_fold_classFormat. exact Hk.
  - rewrite ECF_fold_totalSessions. simpl ECF.totalSessions. lra.
  - discriminate.
Qed.

Lemma MoM_fold_dimension mk (rs : list SessionData) (t : MoM.MonthlyTrendData) :
  MoM.dimension (fold_left (MoM.addSession mk) rs t) = MoM.dimension t.
Proof.
  revert t. induction rs as [|r rs IH]; intros t; simpl; [reflexivity|].
  now rewrite IH.
Qed.

Lemma MoM_fold_sessions mk (rs : list SessionData) (t : MoM.MonthlyTrendData) :
  MoM.sessions (MoM.totalValues (fold_left (MoM.addSession mk) rs t)) ==
  MoM.sessions (MoM.totalValues t) + ofNat (List.length rs).
Proof.
  rewrite <- sumQ_ones.
  apply (m_fold_left (MoM.addSession mk)
           (fun t => MoM.sessions (MoM.totalValues t)) (fun _ => 1)).
  intros; simpl; lra.
Qed.

Lemma MoM_trendMap_entry mk view (data : list SessionData) (k : string)
  (t : MoM.MonthlyTrendData) :
  In (k, t) (MoM.trendMap mk view data) ->
  MoM.dimension t = k /\
  MoM.sessions (MoM.totalValues t) ==
    ofNat (List.length
             (members (MoM.dimensionKey view) (fun _ => false) k data)) /\
  members (MoM.dimensionKey view) (fun _ => false) k data <> [].
Proof.
  intros H. apply In_groupBy in H. destruct H as (r & rs & Hm & ->).
  rewrite Hm. pose proof (members_head _ _ _ _ _ _ Hm) as [Hk _].
  split; [|split].
  - rewrite MoM_fold_dimension. exact Hk.
  - rewrite MoM_fold_sessions. simpl. lra.
  - discriminate.
Qed.


Lemma MoM_row_iff mk compare (view : string) (data : list SessionData)
  (minSessions : Q) (k : string) :
  (exists trend,
     In trend (MoM.processedData mk compare view data minSessions) /\
     MoM.dimension trend = k) <->
  (members (MoM.dimensionKey view) (fun _ => false) k data <> [] /\
   minSessions <=
     ofNat (List.length
              (members (MoM.dimensionKey view) (fun _ => false) k data))).
Proof.
  split.
  + intros (trend & Hin & Hk).
    unfold MoM.processedData in Hin.
    destruct data as [|s data]; [contradiction|].
    apply sortBy_In in Hin. unfold MoM.filteredResults in Hin.
    apply filter_In in Hin. destruct Hin as [Hin Hle].
    unfold MoM.results in Hin. apply in_map_iff in Hin.
    destruct Hin as (t & <- & Hin). apply In_values in Hin.
    destruct Hin as [k' Hin].
    apply MoM_trendMap_entry in Hin. destruct Hin as (Hd & Hn & Hne).
    simpl in Hk. assert (E : k' = k) by congruence.
    clear Hd Hk. subst k'.
    split; [exact Hne|]. apply Qle_bool_iff in Hle. simpl in Hle.
    now rewrite <- Hn.
  + intros (Hne & Hle).
    destruct (members (MoM.dimensionKey view) (fun _ => false) k data)
      as [|r rs] eqn:Hm; [contradiction|].
    set (t := fold_left (MoM.addSession mk) (r :: rs)
                (MoM.newTrend view (MoM.sortedMonths mk data) r)).
    assert (Hin : In (k, t) (MoM.trendMap mk view data))
      by (apply In_groupBy; exists r, rs; split; [exact Hm | reflexivity]).
    pose proof (MoM_trendMap_entry _ _ _ _ _ Hin) as (Hd & Hn & _).
    exists (MoM.derive (MoM.sortedMonths mk data) t). split; [|exact Hd].
    unfold MoM.processedData.
    destruct data as [|s data]; [discriminate|].
    apply sortBy_In. unfold MoM.filteredResults. apply filter_In. split.
    * unfold MoM.results. apply in_map, In_values. now exists k.
    * apply Qle_bool_iff. simpl. rewrite Hn, Hm. exact Hle.
Qed.

(** ** The reduce that fails on an inherited key *)

Section GroupingOrThrow.

Context {R V : Type}.
Variables (key : R -> string) (skip : R -> bool).
Variables (init : R -> V) (step : V -> R -> V).

Lemma fold_upsertOrThrow_None (data : list R) :
  fold_left (upsertOrThrow key skip init step) data None = None.
Proof. induction data as [|r data IH]; simpl; auto. Qed.

Lemma fold_upsertOrThrow (data : list R) (acc : JS.obj V) :
  fold_left (upsertOrThrow key skip init step) data (Some acc) =
  if hasInheritedKey key skip data then None
  else Some (fold_left (upsert key skip init step) data acc).
Proof.
  revert acc. induction data as [|r data IH]; intros acc; simpl.
  - reflexivity.
  - destruct (skip r) eqn:Hs; simpl.
    + assert (E : upsert key skip init step acc r = acc)
        by (unfold upsert; now rewrite Hs).
      rewrite E. apply IH.
    + destruct (inheritedProperty (key r)) eqn:Hi; simpl.
      * apply fold_upsertOrThrow_None.
      * apply IH.
Qed.

(** The reduce fails exactly when a record that is not skipped has an
    inherited key; otherwise it is the grouping. *)
Lemma groupByOrThrow_spec (data : list R) :
  groupByOrThrow key skip init step data =
  if hasInheritedKey key skip data then None
  else Some (groupBy key skip init step data).
Proof. apply fold_upsertOrThrow. Qed.

Lemma hasInheritedKey_true (data : list R) :
  hasInheritedKey key skip data = true ->
  exists r, In r data /\ skip r = false /\ inheritedProperty (key r) = true.
Proof.
  unfold hasInheritedKey. rewrite existsb_exists.
  intros (r & Hin & H). apply andb_true_iff in H. destruct H as [Hs Hi].
  apply negb_true_iff in Hs. now exists r.
Qed.

(** The group counts of a grouping add up to the number of the records
    that are not skipped. *)
Section Counting.

Variables (m : V -> nat).
Hypothesis m_init : forall r, m (init r) = 0%nat.
Hypothesis m_step : forall v r, m (step v r) = S (m v).

Lemma list_sum_values_set (o : JS.obj V) (k : string) (v : V) :
  (list_sum (map m (JS.values (JS.set o k v)))
   + match JS.get o k with Some v0 => m v0 | None => 0 end
   = list_sum (map m (JS.values o)) + m v)%nat.
Proof.
  unfold JS.values. induction o as [|[k0 v0] t IH]; simpl.
  - lia.
  - destruct (String.eqb_spec k0 k) as [->|Hk]; simpl; lia.
Qed.

Lemma count_fold (data : list R) (acc : JS.obj V) :
  (list_sum (map m (JS.values (fold_left (upsert key skip init step) data acc)))
   = list_sum (map m (JS.values acc)) + List.length (kept skip data))%nat.
Proof.
  revert acc. induction data as [|r data IH]; intros acc; simpl.
  - lia.
  - rewrite IH. unfold upsert, kept. simpl.
    destruct (skip r) eqn:Hs; simpl; [reflexivity|].
    pose proof (list_sum_values_set acc (key r)
                  (step match JS.get acc (key r) with
                        | Some v => v
                        | None => init r
                        end r)) as H.
    rewrite m_step in H.
    destruct (JS.get acc (key r)); [|rewrite m_init in H];
      unfold kept in *; lia.
Qed.

Lemma count_groupBy (data : list R) :
  list_sum (map m (JS.values (groupBy key skip init step data)))
  = List.length (kept skip data).
Proof. exact (count_fold data []). Qed.

End Counting.

(** A field of a group that each record updates on its own. *)
Lemma field_fold_left {A : Type} (m : V -> A) (u : A -> R -> A) :
  (forall v r, m (step v r) = u (m v) r) ->
  forall rs v, m (fold_left step rs v) = fold_left u rs (m v).
Proof.
  intros Hstep rs. induction rs as [|r rs IH]; intros v; simpl.
  - reflexivity.
  - now rewrite IH, Hstep.
Qed.

End GroupingOrThrow.




Example threshold_after_aggregation_sample :
  let data :=
    [Sample.session "Barre 57" "2024-01-08" 15 12 14 1 6000;
     Sample.session "powerCycle" "2024-01-10" 20 9 10 2 4500;
     Sample.session "Barre 57" "2024-01-15" 15 0 3 3 0;
     Sample.session "Barre 57" "2024-01-22" 15 7 9 0 3500] in
  option_map (map ECF.classFormat)
    (ECF_processedDataOrThrow Sample.anyOrder data 3 "all")
  = Some ["Barre 57"].
Proof. reflexivity. Qed.

(** A class named like a member of [Object.prototype] makes the reduce
    fail, whatever the other records are. *)
Example inherited_class_name :
  let data :=
    [Sample.session "Barre 57" "2024-01-08" 15 12 14 1 6000;
     Sample.session "constructor" "2024-01-10" 20 9 10 2 4500] in
  ECF_processedDataOrThrow Sample.anyOrder data 1 "all" = None /\
  MoM_processedDataOrThrow UTC.monthKeyOf Sample.anyOrder "format" data 1
  = None.
Proof. split; reflexivity. Qed.

(** ** Strings *)

Lemma append_assoc (a b c : string) : (a ++ b) ++ c = a ++ (b ++ c).
Proof. induction a as [|x a IH]; simpl; [reflexivity | now rewrite IH]. Qed.

Lemma prefix_iff (n s : string) :
  String.prefix n s = true <-> exists post, s = n ++ post.
Proof.
  revert s. induction n as [|c n IH]; intros s.
  - split; [intros _; now exists s | intros _; now destruct s].
  - destruct s as [|d s]; simpl.
    + split; [discriminate | intros [post H]; discriminate].
    + destruct (ascii_dec c d) as [->|Hne].
      * rewrite IH. split; intros [post H]; exists post.
        -- now rewrite H.
        -- now inversion H.
      * split; [discriminate|]. intros [post H]. inversion H. congruence.
Qed.

Lemma includes_iff (n s : string) :
  JS.includes n s = true <-> exists pre post, s = pre ++ n ++ post.
Proof.
  induction s as [|d s IH]; cbn [JS.includes].
  - rewrite orb_false_r, prefix_iff. split.
    + intros [post H]. now exists EmptyString, post.
    + intros (pre & post & H). destruct pre as [|x pre]; [|discriminate].
      now exists post.
  - rewrite orb_true_iff, IH, prefix_iff. split.
    + intros [[post H]|(pre & post & H)].
      * now exists EmptyString, post.
      * exists (String d pre), post. simpl. now rewrite H.
    + intros (pre & post & H). destruct pre as [|x pre].
      * left. now exists post.
      * right. exists pre, post. simpl in H. now inversion H.
Qed.

Lemma toLowerCase_app (a b : string) :
  JS.toLowerCase (a ++ b) = JS.toLowerCase a ++ JS.toLowerCase b.
Proof. induction a as [|x a IH]; simpl; [reflexivity | now rewrite IH]. Qed.

Lemma toLowerCase_split (s x y : string) :
  JS.toLowerCase s = x ++ y ->
  exists a b, s = a ++ b /\ JS.toLowerCase a = x /\ JS.toLowerCase b = y.
Proof.
  revert s. induction x as [|c x IH]; intros s H; simpl in H.
  - now exists EmptyString, s.
  - destruct s as [|d s]; simpl in H; [discriminate|].
    inversion H as [[Hc Hs]]. apply IH in Hs.
    destruct Hs as (a & b & -> & <- & <-).
    now exists (String d a), b.
Qed.

(** [s.toLowerCase().includes(needle)], for a lower-case [needle], finds
    the substrings that equal the needle up to case. *)
Lemma includes_toLowerCase (needle s : string) :
  JS.includes (JS.toLowerCase needle) (JS.toLowerCase s) = true <->
  containsIgnoringCase needle s.
Proof.
  rewrite includes_iff. unfold containsIgnoringCase. split.
  - intros (pre & post & H).
    apply toLowerCase_split in H. destruct H as (a & rest & -> & _ & H).
    apply toLowerCase_split in H. destruct H as (mid & b & -> & Hm & _).
    now exists a, mid, b.
  - intros (pre & mid & post & -> & Hm).
    exists (JS.toLowerCase pre), (JS.toLowerCase post).
    now rewrite !toLowerCase_app, Hm.
Qed.

(** ** Hosted classes *)

Lemma ECF_fold_sessions (rs : list SessionData) (v : ECF.ClassFormatData) :
  ECF.sessions (fold_left ECF.addSession rs v) = (ECF.sessions v ++ rs)%list.
Proof.
  revert v. induction rs as [|r rs IH]; intros v; simpl.
  - now rewrite app_nil_r.
  - rewrite IH. simpl. now rewrite <- app_assoc.
Qed.

Lemma CPR_fold_sessions (rs : list SessionData) (v : CPR.ClassData) :
  CPR.sessions (fold_left CPR.addSession rs v) = (CPR.sessions v ++ rs)%list.
Proof.
  revert v. induction rs as [|r rs IH]; intros v; simpl.
  - now rewrite app_nil_r.
  - rewrite IH. simpl. now rewrite <- app_assoc.
Qed.

Lemma ECF_filteredData_nil (viewFilter : string) :
  ECF.filteredData viewFilter [] = [].
Proof.
  unfold ECF.filteredData.
  repeat (match goal with
          | |- context [if ?b then _ else _] => destruct b
          end); reflexivity.
Qed.

Lemma ECF_processedData_skip compare before after session minSessions viewFilter :
  ECF.isHosted session = true ->
  ECF.processedData compare (before ++ session :: after) minSessions viewFilter
  = ECF.processedData compare (before ++ after) minSessions viewFilter.
Proof.
  intros Hs.
  assert (He : ECF.enrichedData (before ++ session :: after) minSessions =
               ECF.enrichedData (before ++ after) minSessions).
  { unfold ECF.enrichedData, ECF.grouped. now rewrite groupBy_skip. }
  unfold ECF.processedData. rewrite He.
  destruct (before ++ after)%list as [|x l] eqn:E.
  - destruct (before ++ session :: after)%list; [reflexivity|].
    unfold ECF.enrichedData, ECF.grouped. simpl.
    now rewrite ECF_filteredData_nil.
  - destruct before; simpl; reflexivity.
Qed.

Lemma CPR_processedData_skip compare before after session minSessions :
  CPR.isHosted session = true ->
  CPR.processedData compare (before ++ session :: after) minSessions
  = CPR.processedData compare (before ++ after) minSessions.
Proof.
  intros Hs.
  assert (He : CPR.enrichedData (before ++ session :: after) minSessions =
               CPR.enrichedData (before ++ after) minSessions).
  { unfold CPR.enrichedData, CPR.filteredData, CPR.grouped.
    now rewrite groupBy_skip. }
  unfold CPR.processedData. rewrite He.
  destruct (before ++ after)%list as [|x l] eqn:E.
  - destruct (before ++ session :: after)%list; reflexivity.
  - destruct before; simpl; reflexivity.
Qed.

Lemma ECF_row_sessions compare data minSessions viewFilter row session :
  In row (ECF.processedData compare data minSessions viewFilter) ->
  In session (ECF.sessions row) -> ECF.isHosted session = false.
Proof.
  intros Hin Hs. apply ECF_processedData_In in Hin.
  destruct Hin as (k & c & Hin & _ & ->). simpl in Hs.
  apply In_groupBy in Hin. destruct Hin as (r & rs & Hm & ->).
  rewrite ECF_fold_sessions in Hs. change (In session (r :: rs)) in Hs.
  rewrite <- Hm in Hs.
  apply members_In in Hs. tauto.
Qed.

Lemma CPR_row_sessions compare data minSessions row session :
  In row (CPR.processedData compare data minSessions) ->
  In session (CPR.sessions (CPR.classData row)) -> CPR.isHosted session = false.
Proof.
  unfold CPR.processedData. destruct data as [|s0 data]; [contradiction|].
  intros Hin Hs. apply sortBy_In in Hin.
  unfold CPR.enrichedData, CPR.filteredData in Hin.
  apply in_map_iff in Hin. destruct Hin as (c & <- & Hin).
  apply filter_In in Hin. destruct Hin as [Hin _].
  apply In_values in Hin. destruct Hin as [k Hin]. simpl in Hs.
  apply In_groupBy in Hin. destruct Hin as (r & rs & Hm & ->).
  rewrite CPR_fold_sessions in Hs. change (In session (r :: rs)) in Hs.
  rewrite <- Hm in Hs.
  apply members_In in Hs. tauto.
Qed.

(** C4: a session whose class format (the cleaned class, else the class
    type) contains "hosted" in any mix of cases leaves no trace in the
    class tables: the output is the one computed without it, and no row
    retains it, whatever its other fields hold. *)
Theorem hosted_sessions_are_excluded (session : SessionData) :
  containsIgnoringCase "hosted" (ECF.classFormatOf session) ->
  forall (before after : list SessionData) (minSessions : Q),
    (forall compare viewFilter,
       ECF.processedData compare (before ++ session :: after)
         minSessions viewFilter
       = ECF.processedData compare (before ++ after) minSessions viewFilter /\
       Forall (fun row => ~ In session (ECF.sessions row))
         (ECF.processedData compare (before ++ session :: after)
            minSessions viewFilter)) /\
    (forall compare,
       CPR.processedData compare (before ++ session :: after) minSessions
       = CPR.processedData compare (before ++ after) minSessions /\
       Forall (fun row => ~ In session (CPR.sessions (CPR.classData row)))
         (CPR.processedData compare (before ++ session :: after) minSessions)).
Proof.
  intros Hc before after minSessions.
  assert (Hs : ECF.isHosted session = true)
    by (apply (includes_toLowerCase "hosted"); exact Hc).
  split.
  - intros compare viewFilter. split.
    + now apply ECF_processedData_skip.
    + apply Forall_forall. intros row Hin Hmem.
      pose proof (ECF_row_sessions _ _ _ _ _ _ Hin Hmem). congruence.
  - intros compare. split.
    + now apply CPR_processedData_skip.
    + apply Forall_forall. intros row Hin Hmem.
      pose proof (CPR_row_sessions _ _ _ _ _ Hin Hmem) as H.
      unfold CPR.isHosted, CPR.classTypeOf in H.
      unfold ECF.isHosted, ECF.classFormatOf in Hs. congruence.
Qed.

Lemma hosted_sessions_are_excluded_witness :
  let hosted := Sample.session "Hosted Class" "2024-01-09" 15 15 15 0 900 in
  let before := [Sample.session "Barre 57" "2024-01-08" 15 12 14 1 6000] in
  let after := [Sample.session "Barre 57" "2024-01-15" 15 0 3 3 0] in
  containsIgnoringCase "hosted" (ECF.classFormatOf hosted) /\
  map ECF.totalRevenue
    (ECF.processedData Sample.anyOrder (before ++ hosted :: after) 2 "all")
  = map ECF.totalRevenue
      (ECF.processedData Sample.anyOrder (before ++ after) 2 "all").
Proof.
  cbv zeta.
  assert (H : containsIgnoringCase "hosted"
                (ECF.classFormatOf
                   (Sample.session "Hosted Class" "2024-01-09" 15 15 15 0 900)))
    by (exists "", "Hosted", " Class"; split; reflexivity).
  split; [exact H|].
  apply (f_equal (map ECF.totalRevenue)).
  exact (proj1 (proj1 (hosted_sessions_are_excluded _ H
                         [Sample.session "Barre 57" "2024-01-08" 15 12 14 1 6000]
                         [Sample.session "Barre 57" "2024-01-15" 15 0 3 3 0] 2)
                  Sample.anyOrder "all")).
Defined.

(** ** ImprovedClassAttendancePayrollTable: the derived rows *)

Lemma In_keys_get {V : Type} (o : JS.obj V) (k : string) :
  In k (JS.keys o) <-> exists v, JS.get o k = Some v.
Proof.
  destruct (JS.get o k) as [v|] eqn:E.
  - split; [intros _; now exists v|]. intros _.
    apply get_Some_In in E. change k with (fst (k, v)). now apply in_map.
  - split.
    + intros H. apply get_None_keys in E. contradiction.
    + intros [v H]. discriminate.
Qed.

Lemma In_values_get {V : Type} (o : JS.obj V) (v : V) :
  NoDup (JS.keys o) ->
  In v (JS.values o) <-> exists k, JS.get o k = Some v.
Proof.
  intros Hnd. rewrite In_values. split; intros [k H]; exists k.
  - now apply In_get_Some.
  - now apply get_Some_In.
Qed.

Lemma keys_set_present {V : Type} (o : JS.obj V) (k : string) (v v' : V) :
  JS.get o k = Some v' -> JS.keys (JS.set o k v) = JS.keys o.
Proof. intros H. now rewrite keys_set, H. Qed.

Lemma ICP_sameTotals_refl e : ICP_sameTotals e e.
Proof. repeat split. Qed.

Lemma ICP_sameTotals_sym a b : ICP_sameTotals a b -> ICP_sameTotals b a.
Proof. unfold ICP_sameTotals. intuition congruence. Qed.

Lemma ICP_sameTotals_trans a b c :
  ICP_sameTotals a b -> ICP_sameTotals b c -> ICP_sameTotals a c.
Proof. unfold ICP_sameTotals. intuition congruence. Qed.

Lemma ICP_withMetrics_same e : ICP_sameTotals (ICP.withMetrics e) e.
Proof. repeat split. Qed.

Lemma ICP_withTrends_same e t : ICP_sameTotals (ICP.withTrends e t) e.
Proof. repeat split. Qed.

Lemma ICP_isPrevData_same item key p p' :
  ICP_sameTotals p p' ->
  ICP.isPrevData item key p = ICP.isPrevData item key p'.
Proof.
  intros (H1 & H2 & H3 & _). unfold ICP.isPrevData. now rewrite H1, H2, H3.
Qed.

Lemma ICP_derivedFrom_same prevMonthKeyOf g e0 e :
  ICP_derivedFrom prevMonthKeyOf g e0 e -> ICP_sameTotals e e0.
Proof.
  intros [[-> _]|(prevData & p & _ & _ & _ & ->)].
  - apply ICP_withMetrics_same.
  - eapply ICP_sameTotals_trans;
      [apply ICP_withTrends_same | apply ICP_withMetrics_same].
Qed.

Section PayrollStore.

Variable prevMonthKeyOf : string -> string.
Variable g : JS.obj ICP.ProcessedPayrollData.
Hypothesis g_NoDup : NoDup (JS.keys g).

Let Inv := ICP_invariant prevMonthKeyOf g.

Lemma ICP_invariant_start : Inv [] g.
Proof.
  split; [reflexivity|]. intros k e H. exists e. split; [exact H|].
  right. split; [tauto | reflexivity].
Qed.

Lemma ICP_invariant_agree visited store : Inv visited store -> ICP_agree g store.
Proof.
  intros [Hk Hinv]. split; [exact Hk|]. intros k e He.
  destruct (Hinv _ _ He) as (e0 & Hg & Hcase). exists e0. split; [exact Hg|].
  destruct Hcase as [[_ Hd]|[_ ->]].
  - eapply ICP_derivedFrom_same; eauto.
  - apply ICP_sameTotals_refl.
Qed.

Lemma ICP_agree_set store k e e0 :
  ICP_agree g store -> JS.get g k = Some e0 -> ICP_sameTotals e e0 ->
  ICP_agree g (JS.set store k e).
Proof.
  intros [Hk Hag] Hg Hs. split.
  - assert (Hin : In k (JS.keys store))
      by (rewrite Hk; apply In_keys_get; now exists e0).
    apply In_keys_get in Hin. destruct Hin as [v Hv].
    erewrite keys_set_present; eauto.
  - intros k' e' He. destruct (String.eqb_spec k k') as [<-|Hne].
    + rewrite get_set_same in He. inversion He; subst. now exists e0.
    + rewrite get_set_other in He by exact Hne. now apply Hag.
Qed.

(** Each entry of an agreeing store agrees with an entry of [g], and
    conversely. *)
Lemma ICP_store_to_g store x :
  ICP_agree g store -> In x (JS.values store) ->
  exists p, In p (JS.values g) /\ ICP_sameTotals x p.
Proof.
  intros [Hk Hag] Hx.
  apply In_values_get in Hx; [|rewrite Hk; exact g_NoDup].
  destruct Hx as [k Hx]. destruct (Hag _ _ Hx) as (e0 & Hg & Hs).
  exists e0. split; [|exact Hs].
  apply In_values. exists k. now apply get_Some_In.
Qed.

Lemma ICP_g_to_store store p :
  ICP_agree g store -> In p (JS.values g) ->
  exists x, In x (JS.values store) /\ ICP_sameTotals x p.
Proof.
  intros [Hk Hag] Hp.
  apply In_values_get in Hp; [|exact g_NoDup]. destruct Hp as [k Hp].
  assert (Hin : In k (JS.keys store))
    by (rewrite Hk; apply In_keys_get; now exists p).
  apply In_keys_get in Hin. destruct Hin as [x Hx].
  destruct (Hag _ _ Hx) as (e0 & Hg & Hs).
  assert (e0 = p) by congruence. subst e0.
  exists x. split; [|exact Hs].
  apply In_values. exists k. now apply get_Some_In.
Qed.

Lemma ICP_deriveEntry_invariant visited store k :
  Inv visited store -> ~ In k visited ->
  Inv (k :: visited) (ICP.deriveEntry prevMonthKeyOf store k).
Proof.
  intros HI Hnv. pose proof HI as [Hk Hinv].
  pose proof (ICP_invariant_agree _ _ HI) as Hag.
  unfold ICP.deriveEntry.
  destruct (JS.get store k) as [item0|] eqn:Hget.
  2:{ split; [exact Hk|]. intros k' e He.
      destruct (Hinv _ _ He) as (e0 & Hg & Hcase).
      exists e0. split; [exact Hg|].
      destruct Hcase as [[Hv Hd]|[Hv ->]].
      - left. split; [now right | exact Hd].
      - right. split; [|reflexivity]. intros [<-|Hv']; [congruence | tauto]. }
  destruct (Hinv _ _ Hget) as (e0 & Hg0 & Hcase0).
  destruct Hcase0 as [[Hv _]|[_ ->]]; [contradiction|].
  set (item := ICP.withMetrics e0).
  set (store1 := JS.set store k item).
  assert (Hag1 : ICP_agree g store1)
    by (apply ICP_agree_set with (e0 := e0); auto;
        apply ICP_withMetrics_same).
  assert (Hnew : forall e,
             ICP_derivedFrom prevMonthKeyOf g e0 e ->
             Inv (k :: visited) (JS.set store1 k e)).
  { intros e Hd. split.
    - unfold store1. rewrite !keys_set, get_set_same, Hget. exact Hk.
    - intros k' e' He. destruct (String.eqb_spec k k') as [<-|Hne].
      + rewrite get_set_same in He. inversion He; subst e'.
        exists e0. split; [exact Hg0|]. left. split; [now left | exact Hd].
      + unfold store1 in He. rewrite !get_set_other in He by exact Hne.
        destruct (Hinv _ _ He) as (e1 & Hg1 & Hcase).
        exists e1. split; [exact Hg1|].
        destruct Hcase as [[Hv Hd1]|[Hv ->]].
        * left. split; [now right | exact Hd1].
        * right. split; [|reflexivity]. intros [E|Hv']; [congruence | tauto]. }
  fold item. fold store1.
  destruct (find _ (JS.values store1)) as [prevData|] eqn:Hfind.
  - apply Hnew. right.
    apply find_some in Hfind. destruct Hfind as [Hin Hp].
    destruct (ICP_store_to_g _ _ Hag1 Hin) as (p & Hpg & Hs).
    exists prevData, p. repeat split; try apply Hs; auto.
    rewrite <- (ICP_isPrevData_same _ _ _ _ Hs). exact Hp.
  - assert (Hd : ICP_derivedFrom prevMonthKeyOf g e0 item).
    { left. split; [reflexivity|]. intros p Hp.
      destruct (ICP_g_to_store _ _ Hag1 Hp) as (x & Hx & Hs).
      rewrite <- (ICP_isPrevData_same _ _ _ _ Hs).
      exact (find_none _ _ Hfind _ Hx). }
    pose proof (Hnew item Hd) as H.
    replace (JS.set store1 k item) with store1 in H; [exact H|].
    unfold store1. clear. induction store as [|[k0 v0] t IH]; simpl.
    + now rewrite String.eqb_refl.
    + destruct (String.eqb_spec k0 k) as [->|Hne]; simpl.
      * now rewrite String.eqb_refl.
      * destruct (String.eqb_spec k0 k); [contradiction|]. now rewrite <- IH.
Qed.

Lemma ICP_fold_invariant (ks visited : list string) store :
  NoDup ks -> (forall k, In k ks -> ~ In k visited) ->
  Inv visited store ->
  Inv (rev ks ++ visited)%list
    (fold_left (ICP.deriveEntry prevMonthKeyOf) ks store).
Proof.
  revert visited store. induction ks as [|k ks IH]; intros visited store Hnd Hv HI.
  - exact HI.
  - simpl. rewrite <- app_assoc. simpl.
    inversion Hnd as [|? ? Hnotin Hnd']; subst.
    apply IH; auto.
    + intros k' Hk' [<-|Hin]; [contradiction|].
      apply (Hv k'); [now right | exact Hin].
    + apply ICP_deriveEntry_invariant; auto. apply Hv. now left.
Qed.

(** Every final entry is derived from the grouped entry of its key. *)
Lemma ICP_final_entries e :
  In e (JS.values (fold_left (ICP.deriveEntry prevMonthKeyOf) (JS.keys g) g)) ->
  exists e0, In e0 (JS.values g) /\ ICP_derivedFrom prevMonthKeyOf g e0 e.
Proof.
  intros Hin.
  pose proof (ICP_fold_invariant (JS.keys g) [] g g_NoDup
                (fun _ _ H => H) ICP_invariant_start) as [Hk Hinv].
  apply In_values_get in Hin; [|rewrite Hk; exact g_NoDup].
  destruct Hin as [k Hget]. destruct (Hinv _ _ Hget) as (e0 & Hg & Hcase).
  exists e0. split.
  - apply In_values. exists k. now apply get_Some_In.
  - destruct Hcase as [[_ Hd]|[Hv _]]; [exact Hd|].
    exfalso. apply Hv. rewrite app_nil_r, <- in_rev.
    apply In_keys_get. now exists e0.
Qed.

End PayrollStore.

(** ** Ranges of the rates *)

Lemma fold_left_invariant {R V : Type} (step : V -> R -> V)
  (P : V -> Prop) (Q : R -> Prop) :
  (forall v r, P v -> Q r -> P (step v r)) ->
  forall rs v, Forall Q rs -> P v -> P (fold_left step rs v).
Proof.
  intros Hstep rs. induction rs as [|r rs IH]; intros v Hall Hv; simpl.
  - exact Hv.
  - inversion Hall; subst. apply IH; auto.
Qed.

Lemma members_Forall {R : Type} (key : R -> string) (skip : R -> bool)
  (k : string) (data : list R) (Q : R -> Prop) :
  Forall Q data -> Forall Q (members key skip k data).
Proof.
  rewrite !Forall_forall. intros H r Hr. apply members_In in Hr.
  apply H. tauto.
Qed.

Lemma ICP_filteredData_In location (data : list PayrollData) x :
  In x (ICP.filteredData location data) -> In x data.
Proof.
  unfold ICP.filteredData.
  destruct location as [[|c s]|]; auto.
  destruct (String.eqb (String c s) "all"); auto.
  destruct (ICP.locationMap (String c s)); auto.
  intros H. apply filter_In in H. tauto.
Qed.

(** The metrics of a derived row, in terms of its own accumulators. *)
Lemma ICP_derivedFrom_metrics prevMonthKeyOf g e0 e :
  ICP_derivedFrom prevMonthKeyOf g e0 e ->
  ICP_sameTotals e e0 /\
  ICP.fillRate e =
    guardedPercent (ICP.totalCustomers e) (ICP.totalSessions e * 15) /\
  ICP.cancelRate e =
    guardedPercent (ICP.emptySession e) (ICP.totalSessions e) /\
  ICP.utilizationRate e =
    guardedPercent (ICP.totalSessions e - ICP.emptySession e)
      (ICP.totalSessions e).
Proof.
  intros H. split; [eapply ICP_derivedFrom_same; eauto|].
  destruct H as [[-> _]|(prevData & p & _ & _ & _ & ->)];
    repeat split.
Qed.

Lemma ICP_processedData_In prevMonthKeyOf compare location data row :
  In row (ICP.processedData prevMonthKeyOf compare location data) ->
  exists e0,
    In e0 (JS.values (ICP.grouped location data)) /\
    ICP_derivedFrom prevMonthKeyOf (ICP.grouped location data) e0 row.
Proof.
  unfold ICP.processedData. destruct data as [|d data]; [contradiction|].
  intros H. apply sortBy_In in H. unfold ICP.results in H.
  apply ICP_final_entries in H; [exact H|].
  apply NoDup_keys_groupBy.
Qed.

(** C5, as the specification states it, fails: two sessions of capacity 10
    with 20 check-ins each give a fill rate of 200. *)
Lemma rates_within_percent_range_counterexample :
  let data :=
    [Sample.session "Barre 57" "2024-01-08" 10 20 20 0 0;
     Sample.session "Barre 57" "2024-01-15" 10 20 20 0 0] in
  Forall nonNegativeSession data /\
  ~ Forall (fun row => withinPercentRange (ECF.fillRate row))
      (ECF.processedData Sample.anyOrder data 2 "all").
Proof.
  cbv zeta. split.
  - repeat constructor; simpl; lra.
  - intros H. apply Forall_inv in H. destruct H as [_ (q & E & Hle)].
    vm_compute in E. inversion E; subst q. clear E.
    revert Hle. unfold Qle. simpl. lia.
Qed.

Lemma guardedPercent_guardedRate (num den : Q) :
  guardedRate num den (guardedPercent num den).
Proof.
  split; [reflexivity|]. split; intros H.
  - now apply guardedPercent_nonpos.
  - unfold guardedPercent. now rewrite (proj2 (gt0_true den) H).
Qed.

(** The empty sessions of a class format are counted among its
    sessions. *)
Lemma ECF_grouped_counts (data : list SessionData) k c :
  In (k, c) (ECF.grouped data) ->
  0 <= ECF.emptySessions c <= ECF.totalSessions c.
Proof.
  intros Hin. apply In_groupBy in Hin.
  destruct Hin as (r & rs & _ & ->).
  apply (fold_left_invariant ECF.addSession
           (fun c => 0 <= ECF.emptySessions c <= ECF.totalSessions c)
           (fun _ => True)).
  - intros v s H _. simpl.
    destruct (Qeq_bool (JS.orZero (Session.checkedInCount s)) 0); lra.
  - apply Forall_forall. intros; exact I.
  - simpl. lra.
Qed.

(** C5, amended: no table clamps a rate.  In every row the fill rate, the
    cancellation rate and the utilization rate are exactly 0 when their
    denominator is not greater than 0, as when it is 0, and otherwise they
    are the numerator divided by the denominator, times 100, as it comes:
    check-ins by capacity, late cancellations by bookings and non-empty by
    all sessions in the class-format table; customers by fifteen places a
    session, empty sessions by sessions and non-empty by all sessions in
    the payroll table.  The utilization rate of the class-format table, a
    ratio of two counts of sessions, lies between 0 and 100. *)
Theorem rates_are_unclamped_quotients :
  (forall compare (data : list SessionData) (minSessions : Q)
          (viewFilter : string),
     Forall
       (fun row =>
          guardedRate (ECF.totalCheckedIn row) (ECF.totalCapacity row)
            (ECF.fillRate row) /\
          guardedRate (ECF.totalLateCancelled row) (ECF.totalBooked row)
            (ECF.cancellationRate row) /\
          guardedRate (ECF.totalSessions row - ECF.emptySessions row)
            (ECF.totalSessions row) (ECF.utilizationRate row) /\
          withinPercentRange (ECF.utilizationRate row))
       (ECF.processedData compare data minSessions viewFilter)) /\
  (forall prevMonthKeyOf compare (location : option string)
          (data : list PayrollData),
     Forall
       (fun row =>
          guardedRate (ICP.totalCustomers row) (ICP.totalSessions row * 15)
            (ICP.fillRate row) /\
          guardedRate (ICP.emptySession row) (ICP.totalSessions row)
            (ICP.cancelRate row) /\
          guardedRate (ICP.totalSessions row - ICP.emptySession row)
            (ICP.totalSessions row) (ICP.utilizationRate row))
       (ICP.processedData prevMonthKeyOf compare location data)).
Proof.
  split.
  - intros compare data minSessions viewFilter.
    apply Forall_forall. intros row Hin.
    apply ECF_processedData_In in Hin.
    destruct Hin as (k & c & Hin & _ & ->).
    pose proof (ECF_grouped_counts _ _ _ Hin) as Hc. simpl.
    split; [apply guardedPercent_guardedRate|].
    split; [apply guardedPercent_guardedRate|].
    split; [apply guardedPercent_guardedRate|].
    split; [apply guardedPercent_atLeast0 | apply guardedPercent_atMost100];
      lra.
  - intros prevMonthKeyOf compare location data.
    apply Forall_forall. intros row Hin.
    apply ICP_processedData_In in Hin. destruct Hin as (e0 & _ & Hd).
    destruct (ICP_derivedFrom_metrics _ _ _ _ Hd) as (_ & -> & -> & ->).
    repeat split; apply guardedPercent_guardedRate.
Qed.

Example rates_sample :
  let data :=
    [Sample.session "Barre 57" "2024-01-08" 15 12 14 1 6000;
     Sample.session "Barre 57" "2024-01-15" 15 0 3 3 0] in
  map (fun row => (ECF.fillRate row, ECF.utilizationRate row))
    (ECF.processedData Sample.anyOrder data 2 "all")
  = [(JS.Finite ((0 + 12 + 0) / (0 + 15 + 15) * 100),
      JS.Finite ((0 + 1 + 1 - (0 + 1)) / (0 + 1 + 1) * 100))].
Proof. reflexivity. Qed.

(** ** Period-over-period deltas *)

Lemma MM_fold_mom mk (rs : list SessionData) (t : MM.TrendData) :
  let t' := fold_left (MM.addSession mk) rs t in
  MM.momSessionsChange t' = MM.momSessionsChange t /\
  MM.momAttendanceChange t' = MM.momAttendanceChange t /\
  MM.momRevenueChange t' = MM.momRevenueChange t.
Proof.
  revert t. induction rs as [|r rs IH]; intros t; simpl; [auto|].
  destruct (IH (MM.addSession mk t r)) as (-> & -> & ->). auto.
Qed.

Lemma MM_trendMap_mom mk view (data : list SessionData) k t :
  In (k, t) (MM.trendMap mk view data) ->
  MM.momSessionsChange t = JS.Finite 0 /\
  MM.momAttendanceChange t = JS.Finite 0 /\
  MM.momRevenueChange t = JS.Finite 0.
Proof.
  intros H. apply In_groupBy in H. destruct H as (r & rs & _ & ->).
  apply (MM_fold_mom mk (r :: rs) (MM.newTrend view r)).
Qed.

Lemma MM_processedTrendData_In mk compare view data trend :
  In trend (MM.processedTrendData mk compare view data) ->
  exists k t,
    In (k, t) (MM.trendMap mk view data) /\
    trend = MM.derive (List.length (MM.allMonths mk data)) t.
Proof.
  unfold MM.processedTrendData. destruct data as [|s data]; [contradiction|].
  intros H. apply sortBy_In in H. unfold MM.results in H.
  apply in_map_iff in H. destruct H as (t & <- & H).
  apply In_values in H. destruct H as [k H]. now exists k, t.
Qed.

Lemma MM_derive_breakdown n t :
  MM.monthlyBreakdown (MM.derive n t) = MM.monthlyBreakdown t.
Proof.
  unfold MM.derive. destruct (MM.comparedMonths t) as [[latest previous]|];
    reflexivity.
Qed.

Lemma MM_derive_comparedMonths n t :
  MM.comparedMonths (MM.derive n t) = MM.comparedMonths t.
Proof. unfold MM.comparedMonths. now rewrite MM_derive_breakdown. Qed.

(** The month-over-month changes of a row of the multi-metric table. *)
Lemma MM_row_deltas mk compare view data trend :
  In trend (MM.processedTrendData mk compare view data) ->
  match MM.comparedMonths trend with
  | Some (latest, previous) =>
      MM.momSessionsChange trend =
        specDelta (MM.sessions previous) (MM.sessions latest) /\
      MM.momAttendanceChange trend =
        specDelta (MM.attendance previous) (MM.attendance latest) /\
      MM.momRevenueChange trend =
        specDelta (MM.revenue previous) (MM.revenue latest)
  | None =>
      MM.momSessionsChange trend = JS.Finite 0 /\
      MM.momAttendanceChange trend = JS.Finite 0 /\
      MM.momRevenueChange trend = JS.Finite 0
  end.
Proof.
  intros H. apply MM_processedTrendData_In in H.
  destruct H as (k & t & Hin & ->).
  rewrite MM_derive_comparedMonths.
  pose proof (MM_trendMap_mom _ _ _ _ _ Hin) as (E1 & E2 & E3).
  unfold MM.derive.
  destruct (MM.comparedMonths t) as [[latest previous]|]; simpl.
  - rewrite !guardedPercent_specDelta. auto.
  - auto.
Qed.

Lemma abs_finite (q : Q) : JS.abs (JS.Finite q) = JS.Finite (Qabs q).
Proof. reflexivity. Qed.

Lemma ECP_getMonthTrend_both currentMonth previousMonth metric :
  let current := metricOf currentMonth metric in
  let previous := metricOf previousMonth metric in
  let change := (current - previous) / previous * 100 in
  ECP.getMonthTrend (Some currentMonth) (Some previousMonth) metric =
  if Qeq_bool previous 0 then None
  else if Qle_bool (1 # 10) (Qabs change) then Some (JS.Finite change)
       else None.
Proof.
  cbv zeta. unfold ECP.getMonthTrend, metricOf.
  destruct (Qeq_bool (JS.orZero (ECP.field previousMonth metric)) 0) eqn:E;
    [reflexivity|].
  rewrite div_nonzero.
  - simpl. now destruct (Qle_bool _ _).
  - intros H. apply Qeq_bool_iff in H. congruence.
Qed.

(** C6, as the specification states it, fails for [getMonthTrend]: with
    no previous month, and with a previous value of 0, the result is
    [null] and not the number 0. *)
Lemma delta_is_concrete_counterexample :
  let current := sampleMonth 8 90 45000 in
  let previous := sampleMonth 0 0 0 in
  ECP.getMonthTrend (Some current) None "totalSessions" = None /\
  ECP.getMonthTrend (Some current) (Some previous) "totalSessions" = None /\
  ECP.getMonthTrend (Some current) (Some previous) "totalSessions" <>
    Some (specDelta (metricOf previous "totalSessions")
            (metricOf current "totalSessions")).
Proof. repeat split. discriminate. Qed.

(** C6, amended: in the multi-metric table each month-over-month change
    is [(valueB - valueA) / valueA * 100] of the two compared months when
    [valueA > 0] and 0 otherwise, and 0 when fewer than two months are
    present.  [getMonthTrend] returns [null] when a month is missing, when
    the previous value is 0 and when the change is below 0.1 in absolute
    value; otherwise it returns [(current - previous) / previous * 100],
    which is the specified delta when the previous value is positive. *)
Theorem period_delta :
  (forall monthKeyOf compare (view : string) (data : list SessionData),
     Forall
       (fun trend =>
          match MM.comparedMonths trend with
          | Some (latest, previous) =>
              MM.momSessionsChange trend =
                guardedPercent (MM.sessions latest - MM.sessions previous)
                  (MM.sessions previous) /\
              MM.momAttendanceChange trend =
                guardedPercent (MM.attendance latest - MM.attendance previous)
                  (MM.attendance previous) /\
              MM.momRevenueChange trend =
                guardedPercent (MM.revenue latest - MM.revenue previous)
                  (MM.revenue previous)
          | None =>
              MM.momSessionsChange trend = JS.Finite 0 /\
              MM.momAttendanceChange trend = JS.Finite 0 /\
              MM.momRevenueChange trend = JS.Finite 0
          end)
       (MM.processedTrendData monthKeyOf compare view data)) /\
  (forall currentMonth previousMonth (metric : string),
     ECP.getMonthTrend currentMonth None metric = None /\
     ECP.getMonthTrend None previousMonth metric = None) /\
  (forall currentMonth previousMonth (metric : string),
     let current := metricOf currentMonth metric in
     let previous := metricOf previousMonth metric in
     let change := JS.times (JS.div (current - previous) previous) 100 in
     (previous == 0 ->
      ECP.getMonthTrend (Some currentMonth) (Some previousMonth) metric
      = None) /\
     (~ previous == 0 -> JS.lt (JS.abs change) (1 # 10) = true ->
      ECP.getMonthTrend (Some currentMonth) (Some previousMonth) metric
      = None) /\
     (~ previous == 0 -> JS.lt (JS.abs change) (1 # 10) = false ->
      ECP.getMonthTrend (Some currentMonth) (Some previousMonth) metric
      = Some change) /\
     (0 < previous -> JS.lt (JS.abs change) (1 # 10) = false ->
      ECP.getMonthTrend (Some currentMonth) (Some previousMonth) metric
      = Some (guardedPercent (current - previous) previous))).
Proof.
  split; [|split].
  - intros mk compare view data. apply Forall_forall. intros trend Hin.
    pose proof (MM_row_deltas _ _ _ _ _ Hin) as H.
    destruct (MM.comparedMonths trend) as [[latest previous]|];
      [rewrite !guardedPercent_specDelta|]; exact H.
  - intros currentMonth previousMonth metric. split.
    + now destruct currentMonth.
    + now destruct previousMonth.
  - intros currentMonth previousMonth metric. cbv zeta.
    unfold ECP.getMonthTrend. fold (metricOf currentMonth metric).
    fold (metricOf previousMonth metric).
    set (previous := metricOf previousMonth metric).
    set (current := metricOf currentMonth metric).
    assert (Hz : ~ previous == 0 -> Qeq_bool previous 0 = false).
    { intros H. destruct (Qeq_bool previous 0) eqn:E; [|reflexivity].
      apply Qeq_bool_iff in E. contradiction. }
    repeat split.
    + intros H. apply Qeq_bool_iff in H. now rewrite H.
    + intros Hp Hc. now rewrite (Hz Hp), Hc.
    + intros Hp Hc. now rewrite (Hz Hp), Hc.
    + intros Hp Hc. rewrite Hz, Hc by lra.
      unfold guardedPercent. now rewrite (proj2 (gt0_true previous) Hp).
Qed.

Lemma period_delta_witness :
  let current := sampleMonth 12 90 45000 in
  let previous := sampleMonth 8 80 40000 in
  0 < metricOf previous "totalSessions" /\
  ECP.getMonthTrend (Some current) (Some previous) "totalSessions"
  = Some (guardedPercent (12 - 8) 8).
Proof.
  cbv zeta. split; [reflexivity|].
  apply (proj2 (proj2 (proj2
           (proj2 (proj2 period_delta)
              (sampleMonth 12 90 45000) (sampleMonth 8 80 40000)
              "totalSessions")))).
  - reflexivity.
  - reflexivity.
Defined.

Example UTC_keys :
  UTC.monthKeyOf "2024-03-15" = "2024-03" /\
  UTC.prevMonthKeyOf "2024-03-01" = "2024-02" /\
  UTC.prevMonthKeyOf "2024-01-01" = "2023-12".
Proof. repeat split. Qed.

(** ** Month-over-month: which periods are compared *)

Lemma MM_fold_breakdown mk (rs : list SessionData) (t : MM.TrendData) :
  MM.monthlyBreakdown (fold_left (MM.addSession mk) rs t) =
  fold_left
    (upsert (fun s => mk (Session.date s)) (fun _ => false)
       (fun _ => MM.zeroMonth) MM.addToMonth)
    rs (MM.monthlyBreakdown t).
Proof.
  revert t. induction rs as [|r rs IH]; intros t; simpl; [reflexivity|].
  now rewrite IH.
Qed.

Lemma MM_fold_dimension mk (rs : list SessionData) (t : MM.TrendData) :
  MM.dimension (fold_left (MM.addSession mk) rs t) = MM.dimension t.
Proof.
  revert t. induction rs as [|r rs IH]; intros t; simpl; [reflexivity|].
  now rewrite IH.
Qed.

(** The month buckets of a dimension are the grouping, by month key, of
    the sessions of that dimension. *)
Lemma MM_trendMap_entry mk view (data : list SessionData) k t :
  In (k, t) (MM.trendMap mk view data) ->
  MM.dimension t = k /\
  MM.monthlyBreakdown t =
    groupBy (fun s => mk (Session.date s)) (fun _ => false)
      (fun _ => MM.zeroMonth) MM.addToMonth
      (members (MM.dimensionKey view) (fun _ => false) k data).
Proof.
  intros H. apply In_groupBy in H. destruct H as (r & rs & Hm & ->).
  pose proof (members_head _ _ _ _ _ _ Hm) as [Hk _]. split.
  - rewrite MM_fold_dimension. exact Hk.
  - rewrite MM_fold_breakdown, Hm. reflexivity.
Qed.

Lemma In_keys_groupBy {R V : Type} (key : R -> string) (skip : R -> bool)
  (init : R -> V) (step : V -> R -> V) (data : list R) (k : string) :
  In k (JS.keys (groupBy key skip init step data)) <->
  exists r, In r data /\ skip r = false /\ key r = k.
Proof.
  rewrite In_keys_get, get_groupBy. split.
  - intros [v H]. destruct (members key skip k data) as [|r rs] eqn:Hm;
      [discriminate|].
    exists r. apply (members_In key skip k data r). rewrite Hm. now left.
  - intros (r & Hr). apply (members_In key skip k data r) in Hr.
    destruct (members key skip k data) as [|r0 rs]; [contradiction|].
    simpl. eauto.
Qed.

(** A month bucket totals the sessions of its dimension and month. *)
Lemma MM_bucket_totals mk view (data : list SessionData) k t m b :
  In (k, t) (MM.trendMap mk view data) ->
  JS.get (MM.monthlyBreakdown t) m = Some b ->
  let ss := sessionsOfMonth mk view k m data in
  MM.sessions b == ofNat (List.length ss) /\
  MM.attendance b ==
    sumQ (map (fun s => JS.orZero (Session.checkedInCount s)) ss) /\
  MM.revenue b == sumQ (map (fun s => JS.orZero (Session.totalPaid s)) ss).
Proof.
  intros Hin Hget. apply MM_trendMap_entry in Hin. destruct Hin as [_ Hmb].
  rewrite Hmb, get_groupBy in Hget. cbv zeta. unfold sessionsOfMonth.
  destruct (members (fun s => mk (Session.date s)) (fun _ => false) m _)
    as [|r rs]; [discriminate|].
  unfold foldGroup in Hget. inversion Hget; subst b. clear Hget.
  repeat split.
  - rewrite <- sumQ_ones.
    rewrite (m_fold_left MM.addToMonth MM.sessions (fun _ => 1));
      [simpl; lra | intros; simpl; lra].
  - rewrite (m_fold_left MM.addToMonth MM.attendance
               (fun s => JS.orZero (Session.checkedInCount s)));
      [simpl; lra | intros; simpl; lra].
  - rewrite (m_fold_left MM.addToMonth MM.revenue
               (fun s => JS.orZero (Session.totalPaid s)));
      [simpl; lra | intros; simpl; lra].
Qed.

Lemma MM_comparedMonths_spec (t : MM.TrendData) :
  let present := JS.keys (MM.monthlyBreakdown t) in
  NoDup present ->
  ((2 <= List.length present)%nat ->
   exists latestKey previousKey latest previous,
     In latestKey present /\ In previousKey present /\
     previousKey <> latestKey /\
     (forall m, In m present -> String.leb m latestKey = true) /\
     (forall m, In m present -> m <> latestKey ->
                String.leb m previousKey = true) /\
     JS.get (MM.monthlyBreakdown t) latestKey = Some latest /\
     JS.get (MM.monthlyBreakdown t) previousKey = Some previous /\
     MM.comparedMonths t = Some (latest, previous)) /\
  ((List.length present < 2)%nat -> MM.comparedMonths t = None).
Proof.
  intros present Hnd. split.
  - intros Hlen.
    destruct (sort_last_two present Hnd Hlen)
      as (c & p & Hc & Hp & Hinc & Hinp & Hne & Hmax & Hsnd).
    pose proof Hinc as Hgc. apply In_keys_get in Hgc. destruct Hgc as [latest Hgc].
    pose proof Hinp as Hgp. apply In_keys_get in Hgp. destruct Hgp as [previous Hgp].
    exists c, p, latest, previous. repeat split; auto.
    unfold MM.comparedMonths. fold present. unfold JS.sort in *.
    rewrite sortBy_length, (proj2 (Nat.leb_le _ _) Hlen), Hc, Hp, Hgc, Hgp.
    reflexivity.
  - intros Hlen. unfold MM.comparedMonths. fold present. unfold JS.sort.
    now rewrite short_no_second.
Qed.

Lemma ICP_fold_trends (rs : list PayrollData) (e : ICP.ProcessedPayrollData) :
  ICP.trends (fold_left ICP.addItem rs e) = ICP.trends e.
Proof.
  revert e. induction rs as [|r rs IH]; intros e; simpl; [reflexivity|].
  now rewrite IH.
Qed.

Lemma ICP_grouped_trends location (data : list PayrollData) e :
  In e (JS.values (ICP.grouped location data)) -> ICP.trends e = None.
Proof.
  intros H. apply In_values in H. destruct H as [k H].
  apply In_groupBy in H. destruct H as (r & rs & _ & ->).
  now rewrite ICP_fold_trends.
Qed.

Lemma ICP_isPrevData_item item item' key p :
  ICP_sameTotals item item' ->
  ICP.isPrevData item key p = ICP.isPrevData item' key p.
Proof.
  intros (H1 & H2 & _). unfold ICP.isPrevData. now rewrite H1, H2.
Qed.

Lemma ICP_prevMonthKey_same prevMonthKeyOf a b :
  ICP_sameTotals a b ->
  ICP_prevMonthKey prevMonthKeyOf a = ICP_prevMonthKey prevMonthKeyOf b.
Proof. intros (_ & _ & H & _). unfold ICP_prevMonthKey. now rewrite H. Qed.

(** C7, as the specification states it, fails in the payroll table: a
    teacher with data in January and in June only is in two periods, yet
    neither row carries a comparison, because the row of June looks for
    May. *)
Lemma nearest_periods_counterexample :
  let data :=
    [Sample.payroll "Asha" "2024-01" 10 1 9 80 40000;
     Sample.payroll "Asha" "2024-06" 12 0 12 110 52000] in
  let rows :=
    ICP.processedData UTC.prevMonthKeyOf Sample.anyOrder None data in
  map ICP.monthYear rows = [Some "2024-01"; Some "2024-06"] /\
  ~ exists row t, In row rows /\ ICP.trends row = Some t.
Proof.
  cbv zeta. split; [reflexivity|].
  intros (row & t & Hin & Ht).
  assert (H : In (ICP.trends row)
                (map ICP.trends
                   (ICP.processedData UTC.prevMonthKeyOf Sample.anyOrder None
                      [Sample.payroll "Asha" "2024-01" 10 1 9 80 40000;
                       Sample.payroll "Asha" "2024-06" 12 0 12 110 52000])))
    by now apply in_map.
  rewrite Ht in H. vm_compute in H. intuition discriminate.
Qed.

Lemma strictEq_eq (a b : option string) : JS.strictEq a b = true <-> a = b.
Proof.
  destruct a as [x|], b as [y|]; simpl; split; intros H;
    try discriminate; try reflexivity.
  - apply String.eqb_eq in H. now subst.
  - inversion H. apply String.eqb_refl.
Qed.

(** The row that the payroll table looks for: same location, same
    teacher, and the month of the key. *)
Lemma ICP_isPrevData_spec item key p :
  ICP.isPrevData item key p = true <->
  ICP.location p = ICP.location item /\
  ICP.teacherName p = ICP.teacherName item /\
  ICP.monthYear p = Some key.
Proof.
  unfold ICP.isPrevData. rewrite !andb_true_iff, !strictEq_eq. tauto.
Qed.

(** C7, amended: the multi-metric table compares, for each dimension,
    the buckets of the greatest and of the second greatest month key
    among the months in which the dimension has a session, whatever lies
    between them, and compares nothing when fewer than two months are
    present; a bucket totals the sessions of its dimension and month.
    The payroll table compares a row only with the row of the same
    location and teacher whose month is the key that the [Date]
    arithmetic of the code derives from the row's own month, one month
    back from its first day, and the row carries no comparison when there
    is no such row, whatever other months are present. *)
Theorem month_over_month_periods :
  (forall monthKeyOf compare (view : string) (data : list SessionData),
     Forall
       (fun trend =>
          let present := JS.keys (MM.monthlyBreakdown trend) in
          (forall m,
             In m present <->
             exists s, In s data /\
                       MM.dimensionKey view s = MM.dimension trend /\
                       monthKeyOf (Session.date s) = m) /\
          (forall m bucket,
             JS.get (MM.monthlyBreakdown trend) m = Some bucket ->
             let ss :=
               sessionsOfMonth monthKeyOf view (MM.dimension trend) m data in
             MM.sessions bucket == ofNat (List.length ss) /\
             MM.attendance bucket ==
               sumQ (map (fun s => JS.orZero (Session.checkedInCount s)) ss) /\
             MM.revenue bucket ==
               sumQ (map (fun s => JS.orZero (Session.totalPaid s)) ss)) /\
          ((2 <= List.length present)%nat ->
           exists latestKey previousKey latest previous,
             In latestKey present /\ In previousKey present /\
             previousKey <> latestKey /\
             (forall m, In m present -> String.leb m latestKey = true) /\
             (forall m, In m present -> m <> latestKey ->
                        String.leb m previousKey = true) /\
             JS.get (MM.monthlyBreakdown trend) latestKey = Some latest /\
             JS.get (MM.monthlyBreakdown trend) previousKey = Some previous /\
             MM.comparedMonths trend = Some (latest, previous) /\
             MM.momSessionsChange trend =
               guardedPercent (MM.sessions latest - MM.sessions previous)
                 (MM.sessions previous) /\
             MM.momAttendanceChange trend =
               guardedPercent (MM.attendance latest - MM.attendance previous)
                 (MM.attendance previous) /\
             MM.momRevenueChange trend =
               guardedPercent (MM.revenue latest - MM.revenue previous)
                 (MM.revenue previous)) /\
          ((List.length present < 2)%nat ->
           MM.comparedMonths trend = None /\
           MM.momSessionsChange trend = JS.Finite 0 /\
           MM.momAttendanceChange trend = JS.Finite 0 /\
           MM.momRevenueChange trend = JS.Finite 0))
       (MM.processedTrendData monthKeyOf compare view data)) /\
  (forall prevMonthKeyOf compare (location : option string)
          (data : list PayrollData),
     Forall
       (fun row =>
          let prevMonthKey := ICP_prevMonthKey prevMonthKeyOf row in
          let entries := JS.values (ICP.grouped location data) in
          let isCompared p :=
            ICP.location p = ICP.location row /\
            ICP.teacherName p = ICP.teacherName row /\
            ICP.monthYear p = Some prevMonthKey in
          (ICP.trends row = None <->
           forall p, In p entries -> ~ isCompared p) /\
          (forall t, ICP.trends row = Some t ->
             exists p,
               In p entries /\ isCompared p /\
               ICP.sessionsChange t =
                 guardedPercent (ICP.totalSessions row - ICP.totalSessions p)
                   (ICP.totalSessions p) /\
               ICP.customersChange t =
                 guardedPercent
                   (ICP.totalCustomers row - ICP.totalCustomers p)
                   (ICP.totalCustomers p) /\
               ICP.revenueChange t =
                 guardedPercent (ICP.totalPaid row - ICP.totalPaid p)
                   (ICP.totalPaid p)))
       (ICP.processedData prevMonthKeyOf compare location data)).
Proof.
  split.
  - intros mk compare view data. apply Forall_forall. intros trend Hin.
    pose proof (MM_row_deltas _ _ _ _ _ Hin) as Hdelta.
    apply MM_processedTrendData_In in Hin.
    destruct Hin as (k & t & Hin & ->).
    pose proof (fun m b => MM_bucket_totals mk view data k t m b Hin) as Htot.
    apply MM_trendMap_entry in Hin. destruct Hin as [Hk Hmb].
    set (trend := MM.derive (List.length (MM.allMonths mk data)) t) in *.
    assert (Hb : MM.monthlyBreakdown trend = MM.monthlyBreakdown t)
      by apply MM_derive_breakdown.
    assert (Hdim : MM.dimension trend = k).
    { unfold trend, MM.derive.
      destruct (MM.comparedMonths t) as [[? ?]|]; exact Hk. }
    cbv zeta.
    assert (Hnd : NoDup (JS.keys (MM.monthlyBreakdown trend)))
      by (rewrite Hb, Hmb; apply NoDup_keys_groupBy).
    destruct (MM_comparedMonths_spec trend Hnd) as [Hge Hlt].
    split; [|split; [|split]].
    + intros m. rewrite Hb, Hmb, In_keys_groupBy, Hdim. split.
      * intros (s & Hs & _ & Hm). apply members_In in Hs.
        exists s. tauto.
      * intros (s & Hs & Hd & Hm). exists s. repeat split; auto.
        apply members_In. auto.
    + intros m bucket Hget. rewrite Hdim. rewrite Hb in Hget.
      exact (Htot m bucket Hget).
    + intros Hlen. destruct (Hge Hlen)
        as (lk & pk & latest & previous & H1 & H2 & H3 & H4 & H5 & H6 & H7 & H8).
      exists lk, pk, latest, previous.
      rewrite H8 in Hdelta. rewrite !guardedPercent_specDelta.
      repeat split; auto; apply Hdelta.
    + intros Hlen. pose proof (Hlt Hlen) as Hnone. split; [exact Hnone|].
      rewrite Hnone in Hdelta. exact Hdelta.
  - intros prevMonthKeyOf compare location data.
    apply Forall_forall. intros row Hin.
    apply ICP_processedData_In in Hin. destruct Hin as (e0 & Hin0 & Hd).
    pose proof (ICP_derivedFrom_same _ _ _ _ Hd) as Hsame.
    pose proof (ICP_grouped_trends _ _ _ Hin0) as Ht0.
    pose proof (ICP_withMetrics_same e0) as Hm0.
    assert (Hitem : ICP_sameTotals (ICP.withMetrics e0) row)
      by (eapply ICP_sameTotals_trans;
          [exact Hm0 | now apply ICP_sameTotals_sym]).
    cbv zeta.
    rewrite <- (ICP_prevMonthKey_same prevMonthKeyOf _ _ Hitem).
    assert (Hspec : forall p,
              ICP.isPrevData row
                (ICP_prevMonthKey prevMonthKeyOf (ICP.withMetrics e0)) p
              = true <->
              ICP.location p = ICP.location row /\
              ICP.teacherName p = ICP.teacherName row /\
              ICP.monthYear p =
                Some (ICP_prevMonthKey prevMonthKeyOf (ICP.withMetrics e0)))
      by (intros p; apply ICP_isPrevData_spec).
    destruct Hd as [[-> Hnone]|(prevData & p & Hp & Hs & Hmatch & ->)].
    + split.
      * split; [|intros _; exact Ht0].
        intros _ p Hp Hc. apply Hspec in Hc.
        rewrite (Hnone p Hp) in Hc. discriminate.
      * intros t Ht. simpl in Ht. congruence.
    + split.
      * split; [discriminate|]. intros Hall. exfalso.
        apply (Hall p Hp). apply Hspec.
        rewrite <- (ICP_isPrevData_item _ _ _ _ Hitem). exact Hmatch.
      * intros t Ht. simpl in Ht. inversion Ht; subst t. clear Ht.
        exists p. split; [exact Hp|]. split.
        -- apply Hspec.
           rewrite <- (ICP_isPrevData_item _ _ _ _ Hitem). exact Hmatch.
        -- destruct Hs as (_ & _ & _ & E1 & E2 & E3 & _). simpl.
           rewrite E1, E2, E3. auto.
Qed.

Example month_over_month_periods_sample :
  let data :=
    [Sample.session "Barre 57" "2024-01-08" 15 12 14 1 6000;
     Sample.session "Barre 57" "2024-01-15" 15 9 9 0 4500;
     Sample.session "Barre 57" "2024-04-02" 15 7 9 0 3500] in
  map (fun trend => (MM.dimension trend, MM.momSessionsChange trend))
    (MM.processedTrendData UTC.monthKeyOf Sample.anyOrder "format" data)
  = [("Barre 57", specDelta (0 + 1 + 1) (0 + 1))].
Proof. reflexivity. Qed.

(** ** Year over year *)

Lemma fold_left_snoc {A : Type} (rs l : list A) :
  fold_left (fun l x => (l ++ [x])%list) rs l = (l ++ rs)%list.
Proof.
  revert l. induction rs as [|r rs IH]; intros l; simpl.
  - now rewrite app_nil_r.
  - rewrite IH, <- app_assoc. reflexivity.
Qed.

Lemma YoY_fold_years (rs : list TDP.ProcessedTrainerData) (t : YoY.TrainerYears) :
  YoY.years (fold_left YoY.addTrainer rs t) =
  fold_left
    (upsert YoY.yearOf (fun _ => false) (fun _ => [])
       (fun l x => (l ++ [x])%list))
    rs (YoY.years t).
Proof.
  revert t. induction rs as [|r rs IH]; intros t; simpl; [reflexivity|].
  now rewrite IH.
Qed.

Lemma YoY_fold_identity (rs : list TDP.ProcessedTrainerData) (t : YoY.TrainerYears) :
  YoY.t_trainerName (fold_left YoY.addTrainer rs t) = YoY.t_trainerName t /\
  YoY.t_location (fold_left YoY.addTrainer rs t) = YoY.t_location t.
Proof.
  revert t. induction rs as [|r rs IH]; intros t; simpl; [auto|].
  destruct (IH (YoY.addTrainer t r)) as [-> ->]. auto.
Qed.

(** An entry of [trainerMap]: its identity gives back its key, and its
    year buckets group the rows of the key by year. *)
Lemma YoY_trainerMap_entry (data : list TDP.ProcessedTrainerData) k t :
  In (k, t) (YoY.trainerMap data) ->
  JS.show (YoY.t_trainerName t) ++ "-" ++ JS.show (YoY.t_location t) = k /\
  YoY.years t =
    groupBy YoY.yearOf (fun _ => false) (fun _ => [])
      (fun l x => (l ++ [x])%list)
      (members YoY.keyOf (fun _ => false) k data).
Proof.
  intros H. apply In_groupBy in H. destruct H as (r & rs & Hm & ->).
  pose proof (members_head _ _ _ _ _ _ Hm) as [Hk _]. split.
  - destruct (YoY_fold_identity (r :: rs) (YoY.newTrainer r)) as [-> ->].
    exact Hk.
  - rewrite YoY_fold_years, Hm. reflexivity.
Qed.

Lemma YoY_years_get k y (data : list TDP.ProcessedTrainerData) :
  JS.get
    (groupBy YoY.yearOf (fun _ => false) (fun _ => [])
       (fun l x => (l ++ [x])%list)
       (members YoY.keyOf (fun _ => false) k data)) y =
  match rowsOfYear k y data with
  | [] => None
  | rs => Some rs
  end.
Proof.
  rewrite get_groupBy. unfold rowsOfYear.
  destruct (members YoY.yearOf _ y _) as [|r rs]; [reflexivity|].
  unfold foldGroup. now rewrite (fold_left_snoc (r :: rs) []).
Qed.

Lemma YoY_years_keys k (data : list TDP.ProcessedTrainerData) :
  Permutation
    (JS.keys
       (groupBy YoY.yearOf (fun _ => false) (fun _ => [])
          (fun l x => (l ++ [x])%list)
          (members YoY.keyOf (fun _ => false) k data)))
    (distinctYears k data).
Proof.
  apply NoDup_Permutation.
  - apply NoDup_keys_groupBy.
  - apply NoDup_nodup.
  - intros y. rewrite In_keys_groupBy. unfold distinctYears.
    rewrite nodup_In, in_map_iff. split.
    + intros (r & Hr & _ & Hy). now exists r.
    + intros (r & Hy & Hr). now exists r.
Qed.

Lemma YoY_aggregate_revenue (l : list TDP.ProcessedTrainerData) :
  YoY.revenue (YoY.aggregate l) == sumQ (map TDP.totalPaid l).
Proof.
  unfold YoY.aggregate.
  assert (H : forall acc,
             YoY.revenue
               (fold_left
                  (fun acc t =>
                     {| YoY.revenue := YoY.revenue acc + TDP.totalPaid t;
                        YoY.sessions := YoY.sessions acc + TDP.totalSessions t;
                        YoY.customers :=
                          YoY.customers acc + TDP.totalCustomers t;
                        YoY.y_cycleRevenue :=
                          YoY.y_cycleRevenue acc + TDP.cycleRevenue t;
                        YoY.y_barreRevenue :=
                          YoY.y_barreRevenue acc + TDP.barreRevenue t;
                        YoY.y_strengthRevenue :=
                          YoY.y_strengthRevenue acc + TDP.strengthRevenue t |})
                  l acc)
             == YoY.revenue acc + sumQ (map TDP.totalPaid l)).
  { induction l as [|x l IH]; intros acc; simpl.
    - lra.
    - rewrite IH. simpl. lra. }
  rewrite H. simpl. lra.
Qed.

(** What [comparison] yields for an entry of [trainerMap]. *)
Lemma YoY_comparison_spec (data : list TDP.ProcessedTrainerData) k t :
  In (k, t) (YoY.trainerMap data) ->
  ((2 <= List.length (distinctYears k data))%nat ->
   exists row current previous,
     YoY.comparison t = Some row /\ YoY.rowKey row = k /\
     In current (distinctYears k data) /\
     In previous (distinctYears k data) /\ previous <> current /\
     (forall y, In y (distinctYears k data) -> String.leb y current = true) /\
     (forall y, In y (distinctYears k data) -> y <> current ->
                String.leb y previous = true) /\
     YoY.currentYear row = YoY.aggregate (rowsOfYear k current data) /\
     YoY.previousYear row = YoY.aggregate (rowsOfYear k previous data) /\
     YoY.revenueGrowth row =
       specDelta (YoY.revenue (YoY.previousYear row))
         (YoY.revenue (YoY.currentYear row))) /\
  ((List.length (distinctYears k data) < 2)%nat -> YoY.comparison t = None).
Proof.
  intros Hin. apply YoY_trainerMap_entry in Hin. destruct Hin as [Hk Hy].
  pose proof (YoY_years_keys k data) as Hperm. rewrite <- Hy in Hperm.
  pose proof (Permutation_length Hperm) as Hlen.
  assert (Hnd : NoDup (JS.keys (YoY.years t)))
    by (rewrite Hy; apply NoDup_keys_groupBy).
  assert (Hmem : forall y, In y (JS.keys (YoY.years t)) <->
                           In y (distinctYears k data)).
  { intros y. split; apply Permutation_in;
      [exact Hperm | now apply Permutation_sym]. }
  split.
  - intros H2. rewrite <- Hlen in H2.
    destruct (sort_last_two _ Hnd H2)
      as (c & p & Hc & Hp & Hinc & Hinp & Hne & Hmax & Hsnd).
    assert (Hgc : JS.get (YoY.years t) c = Some (rowsOfYear k c data)).
    { rewrite Hy, YoY_years_get.
      destruct (rowsOfYear k c data) eqn:E; [|reflexivity].
      exfalso. apply In_keys_get in Hinc. destruct Hinc as [v Hv].
      rewrite Hy, YoY_years_get, E in Hv. discriminate. }
    assert (Hgp : JS.get (YoY.years t) p = Some (rowsOfYear k p data)).
    { rewrite Hy, YoY_years_get.
      destruct (rowsOfYear k p data) eqn:E; [|reflexivity].
      exfalso. apply In_keys_get in Hinp. destruct Hinp as [v Hv].
      rewrite Hy, YoY_years_get, E in Hv. discriminate. }
    unfold YoY.comparison, YoY.sortedYears, JS.sort in *.
    rewrite sortBy_length, (proj2 (Nat.leb_le _ _) H2), Hc, Hp, Hgc, Hgp.
    eexists. exists c, p. split; [reflexivity|].
    unfold YoY.rowKey. cbn [YoY.c_trainerName YoY.c_location
      YoY.currentYear YoY.previousYear YoY.revenueGrowth].
    repeat split; auto.
    + now apply Hmem.
    + now apply Hmem.
    + intros y Hyin. apply Hmax. now apply Hmem.
    + intros y Hyin. apply Hsnd. now apply Hmem.
    + unfold YoY.growth. apply guardedPercent_specDelta.
  - intros H2. rewrite <- Hlen in H2.
    unfold YoY.comparison, YoY.sortedYears, JS.sort.
    now rewrite short_no_second.
Qed.

Lemma YoY_In (data : list TDP.ProcessedTrainerData) row :
  In row (YoY.yearOnYearData data) <->
  exists k t, In (k, t) (YoY.trainerMap data) /\ YoY.comparison t = Some row.
Proof.
  unfold YoY.yearOnYearData. rewrite in_flat_map. split.
  - intros (t & Ht & Hrow). apply In_values in Ht. destruct Ht as [k Ht].
    exists k, t. split; [exact Ht|].
    destruct (YoY.comparison t); simpl in Hrow; [|contradiction].
    destruct Hrow as [->|[]]. reflexivity.
  - intros (k & t & Ht & Hc). exists t. split.
    + apply In_values. now exists k.
    + rewrite Hc. now left.
Qed.

Lemma YoY_comparison_key (data : list TDP.ProcessedTrainerData) k t row :
  In (k, t) (YoY.trainerMap data) -> YoY.comparison t = Some row ->
  YoY.rowKey row = k /\ (2 <= List.length (distinctYears k data))%nat.
Proof.
  intros Hin Hc. destruct (YoY_comparison_spec _ _ _ Hin) as [Hge Hlt].
  destruct (Nat.le_gt_cases 2 (List.length (distinctYears k data))) as [H|H].
  - destruct (Hge H) as (row' & c & p & Hc' & Hk & _).
    assert (row' = row) by congruence. subst. auto.
  - rewrite (Hlt H) in Hc. discriminate.
Qed.

Lemma YoY_rows_NoDup (data : list TDP.ProcessedTrainerData) :
  NoDup (map YoY.rowKey (YoY.yearOnYearData data)).
Proof.
  unfold YoY.yearOnYearData.
  pose proof (NoDup_keys_groupBy YoY.keyOf (fun _ => false) YoY.newTrainer
                YoY.addTrainer data) as Hnd.
  fold (YoY.trainerMap data) in Hnd.
  assert (Hkey : forall k t row,
             In (k, t) (YoY.trainerMap data) ->
             YoY.comparison t = Some row -> YoY.rowKey row = k)
    by (intros k t row H1 H2; eapply YoY_comparison_key; eauto).
  revert Hnd Hkey. generalize (YoY.trainerMap data) as o.
  induction o as [|[k t] o IH]; intros Hnd Hkey; simpl; [constructor|].
  inversion Hnd as [|? ? Hnotin Hnd']; subst.
  assert (IH' : NoDup
                  (map YoY.rowKey
                     (flat_map
                        (fun trainer =>
                           match YoY.comparison trainer with
                           | Some c => [c]
                           | None => []
                           end) (JS.values o)))).
  { apply IH; [exact Hnd'|]. intros k' t' row H1 H2.
    apply (Hkey k' t' row); [now right | exact H2]. }
  destruct (YoY.comparison t) as [row|] eqn:Hc; simpl; [|exact IH'].
  constructor; [|exact IH'].
  intros Hin. apply in_map_iff in Hin. destruct Hin as (row' & Hk' & Hin).
  apply in_flat_map in Hin. destruct Hin as (t' & Ht' & Hrow').
  apply In_values in Ht'. destruct Ht' as [k' Ht'].
  destruct (YoY.comparison t') as [r'|] eqn:Hc'; simpl in Hrow';
    [|contradiction].
  destruct Hrow' as [->|[]].
  assert (E1 : YoY.rowKey row = k) by (apply (Hkey k t row); [now left | exact Hc]).
  assert (E2 : YoY.rowKey row' = k')
    by (apply (Hkey k' t' row'); [now right | exact Hc']).
  apply Hnotin. rewrite <- E1, <- Hk', E2.
  change k' with (fst (k', t')). now apply in_map.
Qed.

(** ** Year over year: month labels *)

Lemma split_no_separator (sep : ascii) (s : string) :
  forallb (fun c => negb (Ascii.eqb c sep)) (list_ascii_of_string s) = true ->
  JS.split sep s = [s].
Proof.
  induction s as [|c s IH]; simpl; [reflexivity|].
  intros H. apply andb_true_iff in H. destruct H as [Hc Hs].
  apply negb_true_iff in Hc. rewrite Hc, (IH Hs). reflexivity.
Qed.

Lemma isYear_no_hyphen (s : string) :
  isYear s = true ->
  forallb (fun c => negb (Ascii.eqb c "-")) (list_ascii_of_string s) = true.
Proof.
  unfold isYear. intros H. apply andb_true_iff in H. destruct H as [_ H].
  rewrite forallb_forall in *. intros c Hc. specialize (H c Hc).
  destruct (Ascii.eqb_spec c "-") as [->|]; [discriminate | reflexivity].
Qed.

Lemma isYear_length (s : string) : isYear s = true -> String.length s = 4%nat.
Proof.
  unfold isYear. intros H. apply andb_true_iff in H. destruct H as [H _].
  now apply Nat.eqb_eq.
Qed.

Lemma substring_all (s : string) :
  String.substring 0 (String.length s) s = s.
Proof. induction s as [|c s IH]; simpl; [reflexivity | now rewrite IH]. Qed.

Lemma isMonthLabel_length (s : string) :
  isMonthLabel s = true -> (5 <= String.length s)%nat.
Proof.
  induction s as [|c s IH]; simpl; [discriminate|].
  destruct (Ascii.eqb c "-").
  - intros H. apply isYear_length in H. lia.
  - intros H. specialize (IH H). lia.
Qed.

(** On a month label the year that the table extracts is the calendar
    year. *)
Lemma isMonthLabel_year (s : string) :
  isMonthLabel s = true ->
  nth_error (JS.split "-" s) 1 = Some (calendarYear s) /\
  isYear (calendarYear s) = true.
Proof.
  unfold calendarYear.
  induction s as [|c s IH]; [discriminate|].
  cbn [isMonthLabel JS.split]. destruct (Ascii.eqb c "-") eqn:Ec.
  - intros H. pose proof (isYear_length _ H) as Hl.
    rewrite (split_no_separator _ _ (isYear_no_hyphen _ H)).
    cbn [String.length]. rewrite Hl.
    change (5 - 4)%nat with 1%nat. cbn [String.substring nth_error].
    rewrite <- Hl, substring_all. now split.
  - intros H. pose proof (isMonthLabel_length _ H) as Hl.
    destruct (IH H) as [IH1 IH2].
    cbn [String.length].
    replace (S (String.length s) - 4)%nat
      with (S (String.length s - 4))%nat by lia.
    cbn [String.substring]. split; [|exact IH2].
    destruct (JS.split "-" s) as [|w ws]; [discriminate|].
    exact IH1.
Qed.

Lemma YoY_yearOf_label (row : TDP.ProcessedTrainerData) :
  isMonthLabel (TDP.monthYear row) = true ->
  YoY.yearOf row = calendarYear (TDP.monthYear row).
Proof.
  intros H. destruct (isMonthLabel_year _ H) as [E Hy].
  unfold YoY.yearOf. rewrite E.
  apply isYear_length in Hy.
  destruct (calendarYear (TDP.monthYear row)); [discriminate | reflexivity].
Qed.

Lemma YoY_buckets_are_years (k : string)
  (data : list TDP.ProcessedTrainerData) :
  Forall (fun row => isMonthLabel (TDP.monthYear row) = true) data ->
  distinctYears k data = calendarYears k data /\
  forall year, rowsOfYear k year data = rowsOfCalendarYear k year data.
Proof.
  intros Hall.
  assert (Hm : forall row,
             In row (members YoY.keyOf (fun _ => false) k data) ->
             YoY.yearOf row = calendarYear (TDP.monthYear row)).
  { intros row Hin. apply members_In in Hin. destruct Hin as [Hin _].
    rewrite Forall_forall in Hall. now apply YoY_yearOf_label, Hall. }
  split.
  - unfold distinctYears, calendarYears. f_equal. now apply map_ext_in.
  - intros year. unfold rowsOfYear, rowsOfCalendarYear, members at 1.
    apply filter_ext_in. intros row Hin. now rewrite (Hm row Hin).
Qed.

(** The rows of the table in terms of the year buckets of the code. *)
Lemma YoY_rows_by_bucket (data : list TDP.ProcessedTrainerData) :
  NoDup (map YoY.rowKey (YoY.yearOnYearData data)) /\
  (forall k,
     (exists row, In row (YoY.yearOnYearData data) /\ YoY.rowKey row = k) <->
     (2 <= List.length (distinctYears k data))%nat) /\
  Forall
    (fun row =>
       let k := YoY.rowKey row in
       let currentRevenue := YoY.revenue (YoY.currentYear row) in
       let previousRevenue := YoY.revenue (YoY.previousYear row) in
       exists current previous,
         In current (distinctYears k data) /\
         In previous (distinctYears k data) /\ previous <> current /\
         (forall y, In y (distinctYears k data) ->
                    String.leb y current = true) /\
         (forall y, In y (distinctYears k data) -> y <> current ->
                    String.leb y previous = true) /\
         YoY.currentYear row = YoY.aggregate (rowsOfYear k current data) /\
         YoY.previousYear row = YoY.aggregate (rowsOfYear k previous data) /\
         currentRevenue ==
           sumQ (map TDP.totalPaid (rowsOfYear k current data)) /\
         previousRevenue ==
           sumQ (map TDP.totalPaid (rowsOfYear k previous data)) /\
         YoY.revenueGrowth row =
           guardedPercent (currentRevenue - previousRevenue) previousRevenue)
    (YoY.yearOnYearData data).
Proof.
  split; [apply YoY_rows_NoDup|]. split.
  - intros k. split.
    + intros (row & Hin & Hk). apply YoY_In in Hin.
      destruct Hin as (k' & t & Hin & Hc).
      destruct (YoY_comparison_key _ _ _ _ Hin Hc) as [E H2]. congruence.
    + intros H2.
      destruct (members YoY.keyOf (fun _ => false) k data) as [|r rs] eqn:Hm.
      { unfold distinctYears in H2. rewrite Hm in H2. simpl in H2. lia. }
      assert (Hin : In (k, fold_left YoY.addTrainer (r :: rs) (YoY.newTrainer r))
                      (YoY.trainerMap data))
        by (apply In_groupBy; exists r, rs; split; [exact Hm | reflexivity]).
      destruct (proj1 (YoY_comparison_spec _ _ _ Hin) H2)
        as (row & _ & _ & Hc & Hk & _).
      exists row. split; [|exact Hk]. apply YoY_In. eauto.
  - apply Forall_forall. intros row Hin. apply YoY_In in Hin.
    destruct Hin as (k & t & Hin & Hc).
    destruct (YoY_comparison_key _ _ _ _ Hin Hc) as [E H2].
    destruct (proj1 (YoY_comparison_spec _ _ _ Hin) H2)
      as (row' & c & p & Hc' & _ & H3 & H4 & H5 & H6 & H7 & H8 & H9 & H10).
    assert (row' = row) by congruence. subst row'.
    cbv zeta. rewrite E. exists c, p. repeat split; auto.
    + rewrite H8. apply YoY_aggregate_revenue.
    + rewrite H9. apply YoY_aggregate_revenue.
    + rewrite guardedPercent_specDelta. exact H10.
Qed.

(** C8, as the specification states it, fails: the table takes as the year
    what follows the first hyphen of the month label.  With the labels
    ["2023-05"] and ["2024-05"], which the payroll table reads, a trainer
    present in two years has a single bucket, ["05"], and no row; with
    ["2024-01"] and ["2024-02"] a trainer present in one year has two
    buckets and a row; and ["February 2023"] and ["February 2024"] both
    fall in the bucket ["2024"]. *)
Lemma year_over_year_counterexample :
  let rowsOf months :=
    YoY.yearOnYearData
      (TDP.processTrainerData
         (map (fun month => Sample.payroll "Asha" month 10 1 9 80 40000)
            months)) in
  rowsOf ["2023-05"; "2024-05"] = [] /\
  List.length (rowsOf ["2024-01"; "2024-02"]) = 1%nat /\
  rowsOf ["February 2023"; "February 2024"] = [].
Proof. repeat split. Qed.

(** C8, amended: when the month labels are a name, a hyphen and a year of
    four digits, as in ["Feb-2024"], a key of trainer and location has a
    year-over-year row exactly when it has rows in at least two distinct
    calendar years, and then it has one row only; a key with a single year
    has none.  The row compares the latest year with the latest of the
    others, each totalled over the rows of the key in that year, and its
    revenue growth is [(current - previous) / previous * 100] when the
    previous revenue is greater than 0, and 0 otherwise. *)
Theorem year_over_year_rows (data : list TDP.ProcessedTrainerData) :
  Forall (fun row => isMonthLabel (TDP.monthYear row) = true) data ->
  NoDup (map YoY.rowKey (YoY.yearOnYearData data)) /\
  (forall k,
     (exists row, In row (YoY.yearOnYearData data) /\ YoY.rowKey row = k) <->
     (2 <= List.length (calendarYears k data))%nat) /\
  Forall
    (fun row =>
       let k := YoY.rowKey row in
       let currentRevenue := YoY.revenue (YoY.currentYear row) in
       let previousRevenue := YoY.revenue (YoY.previousYear row) in
       exists current previous,
         In current (calendarYears k data) /\
         In previous (calendarYears k data) /\ previous <> current /\
         (forall y, In y (calendarYears k data) ->
                    String.leb y current = true) /\
         (forall y, In y (calendarYears k data) -> y <> current ->
                    String.leb y previous = true) /\
         YoY.currentYear row =
           YoY.aggregate (rowsOfCalendarYear k current data) /\
         YoY.previousYear row =
           YoY.aggregate (rowsOfCalendarYear k previous data) /\
         currentRevenue ==
           sumQ (map TDP.totalPaid (rowsOfCalendarYear k current data)) /\
         previousRevenue ==
           sumQ (map TDP.totalPaid (rowsOfCalendarYear k previous data)) /\
         YoY.revenueGrowth row =
           guardedPercent (currentRevenue - previousRevenue) previousRevenue)
    (YoY.yearOnYearData data).
Proof.
  intros Hall.
  destruct (YoY_rows_by_bucket data) as (H1 & H2 & H3).
  split; [exact H1|]. split.
  - intros k. rewrite <- (proj1 (YoY_buckets_are_years k data Hall)).
    apply H2.
  - eapply Forall_impl; [|exact H3]. intros row. cbv zeta.
    destruct (YoY_buckets_are_years (YoY.rowKey row) data Hall) as [E1 E2].
    rewrite E1. intros (c & p & H). exists c, p.
    rewrite <- !E2. exact H.
Qed.

Lemma year_over_year_rows_witness :
  let data :=
    TDP.processTrainerData
      [Sample.payroll "Asha" "Feb-2023" 10 1 9 80 40000;
       Sample.payroll "Asha" "Mar-2023" 11 1 10 90 45000;
       Sample.payroll "Asha" "Feb-2024" 12 0 12 110 50000] in
  Forall (fun row => isMonthLabel (TDP.monthYear row) = true) data /\
  calendarYears "Asha-Kenkere House" data = ["2023"; "2024"] /\
  exists row,
    In row (YoY.yearOnYearData data) /\
    YoY.rowKey row = "Asha-Kenkere House".
Proof.
  cbv zeta.
  assert (H : Forall (fun row => isMonthLabel (TDP.monthYear row) = true)
                (TDP.processTrainerData
                   [Sample.payroll "Asha" "Feb-2023" 10 1 9 80 40000;
                    Sample.payroll "Asha" "Mar-2023" 11 1 10 90 45000;
                    Sample.payroll "Asha" "Feb-2024" 12 0 12 110 50000]))
    by (repeat constructor).
  split; [exact H|]. split; [reflexivity|].
  apply (proj2 (proj1 (proj2 (year_over_year_rows _ H))
                  "Asha-Kenkere House")).
  simpl. lia.
Defined.

Example year_over_year_single_year :
  YoY.yearOnYearData
    (TDP.processTrainerData
       [Sample.payroll "Asha" "Feb-2023" 10 1 9 80 40000;
        Sample.payroll "Asha" "Mar-2023" 12 0 12 110 52000]) = [].
Proof. reflexivity. Qed.

Example year_over_year_two_years :
  map (fun row => (YoY.rowKey row, YoY.revenueGrowth row))
    (YoY.yearOnYearData
       (TDP.processTrainerData
          [Sample.payroll "Asha" "Feb-2023" 10 1 9 80 40000;
           Sample.payroll "Asha" "Feb-2024" 12 0 12 110 50000]))
  = [("Asha-Kenkere House",
      JS.Finite ((0 + 50000 - (0 + 40000)) / (0 + 40000) * 100))].
Proof. reflexivity. Qed.

(** ** Unknown metric and unknown grouping dimension *)

Lemma getMetricValue_unknown (data : TDP.ProcessedTrainerData) (metric : string) :
  ~ In metric TDP.knownMetrics -> TDP.getMetricValue data metric = JS.Finite 0.
Proof.
  intros H. unfold TDP.getMetricValue.
  repeat (match goal with
          | |- context [String.eqb metric ?s] =>
              destruct (String.eqb_spec metric s) as [E|_];
              [exfalso; apply H; rewrite E; simpl; tauto|]
          end).
  reflexivity.
Qed.

Lemma MoM_dimensionOf_unknown (view : string) (session : SessionData) :
  ~ In view MoM.knownViews ->
  MoM.dimensionOf view session = ("Unknown", "timeslot").
Proof.
  intros H. unfold MoM.dimensionOf.
  repeat (match goal with
          | |- context [String.eqb view ?s] =>
              destruct (String.eqb_spec view s) as [E|_];
              [exfalso; apply H; rewrite E; simpl; tauto|]
          end).
  reflexivity.
Qed.

Lemma filter_all {A : Type} (f : A -> bool) (l : list A) :
  (forall x, In x l -> f x = true) -> filter f l = l.
Proof.
  induction l as [|x l IH]; intros H; simpl; [reflexivity|].
  rewrite (H x (or_introl eq_refl)), IH; [reflexivity|].
  intros y Hy. apply H. now right.
Qed.

Lemma MoM_members_unknown (view : string) (data : list SessionData) :
  ~ In view MoM.knownViews ->
  members (MoM.dimensionKey view) (fun _ => false) "Unknown" data = data.
Proof.
  intros H. unfold members. apply filter_all. intros s _.
  assert (E : MoM.dimensionKey view s = "Unknown")
    by (unfold MoM.dimensionKey; now rewrite MoM_dimensionOf_unknown).
  now rewrite E.
Qed.

Lemma MoM_row_dimension mk compare view data minSessions trend :
  In trend (MoM.processedData mk compare view data minSessions) ->
  exists s, In s data /\ MoM.dimension trend = MoM.dimensionKey view s.
Proof.
  unfold MoM.processedData. destruct data as [|s0 data]; [contradiction|].
  intros Hin. apply sortBy_In in Hin. unfold MoM.filteredResults in Hin.
  apply filter_In in Hin. destruct Hin as [Hin _].
  unfold MoM.results in Hin. apply in_map_iff in Hin.
  destruct Hin as (t & <- & Hin). apply In_values in Hin.
  destruct Hin as [k Hin]. apply In_groupBy in Hin.
  destruct Hin as (r & rs & Hm & ->).
  exists r. split.
  - apply (members_In (MoM.dimensionKey view) (fun _ => false) k).
    rewrite Hm. now left.
  - simpl MoM.dimension. rewrite MoM_fold_dimension. reflexivity.
Qed.

(** C9, as the specification states it, fails: an unknown metric name
    yields the value 0 and an unknown view yields a row named "Unknown"
    that totals every session; neither raises an error. *)
Lemma unknown_configuration_counterexample :
  let row := TDP.processRecord (Sample.payroll "Asha" "Feb-2024" 12 2 10 96 48000) in
  let data :=
    [Sample.session "Barre 57" "2024-01-08" 15 12 14 1 6000;
     Sample.session "powerCycle" "2024-01-10" 20 9 10 2 4500] in
  ~ In "noSuchMetric" TDP.knownMetrics /\
  TDP.getMetricValue row "noSuchMetric" = JS.Finite 0 /\
  ~ In "noSuchView" MoM.knownViews /\
  map (fun t => (MoM.dimension t, MoM.sessions (MoM.totalValues t)))
    (MoM.processedData UTC.monthKeyOf Sample.anyOrder "noSuchView" data 2)
  = [("Unknown", 0 + 1 + 1)].
Proof.
  cbv zeta. repeat split.
  - simpl. intuition discriminate.
  - simpl. intuition discriminate.
Qed.

(** C9, amended: for a metric name outside the known ones
    [getMetricValue] returns 0, and for a view outside the known ones
    every session falls into the one group "Unknown", which is emitted
    when the number of sessions meets the threshold; no error is raised
    in either case. *)
Theorem unknown_configuration_defaults :
  (forall (data : TDP.ProcessedTrainerData) (metric : string),
     ~ In metric TDP.knownMetrics ->
     TDP.getMetricValue data metric = JS.Finite 0) /\
  (forall monthKeyOf compare (view : string) (data : list SessionData)
          (minSessions : Q),
     ~ In view MoM.knownViews ->
     Forall (fun trend => MoM.dimension trend = "Unknown")
       (MoM.processedData monthKeyOf compare view data minSessions) /\
     ((exists trend,
         In trend (MoM.processedData monthKeyOf compare view data minSessions))
      <-> data <> [] /\ minSessions <= ofNat (List.length data))).
Proof.
  split; [exact getMetricValue_unknown|].
  intros mk compare view data minSessions Hv.
  assert (Hall : Forall (fun trend => MoM.dimension trend = "Unknown")
                   (MoM.processedData mk compare view data minSessions)).
  { apply Forall_forall. intros trend Hin.
    apply MoM_row_dimension in Hin. destruct Hin as (s & _ & ->).
    unfold MoM.dimensionKey. now rewrite MoM_dimensionOf_unknown. }
  split; [exact Hall|].
  pose proof (MoM_row_iff mk compare view data minSessions "Unknown") as Hiff.
  rewrite (MoM_members_unknown view data Hv) in Hiff.
  rewrite <- Hiff. split.
  - intros [trend Hin]. exists trend. split; [exact Hin|].
    rewrite Forall_forall in Hall. now apply Hall.
  - intros (trend & Hin & _). now exists trend.
Qed.

Lemma unknown_configuration_defaults_witness :
  ~ In "noSuchMetric" TDP.knownMetrics /\
  TDP.getMetricValue
    (TDP.processRecord (Sample.payroll "Asha" "Feb-2024" 12 2 10 96 48000))
    "noSuchMetric" = JS.Finite 0.
Proof.
  assert (H : ~ In "noSuchMetric" TDP.knownMetrics)
    by (simpl; intuition discriminate).
  split; [exact H|].
  exact (proj1 unknown_configuration_defaults _ "noSuchMetric" H).
Defined.

(** ** The class tables and [processTrainerData] on doubles *)

Section Doubles.

Import Double.
Local Open Scope float_scope.

(** Neither zero is greater than [0]. *)
Lemma Double_zero_not_positive (x : float) :
  (x =? 0) = true -> (0 <? x) = false.
Proof.
  rewrite eqb_spec, ltb_spec.
  change (Prim2SF 0) with (S754_zero false).
  destruct (Prim2SF x) as [s | s | | s m e]; simpl;
    try reflexivity; try discriminate;
    unfold SFeqb, SFltb, SFcompare; simpl; destruct s; discriminate.
Qed.

Lemma Double_guardedRatio_guardedBy (num den : float) :
  guardedBy den (num / den) (guardedRatio num den).
Proof.
  unfold guardedRatio. repeat split; intros H.
  - now rewrite H.
  - now rewrite H.
  - now rewrite (Double_zero_not_positive _ H).
Qed.

Lemma Double_guardedPercent_guardedBy (num den : float) :
  guardedBy den (num / den * 100) (guardedPercent num den).
Proof.
  unfold guardedPercent. repeat split; intros H.
  - now rewrite H.
  - now rewrite H.
  - now rewrite (Double_zero_not_positive _ H).
Qed.

Lemma Double_ECF_filteredData_In viewFilter (l : list ECF.ClassFormatData) row :
  In row (ECF.filteredData viewFilter l) -> In row l.
Proof.
  unfold ECF.filteredData.
  repeat match goal with
         | |- context [if ?b then _ else _] => destruct b
         end;
    try (intros H; apply filter_In in H; tauto); auto.
Qed.

(** Every emitted row is the enrichment of a group. *)
Lemma Double_ECF_processedData_In compare data minSessions viewFilter row :
  In row (rowsOf (ECF.processedData compare data minSessions viewFilter)) ->
  exists classData, row = ECF.enrich classData.
Proof.
  unfold ECF.processedData. destruct data as [|s data]; [contradiction|].
  destruct (ECF.grouped (s :: data)) as [grouped|]; [|contradiction].
  simpl. intros H. apply sortBy_In, Double_ECF_filteredData_In in H.
  unfold ECF.enrichedData in H. apply in_map_iff in H.
  destruct H as (classData & <- & _). now exists classData.
Qed.

Lemma Double_sum_map {A : Type} (f : A -> float) (l : list A) (start : float) :
  fold_left (fun total x => total + f x) l start
  = fold_left add (map f l) start.
Proof.
  revert start. induction l as [|x l IH]; intros start; simpl; auto.
Qed.

Lemma fold_left_snoc_app {A : Type} (rs l : list A) :
  fold_left (fun l x => (l ++ [x])%list) rs l = (l ++ rs)%list.
Proof.
  revert l. induction rs as [|r rs IH]; intros l; simpl.
  - now rewrite app_nil_r.
  - rewrite IH, <- app_assoc. reflexivity.
Qed.

Lemma Double_ECF_fold_accumulated (r : SessionData) (rs : list SessionData) :
  let g := fold_left ECF.addSession (r :: rs) (ECF.newGroup r) in
  ECF.classFormat g = ECF.classFormatOf r /\ ECF_accumulated (r :: rs) g.
Proof.
  cbv zeta. unfold ECF_accumulated, sum. rewrite <- !Double_sum_map.
  generalize (r :: rs) as own. intros own.
  rewrite (field_fold_left ECF.addSession ECF.classFormat (fun c _ => c))
    by reflexivity.
  rewrite (field_fold_left ECF.addSession ECF.sessions
             (fun l x => (l ++ [x])%list)) by reflexivity.
  rewrite (field_fold_left ECF.addSession ECF.totalSessions
             (fun n _ => n + 1)) by reflexivity.
  rewrite (field_fold_left ECF.addSession ECF.totalCheckedIn
             (fun t s => t + orZero (Session.checkedInCount s)))
    by reflexivity.
  rewrite (field_fold_left ECF.addSession ECF.totalRevenue
             (fun t s => t + orZero (Session.totalPaid s))) by reflexivity.
  rewrite (field_fold_left ECF.addSession ECF.totalCapacity
             (fun t s => t + orZero (Session.capacity s))) by reflexivity.
  rewrite (field_fold_left ECF.addSession ECF.totalBooked
             (fun t s => t + orZero (Session.bookedCount s))) by reflexivity.
  rewrite fold_left_snoc_app. simpl.
  repeat split.
  clear. induction own as [|x own IH]; simpl; auto.
Qed.

Lemma Double_CPR_fold_accumulated (r : SessionData) (rs : list SessionData) :
  let g := fold_left CPR.addSession (r :: rs) (CPR.newGroup r) in
  CPR.classType g = CPR.classTypeOf r /\ CPR_accumulated (r :: rs) g.
Proof.
  cbv zeta. unfold CPR_accumulated, sum. rewrite <- !Double_sum_map.
  generalize (r :: rs) as own. intros own.
  rewrite (field_fold_left CPR.addSession CPR.classType (fun c _ => c))
    by reflexivity.
  rewrite (field_fold_left CPR.addSession CPR.sessions
             (fun l x => (l ++ [x])%list)) by reflexivity.
  rewrite (field_fold_left CPR.addSession CPR.totalSessions
             (fun n _ => n + 1)) by reflexivity.
  rewrite (field_fold_left CPR.addSession CPR.totalCheckedIn
             (fun t s => t + orZero (Session.checkedInCount s)))
    by reflexivity.
  rewrite (field_fold_left CPR.addSession CPR.totalRevenue
             (fun t s => t + orZero (Session.totalPaid s))) by reflexivity.
  rewrite (field_fold_left CPR.addSession CPR.totalCapacity
             (fun t s => t + orZero (Session.capacity s))) by reflexivity.
  rewrite (field_fold_left CPR.addSession CPR.totalBooked
             (fun t s => t + orZero (Session.bookedCount s))) by reflexivity.
  rewrite fold_left_snoc_app. simpl.
  repeat split.
  clear. induction own as [|x own IH]; simpl; auto.
Qed.


(** C1, as the specification states it, fails: the guard keeps a division
    by zero away, not an overflow.  A payroll record of 1e308 customers
    in half a session gives [Infinity] for the class average, and two
    sessions of capacity 1e308 with 1e308 check-ins give [Infinity] for the
    average class size and [NaN] for the fill rate. *)
Lemma derived_ratios_are_finite_counterexample :
  let record := Sample.payroll "Asha" "Feb-2024" 1 0 0.5 1e308 0 in
  let session := Sample.session "Barre 57" 1e308 1e308 0 0 0 in
  map TDP.classAverageExclEmpty (TDP.processTrainerData [record])
  = [infinity] /\
  map (fun row => (ECF.avgClassSize row, is_nan (ECF.fillRate row)))
    (rowsOf (ECF.processedData (fun _ _ => true) [session; session] 2
               "all"))
  = [(infinity, true)].
Proof. split; vm_compute; reflexivity. Qed.

(** C1, amended: every derived ratio of a trainer row and of a
    class-format row is behind the guard of its denominator: it is exactly
    [0] when the denominator is not greater than [0], as when it is [0],
    and it is the quotient of its two totals, times [100] for a rate, when
    the denominator is greater than [0]. *)
Theorem derived_ratios_are_guarded :
  (forall payrollData : list PayrollData,
     Forall
       (fun row =>
          guardedBy (TDP.nonEmptySessions row)
            (TDP.totalCustomers row / TDP.nonEmptySessions row)
            (TDP.classAverageExclEmpty row) /\
          guardedBy (TDP.totalSessions row)
            (TDP.totalCustomers row / TDP.totalSessions row)
            (TDP.classAverageInclEmpty row))
       (TDP.processTrainerData payrollData)) /\
  (forall compare (data : list SessionData) (minSessions : float)
          (viewFilter : string),
     Forall
       (fun row =>
          guardedBy (ECF.totalSessions row)
            (ECF.totalCheckedIn row / ECF.totalSessions row)
            (ECF.avgClassSize row) /\
          guardedBy (ECF.totalSessions row)
            (ECF.totalRevenue row / ECF.totalSessions row)
            (ECF.avgRevenue row) /\
          guardedBy (ECF.totalCapacity row)
            (ECF.totalCheckedIn row / ECF.totalCapacity row * 100)
            (ECF.fillRate row) /\
          guardedBy (ECF.totalBooked row)
            (ECF.totalCheckedIn row / ECF.totalBooked row * 100)
            (ECF.showUpRate row) /\
          guardedBy (ECF.totalSessions row)
            ((ECF.totalSessions row - ECF.emptySessions row)
             / ECF.totalSessions row * 100)
            (ECF.utilizationRate row) /\
          guardedBy (ECF.totalBooked row)
            (ECF.totalLateCancelled row / ECF.totalBooked row * 100)
            (ECF.cancellationRate row) /\
          guardedBy (ECF.totalSessions row)
            (ECF.revenueGeneratingSessions row / ECF.totalSessions row * 100)
            (ECF.revenueEfficiency row) /\
          guardedBy (ECF.totalCheckedIn row)
            (ECF.totalRevenue row / ECF.totalCheckedIn row)
            (ECF.revenuePerAttendee row) /\
          guardedBy (ECF.totalSessions row)
            (ECF.emptySessions row / ECF.totalSessions row * 100)
            (ECF.emptySessionRate row))
       (rowsOf (ECF.processedData compare data minSessions viewFilter))).
Proof.
  split.
  - intros payrollData. apply Forall_forall. intros row Hin.
    apply in_map_iff in Hin. destruct Hin as [record [<- _]].
    split; apply Double_guardedRatio_guardedBy.
  - intros compare data minSessions viewFilter.
    apply Forall_forall. intros row Hin.
    apply Double_ECF_processedData_In in Hin.
    destruct Hin as (classData & ->). simpl.
    repeat split;
      first [apply Double_guardedRatio_guardedBy
            | apply Double_guardedPercent_guardedBy].
Qed.

(** C2, as the specification states it, fails: the revenues 0.1, 0.2 and
    0.3 of three sessions add up to 0.6000000000000001 in the order of the
    input, and to 0.6 when the last two are first added in their group. *)
Lemma grouping_conserves_totals_counterexample :
  let data :=
    [Sample.session "Barre 57" 15 12 14 1 0.1;
     Sample.session "powerCycle" 20 9 10 2 0.2;
     Sample.session "powerCycle" 20 11 12 0 0.3] in
  exists groups,
    ECF.grouped data = Some groups /\
    sum (map ECF.totalRevenue (JS.values groups)) <>
    sum (map (fun s => orZero (Session.totalPaid s)) (kept ECF.isHosted data)).
Proof.
  cbv zeta. eexists. split; [vm_compute; reflexivity|].
  intros H.
  apply (f_equal (fun x => x =? 0.6)) in H. vm_compute in H. discriminate.
Qed.

(** C2, amended: grouping loses or double-counts no record.  The groups
    have distinct classes; a group keeps exactly the records of its class
    that are not hosted, in their order, and there is a group for every
    such record, so that the groups keep as many records together as the
    input has that are not hosted; each accumulator of a group is the sum
    of the values of the group's own records, added in their order, one
    for each record in the case of the total sessions. *)
Theorem grouping_partitions_records :
  (forall data : list SessionData,
     match ECF.grouped data with
     | Some grouped =>
         let groups := JS.values grouped in
         let input := kept ECF.isHosted data in
         NoDup (map ECF.classFormat groups) /\
         (forall s, In s input ->
            exists g, In g groups /\ ECF.classFormat g = ECF.classFormatOf s) /\
         list_sum (map (fun g => List.length (ECF.sessions g)) groups)
         = List.length input /\
         Forall
           (fun g =>
              let own :=
                members ECF.classFormatOf ECF.isHosted (ECF.classFormat g)
                  data in
              own <> [] /\ ECF_accumulated own g)
           groups
     | None =>
         exists s,
           In s data /\ ECF.isHosted s = false /\
           inheritedProperty (ECF.classFormatOf s) = true
     end) /\
  (forall data : list SessionData,
     match CPR.grouped data with
     | Some grouped =>
         let groups := JS.values grouped in
         let input := kept CPR.isHosted data in
         NoDup (map CPR.classType groups) /\
         (forall s, In s input ->
            exists g, In g groups /\ CPR.classType g = CPR.classTypeOf s) /\
         list_sum (map (fun g => List.length (CPR.sessions g)) groups)
         = List.length input /\
         Forall
           (fun g =>
              let own :=
                members CPR.classTypeOf CPR.isHosted (CPR.classType g) data in
              own <> [] /\ CPR_accumulated own g)
           groups
     | None =>
         exists s,
           In s data /\ CPR.isHosted s = false /\
           inheritedProperty (CPR.classTypeOf s) = true
     end).
Proof.
  split; intros data.
  - unfold ECF.grouped. rewrite groupByOrThrow_spec.
    destruct (hasInheritedKey _ _ _) eqn:E;
      [now apply hasInheritedKey_true|].
    cbv zeta.
    set (o := groupBy ECF.classFormatOf ECF.isHosted ECF.newGroup
                ECF.addSession data).
    assert (Hentry : forall k g, In (k, g) o ->
              ECF.classFormat g = k /\
              members ECF.classFormatOf ECF.isHosted k data <> [] /\
              ECF_accumulated
                (members ECF.classFormatOf ECF.isHosted k data) g).
    { intros k g Hin. apply In_groupBy in Hin.
      destruct Hin as (r & rs & Hm & ->).
      pose proof (members_head _ _ _ _ _ _ Hm) as [Hk _].
      destruct (Double_ECF_fold_accumulated r rs) as [H1 H2].
      rewrite Hm. split; [congruence|]. split; [discriminate | exact H2]. }
    assert (Hkeys : map ECF.classFormat (JS.values o) = JS.keys o).
    { unfold JS.values, JS.keys. rewrite map_map. apply map_ext_in.
      intros [k g] Hin. simpl. now apply Hentry. }
    split; [|split; [|split]].
    + rewrite Hkeys. apply NoDup_keys_groupBy.
    + intros s Hs. apply filter_In in Hs. destruct Hs as [Hs Hh].
      apply negb_true_iff in Hh.
      assert (Hk : In (ECF.classFormatOf s) (JS.keys o))
        by (apply In_keys_groupBy; now exists s).
      apply In_keys_get in Hk. destruct Hk as [g Hg].
      apply get_Some_In in Hg. exists g. split.
      * apply In_values. now exists (ECF.classFormatOf s).
      * now apply Hentry.
    + apply (count_groupBy ECF.classFormatOf ECF.isHosted ECF.newGroup
               ECF.addSession (fun g => List.length (ECF.sessions g))).
      * reflexivity.
      * intros v r. simpl. rewrite length_app. simpl. lia.
    + apply Forall_forall. intros g Hg. apply In_values in Hg.
      destruct Hg as [k Hg]. destruct (Hentry k g Hg) as (-> & H1 & H2).
      now split.
  - unfold CPR.grouped. rewrite groupByOrThrow_spec.
    destruct (hasInheritedKey _ _ _) eqn:E;
      [now apply hasInheritedKey_true|].
    cbv zeta.
    set (o := groupBy CPR.classTypeOf CPR.isHosted CPR.newGroup
                CPR.addSession data).
    assert (Hentry : forall k g, In (k, g) o ->
              CPR.classType g = k /\
              members CPR.classTypeOf CPR.isHosted k data <> [] /\
              CPR_accumulated
                (members CPR.classTypeOf CPR.isHosted k data) g).
    { intros k g Hin. apply In_groupBy in Hin.
      destruct Hin as (r & rs & Hm & ->).
      pose proof (members_head _ _ _ _ _ _ Hm) as [Hk _].
      destruct (Double_CPR_fold_accumulated r rs) as [H1 H2].
      rewrite Hm. split; [congruence|]. split; [discriminate | exact H2]. }
    assert (Hkeys : map CPR.classType (JS.values o) = JS.keys o).
    { unfold JS.values, JS.keys. rewrite map_map. apply map_ext_in.
      intros [k g] Hin. simpl. now apply Hentry. }
    split; [|split; [|split]].
    + rewrite Hkeys. apply NoDup_keys_groupBy.
    + intros s Hs. apply filter_In in Hs. destruct Hs as [Hs Hh].
      apply negb_true_iff in Hh.
      assert (Hk : In (CPR.classTypeOf s) (JS.keys o))
        by (apply In_keys_groupBy; now exists s).
      apply In_keys_get in Hk. destruct Hk as [g Hg].
      apply get_Some_In in Hg. exists g. split.
      * apply In_values. now exists (CPR.classTypeOf s).
      * now apply Hentry.
    + apply (count_groupBy CPR.classTypeOf CPR.isHosted CPR.newGroup
               CPR.addSession (fun g => List.length (CPR.sessions g))).
      * reflexivity.
      * intros v r. simpl. rewrite length_app. simpl. lia.
    + apply Forall_forall. intros g Hg. apply In_values in Hg.
      destruct Hg as [k Hg]. destruct (Hentry k g Hg) as (-> & H1 & H2).
      now split.
Qed.

Example grouping_partitions_records_sample :
  let data :=
    [Sample.session "Barre 57" 15 12 14 1 6000;
     Sample.session "Hosted Class" 15 15 15 0 0;
     Sample.session "powerCycle" 20 9 10 2 4500;
     Sample.session "Barre 57" 15 0 3 3 0] in
  option_map
    (fun grouped =>
       map (fun g => (ECF.classFormat g, ECF.totalSessions g,
                      ECF.totalCheckedIn g))
         (JS.values grouped))
    (ECF.grouped data)
  = Some [("Barre 57", 2, 12); ("powerCycle", 1, 9)].
Proof. vm_compute. reflexivity. Qed.

End Doubles.

(** ** Two remarks on the neighbouring code *)

(** The threshold of the class tables drops whole groups, so the rows
    that are displayed conserve the totals only of the groups that meet
    it. *)
Example threshold_drops_small_groups :
  ECF.processedData Sample.anyOrder
    [Sample.session "Barre 57" "2024-01-08" 15 12 14 1 6000] 2 "all" = [].
Proof. reflexivity. Qed.

(** The "format" view of the monthly trend table has no exclusion of
    hosted classes. *)
Example trend_table_keeps_hosted :
  map MoM.dimension
    (MoM.processedData UTC.monthKeyOf Sample.anyOrder "format"
       [Sample.session "Hosted Class" "2024-01-09" 15 15 15 0 0] 1)
  = ["Hosted Class"].
Proof. reflexivity. Qed.

(* ================================================================== *)
(** * Part III: further properties of the tables *)
(* ================================================================== *)

(** ** More on objects and grouping *)

Lemma unique_In (seen l : list string) (x : string) :
  In x (JS.unique seen l) <-> In x l /\ ~ In x seen.
Proof.
  revert seen. induction l as [|y l IH]; intros seen; simpl; [tauto|].
  destruct (existsb (String.eqb y) seen) eqn:E.
  - apply existsb_exists in E. destruct E as (z & Hz & Hyz).
    apply String.eqb_eq in Hyz. subst z. rewrite IH. split.
    + tauto.
    + intros [[->|H] Hn]; [contradiction | tauto].
  - assert (Hy : ~ In y seen).
    { intros H. apply not_true_iff_false in E. apply E.
      apply existsb_exists. exists y. split; [exact H|].
      apply String.eqb_refl. }
    simpl. rewrite IH. simpl. split.
    + intros [->|[H Hn]]; [tauto|]. split; [tauto|]. intros H'. apply Hn. now right.
    + intros [[->|H] Hn]; [now left|].
      destruct (string_dec y x) as [->|Hne]; [now left|].
      right. split; [exact H|]. intros [Hx|Hx]; [contradiction | tauto].
Qed.

Lemma unique_NoDup (seen l : list string) : NoDup (JS.unique seen l).
Proof.
  revert seen. induction l as [|y l IH]; intros seen; simpl; [constructor|].
  destruct (existsb (String.eqb y) seen); [apply IH|].
  constructor; [|apply IH]. rewrite unique_In. simpl. tauto.
Qed.

Lemma sort_In (l : list string) (x : string) : In x (JS.sort l) <-> In x l.
Proof. apply sortBy_In. Qed.

Lemma sort_NoDup (l : list string) : NoDup l -> NoDup (JS.sort l).
Proof.
  intros H. eapply Permutation_NoDup; [|exact H].
  apply Permutation_sym, sortBy_perm.
Qed.

Lemma keys_fold_present {R V : Type} (key : R -> string) (skip : R -> bool)
  (init : R -> V) (step : V -> R -> V) (rs : list R) (acc : JS.obj V) :
  (forall r, In r rs -> In (key r) (JS.keys acc)) ->
  JS.keys (fold_left (upsert key skip init step) rs acc) = JS.keys acc.
Proof.
  revert acc. induction rs as [|r rs IH]; intros acc H; simpl; [reflexivity|].
  assert (Hk : JS.keys (upsert key skip init step acc r) = JS.keys acc).
  { unfold upsert. destruct (skip r); [reflexivity|].
    assert (Hin : In (key r) (JS.keys acc)) by (apply H; now left).
    apply In_keys_get in Hin. destruct Hin as [v Hv].
    rewrite Hv. eapply keys_set_present; eauto. }
  rewrite IH; [exact Hk|]. intros r' Hr'. rewrite Hk. apply H. now right.
Qed.

Lemma map_values_set_same {V B : Type} (f : V -> B) (o : JS.obj V)
  (k : string) (v v0 : V) :
  JS.get o k = Some v0 -> f v = f v0 ->
  map f (JS.values (JS.set o k v)) = map f (JS.values o).
Proof.
  induction o as [|[k' v'] t IH]; simpl; [discriminate|].
  destruct (String.eqb_spec k' k) as [->|Hne]; simpl.
  - intros [= ->] ->. reflexivity.
  - intros H1 H2. now rewrite IH.
Qed.

Lemma sumQ_perm (l1 l2 : list Q) : Permutation l1 l2 -> sumQ l1 == sumQ l2.
Proof.
  induction 1; simpl; try lra.
Qed.

(** An object initialised with one value under each of a list of
    distinct keys. *)
Lemma init_keys {V : Type} (z : V) (l : list string) (acc : JS.obj V) :
  NoDup l -> (forall m, In m l -> ~ In m (JS.keys acc)) ->
  JS.keys (fold_left (fun ms m => JS.set ms m z) l acc)
  = (JS.keys acc ++ l)%list.
Proof.
  revert acc. induction l as [|m l IH]; intros acc Hnd Hdis; simpl.
  - now rewrite app_nil_r.
  - inversion Hnd as [|? ? Hnotin Hnd']; subst.
    assert (Hk : JS.keys (JS.set acc m z) = (JS.keys acc ++ [m])%list).
    { rewrite keys_set.
      destruct (JS.get acc m) eqn:E; [|reflexivity].
      exfalso. apply (Hdis m); [now left|]. apply In_keys_get. eauto. }
    rewrite IH; [rewrite Hk, <- app_assoc; reflexivity | exact Hnd' |].
    intros m' Hm'. rewrite Hk. intros Hin. apply in_app_or in Hin.
    destruct Hin as [Hin|[->|[]]].
    + apply (Hdis m'); [now right | exact Hin].
    + contradiction.
Qed.

Lemma init_values {V : Type} (z : V) (l : list string) (acc : JS.obj V) :
  Forall (fun v => v = z) (JS.values acc) ->
  Forall (fun v => v = z)
    (JS.values (fold_left (fun ms m => JS.set ms m z) l acc)).
Proof.
  revert acc. induction l as [|m l IH]; intros acc H; simpl; [exact H|].
  apply IH. clear IH. induction acc as [|[k v] t IHt]; simpl.
  - constructor; [reflexivity | constructor].
  - inversion H; subst. destruct (String.eqb k m); simpl.
    + constructor; [reflexivity | assumption].
    + constructor; [reflexivity | now apply IHt].
Qed.

(** ** MonthOnMonthTrendsTable: the month matrix *)

Lemma MoM_fold_months mk (rs : list SessionData) (t : MoM.MonthlyTrendData) :
  MoM.months (fold_left (MoM.addSession mk) rs t) =
  fold_left
    (upsert (fun s => mk (Session.date s)) (fun _ => false)
       (fun _ => MoM.zeroValues) MoM.count)
    rs (MoM.months t).
Proof.
  revert t. induction rs as [|r rs IH]; intros t; simpl; [reflexivity|].
  now rewrite IH.
Qed.

Lemma MoM_fold_totalValues mk (rs : list SessionData) (t : MoM.MonthlyTrendData) :
  MoM.totalValues (fold_left (MoM.addSession mk) rs t) =
  fold_left MoM.count rs (MoM.totalValues t).
Proof.
  revert t. induction rs as [|r rs IH]; intros t; simpl; [reflexivity|].
  now rewrite IH.
Qed.

Lemma MoM_sortedMonths_NoDup mk (data : list SessionData) :
  NoDup (MoM.sortedMonths mk data).
Proof. apply sort_NoDup, unique_NoDup. Qed.

Lemma MoM_sortedMonths_In mk (data : list SessionData) (m : string) :
  In m (MoM.sortedMonths mk data) <->
  exists s, In s data /\ mk (Session.date s) = m.
Proof.
  unfold MoM.sortedMonths. rewrite sort_In, unique_In, in_map_iff.
  split.
  - intros [(s & Hs & Hin) _]. now exists s.
  - intros (s & Hin & Hs). split; [now exists s | tauto].
Qed.

Lemma MoM_deriveMonth_get (ms : JS.obj MoM.Values) (m0 m : string) :
  JS.get (MoM.deriveMonth ms m0) m =
  if String.eqb m0 m then option_map MoM_derivedBucket (JS.get ms m)
  else JS.get ms m.
Proof.
  unfold MoM.deriveMonth.
  destruct (String.eqb_spec m0 m) as [->|Hne].
  - destruct (JS.get ms m) as [b|] eqn:E; simpl; [|now rewrite E].
    unfold MoM_derivedBucket. destruct (JS.gt0 (MoM.sessions b)).
    + now rewrite get_set_same.
    + now rewrite E.
  - destruct (JS.get ms m0) as [b|]; [|reflexivity].
    destruct (JS.gt0 (MoM.sessions b)); [|reflexivity].
    now rewrite get_set_other.
Qed.

Lemma MoM_deriveMonth_keys (ms : JS.obj MoM.Values) (m0 : string) :
  JS.keys (MoM.deriveMonth ms m0) = JS.keys ms.
Proof.
  unfold MoM.deriveMonth. destruct (JS.get ms m0) as [b|] eqn:E; [|reflexivity].
  destruct (JS.gt0 (MoM.sessions b)); [|reflexivity].
  eapply keys_set_present; eauto.
Qed.

Lemma MoM_derivedBucket_idem (b : MoM.Values) :
  MoM_derivedBucket (MoM_derivedBucket b) = MoM_derivedBucket b.
Proof.
  unfold MoM_derivedBucket at 2 3. destruct (JS.gt0 (MoM.sessions b)) eqn:E.
  - unfold MoM_derivedBucket. simpl. now rewrite E.
  - unfold MoM_derivedBucket. now rewrite E.
Qed.

Lemma MoM_derive_fold_get (l : list string) (ms : JS.obj MoM.Values) (m : string) :
  JS.get (fold_left MoM.deriveMonth l ms) m =
  if in_dec string_dec m l then option_map MoM_derivedBucket (JS.get ms m)
  else JS.get ms m.
Proof.
  revert ms. induction l as [|m0 l IH]; intros ms; [reflexivity|].
  cbn [fold_left]. rewrite IH, MoM_deriveMonth_get.
  destruct (in_dec string_dec m (m0 :: l)) as [Hin|Hnin];
    destruct (in_dec string_dec m l) as [Hl|Hl];
    destruct (String.eqb_spec m0 m) as [->|Hne];
    try reflexivity.
  - destruct (JS.get ms m); simpl; [|reflexivity].
    now rewrite MoM_derivedBucket_idem.
  - destruct Hin as [->|Hin]; contradiction.
  - exfalso. apply Hnin. now left.
  - exfalso. apply Hnin. now right.
  - exfalso. apply Hnin. now left.
Qed.

Lemma MoM_derive_fold_keys (l : list string) (ms : JS.obj MoM.Values) :
  JS.keys (fold_left MoM.deriveMonth l ms) = JS.keys ms.
Proof.
  revert ms. induction l as [|m0 l IH]; intros ms; simpl; [reflexivity|].
  now rewrite IH, MoM_deriveMonth_keys.
Qed.

(** The months of an entry of [trendMap]: one bucket for each month of
    the data set, holding the fold of the sessions of the dimension in
    that month. *)
Lemma MoM_trendMap_months mk view (data : list SessionData) k t :
  In (k, t) (MoM.trendMap mk view data) ->
  JS.keys (MoM.months t) = MoM.sortedMonths mk data /\
  forall m, In m (MoM.sortedMonths mk data) ->
    JS.get (MoM.months t) m =
    Some (MoM_bucketOf (sessionsOfMonth mk view k m data)).
Proof.
  intros H. apply In_groupBy in H. destruct H as (r & rs & Hm & ->).
  rewrite MoM_fold_months. cbn [MoM.months MoM.newTrend].
  set (init := fold_left (fun ms month => JS.set ms month MoM.zeroValues)
                 (MoM.sortedMonths mk data) []).
  assert (Hik : JS.keys init = MoM.sortedMonths mk data).
  { unfold init. rewrite init_keys; [reflexivity | apply MoM_sortedMonths_NoDup|].
    intros m _ []. }
  assert (Hiv : forall m, In m (MoM.sortedMonths mk data) ->
                          JS.get init m = Some MoM.zeroValues).
  { intros m Hin. rewrite <- Hik in Hin. apply In_keys_get in Hin.
    destruct Hin as [v Hv]. rewrite Hv. f_equal.
    pose proof (init_values MoM.zeroValues (MoM.sortedMonths mk data) []
                  (Forall_nil _)) as Hall.
    fold init in Hall. rewrite Forall_forall in Hall. apply Hall.
    apply In_values. exists m. now apply get_Some_In. }
  split.
  - rewrite keys_fold_present; [exact Hik|].
    intros s Hs. rewrite Hik. apply MoM_sortedMonths_In. exists s.
    split; [|reflexivity]. rewrite <- Hm in Hs. apply members_In in Hs. tauto.
  - intros m Hin. rewrite get_fold, (Hiv m Hin), <- Hm.
    unfold sessionsOfMonth, MoM_bucketOf.
    change (MM.dimensionKey view) with (MoM.dimensionKey view).
    destruct (members (fun s => mk (Session.date s)) (fun _ => false) m _);
      reflexivity.
Qed.

Lemma MoM_bucketOf_totals (ss : list SessionData) :
  MoM.sessions (MoM_bucketOf ss) == ofNat (List.length ss) /\
  MoM.attendance (MoM_bucketOf ss) ==
    sumQ (map (fun s => JS.orZero (Session.checkedInCount s)) ss) /\
  MoM.revenue (MoM_bucketOf ss) ==
    sumQ (map (fun s => JS.orZero (Session.totalPaid s)) ss).
Proof.
  unfold MoM_bucketOf. repeat split.
  - rewrite <- sumQ_ones.
    rewrite (m_fold_left MoM.count MoM.sessions (fun _ => 1));
      [simpl; lra | intros; simpl; lra].
  - rewrite (m_fold_left MoM.count MoM.attendance
               (fun s => JS.orZero (Session.checkedInCount s)));
      [simpl; lra | intros; simpl; lra].
  - rewrite (m_fold_left MoM.count MoM.revenue
               (fun s => JS.orZero (Session.totalPaid s)));
      [simpl; lra | intros; simpl; lra].
Qed.

Lemma MoM_processedData_In mk compare view data minSessions trend :
  In trend (MoM.processedData mk compare view data minSessions) ->
  exists k t,
    In (k, t) (MoM.trendMap mk view data) /\
    trend = MoM.derive (MoM.sortedMonths mk data) t.
Proof.
  unfold MoM.processedData. destruct data as [|s0 data]; [contradiction|].
  intros Hin. apply sortBy_In in Hin. unfold MoM.filteredResults in Hin.
  apply filter_In in Hin. destruct Hin as [Hin _].
  unfold MoM.results in Hin. apply in_map_iff in Hin.
  destruct Hin as (t & <- & Hin). apply In_values in Hin.
  destruct Hin as [k Hin]. now exists k, t.
Qed.

Lemma MoM_bucketOf_averages (ss : list SessionData) :
  MoM.avgVisits (MoM_bucketOf ss) = JS.Finite 0 /\
  MoM.fillRate (MoM_bucketOf ss) = JS.Finite 0.
Proof.
  unfold MoM_bucketOf.
  apply (fold_left_invariant MoM.count
           (fun b => MoM.avgVisits b = JS.Finite 0 /\
                     MoM.fillRate b = JS.Finite 0) (fun _ => True)).
  - intros v r H _. exact H.
  - apply Forall_forall. intros; exact I.
  - split; reflexivity.
Qed.

(** X1: Every row of the month-on-month table has one cell for each month of
    the data set, in sorted order.  The cell of a month totals the
    sessions of the row's dimension in that month, so it is all zero when
    there is none, and its average visits are attendance over sessions,
    or 0 for a month without sessions. *)
Theorem MoM_month_matrix mk compare (view : string) (data : list SessionData)
  (minSessions : Q) :
  Forall
    (fun trend =>
       JS.keys (MoM.months trend) = MoM.sortedMonths mk data /\
       forall m, In m (MoM.sortedMonths mk data) ->
         exists bucket,
           JS.get (MoM.months trend) m = Some bucket /\
           let ss := sessionsOfMonth mk view (MoM.dimension trend) m data in
           MoM.sessions bucket == ofNat (List.length ss) /\
           MoM.attendance bucket ==
             sumQ (map (fun s => JS.orZero (Session.checkedInCount s)) ss) /\
           MoM.revenue bucket ==
             sumQ (map (fun s => JS.orZero (Session.totalPaid s)) ss) /\
           MoM.avgVisits bucket =
             guardedRatio (MoM.attendance bucket) (MoM.sessions bucket) /\
           (ss = [] -> bucket = MoM.zeroValues))
    (MoM.processedData mk compare view data minSessions).
Proof.
  apply Forall_forall. intros trend Hin.
  apply MoM_processedData_In in Hin. destruct Hin as (k & t & Hin & ->).
  pose proof (MoM_trendMap_entry _ _ _ _ _ Hin) as (Hd & _ & _).
  destruct (MoM_trendMap_months _ _ _ _ _ Hin) as [Hk Hget].
  cbn [MoM.months MoM.derive MoM.dimension]. rewrite Hd. split.
  - now rewrite MoM_derive_fold_keys.
  - intros m Hm. rewrite MoM_derive_fold_get, (Hget m Hm).
    destruct (in_dec string_dec m (MoM.sortedMonths mk data)); [|contradiction].
    set (ss := sessionsOfMonth mk view k m data).
    eexists. split; [reflexivity|]. cbv zeta.
    destruct (MoM_bucketOf_totals ss) as (H1 & H2 & H3).
    destruct (MoM_bucketOf_averages ss) as (H4 & H5).
    unfold MoM_derivedBucket, guardedRatio.
    destruct (JS.gt0 (MoM.sessions (MoM_bucketOf ss))) eqn:E; simpl.
    + rewrite E. repeat split; auto.
      intros Hnil. rewrite Hnil in E. discriminate.
    + rewrite E. repeat split; auto.
      intros Hnil. now rewrite Hnil.
Qed.

Lemma kept_all {R : Type} (l : list R) : kept (fun _ => false) l = l.
Proof. unfold kept. now apply filter_all. Qed.

Lemma sumQ_all_zero {V : Type} (f : V -> Q) (z : V) (l : list V) :
  f z == 0 -> Forall (fun v => v = z) l -> sumQ (map f l) == 0.
Proof.
  intros Hz. induction 1 as [|v l -> _ IH]; simpl; [reflexivity|].
  rewrite IH, Hz. lra.
Qed.

Lemma MoM_derive_fold_values {B : Type} (f : MoM.Values -> B)
  (l : list string) (ms : JS.obj MoM.Values) :
  (forall b, f (MoM_derivedBucket b) = f b) ->
  map f (JS.values (fold_left MoM.deriveMonth l ms)) = map f (JS.values ms).
Proof.
  intros Hf. revert ms. induction l as [|m0 l IH]; intros ms; simpl;
    [reflexivity|].
  rewrite IH. unfold MoM.deriveMonth.
  destruct (JS.get ms m0) as [b|] eqn:E; [|reflexivity].
  pose proof (Hf b) as Hb. unfold MoM_derivedBucket in Hb.
  destruct (JS.gt0 (MoM.sessions b)); [|reflexivity].
  eapply map_values_set_same; eauto.
Qed.

(** X2: In every row of the month-on-month table the totals count and sum
    the sessions of the row's dimension, the session counts of the month
    cells add up to the total count, and the averages of the totals are
    attendance over sessions, and over fifteen places a session as a
    percentage, or 0 without sessions. *)
Theorem MoM_totals_of_a_row mk compare (view : string)
  (data : list SessionData) (minSessions : Q) :
  Forall
    (fun trend =>
       let cells := JS.values (MoM.months trend) in
       let total := MoM.totalValues trend in
       let ss :=
         members (MoM.dimensionKey view) (fun _ => false)
           (MoM.dimension trend) data in
       MoM.sessions total == ofNat (List.length ss) /\
       MoM.attendance total ==
         sumQ (map (fun s => JS.orZero (Session.checkedInCount s)) ss) /\
       MoM.revenue total ==
         sumQ (map (fun s => JS.orZero (Session.totalPaid s)) ss) /\
       sumQ (map MoM.sessions cells) == MoM.sessions total /\
       MoM.avgVisits total =
         guardedRatio (MoM.attendance total) (MoM.sessions total) /\
       MoM.fillRate total =
         (if JS.gt0 (MoM.sessions total)
          then JS.times
                 (JS.div (MoM.attendance total) (MoM.sessions total * 15)) 100
          else JS.Finite 0))
    (MoM.processedData mk compare view data minSessions).
Proof.
  apply Forall_forall. intros trend Hin.
  apply MoM_processedData_In in Hin. destruct Hin as (k & t & Hin & ->).
  pose proof (MoM_trendMap_entry _ _ _ _ _ Hin) as (Hd & _ & _).
  apply In_groupBy in Hin. destruct Hin as (r & rs & Hm & ->).
  cbv zeta. cbn [MoM.months MoM.derive MoM.totalValues MoM.dimension
                 MoM.sessions MoM.attendance MoM.revenue MoM.avgVisits
                 MoM.fillRate].
  rewrite Hd, Hm. rewrite MoM_fold_months, MoM_fold_totalValues.
  cbn [MoM.months MoM.newTrend MoM.totalValues].
  fold (MoM_bucketOf (r :: rs)).
  destruct (MoM_bucketOf_totals (r :: rs)) as (T1 & T2 & T3).
  set (init := fold_left (fun ms month => JS.set ms month MoM.zeroValues)
                 (MoM.sortedMonths mk data) []).
  assert (Hall : Forall (fun v => v = MoM.zeroValues) (JS.values init))
    by (apply init_values; constructor).
  assert (Hd' : forall b : MoM.Values,
             MoM.sessions (MoM_derivedBucket b) = MoM.sessions b).
  { intros b. unfold MoM_derivedBucket.
    destruct (JS.gt0 (MoM.sessions b)); reflexivity. }
  rewrite !MoM_derive_fold_values by (intros b; apply Hd').
  split; [exact T1|]. split; [exact T2|]. split; [exact T3|].
  split; [|split; reflexivity].
  rewrite (sum_fold _ _ _ MoM.count MoM.sessions (fun _ => 1));
    [|intros; simpl; lra | intros; simpl; lra].
  rewrite (sumQ_all_zero MoM.sessions MoM.zeroValues) by (auto; reflexivity).
  rewrite kept_all, T1, sumQ_ones. lra.
Qed.

(** ** MultiMetricMonthlyTrendsTable: totals and utilization *)

Lemma ofNat_le (n m : nat) : (n <= m)%nat -> ofNat n <= ofNat m.
Proof. intros H. unfold ofNat. rewrite <- Zle_Qle. lia. Qed.

Lemma ofNat_pos (n : nat) : (1 <= n)%nat -> 1 <= ofNat n.
Proof. intros H. apply (ofNat_le 1 n H). Qed.

Lemma MM_fold_totals mk (rs : list SessionData) (t : MM.TrendData) :
  MM.totalSessions (fold_left (MM.addSession mk) rs t) ==
    MM.totalSessions t + ofNat (List.length rs) /\
  MM.totalAttendance (fold_left (MM.addSession mk) rs t) ==
    MM.totalAttendance t
    + sumQ (map (fun s => JS.orZero (Session.checkedInCount s)) rs) /\
  MM.totalRevenue (fold_left (MM.addSession mk) rs t) ==
    MM.totalRevenue t
    + sumQ (map (fun s => JS.orZero (Session.totalPaid s)) rs).
Proof.
  repeat split.
  - rewrite <- sumQ_ones.
    apply (m_fold_left (MM.addSession mk) MM.totalSessions (fun _ => 1)).
    intros; simpl; lra.
  - apply (m_fold_left (MM.addSession mk) MM.totalAttendance
             (fun s => JS.orZero (Session.checkedInCount s))).
    intros; simpl; lra.
  - apply (m_fold_left (MM.addSession mk) MM.totalRevenue
             (fun s => JS.orZero (Session.totalPaid s))).
    intros; simpl; lra.
Qed.

Lemma MM_derive_totals n t :
  MM.totalSessions (MM.derive n t) = MM.totalSessions t /\
  MM.totalAttendance (MM.derive n t) = MM.totalAttendance t /\
  MM.totalRevenue (MM.derive n t) = MM.totalRevenue t.
Proof.
  unfold MM.derive. destruct (MM.comparedMonths t) as [[? ?]|]; repeat split.
Qed.

(** X3: In every row of the multi-metric table the totals count and sum
    the sessions of the row's dimension, each once, and the session counts
    of the month buckets add up to the total count. *)
Theorem MM_totals_count_the_sessions mk compare (view : string)
  (data : list SessionData) :
  Forall
    (fun trend =>
       let buckets := JS.values (MM.monthlyBreakdown trend) in
       let ss :=
         members (MM.dimensionKey view) (fun _ => false)
           (MM.dimension trend) data in
       MM.totalSessions trend == ofNat (List.length ss) /\
       MM.totalAttendance trend ==
         sumQ (map (fun s => JS.orZero (Session.checkedInCount s)) ss) /\
       MM.totalRevenue trend ==
         sumQ (map (fun s => JS.orZero (Session.totalPaid s)) ss) /\
       sumQ (map MM.sessions buckets) == MM.totalSessions trend)
    (MM.processedTrendData mk compare view data).
Proof.
  apply Forall_forall. intros trend Hin.
  apply MM_processedTrendData_In in Hin. destruct Hin as (k & t & Hin & ->).
  pose proof (MM_trendMap_entry _ _ _ _ _ Hin) as [Hk Hmb].
  apply In_groupBy in Hin. destruct Hin as (r & rs & Hm & Ht).
  cbv zeta.
  destruct (MM_derive_totals (List.length (MM.allMonths mk data)) t)
    as (-> & -> & ->).
  rewrite MM_derive_breakdown, Hmb.
  assert (Hd : MM.dimension
                 (MM.derive (List.length (MM.allMonths mk data)) t) = k).
  { unfold MM.derive. destruct (MM.comparedMonths t) as [[? ?]|]; exact Hk. }
  rewrite Hd, Hm.
  destruct (MM_fold_totals mk (r :: rs) (MM.newTrend view r)) as (E1 & E2 & E3).
  rewrite <- Ht in E1, E2, E3. cbn [MM.newTrend MM.totalSessions
    MM.totalAttendance MM.totalRevenue] in E1, E2, E3.
  unfold groupBy.
  rewrite (sum_fold _ _ _ MM.addToMonth MM.sessions (fun _ => 1));
    [|intros; simpl; lra | intros; simpl; lra].
  rewrite kept_all, sumQ_ones.
  change (JS.values (@nil (string * MM.MonthBreakdown))) with
    (@nil MM.MonthBreakdown).
  change (sumQ (map MM.sessions [])) with 0.
  repeat split; lra.
Qed.

Lemma MM_bucket_sessions_pos mk view (data : list SessionData) k t b :
  In (k, t) (MM.trendMap mk view data) ->
  In b (JS.values (MM.monthlyBreakdown t)) -> 1 <= MM.sessions b.
Proof.
  intros Hin Hb. apply MM_trendMap_entry in Hin. destruct Hin as [_ Hmb].
  rewrite Hmb in Hb. apply In_values in Hb. destruct Hb as [m Hb].
  apply In_groupBy in Hb. destruct Hb as (r & rs & _ & ->).
  rewrite (m_fold_left MM.addToMonth MM.sessions (fun _ => 1))
    by (intros; simpl; lra).
  rewrite sumQ_ones. pose proof (ofNat_pos (List.length (r :: rs))) as H.
  simpl MM.sessions. simpl List.length in *. specialize (H ltac:(lia)). lra.
Qed.

Lemma MM_allMonths_In mk (data : list SessionData) (m : string) :
  In m (MM.allMonths mk data) <->
  exists s, In s data /\ mk (Session.date s) = m.
Proof. apply MoM_sortedMonths_In. Qed.

(** X4: The utilization of a row of the multi-metric table is the share of
    the months of the data set in which its dimension has a session: a
    finite percentage above 0 and at most 100. *)
Theorem MM_utilization_is_share_of_months mk compare (view : string)
  (data : list SessionData) :
  Forall
    (fun trend =>
       let present := List.length (JS.keys (MM.monthlyBreakdown trend)) in
       let all := List.length (MM.allMonths mk data) in
       (1 <= present <= all)%nat /\
       MM.avgUtilization trend = JS.Finite (ofNat present / ofNat all * 100) /\
       0 < ofNat present / ofNat all * 100 <= 100)
    (MM.processedTrendData mk compare view data).
Proof.
  apply Forall_forall. intros trend Hin.
  apply MM_processedTrendData_In in Hin. destruct Hin as (k & t & Hin & ->).
  pose proof (MM_trendMap_entry _ _ _ _ _ Hin) as [Hk Hmb].
  pose proof (fun b => MM_bucket_sessions_pos _ _ _ _ _ b Hin) as Hpos.
  cbv zeta. rewrite MM_derive_breakdown.
  set (n := List.length (MM.allMonths mk data)).
  set (p := List.length (JS.keys (MM.monthlyBreakdown t))).
  assert (Hp1 : (1 <= p)%nat).
  { unfold p. rewrite Hmb.
    pose proof Hin as Hin'. apply In_groupBy in Hin'.
    destruct Hin' as (r & rs & Hm & _). rewrite Hm.
    assert (Hr : In (mk (Session.date r)) (JS.keys
              (groupBy (fun s => mk (Session.date s)) (fun _ => false)
                 (fun _ => MM.zeroMonth) MM.addToMonth (r :: rs)))).
    { apply In_keys_groupBy. exists r. repeat split. now left. }
    destruct (JS.keys
                (groupBy (fun s => mk (Session.date s)) (fun _ => false)
                   (fun _ => MM.zeroMonth) MM.addToMonth (r :: rs)))
      as [|x l]; [contradiction|].
    cbn [List.length]. lia. }
  assert (Hpn : (p <= n)%nat).
  { unfold p, n. apply NoDup_incl_length.
    - rewrite Hmb. apply NoDup_keys_groupBy.
    - intros m Hm. rewrite Hmb in Hm. apply In_keys_groupBy in Hm.
      destruct Hm as (s & Hs & _ & Hms). apply members_In in Hs.
      apply MM_allMonths_In. exists s. tauto. }
  assert (Hfilter : filter (fun m => JS.gt0 (MM.sessions m))
                      (JS.values (MM.monthlyBreakdown t))
                    = JS.values (MM.monthlyBreakdown t)).
  { apply filter_all. intros b Hb. apply gt0_true.
    pose proof (Hpos b Hb). lra. }
  assert (Htot : 1 <= MM.totalSessions t).
  { pose proof Hin as Hin'. apply In_groupBy in Hin'.
    destruct Hin' as (r & rs & _ & ->).
    destruct (MM_fold_totals mk (r :: rs) (MM.newTrend view r)) as (E1 & _).
    rewrite E1. pose proof (ofNat_pos (List.length (r :: rs))) as H.
    simpl List.length in *. specialize (H ltac:(lia)).
    simpl MM.totalSessions. lra. }
  assert (Hn : 1 <= ofNat n) by (apply ofNat_pos; lia).
  assert (Hpq : 1 <= ofNat p) by (now apply ofNat_pos).
  assert (Hle : ofNat p <= ofNat n) by (now apply ofNat_le).
  split; [lia|]. split.
  - assert (E : MM.avgUtilization (MM.derive n t) =
                if JS.gt0 (MM.totalSessions t)
                then JS.times
                       (JS.div
                          (ofNat
                             (List.length
                                (filter (fun m => JS.gt0 (MM.sessions m))
                                   (JS.values (MM.monthlyBreakdown t)))))
                          (ofNat n)) 100
                else JS.Finite 0).
    { unfold MM.derive.
      destruct (MM.comparedMonths t) as [[? ?]|]; reflexivity. }
    rewrite E, Hfilter, (proj2 (gt0_true _)) by lra.
    unfold JS.values, JS.keys in *. rewrite length_map.
    unfold p. rewrite length_map.
    rewrite div_nonzero by lra. reflexivity.
  - pose proof (Qdiv_nonneg (ofNat p) (ofNat n)) as H0.
    pose proof (Qdiv_le_one (ofNat p) (ofNat n) Hle) as H1.
    assert (0 < ofNat p / ofNat n).
    { apply Qlt_shift_div_l; lra. }
    lra.
Qed.

(** ** EnhancedClassFormatPerformanceTable: empty and used sessions *)

Lemma ECF_grouped_partition (data : list SessionData) k c :
  In (k, c) (ECF.grouped data) ->
  1 <= ECF.totalSessions c /\
  0 <= ECF.emptySessions c /\ 0 <= ECF.nonEmptySessions c /\
  ECF.emptySessions c + ECF.nonEmptySessions c == ECF.totalSessions c /\
  0 <= ECF.revenueGeneratingSessions c <= ECF.totalSessions c /\
  (ECF.nonEmptySessions c == 0 -> ECF.totalCheckedIn c == 0).
Proof.
  intros Hin. pose proof (ECF_grouped_entry _ _ _ Hin) as (_ & Hn & Hne).
  split.
  { rewrite Hn. apply ofNat_pos.
    destruct (members ECF.classFormatOf ECF.isHosted k data);
      [contradiction | simpl; lia]. }
  apply In_groupBy in Hin. destruct Hin as (r & rs & _ & ->).
  apply (fold_left_invariant ECF.addSession
           (fun c =>
              0 <= ECF.emptySessions c /\ 0 <= ECF.nonEmptySessions c /\
              ECF.emptySessions c + ECF.nonEmptySessions c
                == ECF.totalSessions c /\
              0 <= ECF.revenueGeneratingSessions c <= ECF.totalSessions c /\
              (ECF.nonEmptySessions c == 0 -> ECF.totalCheckedIn c == 0))
           (fun _ => True)).
  - intros v s (H1 & H2 & H3 & H4 & H5) _. simpl.
    destruct (Qeq_bool (JS.orZero (Session.checkedInCount s)) 0) eqn:E;
      destruct (JS.gt0 (JS.orZero (Session.totalPaid s)));
      repeat split; try lra;
      try (intros H; apply Qeq_bool_iff in E; rewrite E, (H5 H); lra);
      try (intros H; exfalso; lra).
  - apply Forall_forall. intros; exact I.
  - simpl. repeat split; lra.
Qed.

(** X5: In every row of the class-format table the empty and the non-empty
    sessions add up to the sessions, the sessions with revenue do not
    outnumber the sessions, the utilization and the rate of empty
    sessions, which are ratios of these counts, lie between 0 and 100,
    and a row without a non-empty session has no attendance. *)
Theorem ECF_sessions_partition compare (data : list SessionData)
  (minSessions : Q) (viewFilter : string) :
  Forall
    (fun row =>
       ECF.emptySessions row + ECF.nonEmptySessions row
         == ECF.totalSessions row /\
       ECF.revenueGeneratingSessions row <= ECF.totalSessions row /\
       (exists u e,
          ECF.utilizationRate row = JS.Finite u /\
          ECF.emptySessionRate row = JS.Finite e /\
          0 <= u <= 100 /\ 0 <= e <= 100) /\
       (ECF.nonEmptySessions row == 0 ->
        ECF.totalCheckedIn row == 0 /\
        exists q, ECF.avgClassSize row = JS.Finite q /\ q == 0))
    (ECF.processedData compare data minSessions viewFilter).
Proof.
  apply Forall_forall. intros row Hin.
  apply ECF_processedData_In in Hin. destruct Hin as (k & c & Hin & _ & ->).
  destruct (ECF_grouped_partition _ _ _ Hin)
    as (H1 & H2 & H3 & H4 & H5 & H6).
  cbn [ECF.enrich ECF.emptySessions ECF.nonEmptySessions ECF.totalSessions
       ECF.revenueGeneratingSessions ECF.utilizationRate
       ECF.emptySessionRate ECF.totalCheckedIn ECF.avgClassSize].
  split; [exact H4|]. split; [lra|]. split.
  - rewrite !guardedPercent_pos by lra.
    eexists. eexists. split; [reflexivity|]. split; [reflexivity|].
    assert (Hu : 0 <= (ECF.totalSessions c - ECF.emptySessions c)
                      / ECF.totalSessions c)
      by (apply Qdiv_nonneg; lra).
    assert (He : 0 <= ECF.emptySessions c / ECF.totalSessions c)
      by (apply Qdiv_nonneg; lra).
    assert (Hu1 : (ECF.totalSessions c - ECF.emptySessions c)
                  / ECF.totalSessions c <= 1)
      by (apply Qdiv_le_one; lra).
    assert (He1 : ECF.emptySessions c / ECF.totalSessions c <= 1)
      by (apply Qdiv_le_one; lra).
    repeat split; lra.
  - intros H. split; [now apply H6|].
    rewrite guardedRatio_pos by lra.
    eexists. split; [reflexivity|]. rewrite (H6 H). field. lra.
Qed.

(** ** ImprovedClassAttendancePayrollTable: rows and totals *)

Lemma ICP_deriveEntry_values {B : Type} (f : ICP.ProcessedPayrollData -> B)
  prevMonthKeyOf (store : JS.obj ICP.ProcessedPayrollData) (k : string) :
  (forall e, f (ICP.withMetrics e) = f e) ->
  (forall e t, f (ICP.withTrends e t) = f e) ->
  map f (JS.values (ICP.deriveEntry prevMonthKeyOf store k))
  = map f (JS.values store).
Proof.
  intros Hm Ht. unfold ICP.deriveEntry.
  destruct (JS.get store k) as [item0|] eqn:E; [|reflexivity].
  assert (H1 : map f (JS.values (JS.set store k (ICP.withMetrics item0)))
               = map f (JS.values store))
    by (eapply map_values_set_same; eauto).
  destruct (find _ _); [|exact H1].
  rewrite <- H1. eapply map_values_set_same.
  - apply get_set_same.
  - now rewrite Ht.
Qed.

Lemma ICP_results_values {B : Type} (f : ICP.ProcessedPayrollData -> B)
  prevMonthKeyOf location (data : list PayrollData) :
  (forall e, f (ICP.withMetrics e) = f e) ->
  (forall e t, f (ICP.withTrends e t) = f e) ->
  map f (ICP.results prevMonthKeyOf location data)
  = map f (JS.values (ICP.grouped location data)).
Proof.
  intros Hm Ht. unfold ICP.results.
  generalize (JS.keys (ICP.grouped location data)) as ks.
  generalize (ICP.grouped location data) as store.
  intros store ks. revert store.
  induction ks as [|k ks IH]; intros store; simpl; [reflexivity|].
  rewrite IH. now apply ICP_deriveEntry_values.
Qed.

Lemma ICP_processedData_perm prevMonthKeyOf compare location
  (data : list PayrollData) :
  Permutation (ICP.processedData prevMonthKeyOf compare location data)
    (ICP.results prevMonthKeyOf location data).
Proof.
  unfold ICP.processedData. destruct data as [|d data]; [|apply sortBy_perm].
  assert (E : ICP.filteredData location [] = []).
  { unfold ICP.filteredData. destruct location as [[|c s]|]; try reflexivity.
    destruct (String.eqb (String c s) "all"); try reflexivity.
    destruct (ICP.locationMap (String c s)); reflexivity. }
  unfold ICP.results, ICP.grouped. rewrite E. apply Permutation_refl.
Qed.

Lemma ICP_fold_identity (rs : list PayrollData)
  (e : ICP.ProcessedPayrollData) :
  ICP.location (fold_left ICP.addItem rs e) = ICP.location e /\
  ICP.teacherName (fold_left ICP.addItem rs e) = ICP.teacherName e /\
  ICP.monthYear (fold_left ICP.addItem rs e) = ICP.monthYear e.
Proof.
  revert e. induction rs as [|r rs IH]; intros e; simpl; [auto|].
  destruct (IH (ICP.addItem e r)) as (-> & -> & ->). auto.
Qed.

(** X6: The payroll table has one row for each distinct key of location,
    teacher and month among the records that pass the location filter,
    and a row totals the records of its key: their sessions, customers,
    payments, empty and non-empty sessions. *)
Theorem ICP_rows_total_their_records prevMonthKeyOf compare
  (location : option string) (data : list PayrollData) :
  let rows := ICP.processedData prevMonthKeyOf compare location data in
  let input := ICP.filteredData location data in
  List.length rows = List.length (nodup string_dec (map ICP.keyOf input)) /\
  Forall
    (fun row =>
       let own :=
         members ICP.keyOf (fun _ => false) (ICP_keyOfRow row) input in
       own <> [] /\
       ICP.totalSessions row ==
         sumQ (map (fun p => JS.orZero (Payroll.totalSessions p)) own) /\
       ICP.totalCustomers row ==
         sumQ (map (fun p => JS.orZero (Payroll.totalCustomers p)) own) /\
       ICP.totalPaid row ==
         sumQ (map (fun p => JS.orZero (Payroll.totalPaid p)) own) /\
       ICP.emptySession row ==
         sumQ (map (fun p => JS.orZero (Payroll.totalEmptySessions p)) own) /\
       ICP.nonEmptySession row ==
         sumQ (map (fun p => JS.orZero (Payroll.totalNonEmptySessions p)) own))
    rows.
Proof.
  cbv zeta.
  pose proof (ICP_processedData_perm prevMonthKeyOf compare location data)
    as Hperm.
  split.
  - rewrite (Permutation_length Hperm).
    rewrite <- (length_map (fun e => ICP.totalSessions e)).
    rewrite (ICP_results_values ICP.totalSessions) by reflexivity.
    rewrite length_map. unfold JS.values. rewrite length_map.
    rewrite <- (length_map fst). apply Permutation_length.
    apply NoDup_Permutation.
    + apply (NoDup_keys_groupBy ICP.keyOf (fun _ => false) ICP.newEntry
               ICP.addItem).
    + apply NoDup_nodup.
    + intros k. rewrite nodup_In.
      change (In k (JS.keys (ICP.grouped location data)) <->
              In k (map ICP.keyOf (ICP.filteredData location data))).
      unfold ICP.grouped. rewrite In_keys_groupBy, in_map_iff. split.
      * intros (r & Hr & _ & E). now exists r.
      * intros (r & E & Hr). now exists r.
  - apply Forall_forall. intros row Hrow.
    apply ICP_processedData_In in Hrow. destruct Hrow as (e0 & He0 & Hd).
    apply ICP_derivedFrom_same in Hd.
    destruct Hd as (S1 & S2 & S3 & S4 & S5 & S6 & S7 & S8).
    unfold ICP_keyOfRow. rewrite S1, S2, S3, S4, S5, S6, S7, S8.
    apply In_values in He0. destruct He0 as [k He0].
    apply In_groupBy in He0. destruct He0 as (r & rs & Hm & ->).
    pose proof (members_head _ _ _ _ _ _ Hm) as [Hk _].
    destruct (ICP_fold_identity (r :: rs) (ICP.newEntry r)) as (-> & -> & ->).
    cbn [ICP.newEntry ICP.location ICP.teacherName ICP.monthYear].
    fold (ICP.keyOf r). rewrite Hk, Hm.
    split; [discriminate|].
    repeat split.
    + rewrite (m_fold_left ICP.addItem ICP.totalSessions
                 (fun p => JS.orZero (Payroll.totalSessions p)));
        [simpl; lra | intros; simpl; lra].
    + rewrite (m_fold_left ICP.addItem ICP.totalCustomers
                 (fun p => JS.orZero (Payroll.totalCustomers p)));
        [simpl; lra | intros; simpl; lra].
    + rewrite (m_fold_left ICP.addItem ICP.totalPaid
                 (fun p => JS.orZero (Payroll.totalPaid p)));
        [simpl; lra | intros; simpl; lra].
    + rewrite (m_fold_left ICP.addItem ICP.emptySession
                 (fun p => JS.orZero (Payroll.totalEmptySessions p)));
        [simpl; lra | intros; simpl; lra].
    + rewrite (m_fold_left ICP.addItem ICP.nonEmptySession
                 (fun p => JS.orZero (Payroll.totalNonEmptySessions p)));
        [simpl; lra | intros; simpl; lra].
Qed.

(** ** ImprovedClassAttendancePayrollTable: the loop over shared entries *)

Lemma get_middle {V : Type} (l1 l2 : JS.obj V) (k : string) (v : V) :
  ~ In k (JS.keys l1) -> JS.get (l1 ++ (k, v) :: l2)%list k = Some v.
Proof.
  induction l1 as [|[k' v'] l1 IH]; simpl; intros H.
  - now rewrite String.eqb_refl.
  - destruct (String.eqb_spec k' k) as [->|Hne]; [tauto|]. apply IH. tauto.
Qed.

Lemma set_middle {V : Type} (l1 l2 : JS.obj V) (k : string) (v v' : V) :
  ~ In k (JS.keys l1) ->
  JS.set (l1 ++ (k, v) :: l2)%list k v' = (l1 ++ (k, v') :: l2)%list.
Proof.
  induction l1 as [|[k0 v0] l1 IH]; simpl; intros H.
  - now rewrite String.eqb_refl.
  - destruct (String.eqb_spec k0 k) as [->|Hne]; [tauto|].
    rewrite IH; tauto.
Qed.

Lemma ICP_sameButTrends_fields a b :
  ICP_sameButTrends a b ->
  ICP.location a = ICP.location b /\ ICP.teacherName a = ICP.teacherName b /\
  ICP.monthYear a = ICP.monthYear b /\
  ICP.totalSessions a = ICP.totalSessions b /\
  ICP.totalCustomers a = ICP.totalCustomers b /\
  ICP.totalPaid a = ICP.totalPaid b /\ ICP.fillRate a = ICP.fillRate b.
Proof.
  intros H.
  pose proof (H {| ICP.sessionsChange := JS.NaN; ICP.customersChange := JS.NaN;
                   ICP.revenueChange := JS.NaN; ICP.fillRateChange := JS.NaN |})
    as E.
  unfold ICP.withTrends in E. inversion E. repeat split; assumption.
Qed.

Lemma ICP_find_related item key (l1 l2 : list ICP.ProcessedPayrollData) :
  Forall2 ICP_sameButTrends l1 l2 ->
  match find (ICP.isPrevData item key) l1,
        find (ICP.isPrevData item key) l2 with
  | Some a, Some b => ICP_sameButTrends a b
  | None, None => True
  | _, _ => False
  end.
Proof.
  induction 1 as [|a b l1 l2 Hab _ IH]; simpl; [exact I|].
  assert (E : ICP.isPrevData item key a = ICP.isPrevData item key b).
  { destruct (ICP_sameButTrends_fields _ _ Hab) as (E1 & E2 & E3 & _).
    unfold ICP.isPrevData. now rewrite E1, E2, E3. }
  rewrite E. destruct (ICP.isPrevData item key b); [exact Hab | exact IH].
Qed.

Lemma ICP_trendsAgainst_related item a b :
  ICP_sameButTrends a b ->
  ICP.trendsAgainst item a = ICP.trendsAgainst item b.
Proof.
  intros H. destruct (ICP_sameButTrends_fields _ _ H)
    as (_ & _ & _ & E1 & E2 & E3 & E4).
  unfold ICP.trendsAgainst. now rewrite E1, E2, E3, E4.
Qed.

Lemma Forall2_refl_eq {A : Type} (R : A -> A -> Prop) (l : list A) :
  (forall a, R a a) -> Forall2 R l l.
Proof. intros H. induction l; constructor; auto. Qed.

Lemma ICP_loop (prevMonthKeyOf : string -> string)
  (rest l1 : JS.obj ICP.ProcessedPayrollData)
  (before : list ICP.ProcessedPayrollData) :
  NoDup (JS.keys (l1 ++ rest)%list) ->
  Forall2 ICP_sameButTrends (JS.values l1) before ->
  JS.values
    (fold_left (ICP.deriveEntry prevMonthKeyOf) (JS.keys rest)
       (l1 ++ rest)%list)
  = (JS.values l1 ++ ICP_rowsFrom prevMonthKeyOf before (JS.values rest))%list.
Proof.
  revert l1 before. induction rest as [|[k e0] rest IH];
    intros l1 before Hnd Hrel.
  - simpl. now rewrite !app_nil_r.
  - assert (Hk : ~ In k (JS.keys l1)).
    { unfold JS.keys in *. rewrite map_app in Hnd. simpl in Hnd.
      apply NoDup_remove_2 in Hnd. intros H. apply Hnd.
      apply in_or_app. now left. }
    cbn [JS.keys map fst fold_left JS.values snd ICP_rowsFrom].
    set (item := ICP.withMetrics e0).
    set (key := prevMonthKeyOf (JS.show (ICP.monthYear item) ++ "-01")).
    set (new :=
           match find (ICP.isPrevData item key)
                   (before ++ item :: map snd rest)%list with
           | Some prevData =>
               ICP.withTrends item (ICP.trendsAgainst item prevData)
           | None => item
           end).
    assert (Hstep : ICP.deriveEntry prevMonthKeyOf
                      (l1 ++ (k, e0) :: rest)%list k
                    = ((l1 ++ [(k, new)]) ++ rest)%list).
    { unfold ICP.deriveEntry. rewrite get_middle by exact Hk.
      fold item. rewrite set_middle by exact Hk. fold key.
      assert (Hv : JS.values (l1 ++ (k, item) :: rest)%list
                   = (JS.values l1 ++ item :: map snd rest)%list)
        by (unfold JS.values; now rewrite map_app).
      rewrite Hv.
      assert (Hf2 : Forall2 ICP_sameButTrends
                      (JS.values l1 ++ item :: map snd rest)%list
                      (before ++ item :: map snd rest)%list).
      { apply Forall2_app; [exact Hrel|].
        apply Forall2_refl_eq. intros a t. reflexivity. }
      pose proof (ICP_find_related item key _ _ Hf2) as Hfind.
      unfold new.
      destruct (find (ICP.isPrevData item key)
                  (JS.values l1 ++ item :: map snd rest)%list) as [a|];
        destruct (find (ICP.isPrevData item key)
                    (before ++ item :: map snd rest)%list) as [b|];
        try contradiction.
      - rewrite set_middle by exact Hk.
        rewrite (ICP_trendsAgainst_related item a b Hfind).
        now rewrite <- app_assoc.
      - now rewrite <- app_assoc. }
    rewrite Hstep.
    change (map fst rest) with (JS.keys rest).
    unfold JS.values in IH |- *.
    rewrite (IH (l1 ++ [(k, new)])%list (before ++ [item])%list).
    + rewrite map_app, <- app_assoc. reflexivity.
    + rewrite <- app_assoc. simpl.
      unfold JS.keys in *. rewrite map_app in *. simpl in *. exact Hnd.
    + unfold JS.values. rewrite map_app. apply Forall2_app; [exact Hrel|].
      constructor; [|constructor]. simpl. unfold new.
      destruct (find _ _); intros t; reflexivity.
Qed.

(** X7: The loop of the payroll table writes into the entries while it reads
    them.  Its rows are those of the pure function [ICP_rowsFrom]: an
    entry is compared with the first entry for the month before it,
    taken with its fill rate when that entry comes earlier among the
    groups and with the fill rate 0 it was created with when it comes
    later. *)
Theorem ICP_results_refine_rowsFrom prevMonthKeyOf (location : option string)
  (data : list PayrollData) :
  ICP.results prevMonthKeyOf location data =
  ICP_rowsFrom prevMonthKeyOf [] (JS.values (ICP.grouped location data)).
Proof.
  unfold ICP.results.
  apply (ICP_loop prevMonthKeyOf (ICP.grouped location data) [] []).
  - apply NoDup_keys_groupBy.
  - constructor.
Qed.

Example ICP_fillRateChange_depends_on_order :
  let january := Sample.payroll "Asha" "2024-01" 10 1 9 75 40000 in
  let february := Sample.payroll "Asha" "2024-02" 10 0 10 90 52000 in
  map (fun row => option_map ICP.fillRateChange (ICP.trends row))
    (ICP.results UTC.prevMonthKeyOf None [january; february])
  = [None; Some (JS.Finite (90 / (10 * 15) * 100 - 75 / (10 * 15) * 100))]
  /\
  map (fun row => option_map ICP.fillRateChange (ICP.trends row))
    (ICP.results UTC.prevMonthKeyOf None [february; january])
  = [Some (JS.Finite (90 / (10 * 15) * 100 - 0)); None].
Proof. split; vm_compute; reflexivity. Qed.

(** ** Year on year: the formats of a row *)

Lemma YoY_comparison_shape (t : YoY.TrainerYears) row :
  YoY.comparison t = Some row ->
  exists currentYear previousYear currentData previousData,
    JS.get (YoY.years t) currentYear = Some currentData /\
    JS.get (YoY.years t) previousYear = Some previousData /\
    YoY.currentYear row = YoY.aggregate currentData /\
    YoY.previousYear row = YoY.aggregate previousData /\
    YoY.topFormat row =
      match JS.sortBy (fun a b => Qle_bool (snd b) (snd a))
              [ ("PowerCycle", YoY.y_cycleRevenue (YoY.currentYear row));
                ("Barre", YoY.y_barreRevenue (YoY.currentYear row));
                ("Strength Lab",
                 YoY.y_strengthRevenue (YoY.currentYear row)) ] with
      | (name, _) :: _ => name
      | [] => ""
      end /\
    YoY.formatGrowth row =
      [ ("PowerCycle",
         YoY.growth (YoY.y_cycleRevenue (YoY.currentYear row))
           (YoY.y_cycleRevenue (YoY.previousYear row)));
        ("Barre",
         YoY.growth (YoY.y_barreRevenue (YoY.currentYear row))
           (YoY.y_barreRevenue (YoY.previousYear row)));
        ("Strength Lab",
         YoY.growth (YoY.y_strengthRevenue (YoY.currentYear row))
           (YoY.y_strengthRevenue (YoY.previousYear row))) ].
Proof.
  unfold YoY.comparison.
  destruct (2 <=? List.length (YoY.sortedYears t))%nat; [|discriminate].
  destruct (JS.fromEnd (YoY.sortedYears t) 0) as [cy|]; [|discriminate].
  destruct (JS.fromEnd (YoY.sortedYears t) 1) as [py|]; [|discriminate].
  destruct (JS.get (YoY.years t) cy) as [cd|] eqn:Ec; [|discriminate].
  destruct (JS.get (YoY.years t) py) as [pd|] eqn:Ep; [|discriminate].
  intros H. injection H as <-. exists cy, py, cd, pd.
  repeat split; assumption.
Qed.

Lemma YoY_aggregate_fields (l : list TDP.ProcessedTrainerData) :
  YoY.y_cycleRevenue (YoY.aggregate l) == sumQ (map TDP.cycleRevenue l) /\
  YoY.y_barreRevenue (YoY.aggregate l) == sumQ (map TDP.barreRevenue l) /\
  YoY.y_strengthRevenue (YoY.aggregate l)
    == sumQ (map TDP.strengthRevenue l) /\
  YoY.sessions (YoY.aggregate l) == sumQ (map TDP.totalSessions l) /\
  YoY.customers (YoY.aggregate l) == sumQ (map TDP.totalCustomers l).
Proof.
  unfold YoY.aggregate.
  assert (H : forall acc,
             let r :=
               fold_left
                 (fun acc t =>
                    {| YoY.revenue := YoY.revenue acc + TDP.totalPaid t;
                       YoY.sessions := YoY.sessions acc + TDP.totalSessions t;
                       YoY.customers :=
                         YoY.customers acc + TDP.totalCustomers t;
                       YoY.y_cycleRevenue :=
                         YoY.y_cycleRevenue acc + TDP.cycleRevenue t;
                       YoY.y_barreRevenue :=
                         YoY.y_barreRevenue acc + TDP.barreRevenue t;
                       YoY.y_strengthRevenue :=
                         YoY.y_strengthRevenue acc + TDP.strengthRevenue t |})
                 l acc in
             YoY.y_cycleRevenue r
               == YoY.y_cycleRevenue acc + sumQ (map TDP.cycleRevenue l) /\
             YoY.y_barreRevenue r
               == YoY.y_barreRevenue acc + sumQ (map TDP.barreRevenue l) /\
             YoY.y_strengthRevenue r
               == YoY.y_strengthRevenue acc
                  + sumQ (map TDP.strengthRevenue l) /\
             YoY.sessions r
               == YoY.sessions acc + sumQ (map TDP.totalSessions l) /\
             YoY.customers r
               == YoY.customers acc + sumQ (map TDP.totalCustomers l)).
  { induction l as [|x l IH]; intros acc; cbn zeta.
    - simpl. repeat split; lra.
    - cbn [fold_left map]. 
      destruct (IH {| YoY.revenue := YoY.revenue acc + TDP.totalPaid x;
                      YoY.sessions := YoY.sessions acc + TDP.totalSessions x;
                      YoY.customers :=
                        YoY.customers acc + TDP.totalCustomers x;
                      YoY.y_cycleRevenue :=
                        YoY.y_cycleRevenue acc + TDP.cycleRevenue x;
                      YoY.y_barreRevenue :=
                        YoY.y_barreRevenue acc + TDP.barreRevenue x;
                      YoY.y_strengthRevenue :=
                        YoY.y_strengthRevenue acc + TDP.strengthRevenue x |})
        as (E1 & E2 & E3 & E4 & E5).
      cbn zeta in E1, E2, E3, E4, E5. cbn [YoY.y_cycleRevenue
        YoY.y_barreRevenue YoY.y_strengthRevenue YoY.sessions
        YoY.customers] in E1, E2, E3, E4, E5.
      rewrite E1, E2, E3, E4, E5.
      change (sumQ (map ?f (x :: l))) with (f x + sumQ (map f l)).
      unfold sumQ. cbn [fold_right]. repeat split; lra. }
  destruct (H YoY.zeroTotals) as (E1 & E2 & E3 & E4 & E5).
  cbn zeta in E1, E2, E3, E4, E5.
  rewrite E1, E2, E3, E4, E5. simpl. repeat split; lra.
Qed.

(** The rows that a year bucket of a trainer holds come from the data. *)
Lemma YoY_bucket_incl (data : list TDP.ProcessedTrainerData) k t y rs :
  In (k, t) (YoY.trainerMap data) -> JS.get (YoY.years t) y = Some rs ->
  rs = rowsOfYear k y data /\ incl rs data.
Proof.
  intros Hin Hget. destruct (YoY_trainerMap_entry _ _ _ Hin) as [_ Hy].
  rewrite Hy, YoY_years_get in Hget.
  assert (E : rs = rowsOfYear k y data).
  { destruct (rowsOfYear k y data); [discriminate|congruence]. }
  split; [exact E|]. subst rs. intros x Hx. unfold rowsOfYear, members in Hx.
  apply filter_In in Hx. destruct Hx as [Hx _].
  apply filter_In in Hx. tauto.
Qed.

Lemma sortBy_three_head (a b c : string) (x y z : Q) :
  match JS.sortBy (fun p q : string * Q => Qle_bool (snd q) (snd p))
          [(a, x); (b, y); (c, z)] with
  | (name, _) :: _ => name
  | [] => EmptyString
  end
  = if Qle_bool y x && Qle_bool z x then a
    else if Qle_bool z y then b else c.
Proof.
  unfold JS.sortBy. cbn [fold_right JS.insertSorted snd].
  destruct (Qle_bool z y) eqn:Ezy; cbn [JS.insertSorted snd].
  - destruct (Qle_bool y x) eqn:Eyx; cbn [andb].
    + assert (Ezx : Qle_bool z x = true).
      { apply Qle_bool_iff. apply Qle_bool_iff in Ezy, Eyx. lra. }
      now rewrite Ezx.
    + destruct (Qle_bool z x); reflexivity.
  - destruct (Qle_bool z x) eqn:Ezx; cbn [andb].
    + destruct (Qle_bool y x) eqn:Eyx; [reflexivity|].
      exfalso.
      assert (Hyx : ~ y <= x)
        by (intros H; apply Qle_bool_iff in H; congruence).
      assert (Hzy : ~ z <= y)
        by (intros H; apply Qle_bool_iff in H; congruence).
      apply Qle_bool_iff in Ezx. lra.
    + rewrite andb_false_r. reflexivity.
Qed.

Lemma YoY_topFormat_cases (data : list TDP.ProcessedTrainerData) row :
  In row (YoY.yearOnYearData data) ->
  let cycle := YoY.y_cycleRevenue (YoY.currentYear row) in
  let barre := YoY.y_barreRevenue (YoY.currentYear row) in
  let strength := YoY.y_strengthRevenue (YoY.currentYear row) in
  YoY.topFormat row =
    if Qle_bool barre cycle && Qle_bool strength cycle then "PowerCycle"
    else if Qle_bool strength barre then "Barre" else "Strength Lab".
Proof.
  intros Hrow. apply YoY_In in Hrow. destruct Hrow as (k & t & _ & Hc).
  destruct (YoY_comparison_shape _ _ Hc)
    as (_ & _ & _ & _ & _ & _ & _ & _ & Htop & _).
  cbv zeta. rewrite Htop. apply sortBy_three_head.
Qed.

Lemma Qle_bool_false (a b : Q) : Qle_bool a b = false -> b < a.
Proof.
  intros H. apply Qnot_le_lt. intros H'.
  apply Qle_bool_iff in H'. congruence.
Qed.

(** X8: The top format of a year-on-year row is the format with the greatest
    revenue in the current year; on equal revenue PowerCycle comes before
    Barre and Barre before Strength Lab. *)
Theorem YoY_top_format_is_greatest (data : list TDP.ProcessedTrainerData) :
  Forall
    (fun row =>
       let cycle := YoY.y_cycleRevenue (YoY.currentYear row) in
       let barre := YoY.y_barreRevenue (YoY.currentYear row) in
       let strength := YoY.y_strengthRevenue (YoY.currentYear row) in
       (YoY.topFormat row = "PowerCycle" /\
        barre <= cycle /\ strength <= cycle) \/
       (YoY.topFormat row = "Barre" /\
        cycle < barre /\ strength <= barre) \/
       (YoY.topFormat row = "Strength Lab" /\
        cycle < strength /\ barre < strength))
    (YoY.yearOnYearData data).
Proof.
  apply Forall_forall. intros row Hrow.
  pose proof (YoY_topFormat_cases data row Hrow) as Htop.
  cbv zeta in Htop |- *. rewrite Htop.
  set (cycle := YoY.y_cycleRevenue (YoY.currentYear row)).
  set (barre := YoY.y_barreRevenue (YoY.currentYear row)).
  set (strength := YoY.y_strengthRevenue (YoY.currentYear row)).
  destruct (Qle_bool barre cycle) eqn:E1;
    destruct (Qle_bool strength cycle) eqn:E2; cbn [andb].
  - left. apply Qle_bool_iff in E1, E2. auto.
  - destruct (Qle_bool strength barre) eqn:E3.
    + exfalso. apply Qle_bool_iff in E1, E3. apply Qle_bool_false in E2. lra.
    + right; right. apply Qle_bool_false in E2, E3. auto.
  - destruct (Qle_bool strength barre) eqn:E3.
    + right; left. apply Qle_bool_false in E1. apply Qle_bool_iff in E3. auto.
    + exfalso. apply Qle_bool_false in E1, E3. apply Qle_bool_iff in E2. lra.
  - destruct (Qle_bool strength barre) eqn:E3.
    + right; left. apply Qle_bool_false in E1. apply Qle_bool_iff in E3. auto.
    + right; right. apply Qle_bool_false in E2, E3. auto.
Qed.

Lemma sumQ_map_zero {V : Type} (f : V -> Q) (l : list V) :
  (forall v, In v l -> f v == 0) -> sumQ (map f l) == 0.
Proof.
  induction l as [|v l IH]; intros H; simpl; [reflexivity|].
  assert (E1 : f v == 0) by (apply H; simpl; auto).
  assert (E2 : sumQ (map f l) == 0) by (apply IH; intros; apply H; simpl; auto).
  change (f v + sumQ (map f l) == 0). rewrite E1, E2. reflexivity.
Qed.

(** X9: On the rows that [processTrainerData] makes, the year-on-year table
    has nothing to show for Strength Lab: its revenue is 0 in both years,
    its growth is 0, and it is the top format only when the PowerCycle
    and the Barre revenue of the current year are both negative. *)
Theorem YoY_strength_lab_of_processed_payroll
  (payrollData : list PayrollData) :
  Forall
    (fun row =>
       YoY.y_strengthRevenue (YoY.currentYear row) == 0 /\
       YoY.y_strengthRevenue (YoY.previousYear row) == 0 /\
       JS.get (YoY.formatGrowth row) "Strength Lab" = Some (JS.Finite 0) /\
       (YoY.topFormat row = "Strength Lab" ->
        YoY.y_cycleRevenue (YoY.currentYear row) < 0 /\
        YoY.y_barreRevenue (YoY.currentYear row) < 0))
    (YoY.yearOnYearData (TDP.processTrainerData payrollData)).
Proof.
  apply Forall_forall. intros row Hrow.
  pose proof (YoY_topFormat_cases _ row Hrow) as Htop. cbv zeta in Htop.
  apply YoY_In in Hrow. destruct Hrow as (k & t & Hin & Hc).
  destruct (YoY_comparison_shape _ _ Hc)
    as (cy & py & cd & pd & Hcd & Hpd & Ecur & Eprev & _ & Hfg).
  assert (Z : forall y rs, JS.get (YoY.years t) y = Some rs ->
                           YoY.y_strengthRevenue (YoY.aggregate rs) == 0).
  { intros y rs Hget.
    destruct (YoY_bucket_incl _ _ _ _ _ Hin Hget) as [_ Hincl].
    destruct (YoY_aggregate_fields rs) as (_ & _ & -> & _).
    apply sumQ_map_zero. intros v Hv. apply Hincl in Hv.
    unfold TDP.processTrainerData in Hv. apply in_map_iff in Hv.
    destruct Hv as (record & <- & _). reflexivity. }
  assert (Zc : YoY.y_strengthRevenue (YoY.currentYear row) == 0)
    by (rewrite Ecur; eapply Z; eassumption).
  assert (Zp : YoY.y_strengthRevenue (YoY.previousYear row) == 0)
    by (rewrite Eprev; eapply Z; eassumption).
  split; [exact Zc|]. split; [exact Zp|]. split.
  - rewrite Hfg. cbn. unfold YoY.growth.
    rewrite guardedPercent_nonpos by lra. reflexivity.
  - intros E. rewrite E in Htop.
    destruct (Qle_bool (YoY.y_barreRevenue (YoY.currentYear row))
                (YoY.y_cycleRevenue (YoY.currentYear row))) eqn:E1;
      destruct (Qle_bool (YoY.y_strengthRevenue (YoY.currentYear row))
                  (YoY.y_cycleRevenue (YoY.currentYear row))) eqn:E2;
      destruct (Qle_bool (YoY.y_strengthRevenue (YoY.currentYear row))
                  (YoY.y_barreRevenue (YoY.currentYear row))) eqn:E3;
      cbn [andb] in Htop; try discriminate;
      try apply Qle_bool_iff in E1; try apply Qle_bool_false in E1;
      try apply Qle_bool_iff in E2; try apply Qle_bool_false in E2;
      try apply Qle_bool_iff in E3; try apply Qle_bool_false in E3;
      split; lra.
Qed.

(** ** processTrainerData: the two class averages *)

(** X10: For a payroll record with customers, whose non-empty sessions are
    counted among its sessions, the two class averages are the customers
    divided by the sessions and by the non-empty sessions, and the
    average over all sessions is not negative and does not exceed the
    average over the non-empty ones. *)
Theorem class_averages_are_ordered (record : PayrollData) :
  0 <= JS.orZero (Payroll.totalCustomers record) ->
  0 < JS.orZero (Payroll.totalNonEmptySessions record) ->
  JS.orZero (Payroll.totalNonEmptySessions record)
    <= JS.orZero (Payroll.totalSessions record) ->
  let row := TDP.processRecord record in
  TDP.classAverageInclEmpty row =
    JS.div (TDP.totalCustomers row) (TDP.totalSessions row) /\
  TDP.classAverageExclEmpty row =
    JS.div (TDP.totalCustomers row) (TDP.nonEmptySessions row) /\
  JS.le (JS.Finite 0) (TDP.classAverageInclEmpty row) = true /\
  JS.le (TDP.classAverageInclEmpty row) (TDP.classAverageExclEmpty row)
  = true.
Proof.
  intros Hc Hn Hle. cbv zeta.
  set (c := JS.orZero (Payroll.totalCustomers record)) in *.
  set (n := JS.orZero (Payroll.totalNonEmptySessions record)) in *.
  set (t := JS.orZero (Payroll.totalSessions record)) in *.
  assert (Ht : 0 < t) by lra.
  change (TDP.classAverageInclEmpty (TDP.processRecord record))
    with (guardedRatio c t).
  change (TDP.classAverageExclEmpty (TDP.processRecord record))
    with (guardedRatio c n).
  change (TDP.totalSessions (TDP.processRecord record)) with t.
  change (TDP.nonEmptySessions (TDP.processRecord record)) with n.
  change (TDP.totalCustomers (TDP.processRecord record)) with c.
  unfold guardedRatio.
  rewrite (proj2 (gt0_true t) Ht), (proj2 (gt0_true n) Hn).
  split; [reflexivity|]. split; [reflexivity|].
  rewrite !div_nonzero by lra. cbn [JS.le].
  split; apply Qle_bool_iff.
  - now apply Qdiv_nonneg.
  - apply Qle_shift_div_l; [exact Hn|].
    assert (E : c / t * n == c * (n / t)) by (field; lra).
    rewrite E.
    assert (H1 : n / t <= 1) by (apply Qdiv_le_one; assumption).
    assert (H0 : 0 <= n / t) by (apply Qdiv_nonneg; lra).
    nra.
Qed.

Lemma class_averages_are_ordered_witness :
  let record := Sample.payroll "Asha" "Feb-2024" 12 2 10 96 48000 in
  let row := TDP.processRecord record in
  TDP.classAverageInclEmpty row = JS.div 96 12 /\
  TDP.classAverageExclEmpty row = JS.div 96 10 /\
  JS.le (JS.Finite 0) (TDP.classAverageInclEmpty row) = true /\
  JS.le (TDP.classAverageInclEmpty row) (TDP.classAverageExclEmpty row)
  = true.
Proof.
  cbv zeta.
  apply (class_averages_are_ordered
           (Sample.payroll "Asha" "Feb-2024" 12 2 10 96 48000)).
  - simpl. lra.
  - simpl. lra.
  - simpl. lra.
Defined.

(** ** PowerCycleBarreStrengthMonthOnMonthTable *)

Lemma forEachOrThrow_total {A B : Type} (f : A -> option B) (l : list A) :
  (forall x, In x l -> exists y, f x = Some y) ->
  exists ys, forEachOrThrow f l = Some ys /\
             Forall2 (fun x y => f x = Some y) l ys.
Proof.
  induction l as [|a l IH]; intros H; simpl.
  - exists []. split; constructor.
  - destruct (H a (or_introl eq_refl)) as [y Hy].
    destruct IH as (ys & E & F); [intros x Hx; apply H; now right|].
    rewrite Hy, E. exists (y :: ys). split; [reflexivity|].
    now constructor.
Qed.

Lemma Forall2_In_l {A B : Type} (R : A -> B -> Prop) l1 l2 x :
  Forall2 R l1 l2 -> In x l1 -> exists y, In y l2 /\ R x y.
Proof.
  induction 1 as [|a b l1 l2 Hab _ IH]; simpl; [contradiction|].
  intros [<-|Hx].
  - exists b. auto.
  - destruct (IH Hx) as (y & Hy & Hr). exists y. auto.
Qed.

Lemma Forall2_In_r {A B : Type} (R : A -> B -> Prop) l1 l2 y :
  Forall2 R l1 l2 -> In y l2 -> exists x, In x l1 /\ R x y.
Proof.
  induction 1 as [|a b l1 l2 Hab _ IH]; simpl; [contradiction|].
  intros [<-|Hy].
  - exists a. auto.
  - destruct (IH Hy) as (x & Hx & Hr). exists x. auto.
Qed.

Lemma Forall2_map_eq {A B C : Type} (R : A -> B -> Prop)
  (f : A -> C) (g : B -> C) l1 l2 :
  Forall2 R l1 l2 -> (forall a b, R a b -> f a = g b) ->
  map f l1 = map g l2.
Proof.
  intros H Hfg. induction H as [|a b l1 l2 Hab _ IH]; simpl; [reflexivity|].
  now rewrite IH, (Hfg a b Hab).
Qed.

Lemma NoDup_filter {A : Type} (f : A -> bool) (l : list A) :
  NoDup l -> NoDup (filter f l).
Proof.
  induction 1 as [|x l Hx _ IH]; simpl; [constructor|].
  destruct (f x); [|exact IH]. constructor; [|exact IH].
  intros H. apply filter_In in H. tauto.
Qed.

Lemma NoDup_map_filter {A B : Type} (g : A -> B) (f : A -> bool)
  (l : list A) : NoDup (map g l) -> NoDup (map g (filter f l)).
Proof.
  induction l as [|x l IH]; simpl; intros H; [constructor|].
  inversion H as [|? ? Hx Hnd]; subst.
  destruct (f x); [|now apply IH]. simpl. constructor; [|now apply IH].
  intros Hin. apply Hx. apply in_map_iff in Hin.
  destruct Hin as (y & E & Hy). apply filter_In in Hy.
  apply in_map_iff. exists y. tauto.
Qed.

(** The first and the last element of a sorted list of strings are the
    least and the greatest of them. *)
Lemma sort_first_last (l : list string) :
  l <> [] ->
  exists first last,
    nth_error (JS.sort l) 0 = Some first /\
    JS.fromEnd (JS.sort l) 0 = Some last /\
    In first l /\ In last l /\
    (forall x, In x l ->
               String.leb first x = true /\ String.leb x last = true).
Proof.
  intros Hne. unfold JS.sort.
  pose proof (sortBy_perm String.leb l) as Hperm.
  pose proof (sortBy_sorted String.leb String.leb_total leb_trans l)
    as Hsorted.
  remember (JS.sortBy String.leb l) as s eqn:Es. clear Es.
  assert (Hrefl : forall x, String.leb x x = true)
    by (intros x; destruct (String.leb_total x x); assumption).
  destruct s as [|f rest].
  { apply Permutation_nil in Hperm. contradiction. }
  assert (Hrev : f :: rest = rev (rev (f :: rest)))
    by now rewrite rev_involutive.
  unfold JS.fromEnd.
  destruct (rev (f :: rest)) as [|la r] eqn:Er.
  { simpl in Hrev. discriminate. }
  simpl in Hrev. exists f, la. simpl.
  assert (Hla : In la (f :: rest))
    by (rewrite Hrev; apply in_or_app; right; now left).
  repeat split.
  - apply (Permutation_in _ Hperm). now left.
  - apply (Permutation_in _ Hperm). exact Hla.
  - apply (Permutation_in _ (Permutation_sym Hperm)) in H.
    inversion Hsorted as [|? ? _ Hall]; subst.
    destruct H as [<-|H]; [apply Hrefl|].
    rewrite Forall_forall in Hall. now apply Hall.
  - apply (Permutation_in _ (Permutation_sym Hperm)) in H.
    rewrite Hrev in H, Hsorted. apply in_app_or in H.
    destruct H as [H|[<-|[]]]; [|apply Hrefl].
    apply (StronglySorted_app_cross (fun a b => String.leb a b = true)
             (rev r) [la] Hsorted); [exact H | now left].
Qed.

Lemma fold_left_last {A B : Type} (f : A -> B) (l : list A) (v : B) :
  fold_left (fun _ r => f r) l v =
  match JS.fromEnd l 0 with
  | Some r => f r
  | None => v
  end.
Proof.
  unfold JS.fromEnd. induction l as [|x l _] using rev_ind.
  - reflexivity.
  - rewrite fold_left_app, rev_app_distr. reflexivity.
Qed.

Lemma PMM_fold (rs : list TDP.ProcessedTrainerData)
  (t : PMM.MonthlyComparison) :
  let t' := fold_left PMM.addTrainer rs t in
  PMM.trainerName t' = PMM.trainerName t /\
  PMM.location t' = PMM.location t /\
  PMM.months t' =
    fold_left
      (upsert PMM.monthOf (fun _ => false) PMM.figuresOf
         (fun _ r => PMM.figuresOf r))
      rs (PMM.months t) /\
  PMM.totalSessions t'
    == PMM.totalSessions t + sumQ (map TDP.totalSessions rs) /\
  PMM.totalRevenue t' == PMM.totalRevenue t + sumQ (map TDP.totalPaid rs) /\
  PMM.avgMonthlyRevenue t' = PMM.avgMonthlyRevenue t /\
  PMM.growth t' = PMM.growth t.
Proof.
  revert t. induction rs as [|r rs IH]; intros t; cbn zeta.
  - simpl. repeat split; lra.
  - cbn [fold_left map].
    destruct (IH (PMM.addTrainer t r)) as (E1 & E2 & E3 & E4 & E5 & E6 & E7).
    cbn zeta in E1, E2, E3, E4, E5, E6, E7.
    rewrite E1, E2, E3, E4, E5, E6, E7.
    change (sumQ (map ?f (r :: rs))) with (f r + sumQ (map f rs)).
    unfold sumQ. cbn [fold_right].
    repeat split; try reflexivity; simpl; lra.
Qed.

(** An entry of [trainerMap] before the second pass. *)
Lemma PMM_trainerMap_entry (data : list TDP.ProcessedTrainerData) k t :
  In (k, t) (PMM.trainerMap data) ->
  PMM.rowKey t = k /\ PMM_rowsOf k data <> [] /\
  PMM.months t =
    groupBy PMM.monthOf (fun _ => false) PMM.figuresOf
      (fun _ r => PMM.figuresOf r) (PMM_rowsOf k data) /\
  PMM.totalSessions t == sumQ (map TDP.totalSessions (PMM_rowsOf k data)) /\
  PMM.totalRevenue t == sumQ (map TDP.totalPaid (PMM_rowsOf k data)) /\
  PMM.growth t = JS.Finite 0.
Proof.
  intros H. apply In_groupBy in H. destruct H as (r & rs & Hm & ->).
  pose proof (members_head _ _ _ _ _ _ Hm) as [Hk _].
  destruct (PMM_fold (r :: rs) (PMM.newTrainer r))
    as (E1 & E2 & E3 & E4 & E5 & _ & E7).
  cbn zeta in E1, E2, E3, E4, E5, E7.
  unfold PMM_rowsOf. rewrite Hm.
  repeat split.
  - unfold PMM.rowKey. rewrite E1, E2. exact Hk.
  - discriminate.
  - exact E3.
  - rewrite E4. simpl. lra.
  - rewrite E5. simpl. lra.
  - exact E7.
Qed.

(** The second pass on one entry: it never throws, it keeps everything
    but the average and the growth, and the growth compares the months
    with the least and the greatest key. *)
Lemma PMM_derive_spec (t : PMM.MonthlyComparison) :
  exists row,
    PMM.derive t = Some row /\
    PMM.trainerName row = PMM.trainerName t /\
    PMM.location row = PMM.location t /\
    PMM.months row = PMM.months t /\
    PMM.totalSessions row = PMM.totalSessions t /\
    PMM.totalRevenue row = PMM.totalRevenue t /\
    PMM.avgMonthlyRevenue row =
      guardedRatio (PMM.totalRevenue t)
        (ofNat (List.length (JS.keys (PMM.months t)))) /\
    ((List.length (JS.keys (PMM.months t)) < 2)%nat ->
     PMM.growth row = PMM.growth t) /\
    ((2 <= List.length (JS.keys (PMM.months t)))%nat ->
     exists first last firstMonth lastMonth,
       In first (JS.keys (PMM.months t)) /\
       In last (JS.keys (PMM.months t)) /\
       (forall m, In m (JS.keys (PMM.months t)) ->
                  String.leb first m = true /\ String.leb m last = true) /\
       JS.get (PMM.months t) first = Some firstMonth /\
       JS.get (PMM.months t) last = Some lastMonth /\
       PMM.growth row =
         if JS.gt0 (PMM.revenue firstMonth)
         then JS.times
                (JS.div (PMM.revenue lastMonth - PMM.revenue firstMonth)
                   (PMM.revenue firstMonth)) 100
         else PMM.growth t).
Proof.
  unfold PMM.derive.
  set (ms := JS.keys (PMM.months t)).
  assert (Havg : (if (0 <? List.length ms)%nat
                  then JS.div (PMM.totalRevenue t) (ofNat (List.length ms))
                  else JS.Finite 0)
                 = guardedRatio (PMM.totalRevenue t) (ofNat (List.length ms))).
  { unfold guardedRatio. destruct (List.length ms) as [|n] eqn:En.
    - reflexivity.
    - assert (Hp : 0 < ofNat (S n)).
      { pose proof (ofNat_pos (S n) ltac:(lia)). lra. }
      rewrite (proj2 (gt0_true _) Hp). reflexivity. }
  destruct (1 <? List.length ms)%nat eqn:En.
  - apply Nat.ltb_lt in En.
    assert (Hne : ms <> []) by (intros E; rewrite E in En; simpl in En; lia).
    destruct (sort_first_last ms Hne)
      as (f & la & Ef & El & Hf & Hl & Hord).
    rewrite Ef, El. cbn [JS.show].
    destruct (proj1 (In_keys_get _ _) Hf) as [fm Hfm].
    destruct (proj1 (In_keys_get _ _) Hl) as [lm Hlm].
    rewrite Hfm, Hlm.
    destruct (JS.gt0 (PMM.revenue fm)) eqn:Eg.
    + eexists. split; [reflexivity|]. cbn [PMM.withDerived PMM.trainerName
        PMM.location PMM.months PMM.totalSessions PMM.totalRevenue
        PMM.avgMonthlyRevenue PMM.growth].
      repeat split; try exact Havg; [lia|].
      intros _. exists f, la, fm, lm. rewrite Eg. repeat split; auto;
        now apply Hord.
    + eexists. split; [reflexivity|]. cbn [PMM.withDerived PMM.trainerName
        PMM.location PMM.months PMM.totalSessions PMM.totalRevenue
        PMM.avgMonthlyRevenue PMM.growth].
      repeat split; try exact Havg.
      intros _. exists f, la, fm, lm. rewrite Eg. repeat split; auto;
        now apply Hord.
  - apply Nat.ltb_ge in En.
    eexists. split; [reflexivity|]. cbn [PMM.withDerived PMM.trainerName
      PMM.location PMM.months PMM.totalSessions PMM.totalRevenue
      PMM.avgMonthlyRevenue PMM.growth].
    repeat split; try exact Havg. lia.
Qed.

Lemma PMM_derive_key (t row : PMM.MonthlyComparison) :
  PMM.derive t = Some row ->
  PMM.rowKey row = PMM.rowKey t /\ PMM.totalRevenue row = PMM.totalRevenue t.
Proof.
  intros H. destruct (PMM_derive_spec t) as (row' & E & E1 & E2 & _ & _ & E5 & _).
  assert (row' = row) by congruence. subst row'.
  unfold PMM.rowKey. now rewrite E1, E2, E5.
Qed.

(** The rows of [monthlyData]: the second pass never throws, and a row
    is an entry of [trainerMap] after the second pass, with a positive
    total revenue. *)
Lemma PMM_monthlyData_rows (data : list TDP.ProcessedTrainerData) :
  exists rows,
    PMM.monthlyData data = Some rows /\
    NoDup (map PMM.rowKey rows) /\
    StronglySorted
      (fun a b => PMM.totalRevenue b <= PMM.totalRevenue a) rows /\
    (forall row,
       In row rows <->
       exists k t, In (k, t) (PMM.trainerMap data) /\
                   PMM.derive t = Some row /\ 0 < PMM.totalRevenue row).
Proof.
  unfold PMM.monthlyData.
  destruct (forEachOrThrow_total PMM.derive (JS.values (PMM.trainerMap data)))
    as (derived & E & F).
  { intros t _. destruct (PMM_derive_spec t) as (row & H & _). now exists row. }
  rewrite E. eexists. split; [reflexivity|].
  assert (Hle_total : forall a b : PMM.MonthlyComparison,
             Qle_bool (PMM.totalRevenue b) (PMM.totalRevenue a) = true \/
             Qle_bool (PMM.totalRevenue a) (PMM.totalRevenue b) = true).
  { intros a b. rewrite !Qle_bool_iff.
    destruct (Qlt_le_dec (PMM.totalRevenue a) (PMM.totalRevenue b)); [right|left]; lra. }
  assert (Hle_trans : forall a b c : PMM.MonthlyComparison,
             Qle_bool (PMM.totalRevenue b) (PMM.totalRevenue a) = true ->
             Qle_bool (PMM.totalRevenue c) (PMM.totalRevenue b) = true ->
             Qle_bool (PMM.totalRevenue c) (PMM.totalRevenue a) = true).
  { intros a b c. rewrite !Qle_bool_iff. lra. }
  split; [|split].
  - eapply Permutation_NoDup.
    + apply Permutation_map, Permutation_sym, sortBy_perm.
    + apply NoDup_map_filter.
      assert (Hk : map PMM.rowKey derived = JS.keys (PMM.trainerMap data)).
      { unfold JS.keys, JS.values in *. symmetry.
        assert (G : map fst (PMM.trainerMap data)
                    = map PMM.rowKey (map snd (PMM.trainerMap data))).
        { rewrite map_map. apply map_ext_in. intros [k t] Hin. simpl.
          symmetry. now apply (PMM_trainerMap_entry data k t). }
        rewrite G.
        apply (Forall2_map_eq _ PMM.rowKey PMM.rowKey _ _ F).
        intros a b Hab. symmetry. now apply PMM_derive_key. }
      rewrite Hk. apply NoDup_keys_groupBy.
  - pose proof (sortBy_sorted _ Hle_total Hle_trans
                  (filter (fun trainer => JS.gt0 (PMM.totalRevenue trainer))
                     derived)) as Hs.
    induction Hs as [|a l _ IH Hall]; constructor; [exact IH|].
    eapply Forall_impl; [|exact Hall].
    intros b H. now apply Qle_bool_iff.
  - intros row. rewrite sortBy_In, filter_In, gt0_true. split.
    + intros [Hin Hpos].
      destruct (Forall2_In_r _ _ _ _ F Hin) as (t & Ht & Hd).
      apply In_values in Ht. destruct Ht as [k Ht].
      exists k, t. auto.
    + intros (k & t & Hin & Hd & Hpos). split; [|exact Hpos].
      assert (Ht : In t (JS.values (PMM.trainerMap data)))
        by (apply In_values; now exists k).
      destruct (Forall2_In_l _ _ _ _ F Ht) as (row' & Hrow' & Hd').
      congruence.
Qed.

(** X11: The trainer month-on-month table never fails.  Its rows have
    pairwise distinct keys of trainer and location, come in descending
    order of total revenue, and total the sessions and the revenue of all
    the records of their key; a key has a row exactly when that revenue
    is positive. *)
Theorem PMM_rows_by_revenue (data : list TDP.ProcessedTrainerData) :
  exists rows,
    PMM.monthlyData data = Some rows /\
    NoDup (map PMM.rowKey rows) /\
    StronglySorted
      (fun a b => PMM.totalRevenue b <= PMM.totalRevenue a) rows /\
    (forall k,
       (exists row, In row rows /\ PMM.rowKey row = k) <->
       0 < sumQ (map TDP.totalPaid (PMM_rowsOf k data))) /\
    Forall
      (fun row =>
         PMM.totalRevenue row
           == sumQ (map TDP.totalPaid (PMM_rowsOf (PMM.rowKey row) data)) /\
         PMM.totalSessions row
           == sumQ (map TDP.totalSessions
                      (PMM_rowsOf (PMM.rowKey row) data)))
      rows.
Proof.
  destruct (PMM_monthlyData_rows data) as (rows & E & Hnd & Hs & Hin).
  exists rows. split; [exact E|]. split; [exact Hnd|]. split; [exact Hs|].
  assert (Hrow : forall row, In row rows ->
            0 < PMM.totalRevenue row /\
            PMM.totalRevenue row
              == sumQ (map TDP.totalPaid (PMM_rowsOf (PMM.rowKey row) data)) /\
            PMM.totalSessions row
              == sumQ (map TDP.totalSessions
                         (PMM_rowsOf (PMM.rowKey row) data))).
  { intros row Hr. apply Hin in Hr. destruct Hr as (k & t & Ht & Hd & Hpos).
    destruct (PMM_trainerMap_entry _ _ _ Ht) as (Hk & _ & _ & Hss & Hrev & _).
    destruct (PMM_derive_spec t)
      as (row' & Hd' & E1 & E2 & _ & E4 & E5 & _).
    assert (row' = row) by congruence. subst row'.
    assert (Ek : PMM.rowKey row = k)
      by (unfold PMM.rowKey in *; now rewrite E1, E2).
    rewrite Ek, E4, E5. auto. rewrite E5 in Hpos. auto. }
  split.
  - intros k. split.
    + intros (row & Hr & <-). destruct (Hrow row Hr) as (Hpos & Hrev & _).
      now rewrite <- Hrev.
    + intros Hpos.
      destruct (JS.get (PMM.trainerMap data) k) as [t|] eqn:Hget.
      * apply get_Some_In in Hget.
        destruct (PMM_trainerMap_entry _ _ _ Hget)
          as (Hk & _ & _ & _ & Hrev & _).
        destruct (PMM_derive_spec t)
          as (row & Hd & E1 & E2 & _ & _ & E5 & _).
        exists row. split.
        -- apply Hin. exists k, t. repeat split; auto.
           rewrite E5, Hrev. exact Hpos.
        -- unfold PMM.rowKey in *. now rewrite E1, E2.
      * exfalso. unfold PMM.trainerMap in Hget.
        rewrite get_groupBy in Hget. unfold PMM_rowsOf in Hpos.
        destruct (members PMM.keyOf (fun _ => false) k data);
          [simpl in Hpos; lra | discriminate].
  - apply Forall_forall. intros row Hr.
    destruct (Hrow row Hr) as (_ & H1 & H2). auto.
Qed.

(** X12: A month of a row holds the figures of the last record of that
    trainer, location and month: a later record of the same month
    replaces the earlier one, while the totals of the row count both. *)
Theorem PMM_month_is_last_record (data : list TDP.ProcessedTrainerData) :
  match PMM.monthlyData data with
  | Some rows =>
      Forall
        (fun row =>
           forall month,
             JS.get (PMM.months row) month =
             option_map PMM.figuresOf
               (JS.fromEnd (PMM_rowsOfMonth (PMM.rowKey row) month data) 0))
        rows
  | None => False
  end.
Proof.
  destruct (PMM_monthlyData_rows data) as (rows & E & _ & _ & Hin).
  rewrite E. apply Forall_forall. intros row Hr month.
  apply Hin in Hr. destruct Hr as (k & t & Ht & Hd & _).
  destruct (PMM_trainerMap_entry _ _ _ Ht) as (Hk & _ & Hm & _).
  destruct (PMM_derive_spec t) as (row' & Hd' & E1 & E2 & E3 & _).
  assert (row' = row) by congruence. subst row'.
  assert (Ek : PMM.rowKey row = k)
    by (unfold PMM.rowKey in *; now rewrite E1, E2).
  rewrite Ek, E3, Hm, get_groupBy. unfold PMM_rowsOfMonth.
  destruct (members PMM.monthOf (fun _ => false) month (PMM_rowsOf k data))
    as [|r rs]; [reflexivity|].
  unfold foldGroup. rewrite fold_left_last.
  unfold JS.fromEnd.
  destruct (rev (r :: rs)) as [|x l] eqn:Er; [|reflexivity].
  apply (f_equal (@List.length _)) in Er. rewrite length_rev in Er.
  discriminate.
Qed.


Example PMM_growth_follows_the_order_of_the_keys :
  option_map (map PMM.growth)
    (PMM.monthlyData
       (TDP.processTrainerData
          [Sample.payroll "Asha" "Jan-2024" 10 1 9 75 40000;
           Sample.payroll "Asha" "Feb-2024" 10 0 10 90 50000]))
  = Some [JS.Finite ((40000 - 50000) / 50000 * 100)].
Proof. vm_compute. reflexivity. Qed.

Example PMM_second_record_of_a_month :
  option_map
    (map (fun row =>
            (PMM.totalRevenue row,
             map PMM.revenue (JS.values (PMM.months row)))))
    (PMM.monthlyData
       (TDP.processTrainerData
          [Sample.payroll "Asha" "Jan-2024" 10 1 9 75 40000;
           Sample.payroll "Asha" "Jan-2024" 4 0 4 30 12000]))
  = Some [(52000, [12000])].
Proof. vm_compute. reflexivity. Qed.

(** ** ClassPerformanceRankingTable: the sessions kept in a row *)

Lemma CPR_fold_totals (rs : list SessionData) (v : CPR.ClassData) :
  let c := fold_left CPR.addSession rs v in
  CPR.classType c = CPR.classType v /\
  CPR.totalSessions c == CPR.totalSessions v + ofNat (List.length rs) /\
  CPR.totalCapacity c
    == CPR.totalCapacity v
       + sumQ (map (fun s => JS.orZero (Session.capacity s)) rs) /\
  CPR.totalCheckedIn c
    == CPR.totalCheckedIn v
       + sumQ (map (fun s => JS.orZero (Session.checkedInCount s)) rs) /\
  CPR.totalRevenue c
    == CPR.totalRevenue v
       + sumQ (map (fun s => JS.orZero (Session.totalPaid s)) rs) /\
  CPR.totalBooked c
    == CPR.totalBooked v
       + sumQ (map (fun s => JS.orZero (Session.bookedCount s)) rs) /\
  CPR.emptySessionsCount c
    == CPR.emptySessionsCount v
       + ofNat (List.length
                  (filter
                     (fun s => Qeq_bool (JS.orZero (Session.checkedInCount s)) 0)
                     rs)) /\
  CPR.revenueGeneratingSessions c
    == CPR.revenueGeneratingSessions v
       + ofNat (List.length
                  (filter (fun s => JS.gt0 (JS.orZero (Session.totalPaid s)))
                     rs)).
Proof.
  revert v. induction rs as [|r rs IH]; intros v; cbn zeta.
  - cbn [fold_left map filter List.length].
    change (ofNat 0) with 0. change (sumQ []) with 0.
    repeat split; lra.
  - cbn [fold_left].
    destruct (IH (CPR.addSession v r))
      as (E0 & E1 & E2 & E3 & E4 & E5 & E6 & E7).
    cbn zeta in E0, E1, E2, E3, E4, E5, E6, E7.
    rewrite E0, E1, E2, E3, E4, E5, E6, E7.
    cbn [map filter List.length].
    change (sumQ (?x :: ?l)) with (x + sumQ l).
    cbn [CPR.addSession CPR.classType CPR.totalSessions CPR.totalCapacity
         CPR.totalCheckedIn CPR.totalRevenue CPR.totalBooked
         CPR.emptySessionsCount CPR.revenueGeneratingSessions].
    split; [reflexivity|].
    split; [rewrite ofNat_S; lra|].
    split; [lra|]. split; [lra|]. split; [lra|]. split; [lra|].
    split.
    + destruct (Qeq_bool (JS.orZero (Session.checkedInCount r)) 0);
        cbn [List.length]; [rewrite ofNat_S|]; lra.
    + destruct (JS.gt0 (JS.orZero (Session.totalPaid r)));
        cbn [List.length]; [rewrite ofNat_S|]; lra.
Qed.

(** X14: A row of the class ranking keeps, for its drill-down, exactly the
    sessions of its class that are not hosted, in the order of the data,
    and every total of the row is the total over the sessions it keeps. *)
Theorem CPR_row_keeps_its_sessions compare (data : list SessionData)
  (minSessions : Q) :
  Forall
    (fun row =>
       let c := CPR.classData row in
       let kept := CPR.sessions c in
       kept = members CPR.classTypeOf CPR.isHosted (CPR.classType c) data /\
       kept <> [] /\
       CPR.totalSessions c == ofNat (List.length kept) /\
       CPR.totalCapacity c
         == sumQ (map (fun s => JS.orZero (Session.capacity s)) kept) /\
       CPR.totalCheckedIn c
         == sumQ (map (fun s => JS.orZero (Session.checkedInCount s)) kept) /\
       CPR.totalRevenue c
         == sumQ (map (fun s => JS.orZero (Session.totalPaid s)) kept) /\
       CPR.totalBooked c
         == sumQ (map (fun s => JS.orZero (Session.bookedCount s)) kept) /\
       CPR.emptySessionsCount c
         == ofNat (List.length
                     (filter
                        (fun s =>
                           Qeq_bool (JS.orZero (Session.checkedInCount s)) 0)
                        kept)) /\
       CPR.revenueGeneratingSessions c
         == ofNat (List.length
                     (filter
                        (fun s => JS.gt0 (JS.orZero (Session.totalPaid s)))
                        kept)))
    (CPR.processedData compare data minSessions).
Proof.
  apply Forall_forall. intros row Hin.
  unfold CPR.processedData in Hin.
  destruct data as [|s0 data]; [contradiction|].
  apply sortBy_In in Hin. unfold CPR.enrichedData, CPR.filteredData in Hin.
  apply in_map_iff in Hin. destruct Hin as (c & <- & Hin).
  apply filter_In in Hin. destruct Hin as [Hin _].
  apply In_values in Hin. destruct Hin as [k Hin].
  apply In_groupBy in Hin. destruct Hin as (r & rs & Hm & ->).
  pose proof (members_head _ _ _ _ _ _ Hm) as [Hk _].
  destruct (CPR_fold_totals (r :: rs) (CPR.newGroup r))
    as (E0 & E1 & E2 & E3 & E4 & E5 & E6 & E7).
  cbn zeta in E0, E1, E2, E3, E4, E5, E6, E7.
  cbv zeta. cbn [CPR.enrich CPR.classData].
  rewrite CPR_fold_sessions, E0, E1, E2, E3, E4, E5, E6, E7.
  cbn [CPR.newGroup CPR.sessions CPR.classType CPR.totalSessions
       CPR.totalCapacity CPR.totalCheckedIn CPR.totalRevenue CPR.totalBooked
       CPR.emptySessionsCount CPR.revenueGeneratingSessions app].
  rewrite Hk, Hm.
  repeat split; try lra. discriminate.
Qed.

(** ** The ranking grouped by UniqueID1: pages *)

Lemma ceiling_tenth_bounds (n : nat) :
  let pages := Qceiling (inject_Z (Z.of_nat n) / inject_Z 10) in
  (10 * (pages - 1) < Z.of_nat n <= 10 * pages)%Z.
Proof.
  cbv zeta.
  set (x := inject_Z (Z.of_nat n) / inject_Z 10).
  pose proof (Qle_ceiling x) as Hle. pose proof (Qceiling_lt x) as Hlt.
  assert (Ex : x * inject_Z 10 == inject_Z (Z.of_nat n)).
  { unfold x. field. }
  assert (E10 : inject_Z 10 == 10) by reflexivity.
  split.
  - rewrite Zlt_Qlt, inject_Z_mult, <- Ex.
    change (inject_Z 10) with 10 in *. nra.
  - rewrite Zle_Qle, inject_Z_mult, <- Ex.
    change (inject_Z 10) with 10 in *. nra.
Qed.

Lemma slice_window {A : Type} (l : list A) (start : Z) :
  (0 <= start)%Z ->
  slice l start (start + 10) = firstn 10 (skipn (Z.to_nat start) l).
Proof.
  intros Hs. unfold slice, relativeIndex.
  assert (E1 : (start <? 0)%Z = false) by (apply Z.ltb_ge; lia).
  assert (E2 : (start + 10 <? 0)%Z = false) by (apply Z.ltb_ge; lia).
  rewrite E1, E2.
  set (len := Z.of_nat (List.length l)).
  destruct (Z_lt_le_dec start len) as [Hlt|Hge].
  - rewrite (Z.min_l start len) by lia.
    destruct (Z_le_gt_dec (start + 10) len) as [H|H].
    + rewrite Z.min_l by lia. f_equal. lia.
    + rewrite Z.min_r by lia.
      rewrite !firstn_all2; [reflexivity| |];
        rewrite length_skipn; unfold len in *; lia.
  - rewrite !Z.min_r by lia. rewrite Z.sub_diag. simpl.
    rewrite !skipn_all2 by (unfold len in *; lia). reflexivity.
Qed.

Section RankingPages.

Context {A : Type}.
Variable compare : string -> RBU.SortDirection -> A -> A -> bool.
Variable classPerformance : list A.

Lemma RBU_totalPages_bounds (state : RBU.State) :
  (10 * (RBU.totalPages compare classPerformance state - 1)
   < Z.of_nat (List.length classPerformance)
   <= 10 * RBU.totalPages compare classPerformance state)%Z.
Proof.
  unfold RBU.totalPages, RBU.sortedPerformance, RBU.itemsPerPage.
  rewrite sortBy_length. apply ceiling_tenth_bounds.
Qed.

Lemma RBU_page_window (state : RBU.State) :
  (1 <= RBU.currentPage state)%Z ->
  RBU.paginatedData compare classPerformance state =
  firstn 10
    (skipn (Z.to_nat ((RBU.currentPage state - 1) * 10))
       (RBU.sortedPerformance compare classPerformance state)).
Proof.
  intros H. unfold RBU.paginatedData, RBU.itemsPerPage.
  apply slice_window. lia.
Qed.

Lemma RBU_page_nonempty (state : RBU.State) :
  (1 <= RBU.currentPage state)%Z ->
  RBU.paginatedData compare classPerformance state <> [] <->
  (RBU.currentPage state
   <= RBU.totalPages compare classPerformance state)%Z.
Proof.
  intros H. rewrite RBU_page_window by exact H.
  pose proof (RBU_totalPages_bounds state) as [B1 B2].
  set (s := RBU.sortedPerformance compare classPerformance state).
  assert (Hlen : List.length s = List.length classPerformance)
    by apply sortBy_length.
  set (k := Z.to_nat ((RBU.currentPage state - 1) * 10)).
  assert (Hl : List.length (firstn 10 (skipn k s))
               = Nat.min 10 (List.length classPerformance - k))
    by (rewrite length_firstn, length_skipn, Hlen; reflexivity).
  split.
  - intros Hne.
    destruct (firstn 10 (skipn k s)) as [|x l] eqn:E; [contradiction|].
    change (List.length (x :: l)) with (S (List.length l)) in Hl.
    unfold k in *. lia.
  - intros Hle Hnil. rewrite Hnil in Hl.
    change (List.length (@nil A)) with 0%nat in Hl. unfold k in *. lia.
Qed.

End RankingPages.

(** X15: Page [page] of the ranking shows at most ten rows, which are the rows
    of the sorted ranking from position [(page - 1) * 10] on, and it shows
    a row exactly when [page] does not exceed the number of pages. *)
Theorem RBU_page_shows_its_ten_rows {A : Type}
  (compare : string -> RBU.SortDirection -> A -> A -> bool)
  (classPerformance : list A) (state : RBU.State) (page : Z) :
  (1 <= page)%Z ->
  let shown :=
    RBU.paginatedData compare classPerformance (RBU_onPage state page) in
  (List.length shown <= 10)%nat /\
  (forall j, (j < 10)%nat ->
     nth_error shown j =
     nth_error (RBU.sortedPerformance compare classPerformance state)
       (Z.to_nat ((page - 1) * 10) + j)) /\
  (shown <> [] <->
   (page <= RBU.totalPages compare classPerformance state)%Z).
Proof.
  intros Hp. cbv zeta.
  split; [|split].
  - rewrite RBU_page_window by exact Hp. rewrite length_firstn. lia.
  - intros j Hj. rewrite RBU_page_window by exact Hp.
    rewrite nth_error_firstn, nth_error_skipn.
    apply Nat.ltb_lt in Hj. rewrite Hj. reflexivity.
  - apply (RBU_page_nonempty compare classPerformance
             (RBU_onPage state page) Hp).
Qed.

Lemma RBU_page_shows_its_ten_rows_witness :
  let rows := [3; 1; 4; 1; 5; 9; 2; 6; 5; 3; 5; 8]%nat in
  let compare (_ : string) (_ : RBU.SortDirection) := Nat.leb in
  RBU.paginatedData compare rows (RBU_onPage RBU.initialState 2)
    = [8; 9]%nat /\
  nth_error
    (RBU.paginatedData compare rows (RBU_onPage RBU.initialState 2)) 1
  = nth_error (RBU.sortedPerformance compare rows RBU.initialState) 11.
Proof.
  cbv zeta. split; [reflexivity|].
  apply (proj1 (proj2
           (RBU_page_shows_its_ten_rows (fun _ _ => Nat.leb)
              [3; 1; 4; 1; 5; 9; 2; 6; 5; 3; 5; 8]%nat
              RBU.initialState 2 ltac:(lia))) 1%nat).
  lia.
Defined.

(** X16: Whatever columns the user sorts by and whatever pages are asked for,
    the current page stays a page of the ranking: it is at least 1, and
    when there are rows it does not exceed the number of pages, so that
    the page shown is not empty. *)
Theorem RBU_current_page_is_a_page {A : Type}
  (compare : string -> RBU.SortDirection -> A -> A -> bool)
  (classPerformance : list A) (events : list RBU.Event) :
  let state :=
    fold_left (RBU.handle compare classPerformance) events
      RBU.initialState in
  (1 <= RBU.currentPage state)%Z /\
  (classPerformance = [] -> RBU.currentPage state = 1%Z) /\
  (classPerformance <> [] ->
   (RBU.currentPage state
    <= RBU.totalPages compare classPerformance state)%Z /\
   RBU.paginatedData compare classPerformance state <> []).
Proof.
  cbv zeta.
  set (Inv := fun state : RBU.State =>
         (1 <= RBU.currentPage state)%Z /\
         (classPerformance = [] -> RBU.currentPage state = 1%Z) /\
         (classPerformance <> [] ->
          (RBU.currentPage state
           <= RBU.totalPages compare classPerformance state)%Z)).
  assert (Hpos : forall state, classPerformance <> [] ->
            (1 <= RBU.totalPages compare classPerformance state)%Z).
  { intros state Hne.
    pose proof (RBU_totalPages_bounds compare classPerformance state) as [_ B].
    assert (L : (1 <= List.length classPerformance)%nat)
      by (destruct classPerformance; [contradiction | simpl; lia]).
    lia. }
  assert (Hzero : forall state, classPerformance = [] ->
            (RBU.totalPages compare classPerformance state <= 0)%Z).
  { intros state He.
    pose proof (RBU_totalPages_bounds compare classPerformance state) as [B _].
    assert (L : List.length classPerformance = 0%nat)
      by (rewrite He; reflexivity).
    rewrite L in B. lia. }
  assert (Hinv : forall evs state, Inv state ->
            Inv (fold_left (RBU.handle compare classPerformance) evs state)).
  { induction evs as [|e evs IH]; intros state HI; [exact HI|].
    simpl. apply IH. destruct e as [field|page]; simpl.
    - unfold Inv, RBU.handleSort.
      destruct (String.eqb (RBU.sortField state) field); simpl;
        (split; [lia|]; split; [reflexivity|]; intros Hne; now apply Hpos).
    - unfold Inv, RBU.handlePageChange. simpl.
      split; [lia|]. split.
      + intros He. pose proof (Hzero state He). lia.
      + intros Hne. pose proof (Hpos state Hne) as H1.
        assert (E : RBU.totalPages compare classPerformance
                      {| RBU.currentPage :=
                           Z.max 1
                             (Z.min page
                                (RBU.totalPages compare classPerformance
                                   state));
                         RBU.sortField := RBU.sortField state;
                         RBU.sortDirection := RBU.sortDirection state |}
                    = RBU.totalPages compare classPerformance state)
          by reflexivity.
        rewrite E. lia. }
  assert (H0 : Inv RBU.initialState).
  { unfold Inv. simpl. split; [lia|]. split; [reflexivity|].
    intros Hne. now apply Hpos. }
  destruct (Hinv events _ H0) as (H1 & H2 & H3).
  split; [exact H1|]. split; [exact H2|].
  intros Hne. split; [now apply H3|].
  apply RBU_page_nonempty; [exact H1 | now apply H3].
Qed.

(** ** EnhancedClassFormatPerformanceTable: the view filters *)

Lemma ECF_view_In compare data minSessions viewFilter row :
  In row (ECF.processedData compare data minSessions viewFilter) <->
  data <> [] /\
  In row (ECF.filteredData viewFilter (ECF.enrichedData data minSessions)).
Proof.
  unfold ECF.processedData. destruct data as [|s data].
  - simpl. split; [contradiction|]. intros [H _]. now apply H.
  - rewrite sortBy_In. split; [intros H; split; [discriminate | exact H]|].
    tauto.
Qed.

Lemma ECF_enriched_rates (data : list SessionData) (minSessions : Q) row :
  In row (ECF.enrichedData data minSessions) ->
  exists u e,
    ECF.utilizationRate row = JS.Finite u /\
    ECF.emptySessionRate row = JS.Finite e /\
    0 <= u /\ 0 <= e /\ u + e == 100.
Proof.
  unfold ECF.enrichedData. intros H. apply in_map_iff in H.
  destruct H as (c & <- & H). apply filter_In in H. destruct H as [H _].
  apply In_values in H. destruct H as [k H].
  destruct (ECF_grouped_partition _ _ _ H) as (H1 & H2 & H3 & H4 & _).
  cbn [ECF.enrich ECF.utilizationRate ECF.emptySessionRate].
  rewrite !guardedPercent_pos by lra.
  eexists. eexists. split; [reflexivity|]. split; [reflexivity|].
  assert (Hu : 0 <= (ECF.totalSessions c - ECF.emptySessions c)
                    / ECF.totalSessions c)
    by (apply Qdiv_nonneg; lra).
  assert (He : 0 <= ECF.emptySessions c / ECF.totalSessions c)
    by (apply Qdiv_nonneg; lra).
  split; [nra|]. split; [nra|]. field. lra.
Qed.

(** X17: The views of the class-format table: every view shows rows of the
    default view; no class format is shown both as high-performing and as
    needing attention; and a view name that the table does not know
    shows the default view. *)
Theorem ECF_views_are_consistent compare (data : list SessionData)
  (minSessions : Q) :
  (forall viewFilter row,
     In row (ECF.processedData compare data minSessions viewFilter) ->
     In row (ECF.processedData compare data minSessions "all")) /\
  (forall row,
     In row (ECF.processedData compare data minSessions "high-performing") ->
     ~ In row (ECF.processedData compare data minSessions "needs-attention"))
  /\
  (forall viewFilter,
     viewFilter <> "high-performing" -> viewFilter <> "needs-attention" ->
     viewFilter <> "revenue-generators" ->
     ECF.processedData compare data minSessions viewFilter
     = ECF.processedData compare data minSessions "all").
Proof.
  split; [|split].
  - intros viewFilter row H. apply ECF_view_In in H. destruct H as [Hne H].
    apply ECF_view_In. split; [exact Hne|].
    apply ECF_filteredData_In in H. exact H.
  - intros row Hhigh Hneeds.
    apply ECF_view_In in Hhigh. destruct Hhigh as [_ Hhigh].
    apply ECF_view_In in Hneeds. destruct Hneeds as [_ Hneeds].
    change (In row
              (filter
                 (fun d => JS.ge (ECF.fillRate d) 70
                           && JS.ge (ECF.utilizationRate d) 80)
                 (ECF.enrichedData data minSessions))) in Hhigh.
    change (In row
              (filter
                 (fun d => JS.lt (ECF.fillRate d) 50
                           || JS.gt (ECF.emptySessionRate d) 30)
                 (ECF.enrichedData data minSessions))) in Hneeds.
    apply filter_In in Hhigh. destruct Hhigh as [Hin Hh].
    apply filter_In in Hneeds. destruct Hneeds as [_ Hn].
    apply andb_true_iff in Hh. destruct Hh as [Hf Hu].
    destruct (ECF_enriched_rates _ _ _ Hin) as (u & e & Eu & Ee & _ & _ & Hsum).
    rewrite Eu in Hu. rewrite Ee in Hn. simpl in Hu.
    apply Qle_bool_iff in Hu.
    apply orb_true_iff in Hn. destruct Hn as [Hn|Hn].
    + destruct (ECF.fillRate row) as [f| | |]; simpl in Hf, Hn;
        try discriminate.
      apply Qle_bool_iff in Hf. apply negb_true_iff in Hn.
      assert (H50 : 50 <= f) by lra. apply Qle_bool_iff in H50. congruence.
    + simpl in Hn. apply negb_true_iff in Hn.
      assert (H30 : e <= 30) by lra. apply Qle_bool_iff in H30. congruence.
  - intros viewFilter H1 H2 H3. unfold ECF.processedData, ECF.filteredData.
    apply String.eqb_neq in H1, H2, H3. rewrite H1, H2, H3. reflexivity.
Qed.

(** ** InteractiveClientConversionRanks *)

Lemma insertSorted_ext {A : Type} (le1 le2 : A -> A -> bool) (x : A)
  (l : list A) :
  (forall y, In y l -> le1 x y = le2 x y) ->
  JS.insertSorted le1 x l = JS.insertSorted le2 x l.
Proof.
  induction l as [|y l IH]; intros H; simpl; [reflexivity|].
  rewrite (H y (or_introl eq_refl)).
  destruct (le2 x y); [reflexivity|].
  rewrite IH; [reflexivity|]. intros z Hz. apply H. now right.
Qed.

(** Two comparators that agree on the elements of a list sort it alike. *)
Lemma sortBy_ext_In {A : Type} (le1 le2 : A -> A -> bool) (l : list A) :
  (forall a b, In a l -> In b l -> le1 a b = le2 a b) ->
  JS.sortBy le1 l = JS.sortBy le2 l.
Proof.
  induction l as [|x l IH]; intros H; simpl; [reflexivity|].
  rewrite IH by (intros a b Ha Hb; apply H; now right).
  apply insertSorted_ext. intros y Hy. apply H; [now left|].
  right. now apply (sortBy_In le2 l y).
Qed.

Lemma slice_prefix {A : Type} (l : list A) (n : nat) :
  slice l 0 (Z.of_nat n) = firstn n l.
Proof.
  unfold slice, relativeIndex.
  assert (E : (Z.of_nat n <? 0)%Z = false) by (apply Z.ltb_ge; lia).
  rewrite E. cbn [Z.ltb Z.compare].
  rewrite (Z.min_l 0) by lia. cbn [Z.to_nat skipn]. rewrite Z.sub_0_r.
  destruct (Nat.le_gt_cases n (List.length l)) as [H|H].
  - rewrite Z.min_l by lia. now rewrite Nat2Z.id.
  - rewrite Z.min_r by lia. rewrite Nat2Z.id.
    rewrite !firstn_all2 by lia. reflexivity.
Qed.

Lemma StronglySorted_app_l {A : Type} (R : A -> A -> Prop) (l1 l2 : list A) :
  StronglySorted R (l1 ++ l2) -> StronglySorted R l1.
Proof.
  induction l1 as [|a l1 IH]; simpl; intros H; [constructor|].
  inversion H as [|? ? Hs Hall]; subst. constructor; [now apply IH|].
  rewrite Forall_forall in *. intros x Hx. apply Hall, in_or_app. now left.
Qed.

Lemma StronglySorted_weaken {A : Type} (R S : A -> A -> Prop) (l : list A) :
  (forall a b, R a b -> S a b) -> StronglySorted R l -> StronglySorted S l.
Proof.
  intros H. induction 1 as [|a l _ IH Hall]; constructor; [exact IH|].
  eapply Forall_impl; [|exact Hall]. intros b. apply H.
Qed.

Lemma ICR_fold_counts (rs : list NewClientData) (s : ICR.Counts) :
  let s' := fold_left ICR.addClient rs s in
  ICR.name s' = ICR.name s /\
  ICR.totalClients s' == ICR.totalClients s + ofNat (List.length rs) /\
  ICR.newMembers s'
    == ICR.newMembers s
       + ofNat (List.length
                  (filter
                     (fun c => JS.includes "New" (JS.orStr (Client.isNew c) ""))
                     rs)) /\
  ICR.converted s'
    == ICR.converted s
       + ofNat (List.length
                  (filter
                     (fun c => JS.strictEq (Client.conversionStatus c)
                                 (Some "Converted"))
                     rs)) /\
  ICR.retained s'
    == ICR.retained s
       + ofNat (List.length
                  (filter
                     (fun c => JS.strictEq (Client.retentionStatus c)
                                 (Some "Retained"))
                     rs)) /\
  ICR.totalLTV s'
    == ICR.totalLTV s + sumQ (map (fun c => JS.orZero (Client.ltv c)) rs).
Proof.
  revert s. induction rs as [|r rs IH]; intros s; cbn zeta.
  - cbn [fold_left map filter List.length].
    change (ofNat 0) with 0. change (sumQ []) with 0.
    repeat split; lra.
  - cbn [fold_left].
    destruct (IH (ICR.addClient s r)) as (E0 & E1 & E2 & E3 & E4 & E5).
    cbn zeta in E0, E1, E2, E3, E4, E5.
    rewrite E0, E1, E2, E3, E4, E5.
    cbn [map filter List.length].
    change (sumQ (?x :: ?l)) with (x + sumQ l).
    cbn [ICR.addClient ICR.name ICR.totalClients ICR.newMembers
         ICR.converted ICR.retained ICR.totalLTV].
    split; [reflexivity|].
    split; [rewrite ofNat_S; lra|].
    split.
    { destruct (JS.includes "New" (JS.orStr (Client.isNew r) ""));
        cbn [List.length]; [rewrite ofNat_S|]; lra. }
    split.
    { destruct (JS.strictEq (Client.conversionStatus r) (Some "Converted"));
        cbn [List.length]; [rewrite ofNat_S|]; lra. }
    split.
    { destruct (JS.strictEq (Client.retentionStatus r) (Some "Retained"));
        cbn [List.length]; [rewrite ofNat_S|]; lra. }
    lra.
Qed.

Lemma ICR_statsBy_In (keyOf : NewClientData -> string)
  (data : list NewClientData) item :
  In item (ICR.statsBy keyOf data) <->
  exists k r rs,
    members keyOf (fun _ => false) k data = r :: rs /\
    item = ICR.withRates
             (fold_left ICR.addClient (r :: rs) (ICR.newCounts k)).
Proof.
  unfold ICR.statsBy. rewrite in_map_iff. split.
  - intros (c & <- & Hc). apply In_values in Hc. destruct Hc as [k Hc].
    apply In_groupBy in Hc. destruct Hc as (r & rs & Hm & ->).
    pose proof (members_head _ _ _ _ _ _ Hm) as [Hk _].
    exists k, r, rs. rewrite Hk. auto.
  - intros (k & r & rs & Hm & ->).
    pose proof (members_head _ _ _ _ _ _ Hm) as [Hk _].
    eexists. split; [reflexivity|]. apply In_values. exists k.
    apply In_groupBy. exists r, rs. rewrite Hk. auto.
Qed.

Lemma ICR_rates_finite (keyOf : NewClientData -> string)
  (data : list NewClientData) item :
  In item (ICR.statsBy keyOf data) ->
  JS.isFinite (ICR.conversionRate item) = true /\
  JS.isFinite (ICR.avgLTV item) = true.
Proof.
  intros H. apply ICR_statsBy_In in H. destruct H as (k & r & rs & _ & ->).
  cbn [ICR.withRates ICR.conversionRate ICR.avgLTV]. split.
  - apply (proj1 (guardedPercent_safe _ _)).
  - apply (proj1 (guardedRatio_safe _ _)).
Qed.

Lemma ICR_sortValue_finite rt (data : list NewClientData) item :
  In item (ICR.sourceData rt data) ->
  JS.isFinite (ICR.sortValue rt item) = true.
Proof.
  destruct rt; cbn [ICR.sourceData ICR.sortValue];
    unfold ICR.trainerStats, ICR.locationStats; intros H;
    apply ICR_rates_finite in H; tauto.
Qed.

Lemma ICR_inOrder_finite rt vt (a b : ICR.Stat) :
  JS.isFinite (ICR.sortValue rt a) = true ->
  JS.isFinite (ICR.sortValue rt b) = true ->
  ICR.inOrder rt vt a b = ICR_inOrderByValue rt vt a b.
Proof.
  unfold ICR.inOrder, ICR_inOrderByValue.
  destruct (ICR.sortValue rt a) as [x| | |]; try discriminate.
  destruct (ICR.sortValue rt b) as [y| | |]; try discriminate.
  intros _ _. cbn [JS.minus JS.gt valueOf]. rewrite !negb_involutive.
  assert (E : forall p q, Qle_bool (p - q) 0 = Qle_bool p q).
  { intros p q. destruct (Qle_bool p q) eqn:E1.
    - apply Qle_bool_iff in E1. apply Qle_bool_iff. lra.
    - destruct (Qle_bool (p - q) 0) eqn:E2; [|reflexivity].
      apply Qle_bool_iff in E2. assert (H : p <= q) by lra.
      apply Qle_bool_iff in H. congruence. }
  destruct vt; apply E.
Qed.

Lemma ICR_rankings_sorted rt vt (data : list NewClientData) :
  ICR.getCurrentRankings rt vt data =
  firstn 5 (JS.sortBy (ICR_inOrderByValue rt vt) (ICR_eligible rt data)) /\
  StronglySorted (fun a b => ICR_inOrderByValue rt vt a b = true)
    (JS.sortBy (ICR_inOrderByValue rt vt) (ICR_eligible rt data)).
Proof.
  split.
  - unfold ICR.getCurrentRankings. cbv zeta.
    change 5%Z with (Z.of_nat 5). rewrite slice_prefix.
    fold (ICR_eligible rt data). f_equal.
    apply sortBy_ext_In. intros a b Ha Hb.
    unfold ICR_eligible in Ha, Hb. apply filter_In in Ha, Hb.
    apply ICR_inOrder_finite; eapply ICR_sortValue_finite;
      [apply Ha | apply Hb].
  - apply sortBy_sorted.
    + intros a b. unfold ICR_inOrderByValue. destruct vt;
        rewrite !Qle_bool_iff;
        match goal with
        | |- ?x <= ?y \/ _ => destruct (Qlt_le_dec y x); [right|left]; lra
        end.
    + intros a b c. unfold ICR_inOrderByValue. destruct vt;
        rewrite !Qle_bool_iff; lra.
Qed.

(** X18: A conversion ranking, of trainers or of locations, shows the five
    best rows among those that meet the minimum, or all of them when they
    are fewer: the rows shown are in the order of the view, and no row
    that qualifies and is left out is ranked better than a row shown.  The
    values compared are conversion rates, ratios of two counts. *)
Theorem ICR_rankings_are_the_best (activeRankingType : ICR.RankingType)
  (activeViewType : ICR.ViewType) (data : list NewClientData) :
  JS.includes "conversion" (ICR.rankingName activeRankingType) = true ->
  let shown :=
    ICR.getCurrentRankings activeRankingType activeViewType data in
  let eligible := ICR_eligible activeRankingType data in
  (forall item,
     In item eligible <->
     In item
       (ICR.statsBy
          (match activeRankingType with
           | ICR.locations_conversion => ICR.locationOf
           | _ => ICR.trainerOf
           end) data) /\
     (match activeRankingType with
      | ICR.trainers_conversion => 3
      | _ => 1
      end) <= ICR.newMembers (ICR.counts item)) /\
  List.length shown = Nat.min 5 (List.length eligible) /\
  incl shown eligible /\
  Forall
    (fun item =>
       ICR.sortValue activeRankingType item =
         guardedPercent (ICR.converted (ICR.counts item))
           (ICR.newMembers (ICR.counts item)) /\
       ICR.sortValue activeRankingType item =
         JS.Finite (valueOf (ICR.sortValue activeRankingType item)))
    eligible /\
  StronglySorted (ICR_noWorse activeRankingType activeViewType) shown /\
  (forall a b,
     In a shown -> In b eligible -> ~ In b shown ->
     ICR_noWorse activeRankingType activeViewType a b).
Proof.
  intros Hconv. cbv zeta.
  destruct (ICR_rankings_sorted activeRankingType activeViewType data)
    as [E Hs].
  rewrite E.
  set (sorted := JS.sortBy
                   (ICR_inOrderByValue activeRankingType activeViewType)
                   (ICR_eligible activeRankingType data)) in *.
  assert (Hrel : forall a b,
            ICR_inOrderByValue activeRankingType activeViewType a b = true ->
            ICR_noWorse activeRankingType activeViewType a b).
  { intros a b. unfold ICR_inOrderByValue, ICR_noWorse.
    destruct activeViewType; apply Qle_bool_iff. }
  assert (Hsplit : sorted = (firstn 5 sorted ++ skipn 5 sorted)%list)
    by (symmetry; apply firstn_skipn).
  split; [|split; [|split; [|split; [|split]]]].
  - intros item. unfold ICR_eligible. rewrite filter_In.
    destruct activeRankingType; try discriminate Hconv;
      cbn [ICR.sourceData]; unfold ICR.trainerStats, ICR.locationStats,
        ICR.meetsMinimum; cbn [ICR.rankingName ICR.filterMinimum];
      change (JS.includes "conversion" "trainers_conversion") with true;
      change (JS.includes "conversion" "locations_conversion") with true;
      cbn iota; rewrite Qle_bool_iff; reflexivity.
  - rewrite length_firstn. unfold sorted. now rewrite sortBy_length.
  - intros x Hx.
    apply (sortBy_In (ICR_inOrderByValue activeRankingType activeViewType)
             (ICR_eligible activeRankingType data) x).
    fold sorted. rewrite Hsplit. apply in_or_app. now left.
  - apply Forall_forall. intros item Hi. unfold ICR_eligible in Hi.
    apply filter_In in Hi. destruct Hi as [Hi _].
    pose proof (ICR_sortValue_finite _ _ _ Hi) as Hf.
    split.
    + destruct activeRankingType; try discriminate Hconv;
        cbn [ICR.sourceData ICR.sortValue] in Hi |- *;
        unfold ICR.trainerStats, ICR.locationStats in Hi;
        apply ICR_statsBy_In in Hi;
        destruct Hi as (k & r & rs & _ & ->); reflexivity.
    + destruct (ICR.sortValue activeRankingType item);
        try discriminate Hf; reflexivity.
  - rewrite Hsplit in Hs. apply StronglySorted_app_l in Hs.
    revert Hs. apply StronglySorted_weaken. exact Hrel.
  - intros a b Ha Hb Hnot. apply Hrel.
    assert (Hb' : In b sorted) by (unfold sorted; now apply sortBy_In).
    rewrite Hsplit in Hb'. apply in_app_or in Hb'.
    destruct Hb' as [Hb'|Hb']; [contradiction|].
    rewrite Hsplit in Hs.
    apply (StronglySorted_app_cross
             (fun a b =>
                ICR_inOrderByValue activeRankingType activeViewType a b
                = true)
             _ _ Hs a b Ha Hb').
Qed.

Lemma ICR_rankings_are_the_best_witness :
  let client trainer status flag :=
    {| Client.trainerName := Some trainer;
       Client.firstVisitLocation := None;
       Client.homeLocation := None;
       Client.ltv := Some 1000;
       Client.isNew := Some flag;
       Client.conversionStatus := status;
       Client.retentionStatus := None;
       Client.conversionSpan := None |} in
  let data :=
    [client "Asha" (Some "Converted") "New";
     client "Asha" None "New";
     client "Ravi" (Some "Converted") "New"] in
  JS.includes "conversion" (ICR.rankingName ICR.locations_conversion) = true /\
  List.length (ICR.getCurrentRankings ICR.locations_conversion ICR.top data)
  = Nat.min 5
      (List.length (ICR_eligible ICR.locations_conversion data)).
Proof.
  cbv zeta. split; [reflexivity|].
  refine (proj1 (proj2 (ICR_rankings_are_the_best ICR.locations_conversion
                          ICR.top _ _))).
  reflexivity.
Defined.

Lemma ofNat_filter_le {A : Type} (f : A -> bool) (l : list A) :
  0 <= ofNat (List.length (filter f l)) <= ofNat (List.length l).
Proof.
  split.
  - apply (ofNat_le 0). lia.
  - apply ofNat_le, filter_length_le.
Qed.

(** X19: The statistics of the ranking, by trainer or by location: there is
    one entry for each name, the entries count every client once, and an
    entry counts the clients of its name and sums their lifetime value.
    Its conversion rate, a ratio of two counts, is not negative and is at
    most 100 when the converted clients do not outnumber the new ones;
    its average value is the total value divided by the clients. *)
Theorem ICR_stats_count_clients (keyOf : NewClientData -> string)
  (data : list NewClientData) :
  let stats := ICR.statsBy keyOf data in
  NoDup (map (fun item => ICR.name (ICR.counts item)) stats) /\
  sumQ (map (fun item => ICR.totalClients (ICR.counts item)) stats)
    == ofNat (List.length data) /\
  Forall
    (fun item =>
       let c := ICR.counts item in
       let mine := members keyOf (fun _ => false) (ICR.name c) data in
       mine <> [] /\
       ICR.totalClients c == ofNat (List.length mine) /\
       ICR.newMembers c == ICR_count ICR_isNew mine /\
       ICR.converted c == ICR_count ICR_isConverted mine /\
       ICR.retained c == ICR_count ICR_isRetained mine /\
       ICR.totalLTV c == sumQ (map (fun x => JS.orZero (Client.ltv x)) mine) /\
       ICR.conversionRate item =
         guardedPercent (ICR.converted c) (ICR.newMembers c) /\
       atLeast 0 (ICR.conversionRate item) /\
       (ICR.converted c <= ICR.newMembers c ->
        atMost 100 (ICR.conversionRate item)) /\
       ICR.avgLTV item = JS.div (ICR.totalLTV c) (ICR.totalClients c))
    stats.
Proof.
  cbv zeta. split; [|split].
  - unfold ICR.statsBy. rewrite map_map.
    set (g := groupBy keyOf (fun _ => false)
                (fun client => ICR.newCounts (keyOf client))
                ICR.addClient data).
    assert (E : map (fun x => ICR.name (ICR.counts (ICR.withRates x)))
                  (JS.values g) = JS.keys g).
    { unfold JS.values, JS.keys. rewrite map_map. apply map_ext_in.
      intros [k c] Hin. simpl. apply In_groupBy in Hin.
      destruct Hin as (r & rs & Hm & ->).
      pose proof (members_head _ _ _ _ _ _ Hm) as [Hk _].
      destruct (ICR_fold_counts (r :: rs) (ICR.newCounts (keyOf r)))
        as (E0 & _).
      cbn zeta in E0. rewrite E0. exact Hk. }
    rewrite E. apply NoDup_keys_groupBy.
  - unfold ICR.statsBy. rewrite map_map.
    change (map (fun x => ICR.totalClients (ICR.counts (ICR.withRates x))))
      with (map ICR.totalClients).
    rewrite (sum_groupBy keyOf (fun _ => false)
               (fun client => ICR.newCounts (keyOf client)) ICR.addClient
               ICR.totalClients (fun _ => 1)).
    + rewrite kept_all. apply sumQ_ones.
    + intros r. reflexivity.
    + intros v r. reflexivity.
  - apply Forall_forall. intros item Hin. apply ICR_statsBy_In in Hin.
    destruct Hin as (k & r & rs & Hm & ->).
    destruct (ICR_fold_counts (r :: rs) (ICR.newCounts k))
      as (E0 & E1 & E2 & E3 & E4 & E5).
    cbn zeta in E0, E1, E2, E3, E4, E5.
    cbn [ICR.withRates ICR.counts ICR.conversionRate ICR.avgLTV].
    rewrite E0. cbn [ICR.newCounts ICR.name ICR.totalClients ICR.newMembers
      ICR.converted ICR.retained ICR.totalLTV] in E1, E2, E3, E4, E5 |- *.
    rewrite Hm. unfold ICR_count.
    fold ICR_isNew in E2. fold ICR_isConverted in E3.
    fold ICR_isRetained in E4.
    change (fun c => JS.includes "New" (JS.orStr (Client.isNew c) ""))
      with ICR_isNew in E2.
    change (fun c => JS.strictEq (Client.conversionStatus c)
                       (Some "Converted"))
      with ICR_isConverted in E3.
    change (fun c => JS.strictEq (Client.retentionStatus c) (Some "Retained"))
      with ICR_isRetained in E4.
    pose proof (ofNat_filter_le ICR_isConverted (r :: rs)) as [Hc0 _].
    assert (Hpos : 1 <= ofNat (List.length (r :: rs)))
      by (apply ofNat_pos; simpl; lia).
    split; [discriminate|].
    split; [rewrite E1; lra|]. split; [rewrite E2; lra|].
    split; [rewrite E3; lra|]. split; [rewrite E4; lra|].
    split; [rewrite E5; lra|].
    split; [reflexivity|].
    split; [apply guardedPercent_atLeast0; rewrite E3; lra|].
    split; [apply guardedPercent_atMost100|].
    unfold guardedRatio.
    rewrite (proj2 (gt0_true _)); [reflexivity|]. rewrite E1. lra.
Qed.

Example ICR_conversion_rate_above_100 :
  let client status flag :=
    {| Client.trainerName := Some "Asha";
       Client.firstVisitLocation := None;
       Client.homeLocation := None;
       Client.ltv := Some 1000;
       Client.isNew := flag;
       Client.conversionStatus := status;
       Client.retentionStatus := None;
       Client.conversionSpan := None |} in
  map ICR.conversionRate
    (ICR.trainerStats
       [client None (Some "New - first visit");
        client (Some "Converted") None;
        client (Some "Converted") None])
  = [JS.Finite (2 / 1 * 100)].
Proof. vm_compute. reflexivity. Qed.

(** ** EnhancedClassPerformanceRankingTable *)

Lemma groupBy_ext_key {R V : Type} (key1 key2 : R -> string)
  (skip : R -> bool) (init : R -> V) (step : V -> R -> V) (data : list R) :
  (forall r, key1 r = key2 r) ->
  groupBy key1 skip init step data = groupBy key2 skip init step data.
Proof.
  intros H. unfold groupBy. generalize (@nil (string * V)) as acc.
  induction data as [|r data IH]; intros acc; simpl; [reflexivity|].
  rewrite IH. f_equal. unfold upsert. now rewrite H.
Qed.

Lemma ECR_fold (rs : list Session1.SessionData) (v : ECR.GroupedClassData) :
  let c := fold_left ECR.addSession rs v in
  ECR.uniqueId1 c = ECR.uniqueId1 v /\
  ECR.className c = ECR.className v /\
  ECR.dayOfWeek c = ECR.dayOfWeek v /\
  ECR.time c = ECR.time v /\
  ECR.location c = ECR.location v /\
  ECR.sessions c = (ECR.sessions v ++ rs)%list /\
  ECR.totalSessions c == ECR.totalSessions v + ofNat (List.length rs).
Proof.
  revert v. induction rs as [|r rs IH]; intros v; cbn zeta.
  - cbn [fold_left List.length]. change (ofNat 0) with 0.
    rewrite app_nil_r. repeat split; lra.
  - cbn [fold_left].
    destruct (IH (ECR.addSession v r)) as (E1 & E2 & E3 & E4 & E5 & E6 & E7).
    cbn zeta in E1, E2, E3, E4, E5, E6, E7.
    rewrite E1, E2, E3, E4, E5, E6, E7.
    cbn [ECR.addSession ECR.uniqueId1 ECR.className ECR.dayOfWeek ECR.time
         ECR.location ECR.sessions ECR.totalSessions List.length].
    rewrite <- app_assoc, ofNat_S. repeat split; lra.
Qed.

Lemma ECR_fold_partition (rs : list Session1.SessionData)
  (v : ECR.GroupedClassData) :
  let P c :=
    0 <= ECR.emptySessions c /\ 0 <= ECR.nonEmptySessions c /\
    ECR.emptySessions c + ECR.nonEmptySessions c == ECR.totalSessions c /\
    (ECR.nonEmptySessions c == 0 -> ECR.totalCheckedIn c == 0) in
  P v -> P (fold_left ECR.addSession rs v).
Proof.
  cbv zeta. intros Hv.
  apply (fold_left_invariant ECR.addSession
           (fun c =>
              0 <= ECR.emptySessions c /\ 0 <= ECR.nonEmptySessions c /\
              ECR.emptySessions c + ECR.nonEmptySessions c
                == ECR.totalSessions c /\
              (ECR.nonEmptySessions c == 0 -> ECR.totalCheckedIn c == 0))
           (fun _ => True)); [| apply Forall_forall; intros; exact I | exact Hv].
  intros c s (H1 & H2 & H3 & H4) _. simpl.
  destruct (Qeq_bool (JS.orZero (Session.checkedInCount (Session1.session s)))
              0) eqn:E.
  - repeat split; try lra.
    intros H. apply Qeq_bool_iff in E. rewrite E, (H4 H). lra.
  - repeat split; lra.
Qed.

(** X20: A row of the enhanced class ranking keeps the sessions of its group,
    in the order of the data; the class, day, time, location and
    UniqueID1 that it shows are those of the first of them, whichever way
    the sessions are grouped.  Empty and non-empty sessions add up to
    the sessions, and the two class averages are the check-ins divided by
    the sessions and by the non-empty sessions, or 0 when there is none.
    A grouping option that the table does not know groups by UniqueID1. *)
Theorem ECR_rows_show_their_first_session
  (compare : ECR.GroupedClassData -> ECR.GroupedClassData -> bool)
  (groupingOption : string) (data : list Session1.SessionData)
  (minSessions : Q) :
  Forall
    (fun row =>
       exists first rest,
         ECR.sessions row = first :: rest /\
         ECR.sessions row =
           members (ECR.groupKey groupingOption) (fun _ => false)
             (ECR.groupKey groupingOption first) data /\
         ECR.uniqueId1 row = Session1.uniqueId1 first /\
         ECR.className row = ECR.className (ECR.newGroup first) /\
         ECR.dayOfWeek row = Session.dayOfWeek (Session1.session first) /\
         ECR.time row = Session.time (Session1.session first) /\
         ECR.location row = Session.location (Session1.session first) /\
         ECR.totalSessions row == ofNat (List.length (ECR.sessions row)) /\
         ECR.emptySessions row + ECR.nonEmptySessions row
           == ECR.totalSessions row /\
         ECR.classAvgWithEmpty row =
           guardedRatio (ECR.totalCheckedIn row) (ECR.totalSessions row) /\
         ECR.classAvgWithoutEmpty row =
           guardedRatio (ECR.totalCheckedIn row) (ECR.nonEmptySessions row))
    (ECR.processedData compare groupingOption data minSessions) /\
  (groupingOption <> "uniqueId1" -> groupingOption <> "timeSlot" ->
   groupingOption <> "location" -> groupingOption <> "classType" ->
   ECR.processedData compare groupingOption data minSessions
   = ECR.processedData compare "uniqueId1" data minSessions).
Proof.
  split.
  - apply Forall_forall. intros row Hin. unfold ECR.processedData in Hin.
    destruct data as [|s0 data]; [contradiction|].
    apply sortBy_In in Hin. unfold ECR.enrichedData in Hin.
    apply in_map_iff in Hin. destruct Hin as (c & <- & Hin).
    apply filter_In in Hin. destruct Hin as [Hin _].
    apply In_values in Hin. destruct Hin as [k Hin].
    apply In_groupBy in Hin. destruct Hin as (r & rs & Hm & ->).
    pose proof (members_head _ _ _ _ _ _ Hm) as [Hk _].
    destruct (ECR_fold (r :: rs) (ECR.newGroup r))
      as (E1 & E2 & E3 & E4 & E5 & E6 & E7).
    cbn zeta in E1, E2, E3, E4, E5, E6, E7.
    assert (HP := ECR_fold_partition (r :: rs) (ECR.newGroup r)).
    cbv zeta in HP.
    destruct HP as (P1 & P2 & P3 & P4);
      [simpl; repeat split; try lra; intros _; reflexivity|].
    set (c := fold_left ECR.addSession (r :: rs) (ECR.newGroup r)) in *.
    exists r, rs.
    cbn [ECR.enrich ECR.sessions ECR.uniqueId1 ECR.className ECR.dayOfWeek
         ECR.time ECR.location ECR.totalSessions ECR.emptySessions
         ECR.nonEmptySessions ECR.classAvgWithEmpty ECR.classAvgWithoutEmpty
         ECR.totalCheckedIn].
    rewrite E1, E2, E3, E4, E5, E6. rewrite Hk, Hm.
    cbn [ECR.newGroup ECR.sessions ECR.uniqueId1 ECR.className ECR.dayOfWeek
         ECR.time ECR.location app].
    repeat split; try reflexivity.
    + rewrite E7. cbn [ECR.newGroup ECR.totalSessions]. lra.
    + exact P3.
  - intros H1 H2 H3 H4.
    assert (E : forall s, ECR.groupKey groupingOption s
                          = ECR.groupKey "uniqueId1" s).
    { intros s. unfold ECR.groupKey.
      apply String.eqb_neq in H1, H2, H3, H4.
      rewrite H1, H2, H3, H4. reflexivity. }
    unfold ECR.processedData, ECR.enrichedData, ECR.grouped.
    now rewrite (groupBy_ext_key _ _ _ _ _ data E).
Qed.

Example ECR_location_group_shows_its_first_class :
  let at_ class :=
    {| Session1.session := Sample.session class "2024-01-08" 15 12 14 1 6000;
       Session1.uniqueId1 := Some class |} in
  map (fun row => (ECR.className row, ECR.totalSessions row))
    (ECR.processedData Sample.anyOrder "location"
       [at_ "Hosted Class"; at_ "Barre 57"; at_ "PowerCycle"] 2)
  = [("Hosted Class", 3)].
Proof. vm_compute. reflexivity. Qed.

(** ** PowerCycleBarreStrengthTopBottomLists *)

Section BestFive.

Context {A : Type}.
Variable le : A -> A -> bool.
Hypothesis le_total : forall a b, le a b = true \/ le b a = true.
Hypothesis le_trans :
  forall a b c, le a b = true -> le b c = true -> le a c = true.

Lemma bestFive_sortBy (noWorse : A -> A -> Prop) (l : list A) :
  (forall a b, le a b = true -> noWorse a b) ->
  bestFive noWorse l (slice (JS.sortBy le l) 0 5).
Proof.
  intros Hrel. change 5%Z with (Z.of_nat 5). rewrite slice_prefix.
  pose proof (sortBy_sorted le le_total le_trans l) as Hs.
  set (sorted := JS.sortBy le l) in *.
  assert (Hsplit : sorted = (firstn 5 sorted ++ skipn 5 sorted)%list)
    by (symmetry; apply firstn_skipn).
  unfold bestFive. split; [|split; [|split]].
  - rewrite length_firstn. unfold sorted. now rewrite sortBy_length.
  - intros x Hx. apply (sortBy_In le l x). fold sorted.
    rewrite Hsplit. apply in_or_app. now left.
  - rewrite Hsplit in Hs. apply StronglySorted_app_l in Hs.
    revert Hs. apply StronglySorted_weaken. exact Hrel.
  - intros a b Ha Hb Hnot. apply Hrel.
    assert (Hb' : In b sorted) by (unfold sorted; now apply sortBy_In).
    rewrite Hsplit in Hb'. apply in_app_or in Hb'.
    destruct Hb' as [Hb'|Hb']; [contradiction|].
    rewrite Hsplit in Hs.
    apply (StronglySorted_app_cross (fun a b => le a b = true)
             _ _ Hs a b Ha Hb').
Qed.

End BestFive.

Lemma TBL_descending_best (f : TDP.ProcessedTrainerData -> Q)
  (l : list TDP.ProcessedTrainerData) :
  bestFive (fun a b => f b <= f a) l
    (slice (JS.sortBy (TBL.descending f) l) 0 5).
Proof.
  apply bestFive_sortBy; unfold TBL.descending.
  - intros a b. rewrite !Qle_bool_iff.
    destruct (Qlt_le_dec (f a) (f b)); [right|left]; lra.
  - intros a b c. rewrite !Qle_bool_iff. lra.
  - intros a b. rewrite Qle_bool_iff. lra.
Qed.

Lemma TBL_ascending_best (f : TDP.ProcessedTrainerData -> Q)
  (l : list TDP.ProcessedTrainerData) :
  bestFive (fun a b => f a <= f b) l
    (slice (JS.sortBy (TBL.ascending f) l) 0 5).
Proof.
  apply bestFive_sortBy; unfold TBL.ascending.
  - intros a b. rewrite !Qle_bool_iff.
    destruct (Qlt_le_dec (f b) (f a)); [right|left]; lra.
  - intros a b c. rewrite !Qle_bool_iff. lra.
  - intros a b. rewrite Qle_bool_iff. lra.
Qed.

(** X21: Each list of the top and bottom lists shows the five best trainers,
    or all when they are fewer, best first: by revenue and by sessions
    among all trainers, and for the other lists among the trainers with a
    positive value; the bottom list shows the five least positive
    revenues.  On the rows that [processTrainerData] makes the Strength
    Lab list is empty. *)
Theorem TBL_lists_show_the_best :
  (forall data : list TDP.ProcessedTrainerData,
     let r := TBL.rankings data in
     bestFive (fun a b => TDP.totalPaid b <= TDP.totalPaid a) data
       (TBL.topByRevenue r) /\
     bestFive (fun a b => TDP.totalPaid a <= TDP.totalPaid b)
       (withPositive TDP.totalPaid data) (TBL.bottomByRevenue r) /\
     bestFive (fun a b => TDP.totalSessions b <= TDP.totalSessions a) data
       (TBL.topBySessions r) /\
     bestFive (fun a b => TDP.cycleRevenue b <= TDP.cycleRevenue a)
       (withPositive TDP.cycleRevenue data) (TBL.topByPowerCycle r) /\
     bestFive (fun a b => TDP.barreRevenue b <= TDP.barreRevenue a)
       (withPositive TDP.barreRevenue data) (TBL.topByBarre r) /\
     bestFive (fun a b => TDP.strengthRevenue b <= TDP.strengthRevenue a)
       (withPositive TDP.strengthRevenue data) (TBL.topByStrength r) /\
     bestFive (fun a b => TDP.conversionRate b <= TDP.conversionRate a)
       (withPositive TDP.conversionRate data) (TBL.topByConversion r) /\
     bestFive (fun a b => TDP.retentionRate b <= TDP.retentionRate a)
       (withPositive TDP.retentionRate data) (TBL.topByRetention r)) /\
  (forall payrollData : list PayrollData,
     TBL.topByStrength (TBL.rankings (TDP.processTrainerData payrollData))
     = []).
Proof.
  split.
  - intros data. cbv zeta. unfold TBL.rankings, withPositive.
    cbn [TBL.topByRevenue TBL.bottomByRevenue TBL.topBySessions
         TBL.topByPowerCycle TBL.topByBarre TBL.topByStrength
         TBL.topByConversion TBL.topByRetention].
    repeat split;
      first [ apply TBL_descending_best | apply TBL_ascending_best ].
  - intros payrollData. unfold TBL.rankings. cbn [TBL.topByStrength].
    assert (E : filter (fun t => JS.gt0 (TDP.strengthRevenue t))
                  (TDP.processTrainerData payrollData) = []).
    { unfold TDP.processTrainerData.
      induction payrollData as [|p l IH]; [reflexivity|].
      cbn [map filter]. rewrite IH. reflexivity. }
    rewrite E. reflexivity.
Qed.

(** ** ClientConversionMetricCards *)

Lemma sumQ_indicator {A : Type} (f : A -> bool) (l : list A) :
  sumQ (map (fun x => if f x then 1 else 0) l)
  == ofNat (List.length (filter f l)).
Proof.
  induction l as [|x l IH]; [reflexivity|].
  cbn [map filter]. change (sumQ (?a :: ?t)) with (a + sumQ t).
  rewrite IH. destruct (f x); cbn [List.length]; [rewrite ofNat_S|]; lra.
Qed.

Lemma fold_left_sum {A : Type} (w : A -> Q) (l : list A) (a : Q) :
  fold_left (fun sum x => sum + w x) l a == a + sumQ (map w l).
Proof.
  revert a. induction l as [|x l IH]; intros a; simpl; [lra|].
  rewrite IH. lra.
Qed.

(** X22: The cards and the rankings count the same clients: summed over the
    trainers, or over the locations, the clients, the new members, the
    converted and the retained clients of the ranking statistics are the
    counts on the cards.  The lead-to-trial conversion on the cards, a
    ratio of two of these counts, is a percentage between 0 and 100. *)
Theorem CCM_cards_count_the_clients (keyOf : NewClientData -> string)
  (data : list NewClientData) :
  let cards := CCM.metrics data in
  let stats := map ICR.counts (ICR.statsBy keyOf data) in
  sumQ (map ICR.totalClients stats) == CCM.totalClients cards /\
  sumQ (map ICR.newMembers stats) == CCM.newMembers cards /\
  sumQ (map ICR.converted stats) == CCM.convertedMembers cards /\
  sumQ (map ICR.retained stats) == CCM.retainedMembers cards /\
  atLeast 0 (CCM.leadToTrialConversion cards) /\
  atMost 100 (CCM.leadToTrialConversion cards).
Proof.
  cbv zeta. unfold ICR.statsBy.
  assert (E : forall l : list ICR.Counts,
             map ICR.counts (map ICR.withRates l) = l)
    by (intros l; rewrite map_map; exact (map_id l)).
  rewrite !E. clear E.
  set (init := fun client => ICR.newCounts (keyOf client)).
  assert (S : forall (m : ICR.Counts -> Q) (w : NewClientData -> Q),
             (forall r, m (init r) == 0) ->
             (forall v r, m (ICR.addClient v r) == m v + w r) ->
             sumQ (map m
                     (JS.values
                        (groupBy keyOf (fun _ => false) init ICR.addClient
                           data)))
             == sumQ (map w data)).
  { intros m w H0 H1.
    rewrite (sum_groupBy keyOf (fun _ => false) init ICR.addClient m w H0 H1).
    now rewrite kept_all. }
  unfold CCM.metrics.
  cbn [CCM.totalClients CCM.newMembers CCM.convertedMembers
       CCM.retainedMembers CCM.totalLTV CCM.leadToTrialConversion].
  split; [|split; [|split; [|split; [|split]]]].
  - rewrite (S ICR.totalClients (fun _ => 1));
      [apply sumQ_ones | intros; reflexivity | intros; reflexivity].
  - rewrite (S ICR.newMembers
               (fun c => if JS.includes "New" (JS.orStr (Client.isNew c) "")
                         then 1 else 0)).
    + apply (sumQ_indicator
               (fun c => JS.includes "New" (JS.orStr (Client.isNew c) ""))).
    + intros; reflexivity.
    + intros v r. simpl.
      destruct (JS.includes "New" (JS.orStr (Client.isNew r) "")); lra.
  - rewrite (S ICR.converted
               (fun c => if JS.strictEq (Client.conversionStatus c)
                              (Some "Converted") then 1 else 0)).
    + apply (sumQ_indicator
               (fun c => JS.strictEq (Client.conversionStatus c)
                           (Some "Converted"))).
    + intros; reflexivity.
    + intros v r. simpl.
      destruct (JS.strictEq (Client.conversionStatus r) (Some "Converted"));
        lra.
  - rewrite (S ICR.retained
               (fun c => if JS.strictEq (Client.retentionStatus c)
                              (Some "Retained") then 1 else 0)).
    + apply (sumQ_indicator
               (fun c => JS.strictEq (Client.retentionStatus c)
                           (Some "Retained"))).
    + intros; reflexivity.
    + intros v r. simpl.
      destruct (JS.strictEq (Client.retentionStatus r) (Some "Retained"));
        lra.
  - apply guardedPercent_atLeast0. apply ofNat_filter_le.
  - apply guardedPercent_atMost100. apply ofNat_filter_le.
Qed.

(** ** PowerCycleBarreStrengthComparison *)

(** X23: [getWinner] names a format with the greatest of the three values,
    PowerCycle before Barre before Strength on equal values, also for a
    metric that sets [lowerIsBetter]: the flag changes nothing, so the
    format with the most empty sessions wins that comparison. *)
Theorem getWinner_crowns_the_greatest (pcValue barreValue strengthValue : Q)
  (lowerIsBetter : option bool) :
  let winner :=
    PowerCycleBarreStrengthComparison.getWinner pcValue barreValue
      strengthValue lowerIsBetter in
  (winner = "powercycle" /\
   barreValue <= pcValue /\ strengthValue <= pcValue) \/
  (winner = "barre" /\
   pcValue < barreValue /\ strengthValue <= barreValue) \/
  (winner = "strength" /\
   pcValue < strengthValue /\ barreValue < strengthValue).
Proof.
  cbv zeta. unfold PowerCycleBarreStrengthComparison.getWinner.
  destruct (Qle_bool barreValue pcValue) eqn:E1;
    destruct (Qle_bool strengthValue pcValue) eqn:E2; cbn [andb].
  - left. apply Qle_bool_iff in E1, E2. auto.
  - destruct (Qle_bool strengthValue barreValue) eqn:E3.
    + exfalso. apply Qle_bool_iff in E1, E3. apply Qle_bool_false in E2. lra.
    + right; right. apply Qle_bool_false in E2, E3. auto.
  - destruct (Qle_bool strengthValue barreValue) eqn:E3.
    + right; left. apply Qle_bool_false in E1. apply Qle_bool_iff in E3. auto.
    + exfalso. apply Qle_bool_false in E1, E3. apply Qle_bool_iff in E2. lra.
  - destruct (Qle_bool strengthValue barreValue) eqn:E3.
    + right; left. apply Qle_bool_false in E1. apply Qle_bool_iff in E3. auto.
    + right; right. apply Qle_bool_false in E2, E3. auto.
Qed.

Example getWinner_of_empty_sessions :
  PowerCycleBarreStrengthComparison.getWinner 12 3 0 (Some true)
  = "powercycle".
Proof. reflexivity. Qed.

(** ** ImprovedClassAttendancePayrollTable: the location filter *)

Lemma ICP_fold_location (rs : list PayrollData)
  (e : ICP.ProcessedPayrollData) :
  ICP.location (fold_left ICP.addItem rs e) = ICP.location e.
Proof.
  revert e. induction rs as [|r rs IH]; intros e; simpl; [reflexivity|].
  now rewrite IH.
Qed.

(** X24: The rows of the payroll table for one of the three studios belong to
    it: their location is the studio, or, for Kenkere House, a location
    that contains "Kenkere".  For a location that names a member of
    [Object.prototype] the table has no row.  For any other location
    name, as for "all", the table shows the rows of every location. *)
Theorem ICP_rows_belong_to_the_location prevMonthKeyOf compare
  (data : list PayrollData) :
  (forall location,
     In location
       ["Kwality House, Kemps Corner"; "Supreme HQ, Bandra"; "Kenkere House"]
     ->
     Forall
       (fun row =>
          ICP.location row = Some location \/
          (location = "Kenkere House" /\
           exists l, ICP.location row = Some l /\
                     JS.includes "Kenkere" l = true))
       (ICP.processedData prevMonthKeyOf compare (Some location) data)) /\
  (forall location,
     inheritedProperty location = true ->
     ICP.processedData prevMonthKeyOf compare (Some location) data = []) /\
  (forall location,
     ~ In location
         ["Kwality House, Kemps Corner"; "Supreme HQ, Bandra";
          "Kenkere House"] ->
     inheritedProperty location = false ->
     ICP.processedData prevMonthKeyOf compare (Some location) data
     = ICP.processedData prevMonthKeyOf compare None data).
Proof.
  split; [|split].
  - intros location Hloc. apply Forall_forall. intros row Hrow.
    apply ICP_processedData_In in Hrow. destruct Hrow as (e0 & He0 & Hd).
    apply ICP_derivedFrom_same in Hd. destruct Hd as (Hl & _).
    rewrite Hl. apply In_values in He0. destruct He0 as [k He0].
    apply In_groupBy in He0. destruct He0 as (r & rs & Hm & ->).
    rewrite ICP_fold_location. cbn [ICP.newEntry ICP.location].
    assert (Hr : In r (ICP.filteredData (Some location) data)).
    { assert (H : In r (members ICP.keyOf (fun _ => false) k
                          (ICP.filteredData (Some location) data)))
        by (rewrite Hm; now left).
      apply members_In in H. tauto. }
    assert (Hpass :
              JS.strictEq (Payroll.location r) (Some location)
              || (String.eqb location "Kenkere House"
                  && match Payroll.location r with
                     | Some l => JS.includes "Kenkere" l
                     | None => false
                     end) = true).
    { simpl in Hloc.
      destruct Hloc as [<-|[<-|[<-|[]]]]; cbn in Hr;
        apply filter_In in Hr; apply Hr. }
    apply orb_true_iff in Hpass. destruct Hpass as [H|H].
    + left. destruct (Payroll.location r) as [l|]; [|discriminate].
      simpl in H. apply String.eqb_eq in H. now subst.
    + right. apply andb_true_iff in H. destruct H as [H1 H2].
      apply String.eqb_eq in H1. split; [exact H1|].
      destruct (Payroll.location r) as [l|]; [|discriminate].
      now exists l.
  - intros location Hin.
    assert (E : ICP.filteredData (Some location) data = []).
    { unfold inheritedProperty in Hin. apply existsb_exists in Hin.
      destruct Hin as (name & Hname & Heq). apply String.eqb_eq in Heq.
      subst name. simpl in Hname.
      repeat (destruct Hname as [<-|Hname];
              [cbn; now induction data as [|d data IH]|]).
      contradiction. }
    unfold ICP.processedData, ICP.results, ICP.grouped. rewrite E.
    now destruct data.
  - intros location Hnot Hin.
    assert (E : ICP.filteredData (Some location) data
                = ICP.filteredData None data).
    { unfold ICP.filteredData. destruct location as [|c s]; [reflexivity|].
      destruct (String.eqb (String c s) "all"); [reflexivity|].
      unfold ICP.locationMap. rewrite Hin.
      destruct (String.eqb_spec (String c s) "Kwality House, Kemps Corner")
        as [E|_]; [exfalso; apply Hnot; rewrite E; simpl; auto|].
      destruct (String.eqb_spec (String c s) "Supreme HQ, Bandra")
        as [E|_]; [exfalso; apply Hnot; rewrite E; simpl; auto|].
      destruct (String.eqb_spec (String c s) "Kenkere House")
        as [E|_]; [exfalso; apply Hnot; rewrite E; simpl; auto|].
      reflexivity. }
    unfold ICP.processedData, ICP.results, ICP.grouped. now rewrite E.
Qed.

Example ICP_location_named_like_a_member :
  ICP.processedData UTC.prevMonthKeyOf Sample.anyOrder (Some "constructor")
    [Sample.payroll "Asha" "2024-01" 10 1 9 80 40000] = [] /\
  List.length
    (ICP.processedData UTC.prevMonthKeyOf Sample.anyOrder (Some "Mumbai")
       [Sample.payroll "Asha" "2024-01" 10 1 9 80 40000]) = 1%nat.
Proof. split; reflexivity. Qed.

(** ** MultiMetricMonthlyTrendsTable: the fill rate of a month *)

Lemma MM_derive_dimension n t : MM.dimension (MM.derive n t) = MM.dimension t.
Proof.
  unfold MM.derive. destruct (MM.comparedMonths t) as [[latest previous]|];
    reflexivity.
Qed.

Lemma MM_fold_fillRate_last (before : list SessionData) (last : SessionData)
  (z : MM.MonthBreakdown) :
  let b := fold_left MM.addToMonth (before ++ [last]) z in
  let capacity := JS.orZero (Session.capacity last) in
  MM.fillRate b =
    if Qeq_bool capacity 0 then JS.Finite 0
    else JS.times
           (JS.div (MM.attendance b) (MM.sessions b * capacity)) 100.
Proof.
  cbv zeta. rewrite fold_left_app. cbn [fold_left].
  cbn [MM.addToMonth MM.fillRate MM.attendance MM.sessions].
  now destruct (Qeq_bool (JS.orZero (Session.capacity last)) 0).
Qed.

(** X25: The fill rate of a month of a row of the multi-metric table is
    computed with the capacity of the last session of that month alone:
    it is the month's attendance divided by its number of sessions times
    that capacity, as a percentage, and 0 when that session has no
    capacity. *)
Theorem MM_month_fill_rate_uses_last_capacity mk compare (view : string)
  (data : list SessionData) :
  Forall
    (fun trend =>
       forall month bucket,
         JS.get (MM.monthlyBreakdown trend) month = Some bucket ->
         exists last,
           JS.fromEnd
             (sessionsOfMonth mk view (MM.dimension trend) month data) 0
           = Some last /\
           let capacity := JS.orZero (Session.capacity last) in
           MM.fillRate bucket =
             if Qeq_bool capacity 0 then JS.Finite 0
             else JS.times
                    (JS.div (MM.attendance bucket)
                       (MM.sessions bucket * capacity)) 100)
    (MM.processedTrendData mk compare view data).
Proof.
  apply Forall_forall. intros trend Hin month bucket Hget.
  apply MM_processedTrendData_In in Hin. destruct Hin as (k & t & Hin & ->).
  rewrite MM_derive_breakdown in Hget. rewrite MM_derive_dimension.
  destruct (MM_trendMap_entry _ _ _ _ _ Hin) as [Hk Hmb].
  rewrite Hk. rewrite Hmb, get_groupBy in Hget. unfold sessionsOfMonth.
  destruct (members (fun s => mk (Session.date s)) (fun _ => false) month _)
    as [|r rs] eqn:Hm; [discriminate|].
  unfold foldGroup in Hget. inversion Hget; subst bucket. clear Hget.
  destruct (exists_last (l := r :: rs) ltac:(discriminate))
    as (before & last & E).
  change (fold_left MM.addToMonth rs (MM.addToMonth MM.zeroMonth r))
    with (fold_left MM.addToMonth (r :: rs) MM.zeroMonth).
  rewrite E. exists last. split.
  - unfold JS.fromEnd. rewrite rev_app_distr. reflexivity.
  - apply (MM_fold_fillRate_last before last MM.zeroMonth).
Qed.

Example MM_fill_rate_depends_on_the_order :
  let small := Sample.session "Barre 57" "2024-01-08" 10 10 10 0 0 in
  let large := Sample.session "Barre 57" "2024-01-15" 30 10 10 0 0 in
  let fillRates data :=
    map (fun trend => map MM.fillRate (JS.values (MM.monthlyBreakdown trend)))
      (MM.processedTrendData UTC.monthKeyOf Sample.anyOrder "format" data) in
  fillRates [small; large] = [[JS.Finite (20 / (2 * 30) * 100)]] /\
  fillRates [large; small] = [[JS.Finite (20 / (2 * 10) * 100)]].
Proof. split; vm_compute; reflexivity. Qed.

(** ** ImprovedClassAttendancePayrollTable: the month that is compared *)

Lemma Runtime_daysInMonth_bounds (y m : nat) :
  (28 <= Runtime.daysInMonth y m <= 31)%nat.
Proof.
  unfold Runtime.daysInMonth.
  destruct m as [|[|[|[|[|[|[|[|[|[|[|[|m]]]]]]]]]]]];
    try destruct (Runtime.isLeapYear y); lia.
Qed.

Lemma Runtime_prevMonthKeyOf_UTC (date : string) :
  Runtime.prevMonthKeyOf false date = UTC.prevMonthKeyOf date.
Proof.
  unfold Runtime.prevMonthKeyOf, UTC.prevMonthKeyOf.
  destruct (UTC.yearMonth date) as [[y m]|]; [|reflexivity].
  cbn [option_map Runtime.localDate Runtime.setMonthBack].
  pose proof (Runtime_daysInMonth_bounds
                (fst (Runtime.monthBefore (y, m)))
                (snd (Runtime.monthBefore (y, m)))) as H.
  destruct (Nat.leb_spec 1
              (Runtime.daysInMonth (fst (Runtime.monthBefore (y, m)))
                 (snd (Runtime.monthBefore (y, m))))) as [_|Hlt]; [|lia].
  cbn [fst]. unfold Runtime.monthBefore.
  now destruct (m =? 1)%nat.
Qed.

(** X26: The month with which the payroll table compares a row, for a
    month label that makes the ISO date of the first of month [m] of year
    [y]: on a runtime at or east of UTC it is the calendar month before;
    on a runtime west of UTC it is the calendar month before for the rows
    of January, April, June, August and November, and two months before
    for the rows of the other months. *)
Theorem ICP_compared_month (date : string) (y m : nat) :
  Runtime.isFirstOfMonth date = true ->
  UTC.yearMonth date = Some (y, m) -> (1 <= y)%nat ->
  let before := Runtime.monthBefore (y, m) in
  Runtime.prevMonthKeyOf false date = UTC.formatKey (Some before) /\
  Runtime.prevMonthKeyOf true date =
    UTC.formatKey
      (Some (if westComparesMonthBefore m then before
             else Runtime.monthBefore before)).
Proof.
  intros _ Hdate Hy. cbv zeta.
  assert (Hm : (1 <= m <= 12)%nat).
  { unfold UTC.yearMonth in Hdate.
    destruct (UTC.parse (substring 0 4 date)); [|discriminate].
    destruct (UTC.parse (substring 5 2 date)) as [m'|]; [|discriminate].
    destruct ((1 <=? m')%nat && (m' <=? 12)%nat
              && (String.length date =? 10)%nat) eqn:E; [|discriminate].
    inversion Hdate; subst.
    apply andb_true_iff in E. destruct E as [E _].
    apply andb_true_iff in E. destruct E as [E1 E2].
    apply Nat.leb_le in E1, E2. lia. }
  split.
  - rewrite Runtime_prevMonthKeyOf_UTC. unfold UTC.prevMonthKeyOf.
    rewrite Hdate. unfold Runtime.monthBefore.
    now destruct (m =? 1)%nat.
  - unfold Runtime.prevMonthKeyOf. rewrite Hdate.
    cbn [option_map Runtime.localDate]. f_equal. f_equal.
    destruct Hm as [Hm1 Hm12].
    destruct m as [|[|[|[|[|[|[|[|[|[|[|[|[|m]]]]]]]]]]]]]; try lia;
      cbn [Runtime.monthBefore Nat.eqb Nat.sub fst snd
           westComparesMonthBefore existsb orb];
      unfold Runtime.setMonthBack;
      cbn [Runtime.monthBefore Nat.eqb Nat.sub fst snd Runtime.daysInMonth];
      try destruct (Runtime.isLeapYear y);
      try destruct (Runtime.isLeapYear (y - 1));
      cbn [Nat.leb Runtime.monthAfter Nat.eqb Nat.add fst];
      reflexivity.
Qed.

Lemma ICP_compared_month_witness :
  Runtime.isFirstOfMonth "2024-03-01" = true /\
  UTC.yearMonth "2024-03-01" = Some (2024, 3)%nat /\
  Runtime.prevMonthKeyOf false "2024-03-01" = "2024-02" /\
  Runtime.prevMonthKeyOf true "2024-03-01" = "2024-01".
Proof.
  split; [reflexivity|]. split; [reflexivity|].
  apply (ICP_compared_month "2024-03-01" 2024 3);
    [reflexivity | reflexivity | lia].
Defined.

Example ICP_compared_month_west_of_UTC :
  map (Runtime.prevMonthKeyOf true)
    ["2024-01-01"; "2024-02-01"; "2024-03-01"; "2024-04-01"; "2023-03-01"]
  = ["2023-12"; "2023-12"; "2024-01"; "2024-03"; "2023-01"] /\
  map ICP.trends
    (ICP.processedData (Runtime.prevMonthKeyOf true) Sample.anyOrder None
       [Sample.payroll "Asha" "2024-02" 10 1 9 80 40000;
        Sample.payroll "Asha" "2024-03" 12 0 12 110 52000])
  = [None; None].
Proof. split; reflexivity. Qed.
